(** * CreditFlow360: the synthetic data generation engine

    A shallow embedding of [src/data_generation]: [customer_generator.py],
    [loan_generator.py], [transaction_generator.py],
    [fraud_scenario_generator.py], [data_validator.py] and the part of
    [synthetic_data_generator.py] that ties the generators together, followed
    by the properties of the specification that concern them and by further
    properties of the code.

    Conventions of the embedding.
    - A Python [float] is an exact rational ([Q]); [round] is exact
      round-half-to-even.  The two transcendental calls of the source
      ([np.exp] and [**] with a fractional exponent) are operations of the
      [Runtime] interface.
    - A [DataFrame] is the list of its rows, a row is a record, a nullable
      column is an [option].
    - A [datetime] is a number of microseconds since 1970-01-01, a [date] a
      number of days since 1970-01-01.
    - Everything the source takes from outside itself is read from the
      [World]: the streams behind [random], [numpy.random] and [uuid.uuid4],
      and the successive readings of [datetime.now()].  A generator is a
      function from the world to a result and the next world, or to the
      exception it raises.
    - A call of [random.random], [randint], [choice] or [choices] reads one
      raw value of the stream of [random] and reduces it to its range; how
      the Mersenne Twister produces the raw values is left to the [Runtime].
    - Logging, progress bars and the CSV files written are left out. *)

From Stdlib Require Import ZArith QArith Qround Qminmax Qabs List String Ascii.
From Stdlib Require Import Bool Lia Psatz DecimalString Sorted.
From Stdlib Require Import DecimalPos DecimalZ.
Import ListNotations.

Set Implicit Arguments.
Open Scope Z_scope.

(* ================================================================== *)
(** * Numbers *)

Module Num.

Definition Qltb (x y : Q) : bool := negb (Qle_bool y x).

(** [round(x)]: the nearest integer, ties to the even one. *)
Definition py_round (x : Q) : Z :=
  let f := Qfloor x in
  match Qcompare (x - inject_Z f) (1 # 2) with
  | Lt => f
  | Gt => f + 1
  | Eq => if Z.even f then f else f + 1
  end.

(** [round(x, n)] for [n >= 0]. *)
Definition py_round_to (n : nat) (x : Q) : Q :=
  inject_Z (py_round (x * inject_Z (10 ^ Z.of_nat n))) / inject_Z (10 ^ Z.of_nat n).

(** [round(x, -n)], a float. *)
Definition py_round_neg (n : nat) (x : Q) : Q :=
  inject_Z (py_round (x / inject_Z (10 ^ Z.of_nat n))) * inject_Z (10 ^ Z.of_nat n).

(** Truth value of a Python number. *)
Definition truthy (x : Q) : bool := negb (Qeq_bool x 0).

End Num.
Export Num.

(* ================================================================== *)
(** * Strings *)

Module Str.

Open Scope string_scope.

(** [needle in hay] *)
Definition contains (needle hay : string) : bool :=
  match String.index 0 needle hay with Some _ => true | None => false end.

Definition mem (s : string) (l : list string) : bool :=
  existsb (String.eqb s) l.

(** [str(z)] for an [int]. *)
Definition str (z : Z) : string := NilZero.string_of_int (Z.to_int z).

Fixpoint replicate (n : nat) (c : ascii) : string :=
  match n with O => "" | S k => String c (replicate k c) end.

(** [s.zfill(width)] *)
Definition zfill (width : nat) (s : string) : string :=
  let pad := replicate (width - String.length s) "0"%char in
  match s with
  | String c rest =>
      if (Ascii.eqb c "-" || Ascii.eqb c "+")%bool
      then String c (pad ++ rest) else pad ++ s
  | EmptyString => pad
  end.

Definition upper_char (c : ascii) : ascii :=
  let n := nat_of_ascii c in
  if (97 <=? n)%nat && (n <=? 122)%nat then ascii_of_nat (n - 32) else c.

Fixpoint upper (s : string) : string :=
  match s with
  | EmptyString => EmptyString
  | String c r => String (upper_char c) (upper r)
  end.

Definition hex_digit (d : Z) : ascii :=
  if Z.ltb d 10 then ascii_of_nat (48 + Z.to_nat d) else ascii_of_nat (87 + Z.to_nat d).

(** The [n] lowercase hexadecimal digits of [z], most significant first. *)
Fixpoint hex_fixed (n : nat) (z : Z) : string :=
  match n with
  | O => ""
  | S k => hex_fixed k (z / 16) ++ String (hex_digit (z mod 16)) ""
  end.

(** Groups of three digits separated by commas, for the [,] format flag. *)
Fixpoint group3 (fuel : nat) (z : Z) : string :=
  match fuel with
  | O => str z
  | S k =>
      if Z.ltb z 1000 then str z
      else group3 k (z / 1000) ++ "," ++ zfill 3 (str (z mod 1000))
  end.

(** [f"{x:,.0f}"] *)
Definition format_comma_0f (x : Q) : string :=
  let r := py_round x in
  if Z.ltb r 0 then "-" ++ group3 (Z.to_nat (- r)) (- r)
  else group3 (Z.to_nat r) r.

(** The rupee sign, U+20B9, in UTF-8. *)
Definition rupee : string :=
  String (ascii_of_nat 226) (String (ascii_of_nat 130) (String (ascii_of_nat 185) "")).

End Str.

(* ================================================================== *)
(** * Dates *)

Module Time.

Definition us_per_day : Z := 86400000000.

(** [timedelta(days=n)] added to a [datetime]. *)
Definition add_days (t : Z) (n : Z) : Z := t + n * us_per_day.

(** [t.date()] *)
Definition date_of (t : Z) : Z := t / us_per_day.

(** [pd.to_datetime(d)] of a [date]: midnight of that day. *)
Definition datetime_of_date (d : Z) : Z := d * us_per_day.

(** [(t1 - t0).days] *)
Definition delta_days (t1 t0 : Z) : Z := (t1 - t0) / us_per_day.

(** Days since 1970-01-01 of a proleptic Gregorian date. *)
Definition days_from_civil (y m d : Z) : Z :=
  let y' := if m <=? 2 then y - 1 else y in
  let era := y' / 400 in
  let yoe := y' - era * 400 in
  let doy := (153 * (if 2 <? m then m - 3 else m + 9) + 2) / 5 + d - 1 in
  let doe := yoe * 365 + yoe / 4 - yoe / 100 + doy in
  era * 146097 + doe - 719468.

(** Year, month and day of a number of days since 1970-01-01. *)
Definition civil_from_days (z : Z) : Z * Z * Z :=
  let z' := z + 719468 in
  let era := z' / 146097 in
  let doe := z' - era * 146097 in
  let yoe := (doe - doe / 1460 + doe / 36524 - doe / 146096) / 365 in
  let y := yoe + era * 400 in
  let doy := doe - (365 * yoe + yoe / 4 - yoe / 100) in
  let mp := (5 * doy + 2) / 153 in
  let d := doy - (153 * mp + 2) / 5 + 1 in
  let m := if mp <? 10 then mp + 3 else mp - 9 in
  (if m <=? 2 then y + 1 else y, m, d).

(** [t.strftime("%y%m%d")] *)
Definition strftime_yymmdd (t : Z) : string :=
  let '(y, m, d) := civil_from_days (date_of t) in
  (Str.zfill 2 (Str.str (y mod 100)) ++ Str.zfill 2 (Str.str m) ++ Str.zfill 2 (Str.str d))%string.

(** [datetime(2022, 1, 1)] *)
Definition datetime_2022_01_01 : Z := datetime_of_date (days_from_civil 2022 1 1).

(** [t.isoformat()] of a naive [datetime]: the fraction of a second is left
    out when it is zero. *)
Definition isoformat (t : Z) : string :=
  let '(y, m, d) := civil_from_days (date_of t) in
  let us := t mod us_per_day in
  let hour := us / 3600000000 in
  let minute := (us / 60000000) mod 60 in
  let second := (us / 1000000) mod 60 in
  let microsecond := us mod 1000000 in
  (Str.zfill 4 (Str.str y) ++ "-" ++ Str.zfill 2 (Str.str m) ++ "-"
   ++ Str.zfill 2 (Str.str d) ++ "T" ++ Str.zfill 2 (Str.str hour) ++ ":"
   ++ Str.zfill 2 (Str.str minute) ++ ":" ++ Str.zfill 2 (Str.str second)
   ++ (if Z.eqb microsecond 0 then "" else "." ++ Str.zfill 6 (Str.str microsecond)))%string.

(** A column that holds [datetime] values in some rows and [date] values in
    others. *)
Inductive stamp : Type :=
| AtTime (t : Z)
| OnDate (d : Z).

End Time.

(* ================================================================== *)
(** * The world of a run and the generator monad *)

(** What the platform supplies and the source only calls. *)
Class Runtime : Type := {
  (** [numpy.exp] *)
  np_exp : Q -> Q;
  (** [x ** y] with a float exponent *)
  float_pow : Q -> Q -> Q;
  (** the stream [random] yields after [random.seed(s)] *)
  random_seed : Z -> nat -> N;
  (** the stream [numpy.random] yields after [np.random.seed(s)] *)
  np_random_seed : Z -> nat -> N;
  (** the stream the Faker providers draw from after [Faker.seed(s)] *)
  faker_seed : Z -> nat -> N;
  (** the Faker providers of locale [en_IN], each a function of its draw *)
  faker_first_name : N -> string;
  faker_last_name : N -> string;
  faker_street_address : N -> string;
  faker_building_number : N -> string;
  faker_street_name : N -> string;
  faker_email : string -> N -> string;
  (** [date_between(start_date='-3y', end_date='today')], a function of the
      clock reading and of its draw *)
  faker_date_between_3y : Z -> N -> Z
}.

Module Gen.

(** A source of raw values read one after the other. *)
Record Tape : Type := mkTape { src : nat -> N; pos : nat }.

Definition read (t : Tape) : N := src t (pos t).
Definition advance (t : Tape) : Tape := mkTape (src t) (S (pos t)).

Record World : Type := mkWorld {
  py_random : Tape;     (* the global generator of module [random] *)
  np_random : Tape;     (* the global generator of [numpy.random] *)
  faker_random : Tape;  (* the generator shared by the Faker providers *)
  os_urandom : Tape;    (* the entropy [uuid.uuid4] reads, 16 bytes at a time *)
  wall_clock : Tape     (* the successive readings of [datetime.now()] *)
}.

Definition step_py (w : World) : World :=
  mkWorld (advance (py_random w)) (np_random w) (faker_random w) (os_urandom w) (wall_clock w).
Definition step_np (w : World) : World :=
  mkWorld (py_random w) (advance (np_random w)) (faker_random w) (os_urandom w) (wall_clock w).
Definition step_faker (w : World) : World :=
  mkWorld (py_random w) (np_random w) (advance (faker_random w)) (os_urandom w) (wall_clock w).
Definition step_urandom (w : World) : World :=
  mkWorld (py_random w) (np_random w) (faker_random w) (advance (os_urandom w)) (wall_clock w).
Definition step_clock (w : World) : World :=
  mkWorld (py_random w) (np_random w) (faker_random w) (os_urandom w) (advance (wall_clock w)).

Inductive exn : Type :=
| ValueError | IndexError | TypeError | ZeroDivisionError | KeyError.

Inductive outcome (A : Type) : Type :=
| Ok (a : A) (w : World)
| Raise (e : exn).
Arguments Raise {A} e.

Definition t (A : Type) : Type := World -> outcome A.

Definition ret {A} (a : A) : t A := fun w => Ok a w.

Definition bind {A B} (m : t A) (f : A -> t B) : t B :=
  fun w => match m w with Ok a w' => f a w' | Raise e => Raise e end.

Definition raise {A} (e : exn) : t A := fun _ => Raise e.

Declare Scope gen_scope.
Delimit Scope gen_scope with gen.
Notation "x <- m ;; k" := (bind m (fun x => k))
  (at level 100, m at next level, right associativity) : gen_scope.
Notation "' p <- m ;; k" := (bind m (fun p => k))
  (at level 100, p pattern, m at next level, right associativity) : gen_scope.
Open Scope gen_scope.

(** The rows a loop appends, in the order of its iterations. *)
Fixpoint for_each {A B} (body : A -> t (list B)) (xs : list A) : t (list B) :=
  match xs with
  | [] => ret []
  | x :: rest =>
      ys <- body x ;;
      zs <- for_each body rest ;;
      ret (ys ++ zs)
  end.

(** [None] where a number is needed. *)
Definition number {A} (o : option A) : t A :=
  match o with Some x => ret x | None => raise TypeError end.

(** [x / y] on floats. *)
Definition fdiv (x y : Q) : t Q :=
  if Qeq_bool y 0 then raise ZeroDivisionError else ret (x / y)%Q.

(** [d[k]] on a [dict]. *)
Fixpoint assoc {V} (d : list (string * V)) (k : string) : option V :=
  match d with
  | [] => None
  | (k', v) :: rest => if String.eqb k k' then Some v else assoc rest k
  end.

Definition getitem {V} (d : list (string * V)) (k : string) : t V :=
  match assoc d k with Some v => ret v | None => raise KeyError end.

(** ** Module [random] *)

Definition next_raw : t N :=
  fun w => Ok (read (py_random w)) (step_py w).

(** [random.random()]: a multiple of 2^-53 in [0, 1). *)
Definition random : t Q :=
  r <- next_raw ;;
  ret (Z.of_N (r mod 9007199254740992) # 9007199254740992).

(** A number below [n], for [n > 0]. *)
Definition randbelow (n : Z) : t Z :=
  r <- next_raw ;; ret (Z.of_N r mod n).

(** [random.randint(a, b)] *)
Definition randint (a b : Z) : t Z :=
  if b <? a then raise ValueError
  else k <- randbelow (b - a + 1) ;; ret (a + k).

(** [random.uniform(a, b)] *)
Definition uniform (a b : Q) : t Q :=
  u <- random ;; ret (a + (b - a) * u)%Q.

(** [random.choice(seq)] *)
Definition choice {A} (seq : list A) : t A :=
  match seq with
  | [] => raise IndexError
  | x :: _ =>
      i <- randbelow (Z.of_nat (List.length seq)) ;;
      ret (nth (Z.to_nat i) seq x)
  end.

Fixpoint accumulate (acc : Q) (ws : list Q) : list Q :=
  match ws with
  | [] => []
  | x :: rest => (acc + x)%Q :: accumulate (acc + x)%Q rest
  end.

(** [bisect(cum, x, 0, hi)] on a non-decreasing list: the first position
    below [hi] whose entry exceeds [x], or [hi]. *)
Fixpoint bisect (cum : list Q) (x : Q) (hi : nat) : nat :=
  match hi, cum with
  | S h, c :: rest => if Qltb x c then O else S (bisect rest x h)
  | _, _ => O
  end.

(** [random.choices(population, weights=weights)[0]] *)
Definition choices {A} (population : list A) (weights : list Q) : t A :=
  let cum := accumulate 0 weights in
  if negb (List.length cum =? List.length population)%nat then raise ValueError
  else match population with
  | [] => raise IndexError
  | p0 :: _ =>
      let total := last cum 0%Q in
      if Qle_bool total 0 then raise ValueError
      else
        u <- random ;;
        ret (nth (bisect cum (u * total)%Q (List.length population - 1)) population p0)
  end.

(** ** [numpy.random], [uuid] and the clock *)

(** [df.sample(1).iloc[0]] *)
Definition sample1 {A} (rows : list A) : t A :=
  match rows with
  | [] => raise ValueError
  | r0 :: _ =>
      fun w => Ok (nth (N.to_nat (read (np_random w) mod N.of_nat (List.length rows))) rows r0)
                  (step_np w)
  end.

(** [uuid.uuid4().hex]: 128 bits of entropy with the version and variant
    bits set, as 32 hexadecimal digits. *)
Definition uuid4_hex : t string :=
  fun w =>
    let raw := Z.of_N (read (os_urandom w)) mod 2 ^ 128 in
    let v1 := Z.lor (Z.ldiff raw (Z.shiftl 49152 48)) (Z.shiftl 32768 48) in
    let v2 := Z.lor (Z.ldiff v1 (Z.shiftl 61440 64)) (Z.shiftl 4 76) in
    Ok (Str.hex_fixed 32 v2) (step_urandom w).

(** [datetime.now()] *)
Definition datetime_now : t Z :=
  fun w => Ok (Z.of_N (read (wall_clock w))) (step_clock w).

(** A call of a Faker provider. *)
Definition faker_draw : t N :=
  fun w => Ok (read (faker_random w)) (step_faker w).

(** [random.seed(seed); np.random.seed(seed)] *)
Definition seed_random `{Runtime} (seed : Z) : t unit :=
  fun w => Ok tt (mkWorld (mkTape (random_seed seed) 0) (mkTape (np_random_seed seed) 0)
                          (faker_random w) (os_urandom w) (wall_clock w)).

(** [Faker.seed(seed)] *)
Definition seed_faker `{Runtime} (seed : Z) : t unit :=
  fun w => Ok tt (mkWorld (py_random w) (np_random w) (mkTape (faker_seed seed) 0)
                          (os_urandom w) (wall_clock w)).

End Gen.
Import Gen.
Open Scope gen_scope.

(* ================================================================== *)
(** * The data model *)

(** A row of the customer frame. *)
Module Customer.
Record t : Type := mk {
  customer_id : string;
  first_name : string;
  last_name : string;
  date_of_birth : Z;
  age : Z;
  gender : string;
  marital_status : string;
  education : string;
  employment_type : string;
  annual_income : Q;
  income_tier : string;
  credit_score : Z;
  credit_tier : string;
  city : string;
  state : string;
  pincode : string;
  address_line1 : string;
  address_line2 : option string;
  phone : string;
  email : string;
  customer_segment : string;
  customer_value_tier : string;
  acquisition_date : Z;
  acquisition_channel : string;
  is_active : bool;
  effective_start_date : Z;
  effective_end_date : option Z;
  is_current : bool
}.
End Customer.

(** An entry of [LoanGenerator.products]. *)
Module Product.
Record t : Type := mk {
  product_id : string;
  product_name : string;
  type : string;
  min_rate : Q;
  max_rate : Q;
  min_amount : Q;
  max_amount : Q;
  min_tenure : Z;
  max_tenure : Z;
  collateral : bool
}.
End Product.

(** The result of [LoanGenerator.calculate_eligibility]. *)
Module Eligibility.
Record t : Type := mk {
  eligible : bool;
  max_amount : Q;
  min_amount : Q;
  suggested_rate : Q;
  suggested_tenure : Z
}.
End Eligibility.

(** The result of [LoanGenerator.generate_collateral]. *)
Module Collateral.
Record t : Type := mk {
  collateral_id : string;
  collateral_type : string;
  collateral_value : Q;
  loan_to_value_ratio : Q
}.
End Collateral.

(** A row of the loan frame. *)
Module Loan.
Record t : Type := mk {
  loan_id : string;
  customer_id : string;
  product_id : string;
  branch_id : string;
  application_date : Z;
  disbursement_date : option Z;
  first_emi_date : option Z;
  loan_amount : Q;
  sanctioned_amount : option Q;
  interest_rate : option Q;
  tenure_months : option Z;
  emi_amount : option Q;
  processing_fee : option Q;
  gst_on_fee : option Q;
  net_disbursed_amount : option Q;
  loan_purpose : string;
  collateral_id : option string;
  collateral_value : option Q;
  loan_to_value_ratio : option Q;
  co_applicant_present : bool;
  co_applicant_income : option Z;
  bureau_score_at_origination : Z;
  internal_risk_rating : string;
  probability_of_default : option Q;
  loss_given_default : option Q;
  exposure_at_default : option Q;
  expected_loss : option Q;
  current_balance : Q;
  overdue_amount : Q;
  days_past_due : Z;
  dpd_bucket : string;
  npa_flag : bool;
  npa_date : option Z;
  restructuring_flag : bool;
  written_off_flag : bool;
  loan_status : string;
  collection_tier : option Z;
  assigned_collection_agent : option string;
  fraud_flag : bool;
  fraud_type : option string;
  fraud_detection_date : option Time.stamp
}.
End Loan.

(** A row of the transaction frame. *)
Module Txn.
Record t : Type := mk {
  transaction_id : string;
  loan_id : string;
  customer_id : string;
  transaction_date : Z;
  transaction_type : string;
  transaction_mode : string;
  amount : Q;
  principal_component : option Q;
  interest_component : option Q;
  penalty_component : option Q;
  gst_component : option Q;
  payment_reference : string;
  bank_name : string;
  bank_account_last4 : string;
  transaction_status : string;
  failure_reason : option string;
  reconciliation_status : string;
  reconciled_date : option Z
}.
End Txn.

(** A row of the fraud alert frame. *)
Module Alert.
Record t : Type := mk {
  alert_id : string;
  loan_id : option string;
  customer_id : string;
  transaction_id : option string;
  detection_date : Time.stamp;
  alert_type : string;
  alert_category : string;
  risk_score : Z;
  risk_level : string;
  detection_method : string;
  rule_triggered : string;
  alert_description : string;
  assigned_to : string;
  investigation_status : string;
  investigation_notes : option string;
  resolution_date : option Z;
  financial_impact : Q
}.
End Alert.

(* ================================================================== *)
(** * [customer_generator.py] *)

Module CustomerGenerator.
Section Definitions.
Context `{Runtime}.
Local Open Scope string_scope.
Local Open Scope Z_scope.

(** [Faker.seed(seed); random.seed(seed); np.random.seed(seed)] *)
Definition __init__ (seed : Z) : Gen.t unit :=
  _ <- seed_faker seed ;; seed_random seed.

Definition states : list (string * list string) := [
  ("Maharashtra", ["Mumbai"; "Pune"; "Nagpur"; "Nashik"; "Aurangabad"]);
  ("Karnataka", ["Bangalore"; "Mysore"; "Hubli"; "Mangalore"]);
  ("Tamil Nadu", ["Chennai"; "Coimbatore"; "Madurai"; "Trichy"]);
  ("Delhi", ["New Delhi"; "Delhi"]);
  ("Gujarat", ["Ahmedabad"; "Surat"; "Vadodara"; "Rajkot"]);
  ("Telangana", ["Hyderabad"; "Warangal"]);
  ("West Bengal", ["Kolkata"; "Howrah"; "Durgapur"]);
  ("Uttar Pradesh", ["Lucknow"; "Kanpur"; "Noida"; "Agra"; "Varanasi"]);
  ("Rajasthan", ["Jaipur"; "Jodhpur"; "Udaipur"]);
  ("Madhya Pradesh", ["Bhopal"; "Indore"; "Gwalior"]);
  ("Haryana", ["Gurgaon"; "Faridabad"; "Panipat"]);
  ("Punjab", ["Chandigarh"; "Ludhiana"; "Amritsar"]);
  ("Kerala", ["Kochi"; "Thiruvananthapuram"; "Kozhikode"]);
  ("Bihar", ["Patna"; "Gaya"]);
  ("Odisha", ["Bhubaneswar"; "Cuttack"])
]%list.

Definition employment_types : list (string * Q) := [
  ("Salaried", 0.55%Q);
  ("Self-Employed Professional", 0.15%Q);
  ("Business Owner", 0.12%Q);
  ("Government Employee", 0.08%Q);
  ("Contractual", 0.05%Q);
  ("Retired", 0.03%Q);
  ("Homemaker", 0.02%Q)
]%list.

Definition education_levels : list (string * Q) := [
  ("High School", 0.10%Q);
  ("Diploma", 0.15%Q);
  ("Bachelor's", 0.45%Q);
  ("Master's", 0.25%Q);
  ("PhD", 0.03%Q);
  ("Professional Certificate", 0.02%Q)
]%list.

Definition acquisition_channels : list string :=
  ["Direct Visit"; "Online Application"; "Broker"; "Partner Referral";
   "Employee Referral"; "Customer Referral"; "Digital Marketing";
   "Branch Walk-in"; "Tele-calling"; "Email Campaign"]%list.

Definition customer_segments : list string :=
  ["Mass"; "Mass Affluent"; "Affluent"; "High Net Worth"; "Premium"]%list.

Definition generate_income (age : Z) (employment_type : string) : Gen.t Q :=
  base_income <-
    (if String.eqb employment_type "Salaried" then
       if age <? 25 then uniform 250000 400000
       else if age <? 35 then uniform 400000 800000
       else if age <? 50 then uniform 800000 1500000
       else uniform 600000 1200000
     else if String.eqb employment_type "Self-Employed Professional" then
       if age <? 35 then uniform 500000 1000000
       else if age <? 50 then uniform 1000000 2500000
       else uniform 800000 2000000
     else if String.eqb employment_type "Business Owner" then
       if age <? 35 then uniform 600000 1500000
       else if age <? 50 then uniform 1500000 5000000
       else uniform 1000000 3000000
     else if String.eqb employment_type "Government Employee" then
       uniform 400000 1200000
     else if String.eqb employment_type "Retired" then
       uniform 300000 800000
     else uniform 200000 500000) ;;
  f <- uniform 0.9 1.1 ;;
  let income := (base_income * f)%Q in
  ret (inject_Z (py_round (income / 1000) * 1000)).

Definition generate_credit_score (age : Z) (income : Q) (employment_type : string)
  : Gen.t Z :=
  base_score <- randint 600 750 ;;
  let base_score := if 35 <? age then base_score + 25 else base_score in
  let base_score := if 50 <? age then base_score + 25 else base_score in
  let base_score := if Qltb 1000000 income then base_score + 30 else base_score in
  let base_score := if Qltb 2500000 income then base_score + 30 else base_score in
  let base_score := if Qltb 5000000 income then base_score + 40 else base_score in
  let base_score :=
    if Str.mem employment_type ["Government Employee"; "Salaried"]%list then base_score + 30
    else if String.eqb employment_type "Self-Employed Professional" then base_score + 20
    else if String.eqb employment_type "Business Owner" then base_score + 10
    else base_score in
  noise <- randint (-50) 50 ;;
  let score := base_score + noise in
  ret (Z.max 300 (Z.min 900 score)).

Definition get_income_tier (income : Q) : string :=
  if Qltb income 300000 then "Low"
  else if Qltb income 600000 then "Lower-Middle"
  else if Qltb income 1200000 then "Middle"
  else if Qltb income 2400000 then "Upper-Middle"
  else if Qltb income 5000000 then "High"
  else "Affluent".

Definition get_credit_tier (score : Z) : string :=
  if 750 <=? score then "Prime"
  else if 650 <=? score then "Near-Prime"
  else if 550 <=? score then "Sub-Prime"
  else "Deep-Subprime".

Definition get_customer_value_tier (income : Q) (credit_score : Z) : string :=
  let value_score := (income / 100000 + inject_Z credit_score / 10)%Q in
  if Qltb 200 value_score then "Platinum"
  else if Qltb 150 value_score then "Gold"
  else if Qltb 100 value_score then "Silver"
  else "Bronze".

Fixpoint digits (n : nat) : Gen.t string :=
  match n with
  | O => ret ""
  | S k => d <- randint 0 9 ;; rest <- digits k ;; ret (Str.str d ++ rest)
  end.

Definition generate_phone : Gen.t string :=
  ds <- digits 9 ;; ret ("9" ++ ds).

Definition generate_pincode : Gen.t string :=
  p <- randint 100000 999999 ;; ret (Str.str p).

(** One iteration of the loop of [generate_customers], lines 210-275. *)
Definition generate_customers_step (i : Z) : Gen.t (list Customer.t) :=
  age <- randint 22 70 ;;
  gender <- choices ["Male"; "Female"; "Other"]%list [0.48%Q; 0.48%Q; 0.04%Q]%list ;;
  marital_status <- choices ["Single"; "Married"; "Divorced"; "Widowed"]%list
                            [0.35%Q; 0.55%Q; 0.07%Q; 0.03%Q]%list ;;
  state <- choice (map fst states) ;;
  cities <- getitem states state ;;
  city <- choice cities ;;
  employment_type <- choices (map fst employment_types) (map snd employment_types) ;;
  education <- choices (map fst education_levels) (map snd education_levels) ;;
  annual_income <- generate_income age employment_type ;;
  credit_score <- generate_credit_score age annual_income employment_type ;;
  today <- datetime_now ;;
  r <- faker_draw ;;
  let acquisition_date := faker_date_between_3y today r in
  now <- datetime_now ;;
  let date_of_birth := Time.add_days now (- (age * 365)) in
  email_domain <-
    (if Str.mem employment_type ["Government Employee"]%list then ret "gov.in"
     else if Str.mem employment_type ["Business Owner"]%list then
       choice ["business.com"; "enterprise.com"; "company.in"]%list
     else choice ["gmail.com"; "yahoo.com"; "outlook.com"; "hotmail.com"]%list) ;;
  first <- faker_draw ;;
  last <- faker_draw ;;
  pincode <- generate_pincode ;;
  street <- faker_draw ;;
  u <- random ;;
  line2 <- (if Qltb 0.5 u then
              b <- faker_draw ;;
              s <- faker_draw ;;
              ret (Some (faker_building_number b ++ ", " ++ faker_street_name s))
            else ret None) ;;
  phone <- generate_phone ;;
  mail <- faker_draw ;;
  segment <- choice customer_segments ;;
  channel <- choice acquisition_channels ;;
  u <- random ;;
  ret [{|
    Customer.customer_id := "CUST" ++ Str.zfill 8 (Str.str (i + 1));
    Customer.first_name := faker_first_name first;
    Customer.last_name := faker_last_name last;
    Customer.date_of_birth := Time.date_of date_of_birth;
    Customer.age := age;
    Customer.gender := gender;
    Customer.marital_status := marital_status;
    Customer.education := education;
    Customer.employment_type := employment_type;
    Customer.annual_income := annual_income;
    Customer.income_tier := get_income_tier annual_income;
    Customer.credit_score := credit_score;
    Customer.credit_tier := get_credit_tier credit_score;
    Customer.city := city;
    Customer.state := state;
    Customer.pincode := pincode;
    Customer.address_line1 := faker_street_address street;
    Customer.address_line2 := line2;
    Customer.phone := phone;
    Customer.email := faker_email email_domain mail;
    Customer.customer_segment := segment;
    Customer.customer_value_tier := get_customer_value_tier annual_income credit_score;
    Customer.acquisition_date := acquisition_date;
    Customer.acquisition_channel := channel;
    Customer.is_active := Qltb 0.05 u;
    Customer.effective_start_date := acquisition_date;
    Customer.effective_end_date := None;
    Customer.is_current := true
  |}]%list.

Definition generate_customers (n : Z) : Gen.t (list Customer.t) :=
  for_each generate_customers_step (map Z.of_nat (List.seq 0 (Z.to_nat n))).

(** The frames of the batches, concatenated; [pd.concat] raises [ValueError]
    when there is no frame. *)
Definition generate_batch_customers (batch_size total : Z) : Gen.t (list Customer.t) :=
  if batch_size =? 0 then raise ZeroDivisionError
  else
    let batches := total / batch_size + (if total mod batch_size =? 0 then 0 else 1) in
    if batches <=? 0 then raise ValueError
    else
      for_each (fun i => generate_customers (Z.min batch_size (total - i * batch_size)))
               (map Z.of_nat (List.seq 0 (Z.to_nat batches))).

End Definitions.
End CustomerGenerator.

(* ================================================================== *)
(** * [loan_generator.py] *)

Module LoanGenerator.
Section Definitions.
Context `{Runtime}.
Local Open Scope string_scope.
Local Open Scope Z_scope.

Definition __init__ (seed : Z) : Gen.t unit := seed_random seed.

Definition products : list Product.t := [
  Product.mk "HL001" "Home Loan Prime" "Home Loan" 8.5 10.5 1000000 10000000 60 240 true;
  Product.mk "HL002" "Home Loan Premium" "Home Loan" 8.0 9.5 2000000 20000000 60 300 true;
  Product.mk "HL003" "Home Loan Plus" "Home Loan" 8.75 11.0 500000 5000000 36 180 true;
  Product.mk "AL001" "New Car Loan" "Auto Loan" 9.5 12.0 200000 3000000 12 84 true;
  Product.mk "AL002" "Used Car Loan" "Auto Loan" 11.0 14.0 100000 2000000 12 60 true;
  Product.mk "PL001" "Personal Loan Standard" "Personal Loan" 11.0 16.0 50000 1500000 6 60 false;
  Product.mk "PL002" "Personal Loan Premium" "Personal Loan" 10.5 14.0 100000 2500000 12 72 false;
  Product.mk "BL001" "Business Term Loan" "Business Loan" 10.0 14.0 500000 50000000 12 120 true;
  Product.mk "BL002" "Working Capital Loan" "Business Loan" 11.0 15.0 100000 20000000 6 60 true;
  Product.mk "EL001" "Education Loan Domestic" "Education Loan" 8.0 11.0 100000 5000000 12 120 false;
  Product.mk "EL002" "Education Loan International" "Education Loan" 8.5 12.0 500000 20000000 12 180 true
]%list.

Definition loan_purposes : list (string * list string) := [
  ("Home Loan",
   ["Purchase of new house"; "Home construction"; "Home renovation";
    "Extension of existing house"; "Plot purchase with construction"]);
  ("Auto Loan",
   ["Purchase of new car"; "Purchase of used car"; "Purchase of two-wheeler";
    "Commercial vehicle purchase"; "Refinance existing auto loan"]);
  ("Personal Loan",
   ["Medical emergency"; "Wedding expenses"; "Travel expenses";
    "Debt consolidation"; "Home appliances purchase"; "Education expenses"]);
  ("Business Loan",
   ["Working capital requirement"; "Business expansion"; "Equipment purchase";
    "Inventory funding"; "New branch setup"; "Technology upgrade"]);
  ("Education Loan",
   ["Undergraduate studies"; "Postgraduate studies"; "Professional certification";
    "Study abroad program"; "Research fellowship"])
]%list.

(** DPD buckets distribution: 70% current, 12% 1-30 days, 8% 31-60 days,
    5% 61-90 days, 5% 90+ days. *)
Definition dpd_distribution : list (Z * Q) :=
  [(0, 0.70%Q); (1, 0.12%Q); (2, 0.08%Q); (3, 0.05%Q); (4, 0.05%Q)]%list.

Definition loan_status_mapping (bucket : Z) : option string :=
  if bucket =? 0 then Some "Active"
  else if bucket =? 1 then Some "Active"
  else if bucket =? 2 then Some "Overdue"
  else if bucket =? 3 then Some "Overdue"
  else if bucket =? 4 then Some "NPA"
  else None.

(** [base ** n] for an [int] exponent. *)
Definition pow_int (base : Q) (n : Z) : Gen.t Q :=
  if Qeq_bool base 0 && (n <? 0) then raise ZeroDivisionError
  else ret (base ^ n)%Q.

Definition calculate_emi (amount rate : Q) (tenure : Z) : Gen.t Q :=
  let monthly_rate := (rate / 12 / 100)%Q in
  if Qeq_bool monthly_rate 0 then fdiv amount (inject_Z tenure)
  else
    g <- pow_int (1 + monthly_rate)%Q tenure ;;
    emi <- fdiv (amount * monthly_rate * g)%Q (g - 1)%Q ;;
    ret (py_round_to 2 emi).

Definition calculate_eligibility (customer : Customer.t) (product : Product.t)
  : Eligibility.t :=
  let annual_income := Customer.annual_income customer in
  let credit_score := Customer.credit_score customer in
  let max_income_multiple : Q :=
    if 750 <? credit_score then 5.0%Q
    else if 650 <? credit_score then 4.0%Q
    else 3.0%Q in
  let max_eligible_amount := (annual_income * max_income_multiple)%Q in
  let max_amount := Qmin (Product.max_amount product) max_eligible_amount in
  let min_amount := Product.min_amount product in
  let base_rate := ((Product.min_rate product + Product.max_rate product) / 2)%Q in
  let rate :=
    if 750 <? credit_score then (base_rate - 0.5)%Q
    else if credit_score <? 600 then (base_rate + 1.0)%Q
    else base_rate in
  let rate := Qmax (Product.min_rate product) (Qmin (Product.max_rate product) rate) in
  let tenure :=
    if Str.contains "Home" (Product.type product) then Z.min (Product.max_tenure product) 240
    else if Str.contains "Auto" (Product.type product) then Z.min (Product.max_tenure product) 60
    else Z.min (Product.max_tenure product) 48 in
  Eligibility.mk true max_amount min_amount (py_round_to 2 rate) tenure.

Definition generate_dpd : Gen.t (Z * Z) :=
  bucket <- choices (map fst dpd_distribution) (map snd dpd_distribution) ;;
  days <- (if bucket =? 0 then ret 0
           else if bucket =? 1 then randint 1 30
           else if bucket =? 2 then randint 31 60
           else if bucket =? 3 then randint 61 90
           else randint 91 180) ;;
  ret (days, bucket).

Definition get_dpd_bucket (days : Z) : string :=
  if days =? 0 then "0"
  else if days <=? 30 then "1-30"
  else if days <=? 60 then "31-60"
  else if days <=? 90 then "61-90"
  else "90+".

Definition calculate_pd (credit_score : Z) (dpd_days : Z) : Q :=
  let base_pd := (1 / (1 + np_exp (inject_Z (credit_score - 650) / 50)))%Q in
  let dpd_factor :=
    if 0 <? dpd_days then Qmin 0.3 (inject_Z dpd_days * 0.002)
    else 0%Q in
  let pd := Qmin 0.99 (base_pd + dpd_factor) in
  py_round_to 4 pd.

Definition calculate_lgd (product_type : string)
    (collateral_value : option Q) (loan_amount : option Q) : Gen.t Q :=
  let by_product_type :=
    if Str.contains "Home" product_type then uniform 0.20 0.40
    else if Str.contains "Auto" product_type then uniform 0.30 0.50
    else uniform 0.60 0.80 in
  lgd <- match collateral_value, loan_amount with
         | Some cv, Some la =>
             if truthy cv && truthy la then
               ltv <- fdiv la cv ;;
               if Qltb ltv 0.5 then uniform 0.15 0.30
               else if Qltb ltv 0.7 then uniform 0.30 0.50
               else uniform 0.50 0.70
             else by_product_type
         | _, _ => by_product_type
         end ;;
  ret (py_round_to 4 lgd).

Definition generate_collateral (loan_amount : Q) (product_type : string)
  : Gen.t (option Collateral.t) :=
  kinds <- (if Str.contains "Home" product_type then
              m <- uniform 1.2 1.5 ;;
              ret (Some (["Residential Property"; "Commercial Property"; "Land"]%list, m))
            else if Str.contains "Auto" product_type then
              m <- uniform 1.1 1.3 ;;
              ret (Some (["Car"; "Commercial Vehicle"; "Two-wheeler"]%list, m))
            else if Str.contains "Business" product_type then
              m <- uniform 1.2 1.6 ;;
              ret (Some (["Commercial Property"; "Equipment"; "Inventory"; "Fixed Deposit"]%list, m))
            else ret None) ;;
  match kinds with
  | None => ret None
  | Some (collateral_types, collateral_multiplier) =>
      let collateral_value := (loan_amount * collateral_multiplier)%Q in
      q <- fdiv loan_amount collateral_value ;;
      let ltv := (q * 100)%Q in
      u <- uuid4_hex ;;
      kind <- choice collateral_types ;;
      ret (Some (Collateral.mk
                   ("COL" ++ Str.upper (substring 0 8 u))
                   kind
                   (py_round_neg 3 collateral_value)
                   (py_round_to 2 ltv)))
  end.

Definition default_branch_ids : list string :=
  map (fun i => "BR" ++ Str.zfill 3 (Str.str i)) (map Z.of_nat (List.seq 1 25)).

Definition range (n : Z) : list Z := map Z.of_nat (List.seq 0 (Z.to_nat n)).

(** The dict of an approved application, lines 281-373. *)
Definition approved_loan (i : Z) (customer : Customer.t) (product : Product.t)
    (eligibility : Eligibility.t) (loan_amount : Q) (application_date end_date : Z)
    (branch_ids : list string) : Gen.t Loan.t :=
  d <- randint 5 15 ;;
  let disbursement_date := Time.add_days application_date d in
  let first_emi_date := Time.add_days disbursement_date 30 in
  '(days_past_due, dpd_bucket) <- generate_dpd ;;
  let loan_status :=
    match loan_status_mapping dpd_bucket with Some s => s | None => "Active" end in
  let npa_flag := 90 <? days_past_due in
  emi_amount <- calculate_emi loan_amount
                  (Eligibility.suggested_rate eligibility)
                  (Eligibility.suggested_tenure eligibility) ;;
  let months_passed := (inject_Z (Time.delta_days end_date disbursement_date) / 30)%Q in
  let paid_emis := Qmin months_passed (inject_Z (Eligibility.suggested_tenure eligibility)) in
  let current_balance := Qmax 0 (loan_amount - emi_amount * paid_emis * 0.7) in
  let overdue_amount :=
    if 0 <? days_past_due
    then (emi_amount * inject_Z (days_past_due / 30))%Q
    else 0%Q in
  collateral <- (if Product.collateral product then
                   u <- random ;;
                   if Qltb u 0.8
                   then generate_collateral loan_amount (Product.type product)
                   else ret None
                 else ret None) ;;
  let pd_score := calculate_pd (Customer.credit_score customer) days_past_due in
  lgd_score <- calculate_lgd (Product.type product)
                 (option_map Collateral.collateral_value collateral)
                 (Some loan_amount) ;;
  let collection_tier :=
    if (90 <? days_past_due) || Qltb 0.7 pd_score then 3
    else if (30 <? days_past_due) || Qltb 0.4 pd_score then 2
    else 1 in
  u <- random ;;
  let co_applicant := Qltb u 0.2 in
  branch <- choice branch_ids ;;
  purpose <- choice (match assoc loan_purposes (Product.type product) with
                     | Some l => l
                     | None => ["General purpose"]%list
                     end) ;;
  co_income <- (if co_applicant then x <- randint 200000 1000000 ;; ret (Some x)
                else ret None) ;;
  restructuring <- (if 60 <? days_past_due then u <- random ;; ret (Qltb u 0.01)
                    else ret false) ;;
  written_off <- (if 180 <? days_past_due then u <- random ;; ret (Qltb u 0.005)
                  else ret false) ;;
  agent <- (if 30 <? days_past_due
            then x <- randint 1 50 ;; ret (Some ("AGENT" ++ Str.zfill 3 (Str.str x)))
            else ret None) ;;
  ret {|
    Loan.loan_id := "LOAN" ++ Str.zfill 10 (Str.str (i + 1));
    Loan.customer_id := Customer.customer_id customer;
    Loan.product_id := Product.product_id product;
    Loan.branch_id := branch;
    Loan.application_date := Time.date_of application_date;
    Loan.disbursement_date := Some (Time.date_of disbursement_date);
    Loan.first_emi_date := Some (Time.date_of first_emi_date);
    Loan.loan_amount := loan_amount;
    Loan.sanctioned_amount := Some loan_amount;
    Loan.interest_rate := Some (Eligibility.suggested_rate eligibility);
    Loan.tenure_months := Some (Eligibility.suggested_tenure eligibility);
    Loan.emi_amount := Some emi_amount;
    Loan.processing_fee := Some (py_round_to 2 (loan_amount * 0.01));
    Loan.gst_on_fee := Some (py_round_to 2 (loan_amount * 0.01 * 0.18));
    Loan.net_disbursed_amount :=
      Some (loan_amount - py_round_to 2 (loan_amount * 0.01 * 1.18))%Q;
    Loan.loan_purpose := purpose;
    Loan.collateral_id := option_map Collateral.collateral_id collateral;
    Loan.collateral_value := option_map Collateral.collateral_value collateral;
    Loan.loan_to_value_ratio := option_map Collateral.loan_to_value_ratio collateral;
    Loan.co_applicant_present := co_applicant;
    Loan.co_applicant_income := co_income;
    Loan.bureau_score_at_origination := Customer.credit_score customer;
    Loan.internal_risk_rating := Customer.credit_tier customer;
    Loan.probability_of_default := Some pd_score;
    Loan.loss_given_default := Some lgd_score;
    Loan.exposure_at_default := Some (loan_amount * 0.9)%Q;
    Loan.expected_loss := Some (loan_amount * pd_score * lgd_score)%Q;
    Loan.current_balance := py_round_to 2 current_balance;
    Loan.overdue_amount := py_round_to 2 overdue_amount;
    Loan.days_past_due := days_past_due;
    Loan.dpd_bucket := get_dpd_bucket days_past_due;
    Loan.npa_flag := npa_flag;
    Loan.npa_date :=
      if npa_flag then Some (Time.add_days disbursement_date days_past_due) else None;
    Loan.restructuring_flag := restructuring;
    Loan.written_off_flag := written_off;
    Loan.loan_status := loan_status;
    Loan.collection_tier := Some collection_tier;
    Loan.assigned_collection_agent := agent;
    Loan.fraud_flag := false;
    Loan.fraud_type := None;
    Loan.fraud_detection_date := None
  |}.

(** The dict of a rejected application, lines 375-418. *)
Definition rejected_loan (customer : Customer.t) (product : Product.t)
    (loan_amount : Q) (application_date : Z) (branch_ids : list string)
  : Gen.t Loan.t :=
  u <- uuid4_hex ;;
  branch <- choice branch_ids ;;
  purpose <- choice (match assoc loan_purposes (Product.type product) with
                     | Some l => l
                     | None => ["General purpose"]%list
                     end) ;;
  ret {|
    Loan.loan_id := "LOAN" ++ Str.upper (substring 0 10 u);
    Loan.customer_id := Customer.customer_id customer;
    Loan.product_id := Product.product_id product;
    Loan.branch_id := branch;
    Loan.application_date := Time.date_of application_date;
    Loan.disbursement_date := None;
    Loan.first_emi_date := None;
    Loan.loan_amount := loan_amount;
    Loan.sanctioned_amount := None;
    Loan.interest_rate := None;
    Loan.tenure_months := None;
    Loan.emi_amount := None;
    Loan.processing_fee := None;
    Loan.gst_on_fee := None;
    Loan.net_disbursed_amount := None;
    Loan.loan_purpose := purpose;
    Loan.collateral_id := None;
    Loan.collateral_value := None;
    Loan.loan_to_value_ratio := None;
    Loan.co_applicant_present := false;
    Loan.co_applicant_income := None;
    Loan.bureau_score_at_origination := Customer.credit_score customer;
    Loan.internal_risk_rating := Customer.credit_tier customer;
    Loan.probability_of_default := None;
    Loan.loss_given_default := None;
    Loan.exposure_at_default := None;
    Loan.expected_loss := None;
    Loan.current_balance := 0;
    Loan.overdue_amount := 0;
    Loan.days_past_due := 0;
    Loan.dpd_bucket := "0";
    Loan.npa_flag := false;
    Loan.npa_date := None;
    Loan.restructuring_flag := false;
    Loan.written_off_flag := false;
    Loan.loan_status := "Rejected";
    Loan.collection_tier := None;
    Loan.assigned_collection_agent := None;
    Loan.fraud_flag := false;
    Loan.fraud_type := None;
    Loan.fraud_detection_date := None
  |}.

(** [or] on lists: the first when it is not empty. *)
Definition or_list {A} (l fallback : list A) : list A :=
  match l with [] => fallback | _ => l end.

(** Lines 256-274: the customer, the product and the amount applied for. *)
Definition draw_application (active_customers : list Customer.t)
  : Gen.t (Customer.t * Product.t * Eligibility.t * Q) :=
  customer <- sample1 active_customers ;;
  product <-
    (if Qltb 2000000 (Customer.annual_income customer) then
       choice (or_list (filter (fun p => Qltb 1000000 (Product.min_amount p)) products) products)
     else if Str.mem (Customer.employment_type customer)
               ["Business Owner"; "Self-Employed Professional"]%list then
       choice (or_list (filter (fun p => Str.contains "Business" (Product.type p)) products) products)
     else choice products) ;;
  let eligibility := calculate_eligibility customer product in
  if negb (Eligibility.eligible eligibility) then
    ret (customer, product, eligibility, 0%Q)
  else
    x <- uniform (Qmin (Product.min_amount product) (Eligibility.max_amount eligibility))
                 (Qmin (Product.max_amount product) (Eligibility.max_amount eligibility)) ;;
    ret (customer, product, eligibility, inject_Z (py_round (x / 1000) * 1000)).

(** One iteration of the loop of [generate_loans], lines 254-420: the rows it
    appends to [loans]. *)
Definition generate_loans_step (active_customers : list Customer.t)
    (branch_ids : list string) (end_date date_range_days : Z) (i : Z)
  : Gen.t (list Loan.t) :=
  '(customer, product, eligibility, loan_amount) <- draw_application active_customers ;;
  if negb (Eligibility.eligible eligibility) then ret []%list
  else
    k <- randint 0 date_range_days ;;
    let application_date := Time.add_days Time.datetime_2022_01_01 k in
    u <- random ;;
    let approved := Qltb u 0.9 in
    loan <- (if approved
             then approved_loan i customer product eligibility loan_amount
                    application_date end_date branch_ids
             else rejected_loan customer product loan_amount application_date branch_ids) ;;
    ret [loan]%list.

Definition generate_loans (customers_df : list Customer.t)
    (branches_df : option (list string)) (n : Z) : Gen.t (list Loan.t) :=
  let active_customers := filter Customer.is_active customers_df in
  let branch_ids :=
    match branches_df with
    | Some (b :: rest) => (b :: rest)%list
    | _ => default_branch_ids
    end in
  let start_date := Time.datetime_2022_01_01 in
  end_date <- datetime_now ;;
  let date_range_days := Time.delta_days end_date start_date in
  for_each (generate_loans_step active_customers branch_ids end_date date_range_days)
           (range n).

(** The frames of the batches, concatenated; [pd.concat] raises [ValueError]
    when there is no frame. *)
Definition generate_batch_loans (customers_df : list Customer.t)
    (branches_df : option (list string)) (batch_size total : Z) : Gen.t (list Loan.t) :=
  if batch_size =? 0 then raise ZeroDivisionError
  else
    let batches := total / batch_size + (if total mod batch_size =? 0 then 0 else 1) in
    if batches <=? 0 then raise ValueError
    else
      for_each (fun i => generate_loans customers_df branches_df
                           (Z.min batch_size (total - i * batch_size)))
               (range batches).

End Definitions.
End LoanGenerator.

(* ================================================================== *)
(** * [transaction_generator.py] *)

Module TransactionGenerator.
Section Definitions.
Context `{Runtime}.
Local Open Scope string_scope.
Local Open Scope Z_scope.

Definition __init__ (seed : Z) : Gen.t unit := seed_random seed.

Definition transaction_modes : list (string * Q) :=
  [("NEFT", 0.35%Q); ("UPI", 0.30%Q); ("RTGS", 0.10%Q);
   ("Cheque", 0.15%Q); ("Cash", 0.08%Q); ("DD", 0.02%Q)]%list.

Definition banks : list string :=
  ["State Bank of India"; "HDFC Bank"; "ICICI Bank"; "Axis Bank";
   "Kotak Mahindra Bank"; "Yes Bank"; "IDFC First Bank"; "IndusInd Bank";
   "Bank of Baroda"; "Punjab National Bank"; "Canara Bank"; "Union Bank"]%list.

Definition failure_reasons : list string :=
  ["Insufficient funds"; "Invalid account number"; "Technical error";
   "Bank server timeout"; "Transaction limit exceeded";
   "Account blocked"; "Invalid IFSC code"; "Duplicate transaction"]%list.

Definition generate_transaction_id : Gen.t string :=
  now <- datetime_now ;;
  u <- uuid4_hex ;;
  ret ("TXN" ++ Time.strftime_yymmdd now ++ Str.upper (substring 0 8 u)).

(** The dict [calculate_emi_components] returns. *)
Record components : Type := mkComponents {
  principal : Q;
  interest : Q;
  penalty : Q;
  gst : Q
}.

Definition calculate_emi_components (amount interest_rate outstanding : Q)
    (days_past_due : Z) : components :=
  let monthly_rate := (interest_rate / 12 / 100)%Q in
  let interest_component :=
    if Qltb 0 monthly_rate then (outstanding * monthly_rate)%Q else 0%Q in
  let principal_component :=
    if Qltb 0 monthly_rate then (amount - interest_component)%Q else amount in
  let penalty_component :=
    if 0 <? days_past_due
    then (amount * 0.02 * (inject_Z days_past_due / 30))%Q
    else 0%Q in
  let gst_component := (penalty_component * 0.18)%Q in
  mkComponents (py_round_to 2 principal_component)
               (py_round_to 2 interest_component)
               (py_round_to 2 penalty_component)
               (py_round_to 2 gst_component).

(** [a or b] on numbers, [a] possibly [None]. *)
Definition or_number (a : option Q) (b : Q) : Q :=
  match a with
  | Some x => if truthy x then x else b
  | None => b
  end.

(** Lines 93-116. *)
Definition disbursement_transaction (loan : Loan.t) (disbursement_date : Z)
  : Gen.t Txn.t :=
  id <- generate_transaction_id ;;
  mode <- choices (map fst transaction_modes) (map snd transaction_modes) ;;
  ref <- randint 1000 9999 ;;
  bank <- choice banks ;;
  last4 <- randint 1000 9999 ;;
  ret {|
    Txn.transaction_id := id;
    Txn.loan_id := Loan.loan_id loan;
    Txn.customer_id := Loan.customer_id loan;
    Txn.transaction_date := disbursement_date;
    Txn.transaction_type := "Disbursement";
    Txn.transaction_mode := mode;
    Txn.amount := or_number (Loan.net_disbursed_amount loan) (Loan.loan_amount loan);
    Txn.principal_component := None;
    Txn.interest_component := None;
    Txn.penalty_component := None;
    Txn.gst_component := None;
    Txn.payment_reference := "REF" ++ Time.strftime_yymmdd disbursement_date ++ Str.str ref;
    Txn.bank_name := bank;
    Txn.bank_account_last4 := Str.str last4;
    Txn.transaction_status := "Success";
    Txn.failure_reason := None;
    Txn.reconciliation_status := "Matched";
    Txn.reconciled_date := Some (Time.add_days disbursement_date 1)
  |}.

(** One iteration of the EMI loop, lines 121-164: the rows it appends. *)
Definition emi_step (loan : Loan.t) (end_date total_emis : Z) (month : Z)
  : Gen.t (list Txn.t) :=
  first_emi_date <- number (option_map Time.datetime_of_date (Loan.first_emi_date loan)) ;;
  let emi_date := Time.add_days first_emi_date (30 * (month - 1)) in
  if end_date <? emi_date then ret []%list
  else
    let success_prob : Q :=
      if (0 <? Loan.days_past_due loan) && (total_emis - 2 <? month)
      then 0.7%Q else 0.95%Q in
    u <- random ;;
    let is_success := Qltb u success_prob in
    interest_rate <- number (Loan.interest_rate loan) ;;
    emi_amount <- number (Loan.emi_amount loan) ;;
    let comp :=
      calculate_emi_components emi_amount interest_rate
        (Loan.current_balance loan
         * float_pow 0.9 (inject_Z month / inject_Z total_emis))%Q
        (if month =? total_emis then Loan.days_past_due loan else 0) in
    id <- generate_transaction_id ;;
    mode <- choices (map fst transaction_modes) (map snd transaction_modes) ;;
    ref <- randint 1000 9999 ;;
    bank <- choice banks ;;
    last4 <- randint 1000 9999 ;;
    status <- (if is_success then ret "Success" else choice ["Failed"; "Pending"]%list) ;;
    reason <- (if negb is_success then r <- choice failure_reasons ;; ret (Some r)
               else ret None) ;;
    ret [{|
      Txn.transaction_id := id;
      Txn.loan_id := Loan.loan_id loan;
      Txn.customer_id := Loan.customer_id loan;
      Txn.transaction_date := emi_date;
      Txn.transaction_type := "EMI";
      Txn.transaction_mode := mode;
      Txn.amount := emi_amount;
      Txn.principal_component := Some (principal comp);
      Txn.interest_component := Some (interest comp);
      Txn.penalty_component :=
        Some (if 0 <? Loan.days_past_due loan then penalty comp else 0%Q);
      Txn.gst_component :=
        Some (if 0 <? Loan.days_past_due loan then gst comp else 0%Q);
      Txn.payment_reference := "EMI" ++ Time.strftime_yymmdd emi_date ++ Str.str ref;
      Txn.bank_name := bank;
      Txn.bank_account_last4 := Str.str last4;
      Txn.transaction_status := status;
      Txn.failure_reason := reason;
      Txn.reconciliation_status := if is_success then "Matched" else "Unmatched";
      Txn.reconciled_date := if is_success then Some (Time.add_days emi_date 1) else None
    |}]%list.

(** Lines 166-190. *)
Definition prepayment (loan : Loan.t) (end_date : Z) : Gen.t (list Txn.t) :=
  u <- random ;;
  if Qltb u 0.2 && String.eqb (Loan.loan_status loan) "Active" then
    f <- uniform 0.2 0.5 ;;
    let prepayment_amount := (Loan.current_balance loan * f)%Q in
    k <- randint 1 30 ;;
    let prepayment_date := Time.add_days end_date (- k) in
    id <- generate_transaction_id ;;
    mode <- choices ["NEFT"; "RTGS"; "UPI"]%list [0.5%Q; 0.3%Q; 0.2%Q]%list ;;
    ref <- randint 1000 9999 ;;
    bank <- choice banks ;;
    last4 <- randint 1000 9999 ;;
    ret [{|
      Txn.transaction_id := id;
      Txn.loan_id := Loan.loan_id loan;
      Txn.customer_id := Loan.customer_id loan;
      Txn.transaction_date := prepayment_date;
      Txn.transaction_type := "Prepayment";
      Txn.transaction_mode := mode;
      Txn.amount := py_round_to 2 prepayment_amount;
      Txn.principal_component := Some (py_round_to 2 prepayment_amount);
      Txn.interest_component := Some 0%Q;
      Txn.penalty_component := Some 0%Q;
      Txn.gst_component := Some 0%Q;
      Txn.payment_reference := "PRE" ++ Time.strftime_yymmdd prepayment_date ++ Str.str ref;
      Txn.bank_name := bank;
      Txn.bank_account_last4 := Str.str last4;
      Txn.transaction_status := "Success";
      Txn.failure_reason := None;
      Txn.reconciliation_status := "Matched";
      Txn.reconciled_date := Some (Time.add_days prepayment_date 1)
    |}]%list
  else ret []%list.

(** [range(1, n + 1)] *)
Definition range1 (n : Z) : list Z := map Z.of_nat (List.seq 1 (Z.to_nat n)).

Definition generate_transactions_for_loan (loan : Loan.t) (customer : Customer.t)
  : Gen.t (list Txn.t) :=
  match Loan.disbursement_date loan with
  | None => ret []%list
  | Some d =>
      if String.eqb (Loan.loan_status loan) "Rejected" then ret []%list
      else
        let disbursement_date := Time.datetime_of_date d in
        end_date <- datetime_now ;;
        disbursement_txn <- disbursement_transaction loan disbursement_date ;;
        let months_since_disbursement := Time.delta_days end_date disbursement_date / 30 in
        let total_emis :=
          Z.min months_since_disbursement
                (match Loan.tenure_months loan with Some m => m | None => 0 end) in
        emis <- for_each (emi_step loan end_date total_emis) (range1 total_emis) ;;
        pre <- prepayment loan end_date ;;
        ret (disbursement_txn :: emis ++ pre)%list
  end.

Definition find_customer (customers_df : list Customer.t) (id : string)
  : option Customer.t :=
  find (fun c => String.eqb (Customer.customer_id c) id) customers_df.

Fixpoint unique (ids : list string) : bool :=
  match ids with
  | [] => true
  | x :: rest => negb (Str.mem x rest) && unique rest
  end%list.

(** The loop of [generate_transactions], lines 209-222, with its [break]. *)
Fixpoint transactions_loop (customers_df : list Customer.t) (target : Z)
    (active_loans : list Loan.t) (total_transactions : Z) : Gen.t (list Txn.t) :=
  match active_loans with
  | [] => ret []
  | loan :: rest =>
      match find_customer customers_df (Loan.customer_id loan) with
      | None => transactions_loop customers_df target rest total_transactions
      | Some customer =>
          loan_transactions <- generate_transactions_for_loan loan customer ;;
          let total := total_transactions + Z.of_nat (List.length loan_transactions) in
          if target <=? total then ret loan_transactions
          else
            more <- transactions_loop customers_df target rest total ;;
            ret (loan_transactions ++ more)
      end
  end%list.

Definition generate_transactions (loans_df : list Loan.t)
    (customers_df : list Customer.t) (n : Z) : Gen.t (list Txn.t) :=
  let active_loans :=
    filter (fun l => Str.mem (Loan.loan_status l) ["Active"; "Overdue"; "NPA"]%list
                     && match Loan.disbursement_date l with Some _ => true | None => false end)
           loans_df in
  if negb (unique (map Customer.customer_id customers_df)) then raise ValueError
  else transactions_loop customers_df n active_loans 0.

Definition generate_batch_transactions (loans_df : list Loan.t)
    (customers_df : list Customer.t) (total : Z) : Gen.t (list Txn.t) :=
  generate_transactions loans_df customers_df total.

End Definitions.
End TransactionGenerator.

(* ================================================================== *)
(** * [fraud_scenario_generator.py] *)

Module FraudGenerator.
Section Definitions.
Context `{Runtime}.
Local Open Scope string_scope.
Local Open Scope Z_scope.

Definition __init__ (seed : Z) : Gen.t unit := seed_random seed.

Definition alert_categories : list (string * string) := [
  ("Income Mismatch", "Application Fraud");
  ("Multiple Applications Same Collateral", "Application Fraud");
  ("Synthetic Identity", "Identity Fraud");
  ("Shell Company", "Business Fraud");
  ("Early Payment Default", "Transaction Fraud");
  ("Identity Theft", "Identity Fraud");
  ("Stolen Documents", "Identity Fraud");
  ("Fake Employment", "Application Fraud")
]%list.

Definition detection_methods : list (string * string) := [
  ("Income Mismatch", "Rule-based");
  ("Multiple Applications Same Collateral", "Network Analysis");
  ("Synthetic Identity", "Anomaly Detection");
  ("Shell Company", "External Data Verification");
  ("Early Payment Default", "Behavioral Analysis");
  ("Identity Theft", "Document Verification");
  ("Stolen Documents", "Document Verification");
  ("Fake Employment", "Employment Verification")
]%list.

Definition investigation_status : list (string * Q) :=
  [("New", 0.30%Q); ("In Progress", 0.25%Q); ("Confirmed", 0.30%Q);
   ("False Positive", 0.15%Q)]%list.

Definition rule_triggers : list (string * list string) := [
  ("Income Mismatch",
   ["Annual income exceeds declared by >50%";
    "Credit score vs income mismatch";
    "Employment type incompatible with income level"]);
  ("Multiple Applications Same Collateral",
   ["Same collateral used for multiple loans";
    "Collateral value inflated across applications";
    "Same property multiple valuations"]);
  ("Synthetic Identity",
   ["No credit history for age>25";
    "Inconsistent address history";
    "Phone number associated with multiple identities"]);
  ("Shell Company",
   ["Company registered recently";
    "No physical address verification";
    "GST verification failed"]);
  ("Early Payment Default",
   ["Default within first 3 months";
    "No payments made since disbursement";
    "Immediate delinquency pattern"]);
  ("Identity Theft",
   ["Multiple applications with same PAN";
    "Address mismatch across applications";
    "Unusual application timing"])
]%list.

Definition generate_fraud_alert_id : Gen.t string :=
  u <- uuid4_hex ;; ret ("FRD" ++ Str.upper (substring 0 10 u)).

Definition fraud_type_weights : list (string * Z) := [
  ("Income Mismatch", 60);
  ("Multiple Applications Same Collateral", 75);
  ("Synthetic Identity", 85);
  ("Shell Company", 80);
  ("Early Payment Default", 55);
  ("Identity Theft", 90);
  ("Stolen Documents", 85);
  ("Fake Employment", 70)
]%list.

(** The score before the noise and the clamp, lines 118-142. *)
Definition base_risk_score (fraud_type : string) (loan_amount : Q)
    (credit_score days_past_due : Z) : Z :=
  let base_score :=
    match assoc fraud_type_weights fraud_type with Some s => s | None => 50 end in
  let base_score :=
    if Qltb 10000000 loan_amount then base_score + 15
    else if Qltb 5000000 loan_amount then base_score + 10
    else if Qltb 1000000 loan_amount then base_score + 5
    else base_score in
  let base_score :=
    if credit_score <? 550 then base_score + 15
    else if credit_score <? 650 then base_score + 10
    else if credit_score <? 750 then base_score + 5
    else base_score in
  if 90 <? days_past_due then base_score + 20
  else if 60 <? days_past_due then base_score + 15
  else if 30 <? days_past_due then base_score + 10
  else base_score.

Definition calculate_risk_score (fraud_type : string) (loan_amount : Q)
    (credit_score days_past_due : Z) : Gen.t (Z * string) :=
  let base_score := base_risk_score fraud_type loan_amount credit_score days_past_due in
  noise <- randint (-10) 10 ;;
  let risk_score := Z.min 100 (Z.max 1 (base_score + noise)) in
  let risk_level :=
    if 80 <=? risk_score then "Critical"
    else if 60 <=? risk_score then "High"
    else if 40 <=? risk_score then "Medium"
    else "Low" in
  ret (risk_score, risk_level).

Definition impact_percentages : list (string * Q) := [
  ("Income Mismatch", 0.30%Q);
  ("Multiple Applications Same Collateral", 0.60%Q);
  ("Synthetic Identity", 0.80%Q);
  ("Shell Company", 0.70%Q);
  ("Early Payment Default", 0.40%Q);
  ("Identity Theft", 0.50%Q);
  ("Stolen Documents", 0.45%Q);
  ("Fake Employment", 0.35%Q)
]%list.

Definition generate_financial_impact (fraud_type : string) (loan_amount : Q) : Gen.t Q :=
  let impact_pct :=
    match assoc impact_percentages fraud_type with Some p => p | None => 0.50%Q end in
  u <- uniform 0.8 1.2 ;;
  ret (py_round_to 2 (loan_amount * impact_pct * u)).

(** ** Income mismatch *)

(** A row of [loans_df.merge(customers_df[...], on='customer_id', how='left')]:
    the loan with the income and the score of a customer of that id, or with
    none. *)
Definition merged_row : Type := (Loan.t * option (Q * Z))%type.

Definition merge_left (loans_df : list Loan.t) (customers_df : list Customer.t)
  : list merged_row :=
  flat_map
    (fun loan =>
       match filter (fun c => String.eqb (Customer.customer_id c) (Loan.customer_id loan))
                    customers_df with
       | [] => [(loan, None)]
       | cs => map (fun c => (loan, Some (Customer.annual_income c, Customer.credit_score c))) cs
       end%list)
    loans_df.

Definition income_mismatch_alert (customers_df : list Customer.t) (loan : Loan.t)
  : Gen.t (list Alert.t) :=
  u <- random ;;
  if Qltb u 0.15 then
    match filter (fun c => String.eqb (Customer.customer_id c) (Loan.customer_id loan))
                 customers_df with
    | [] => raise IndexError
    | customer :: _ =>
        '(risk_score, risk_level) <-
           calculate_risk_score "Income Mismatch" (Loan.loan_amount loan)
             (Customer.credit_score customer) (Loan.days_past_due loan) ;;
        id <- generate_fraud_alert_id ;;
        now <- datetime_now ;;
        k <- randint 1 30 ;;
        category <- getitem alert_categories "Income Mismatch" ;;
        method <- getitem detection_methods "Income Mismatch" ;;
        rules <- getitem rule_triggers "Income Mismatch" ;;
        rule <- choice rules ;;
        analyst <- randint 1 20 ;;
        status <- choices (map fst investigation_status) (map snd investigation_status) ;;
        impact <- generate_financial_impact "Income Mismatch" (Loan.loan_amount loan) ;;
        ret [{|
          Alert.alert_id := id;
          Alert.loan_id := Some (Loan.loan_id loan);
          Alert.customer_id := Loan.customer_id loan;
          Alert.transaction_id := None;
          Alert.detection_date := Time.AtTime (Time.add_days now (- k));
          Alert.alert_type := "Income Mismatch";
          Alert.alert_category := category;
          Alert.risk_score := risk_score;
          Alert.risk_level := risk_level;
          Alert.detection_method := method;
          Alert.rule_triggered := rule;
          Alert.alert_description :=
            "Income of " ++ Str.rupee
            ++ Str.format_comma_0f (Customer.annual_income customer)
            ++ " incompatible with loan amount of " ++ Str.rupee
            ++ Str.format_comma_0f (Loan.loan_amount loan)
            ++ " and credit score of " ++ Str.str (Customer.credit_score customer);
          Alert.assigned_to := "ANALYST" ++ Str.zfill 2 (Str.str analyst);
          Alert.investigation_status := status;
          Alert.investigation_notes := None;
          Alert.resolution_date := None;
          Alert.financial_impact := impact
        |}]%list
    end
  else ret []%list.

(** The ids of the customers with a score under 600 and an income under
    800,000. *)
Definition high_risk_customers (customers_df : list Customer.t) : list string :=
  map Customer.customer_id
      (filter (fun c => (Customer.credit_score c <? 600)
                        && Qltb (Customer.annual_income c) 800000)
              customers_df).

(** The candidates of the income mismatch scenario, lines 193-197. *)
Definition suspicious_loans (loans_df : list Loan.t) (customers_df : list Customer.t)
  : list merged_row :=
  filter (fun row : merged_row =>
            Str.mem (Loan.customer_id (fst row)) (high_risk_customers customers_df)
            && match snd row with
               | Some (annual_income, _) =>
                   Qltb (annual_income * 3)%Q (Loan.loan_amount (fst row))
               | None => false
               end
            && Str.mem (Loan.loan_status (fst row)) ["Active"; "Overdue"]%list)
         (merge_left loans_df customers_df).

Definition generate_fraud_scenario_income_mismatch (loans_df : list Loan.t)
    (customers_df : list Customer.t) : Gen.t (list Alert.t) :=
  for_each (fun row : merged_row => income_mismatch_alert customers_df (fst row))
           (suspicious_loans loans_df customers_df).

(** ** Shared collateral *)

Fixpoint insert_sorted (k : string) (ks : list string) : list string :=
  match ks with
  | [] => [k]
  | k' :: rest => if String.leb k k' then k :: ks else k' :: insert_sorted k rest
  end%list.

(** The keys of [groupby]: distinct, in increasing order. *)
Definition group_keys (ks : list string) : list string :=
  fold_right insert_sorted []%list (nodup string_dec ks).

(** [df.groupby('collateral_id')] on the rows whose [collateral_id] is not
    null: each key with its rows, in the order of the frame. *)
Definition groupby_collateral (loans_df : list Loan.t) : list (string * list Loan.t) :=
  let keyed :=
    flat_map (fun l => match Loan.collateral_id l with
                       | Some k => [(k, l)]
                       | None => []
                       end%list) loans_df in
  map (fun k => (k, map snd (filter (fun kl => String.eqb (fst kl) k) keyed)))
      (group_keys (map fst keyed)).

Definition collateral_alert (collateral_id : string) (group_len unique_customers : Z)
    (total_amount : Q) (loan : Loan.t) : Gen.t (list Alert.t) :=
  '(risk_score, risk_level) <-
     calculate_risk_score "Multiple Applications Same Collateral"
       (Loan.loan_amount loan) 650 (Loan.days_past_due loan) ;;
  id <- generate_fraud_alert_id ;;
  now <- datetime_now ;;
  k <- randint 1 15 ;;
  category <- getitem alert_categories "Multiple Applications Same Collateral" ;;
  method <- getitem detection_methods "Multiple Applications Same Collateral" ;;
  rules <- getitem rule_triggers "Multiple Applications Same Collateral" ;;
  rule <- choice rules ;;
  analyst <- randint 1 20 ;;
  status <- choices ["In Progress"; "Confirmed"; "False Positive"]%list
                    [0.4%Q; 0.4%Q; 0.2%Q]%list ;;
  impact <- generate_financial_impact "Multiple Applications Same Collateral" total_amount ;;
  ret [{|
    Alert.alert_id := id;
    Alert.loan_id := Some (Loan.loan_id loan);
    Alert.customer_id := Loan.customer_id loan;
    Alert.transaction_id := None;
    Alert.detection_date := Time.AtTime (Time.add_days now (- k));
    Alert.alert_type := "Multiple Applications Same Collateral";
    Alert.alert_category := category;
    Alert.risk_score := risk_score + 10;
    Alert.risk_level := if 70 <? risk_score then "High" else risk_level;
    Alert.detection_method := method;
    Alert.rule_triggered := rule;
    Alert.alert_description :=
      "Collateral " ++ collateral_id ++ " used for " ++ Str.str group_len
      ++ " applications by " ++ Str.str unique_customers ++ " different customers";
    Alert.assigned_to := "ANALYST" ++ Str.zfill 2 (Str.str analyst);
    Alert.investigation_status := status;
    Alert.investigation_notes := None;
    Alert.resolution_date := None;
    Alert.financial_impact := impact
  |}]%list.

Definition collateral_group (kg : string * list Loan.t) : Gen.t (list Alert.t) :=
  let '(collateral_id, group) := kg in
  let group_len := Z.of_nat (List.length group) in
  if 2 <=? group_len then
    u <- random ;;
    if Qltb u 0.3 then
      let unique_customers :=
        Z.of_nat (List.length (nodup string_dec (map Loan.customer_id group))) in
      if 2 <=? unique_customers then
        let total_amount := fold_left Qplus (map Loan.loan_amount group) 0%Q in
        for_each (collateral_alert collateral_id group_len unique_customers total_amount)
                 group
      else ret []%list
    else ret []%list
  else ret []%list.

Definition generate_fraud_scenario_collateral_fraud (loans_df : list Loan.t)
  : Gen.t (list Alert.t) :=
  for_each collateral_group (groupby_collateral loans_df).

(** ** Early default *)

Definition early_default_alert (loan : Loan.t) : Gen.t (list Alert.t) :=
  u <- random ;;
  if Qltb u 0.25 then
    '(risk_score, risk_level) <-
       calculate_risk_score "Early Payment Default" (Loan.loan_amount loan)
         (if Loan.bureau_score_at_origination loan =? 0 then 650
          else Loan.bureau_score_at_origination loan)
         (Loan.days_past_due loan) ;;
    id <- generate_fraud_alert_id ;;
    now <- datetime_now ;;
    k <- randint 1 7 ;;
    category <- getitem alert_categories "Early Payment Default" ;;
    method <- getitem detection_methods "Early Payment Default" ;;
    rules <- getitem rule_triggers "Early Payment Default" ;;
    rule <- choice rules ;;
    collector <- randint 1 30 ;;
    status <- choices ["New"; "In Progress"; "Confirmed"]%list
                      [0.5%Q; 0.3%Q; 0.2%Q]%list ;;
    impact <- generate_financial_impact "Early Payment Default" (Loan.loan_amount loan) ;;
    ret [{|
      Alert.alert_id := id;
      Alert.loan_id := Some (Loan.loan_id loan);
      Alert.customer_id := Loan.customer_id loan;
      Alert.transaction_id := None;
      Alert.detection_date := Time.OnDate (Time.date_of now - k);
      Alert.alert_type := "Early Payment Default";
      Alert.alert_category := category;
      Alert.risk_score := risk_score;
      Alert.risk_level := risk_level;
      Alert.detection_method := method;
      Alert.rule_triggered := rule;
      Alert.alert_description :=
        "Loan defaulted within first 3 months. DPD: "
        ++ Str.str (Loan.days_past_due loan) ++ " days";
      Alert.assigned_to := "COLLECT" ++ Str.zfill 2 (Str.str collector);
      Alert.investigation_status := status;
      Alert.investigation_notes := None;
      Alert.resolution_date := None;
      Alert.financial_impact := impact
    |}]%list
  else ret []%list.

Definition generate_fraud_scenario_early_default (loans_df : list Loan.t)
  : Gen.t (list Alert.t) :=
  now <- datetime_now ;;
  let three_months_ago := Time.date_of (Time.add_days now (- 90)) in
  let early_default_loans :=
    filter (fun l =>
              match Loan.disbursement_date l with
              | Some d => three_months_ago <=? d
              | None => false
              end
              && (30 <? Loan.days_past_due l)
              && Str.mem (Loan.loan_status l) ["Overdue"; "NPA"]%list)
           loans_df in
  for_each early_default_alert early_default_loans.

(** ** Synthetic identity *)

Definition synthetic_id_alert (customer : Customer.t) : Gen.t (list Alert.t) :=
  u <- random ;;
  if Qltb u 0.10 then
    id <- generate_fraud_alert_id ;;
    now <- datetime_now ;;
    k <- randint 1 20 ;;
    category <- getitem alert_categories "Synthetic Identity" ;;
    risk_score <- randint 75 95 ;;
    method <- getitem detection_methods "Synthetic Identity" ;;
    rules <- getitem rule_triggers "Synthetic Identity" ;;
    rule <- choice rules ;;
    analyst <- randint 1 20 ;;
    status <- choices ["New"; "In Progress"]%list [0.6%Q; 0.4%Q]%list ;;
    ret [{|
      Alert.alert_id := id;
      Alert.loan_id := None;
      Alert.customer_id := Customer.customer_id customer;
      Alert.transaction_id := None;
      Alert.detection_date := Time.OnDate (Time.date_of now - k);
      Alert.alert_type := "Synthetic Identity";
      Alert.alert_category := category;
      Alert.risk_score := risk_score;
      Alert.risk_level := "High";
      Alert.detection_method := method;
      Alert.rule_triggered := rule;
      Alert.alert_description :=
        "Customer age " ++ Str.str (Customer.age customer)
        ++ " with credit score " ++ Str.str (Customer.credit_score customer)
        ++ " and no credit history";
      Alert.assigned_to := "ANALYST" ++ Str.zfill 2 (Str.str analyst);
      Alert.investigation_status := status;
      Alert.investigation_notes := None;
      Alert.resolution_date := None;
      Alert.financial_impact := 0
    |}]%list
  else ret []%list.

Definition generate_fraud_scenario_synthetic_id (customers_df : list Customer.t)
  : Gen.t (list Alert.t) :=
  now <- datetime_now ;;
  let cutoff_date := Time.date_of (Time.add_days now (- 180)) in
  let synthetic_candidates :=
    filter (fun c => (Customer.credit_score c <? 550)
                     && (25 <? Customer.age c)
                     && (cutoff_date <? Customer.acquisition_date c))
           customers_df in
  for_each synthetic_id_alert synthetic_candidates.
(** ** The writes of [generate_all_fraud_scenarios] *)

(** [df.loc[row, 'investigation_notes'] = v] *)
Definition set_investigation_notes (r : Alert.t) (v : option string) : Alert.t :=
  {|
    Alert.alert_id := Alert.alert_id r;
    Alert.loan_id := Alert.loan_id r;
    Alert.customer_id := Alert.customer_id r;
    Alert.transaction_id := Alert.transaction_id r;
    Alert.detection_date := Alert.detection_date r;
    Alert.alert_type := Alert.alert_type r;
    Alert.alert_category := Alert.alert_category r;
    Alert.risk_score := Alert.risk_score r;
    Alert.risk_level := Alert.risk_level r;
    Alert.detection_method := Alert.detection_method r;
    Alert.rule_triggered := Alert.rule_triggered r;
    Alert.alert_description := Alert.alert_description r;
    Alert.assigned_to := Alert.assigned_to r;
    Alert.investigation_status := Alert.investigation_status r;
    Alert.investigation_notes := v;
    Alert.resolution_date := Alert.resolution_date r;
    Alert.financial_impact := Alert.financial_impact r
  |}.

(** [df.loc[row, 'resolution_date'] = v] *)
Definition set_resolution_date (r : Alert.t) (v : option Z) : Alert.t :=
  {|
    Alert.alert_id := Alert.alert_id r;
    Alert.loan_id := Alert.loan_id r;
    Alert.customer_id := Alert.customer_id r;
    Alert.transaction_id := Alert.transaction_id r;
    Alert.detection_date := Alert.detection_date r;
    Alert.alert_type := Alert.alert_type r;
    Alert.alert_category := Alert.alert_category r;
    Alert.risk_score := Alert.risk_score r;
    Alert.risk_level := Alert.risk_level r;
    Alert.detection_method := Alert.detection_method r;
    Alert.rule_triggered := Alert.rule_triggered r;
    Alert.alert_description := Alert.alert_description r;
    Alert.assigned_to := Alert.assigned_to r;
    Alert.investigation_status := Alert.investigation_status r;
    Alert.investigation_notes := Alert.investigation_notes r;
    Alert.resolution_date := v;
    Alert.financial_impact := Alert.financial_impact r
  |}.

(** [loans_df.loc[row, 'fraud_flag'] = v] *)
Definition set_fraud_flag (r : Loan.t) (v : bool) : Loan.t :=
  {|
    Loan.loan_id := Loan.loan_id r;
    Loan.customer_id := Loan.customer_id r;
    Loan.product_id := Loan.product_id r;
    Loan.branch_id := Loan.branch_id r;
    Loan.application_date := Loan.application_date r;
    Loan.disbursement_date := Loan.disbursement_date r;
    Loan.first_emi_date := Loan.first_emi_date r;
    Loan.loan_amount := Loan.loan_amount r;
    Loan.sanctioned_amount := Loan.sanctioned_amount r;
    Loan.interest_rate := Loan.interest_rate r;
    Loan.tenure_months := Loan.tenure_months r;
    Loan.emi_amount := Loan.emi_amount r;
    Loan.processing_fee := Loan.processing_fee r;
    Loan.gst_on_fee := Loan.gst_on_fee r;
    Loan.net_disbursed_amount := Loan.net_disbursed_amount r;
    Loan.loan_purpose := Loan.loan_purpose r;
    Loan.collateral_id := Loan.collateral_id r;
    Loan.collateral_value := Loan.collateral_value r;
    Loan.loan_to_value_ratio := Loan.loan_to_value_ratio r;
    Loan.co_applicant_present := Loan.co_applicant_present r;
    Loan.co_applicant_income := Loan.co_applicant_income r;
    Loan.bureau_score_at_origination := Loan.bureau_score_at_origination r;
    Loan.internal_risk_rating := Loan.internal_risk_rating r;
    Loan.probability_of_default := Loan.probability_of_default r;
    Loan.loss_given_default := Loan.loss_given_default r;
    Loan.exposure_at_default := Loan.exposure_at_default r;
    Loan.expected_loss := Loan.expected_loss r;
    Loan.current_balance := Loan.current_balance r;
    Loan.overdue_amount := Loan.overdue_amount r;
    Loan.days_past_due := Loan.days_past_due r;
    Loan.dpd_bucket := Loan.dpd_bucket r;
    Loan.npa_flag := Loan.npa_flag r;
    Loan.npa_date := Loan.npa_date r;
    Loan.restructuring_flag := Loan.restructuring_flag r;
    Loan.written_off_flag := Loan.written_off_flag r;
    Loan.loan_status := Loan.loan_status r;
    Loan.collection_tier := Loan.collection_tier r;
    Loan.assigned_collection_agent := Loan.assigned_collection_agent r;
    Loan.fraud_flag := v;
    Loan.fraud_type := Loan.fraud_type r;
    Loan.fraud_detection_date := Loan.fraud_detection_date r
  |}.

(** [loans_df.loc[row, 'fraud_type'] = v] *)
Definition set_fraud_type (r : Loan.t) (v : option string) : Loan.t :=
  {|
    Loan.loan_id := Loan.loan_id r;
    Loan.customer_id := Loan.customer_id r;
    Loan.product_id := Loan.product_id r;
    Loan.branch_id := Loan.branch_id r;
    Loan.application_date := Loan.application_date r;
    Loan.disbursement_date := Loan.disbursement_date r;
    Loan.first_emi_date := Loan.first_emi_date r;
    Loan.loan_amount := Loan.loan_amount r;
    Loan.sanctioned_amount := Loan.sanctioned_amount r;
    Loan.interest_rate := Loan.interest_rate r;
    Loan.tenure_months := Loan.tenure_months r;
    Loan.emi_amount := Loan.emi_amount r;
    Loan.processing_fee := Loan.processing_fee r;
    Loan.gst_on_fee := Loan.gst_on_fee r;
    Loan.net_disbursed_amount := Loan.net_disbursed_amount r;
    Loan.loan_purpose := Loan.loan_purpose r;
    Loan.collateral_id := Loan.collateral_id r;
    Loan.collateral_value := Loan.collateral_value r;
    Loan.loan_to_value_ratio := Loan.loan_to_value_ratio r;
    Loan.co_applicant_present := Loan.co_applicant_present r;
    Loan.co_applicant_income := Loan.co_applicant_income r;
    Loan.bureau_score_at_origination := Loan.bureau_score_at_origination r;
    Loan.internal_risk_rating := Loan.internal_risk_rating r;
    Loan.probability_of_default := Loan.probability_of_default r;
    Loan.loss_given_default := Loan.loss_given_default r;
    Loan.exposure_at_default := Loan.exposure_at_default r;
    Loan.expected_loss := Loan.expected_loss r;
    Loan.current_balance := Loan.current_balance r;
    Loan.overdue_amount := Loan.overdue_amount r;
    Loan.days_past_due := Loan.days_past_due r;
    Loan.dpd_bucket := Loan.dpd_bucket r;
    Loan.npa_flag := Loan.npa_flag r;
    Loan.npa_date := Loan.npa_date r;
    Loan.restructuring_flag := Loan.restructuring_flag r;
    Loan.written_off_flag := Loan.written_off_flag r;
    Loan.loan_status := Loan.loan_status r;
    Loan.collection_tier := Loan.collection_tier r;
    Loan.assigned_collection_agent := Loan.assigned_collection_agent r;
    Loan.fraud_flag := Loan.fraud_flag r;
    Loan.fraud_type := v;
    Loan.fraud_detection_date := Loan.fraud_detection_date r
  |}.

(** [loans_df.loc[row, 'fraud_detection_date'] = v] *)
Definition set_fraud_detection_date (r : Loan.t) (v : option Time.stamp) : Loan.t :=
  {|
    Loan.loan_id := Loan.loan_id r;
    Loan.customer_id := Loan.customer_id r;
    Loan.product_id := Loan.product_id r;
    Loan.branch_id := Loan.branch_id r;
    Loan.application_date := Loan.application_date r;
    Loan.disbursement_date := Loan.disbursement_date r;
    Loan.first_emi_date := Loan.first_emi_date r;
    Loan.loan_amount := Loan.loan_amount r;
    Loan.sanctioned_amount := Loan.sanctioned_amount r;
    Loan.interest_rate := Loan.interest_rate r;
    Loan.tenure_months := Loan.tenure_months r;
    Loan.emi_amount := Loan.emi_amount r;
    Loan.processing_fee := Loan.processing_fee r;
    Loan.gst_on_fee := Loan.gst_on_fee r;
    Loan.net_disbursed_amount := Loan.net_disbursed_amount r;
    Loan.loan_purpose := Loan.loan_purpose r;
    Loan.collateral_id := Loan.collateral_id r;
    Loan.collateral_value := Loan.collateral_value r;
    Loan.loan_to_value_ratio := Loan.loan_to_value_ratio r;
    Loan.co_applicant_present := Loan.co_applicant_present r;
    Loan.co_applicant_income := Loan.co_applicant_income r;
    Loan.bureau_score_at_origination := Loan.bureau_score_at_origination r;
    Loan.internal_risk_rating := Loan.internal_risk_rating r;
    Loan.probability_of_default := Loan.probability_of_default r;
    Loan.loss_given_default := Loan.loss_given_default r;
    Loan.exposure_at_default := Loan.exposure_at_default r;
    Loan.expected_loss := Loan.expected_loss r;
    Loan.current_balance := Loan.current_balance r;
    Loan.overdue_amount := Loan.overdue_amount r;
    Loan.days_past_due := Loan.days_past_due r;
    Loan.dpd_bucket := Loan.dpd_bucket r;
    Loan.npa_flag := Loan.npa_flag r;
    Loan.npa_date := Loan.npa_date r;
    Loan.restructuring_flag := Loan.restructuring_flag r;
    Loan.written_off_flag := Loan.written_off_flag r;
    Loan.loan_status := Loan.loan_status r;
    Loan.collection_tier := Loan.collection_tier r;
    Loan.assigned_collection_agent := Loan.assigned_collection_agent r;
    Loan.fraud_flag := Loan.fraud_flag r;
    Loan.fraud_type := Loan.fraud_type r;
    Loan.fraud_detection_date := v
  |}.

Definition is_confirmed (a : Alert.t) : bool :=
  String.eqb (Alert.investigation_status a) "Confirmed".

(** [df.loc[confirmed_mask, column] = values]: the values go to the confirmed
    rows in order. *)
Fixpoint assign_confirmed {V} (set : Alert.t -> V -> Alert.t)
    (df : list Alert.t) (values : list V) : list Alert.t :=
  match df with
  | [] => []
  | a :: rest =>
      if is_confirmed a then
        match values with
        | v :: vs => set a v :: assign_confirmed set rest vs
        | [] => a :: assign_confirmed set rest []
        end
      else a :: assign_confirmed set rest values
  end%list.

(** Lines 396-406. *)
Definition resolve_confirmed (df : list Alert.t) : Gen.t (list Alert.t) :=
  match df with
  | [] => ret []%list
  | _ =>
      let confirmed := filter is_confirmed df in
      notes <- for_each
                 (fun _ : Alert.t =>
                    c <- choice ["Legal action initiated"; "Loan written off";
                                 "Recovery in progress"]%list ;;
                    ret [Some ("Fraud confirmed after investigation. " ++ c)%string]%list)
                 confirmed ;;
      let df := assign_confirmed set_investigation_notes df notes in
      dates <- for_each
                 (fun _ : Alert.t =>
                    now <- datetime_now ;;
                    k <- randint 1 30 ;;
                    ret [Some (Time.add_days now (- k))]%list)
                 confirmed ;;
      ret (assign_confirmed set_resolution_date df dates)
  end.

(** [df[df['loan_id'].notna()]['loan_id'].tolist()] *)
Definition fraud_loan_ids (df : list Alert.t) : list string :=
  flat_map (fun a => match Alert.loan_id a with Some id => [id] | None => [] end%list) df.

(** Lines 417-419: the writes for one alert. *)
Definition write_alert (loans_df : list Loan.t) (alert : Alert.t) : list Loan.t :=
  match Alert.loan_id alert with
  | None => loans_df
  | Some id =>
      map (fun l =>
             if String.eqb (Loan.loan_id l) id
             then set_fraud_detection_date
                    (set_fraud_type l (Some (Alert.alert_type alert)))
                    (Some (Alert.detection_date alert))
             else l)
          loans_df
  end.

(** Lines 412-419: the loan frame after the writes. *)
Definition backfill (df : list Alert.t) (loans_df : list Loan.t) : list Loan.t :=
  match df with
  | [] => loans_df
  | _ =>
      let ids := fraud_loan_ids df in
      let flagged :=
        map (fun l => if Str.mem (Loan.loan_id l) ids then set_fraud_flag l true else l)
            loans_df in
      fold_left write_alert df flagged
  end.

(** The frame of alerts returned, and [loans_df] as the call leaves it. *)
Definition generate_all_fraud_scenarios (loans_df : list Loan.t)
    (customers_df : list Customer.t) : Gen.t (list Alert.t * list Loan.t) :=
  a1 <- generate_fraud_scenario_income_mismatch loans_df customers_df ;;
  a2 <- generate_fraud_scenario_collateral_fraud loans_df ;;
  a3 <- generate_fraud_scenario_early_default loans_df ;;
  a4 <- generate_fraud_scenario_synthetic_id customers_df ;;
  df <- resolve_confirmed (a1 ++ a2 ++ a3 ++ a4)%list ;;
  ret (df, backfill df loans_df).

End Definitions.
End FraudGenerator.

(* ================================================================== *)
(** * [data_validator.py] *)

Module DataValidator.
Local Open Scope string_scope.
Local Open Scope Z_scope.

Definition risk_mapping : list (string * (Z * Z)) :=
  [("Critical", (80, 100)); ("High", (60, 79)); ("Medium", (40, 59)); ("Low", (1, 39))]%list.

(** Check 1 of [validate_fraud_alerts]: the rows counted in
    [invalid_risk_score]. *)
Definition invalid_risk_score (df : list Alert.t) : Z :=
  Z.of_nat (List.length
    (filter (fun a => (Alert.risk_score a <? 1) || (100 <? Alert.risk_score a)) df)).

(** Check 2: the rows counted in [inconsistent_risk_level]. *)
Definition inconsistent_risk_level (df : list Alert.t) : Z :=
  Z.of_nat (List.length
    (filter (fun a =>
               match assoc risk_mapping (Alert.risk_level a) with
               | Some (min_score, max_score) =>
                   negb ((min_score <=? Alert.risk_score a)
                         && (Alert.risk_score a <=? max_score))
               | None => false
               end) df)).

(** ** The four validators

    A frame with no row is one built from an empty list of dicts: it has no
    column, and selecting one raises [KeyError]. *)

(** A value of the dict [checks]. *)
Inductive check : Type :=
| Count (n : Z)
| Flag (b : bool)
| Counts (d : list (string * Z)).

(** The dict a validator returns. *)
Record results : Type := mkResults {
  table : string;
  total_records : Z;
  checks : list (string * check);
  warnings : list string;
  errors : list string;
  pass_rate : Q
}.

(** [mask.sum()] *)
Definition count {A} (mask : A -> bool) (df : list A) : Z :=
  Z.of_nat (List.length (filter mask df)).

Definition isnull {A} (o : option A) : bool :=
  match o with Some _ => false | None => true end.

(** [1 - (error_count / max(total_checks, 1))] *)
Definition rate (checks : list (string * check)) (errors : list string) : Q :=
  (1 - inject_Z (Z.of_nat (List.length errors))
       / inject_Z (Z.max (Z.of_nat (List.length checks)) 1))%Q.

(** An error or a warning reported for a count above zero. *)
Definition report_count (message : string) (n : Z) : list string :=
  if 0 <? n then [(message ++ ": " ++ Str.str n)%string]%list else []%list.

(** [df.isnull().sum().to_dict()] on the customer frame: the columns that
    hold a value in every row count zero. *)
Definition customers_missing (df : list Customer.t) : list (string * Z) :=
  [("customer_id", 0); ("first_name", 0); ("last_name", 0); ("date_of_birth", 0);
   ("age", 0); ("gender", 0); ("marital_status", 0); ("education", 0);
   ("employment_type", 0); ("annual_income", 0); ("income_tier", 0);
   ("credit_score", 0); ("credit_tier", 0); ("city", 0); ("state", 0);
   ("pincode", 0); ("address_line1", 0);
   ("address_line2", count (fun c => isnull (Customer.address_line2 c)) df);
   ("phone", 0); ("email", 0); ("customer_segment", 0);
   ("customer_value_tier", 0); ("acquisition_date", 0);
   ("acquisition_channel", 0); ("is_active", 0); ("effective_start_date", 0);
   ("effective_end_date", count (fun c => isnull (Customer.effective_end_date c)) df);
   ("is_current", 0)]%list.

(** [s.duplicated().sum()]: the entries that occurred before. *)
Fixpoint duplicated (seen ids : list string) : Z :=
  match ids with
  | [] => 0
  | id :: rest => (if Str.mem id seen then 1 else 0) + duplicated (id :: seen) rest
  end%list.

Definition validate_customers (df : list Customer.t) : Gen.t results :=
  match df with
  | [] => raise KeyError
  | _ =>
      let missing := customers_missing df in
      let critical_fields := ["customer_id"; "first_name"; "last_name"; "date_of_birth"]%list in
      let errors_missing :=
        flat_map (fun field =>
                    match assoc missing field with
                    | Some n => report_count ("Missing values in " ++ field)%string n
                    | None => []%list
                    end) critical_fields in
      let duplicate_ids := duplicated [] (map Customer.customer_id df) in
      let invalid_credit :=
        count (fun c => (Customer.credit_score c <? 300) || (900 <? Customer.credit_score c)) df in
      let invalid_age :=
        count (fun c => (Customer.age c <? 18) || (100 <? Customer.age c)) df in
      let negative_income := count (fun c => Qltb (Customer.annual_income c) 0) df in
      let invalid_email :=
        negb (count (fun c => Str.contains "@" (Customer.email c)) df
              =? Z.of_nat (List.length df)) in
      let checks :=
        [("missing_values", Counts missing);
         ("duplicate_customer_ids", Count duplicate_ids);
         ("invalid_credit_scores", Count invalid_credit);
         ("invalid_age", Count invalid_age);
         ("negative_income", Count negative_income);
         ("invalid_email", Flag (negb invalid_email))]%list in
      let errors :=
        (errors_missing
         ++ report_count "Duplicate customer IDs" duplicate_ids
         ++ report_count "Invalid credit scores" invalid_credit
         ++ report_count "Invalid age" invalid_age
         ++ report_count "Negative income" negative_income)%list in
      ret (mkResults "dim_customer" (Z.of_nat (List.length df)) checks []%list errors
                     (rate checks errors))
  end.

(** A comparison with a column that may hold no value: false on a null. *)
Definition holds {A} (p : A -> bool) (o : option A) : bool :=
  match o with Some x => p x | None => false end.

Definition validate_loans (df : list Loan.t) : Gen.t results :=
  match df with
  | [] => raise KeyError
  | _ =>
      let approved_loans := filter (fun l => negb (isnull (Loan.disbursement_date l))) df in
      let missing_customer := 0 in
      let zero_loan := count (fun l => Qle_bool (Loan.loan_amount l) 0) df in
      let invalid_rate :=
        count (fun l => holds (fun r => Qltb r 5) (Loan.interest_rate l)
                        || holds (fun r => Qltb 30 r) (Loan.interest_rate l))
              approved_loans in
      let invalid_tenure :=
        count (fun l => holds (fun m => m <? 1) (Loan.tenure_months l)
                        || holds (fun m => 360 <? m) (Loan.tenure_months l))
              approved_loans in
      let dpd_mismatch :=
        count (fun l => (Loan.days_past_due l =? 0)
                        && negb (String.eqb (Loan.dpd_bucket l) "0")) df in
      let npa_mismatch :=
        count (fun l => (90 <? Loan.days_past_due l) && negb (Loan.npa_flag l)) df in
      let some_approved := match approved_loans with [] => false | _ => true end in
      let checks :=
        ([("missing_customer_id", Count missing_customer);
          ("zero_loan_amount", Count zero_loan)]
         ++ (if some_approved then [("invalid_interest_rate", Count invalid_rate)] else [])
         ++ (if some_approved then [("invalid_tenure", Count invalid_tenure)] else [])
         ++ [("dpd_bucket_mismatch", Count dpd_mismatch);
             ("npa_flag_mismatch", Count npa_mismatch)])%list in
      let errors :=
        (report_count "Missing customer ID" missing_customer
         ++ report_count "Zero or negative loan amount" zero_loan
         ++ (if some_approved then report_count "Invalid interest rate" invalid_rate else [])
         ++ (if some_approved then report_count "Invalid tenure" invalid_tenure else []))%list in
      let warnings :=
        (report_count "DPD bucket mismatch" dpd_mismatch
         ++ report_count "NPA flag mismatch" npa_mismatch)%list in
      ret (mkResults "fact_loan" (Z.of_nat (List.length df)) checks warnings errors
                     (rate checks errors))
  end.

Definition valid_types : list string :=
  ["EMI"; "Prepayment"; "Foreclosure"; "Disbursement"; "Penalty"; "Processing Fee"]%list.

Definition valid_transaction_status : list string :=
  ["Success"; "Failed"; "Pending"]%list.

Definition validate_transactions (df : list Txn.t) : Gen.t results :=
  match df with
  | [] => raise KeyError
  | _ =>
      let missing_loan := 0 in
      let zero_amount := count (fun t => Qle_bool (Txn.amount t) 0) df in
      let invalid_type :=
        count (fun t => negb (Str.mem (Txn.transaction_type t) valid_types)) df in
      let invalid_status :=
        count (fun t => negb (Str.mem (Txn.transaction_status t) valid_transaction_status)) df in
      let checks :=
        [("missing_loan_id", Count missing_loan);
         ("zero_amount", Count zero_amount);
         ("invalid_transaction_type", Count invalid_type);
         ("invalid_status", Count invalid_status)]%list in
      let errors :=
        (report_count "Missing loan ID" missing_loan
         ++ report_count "Zero or negative amount" zero_amount
         ++ report_count "Invalid transaction type" invalid_type
         ++ report_count "Invalid transaction status" invalid_status)%list in
      ret (mkResults "fact_transaction" (Z.of_nat (List.length df)) checks []%list errors
                     (rate checks errors))
  end.

Definition valid_status : list string :=
  ["New"; "In Progress"; "Confirmed"; "False Positive"]%list.

Definition validate_fraud_alerts (df : list Alert.t) : Gen.t results :=
  match df with
  | [] =>
      ret (mkResults "fact_fraud_alert" 0 []%list ["No fraud alerts generated"]%list
                     []%list 0)
  | _ =>
      let invalid_score := invalid_risk_score df in
      let inconsistent := inconsistent_risk_level df in
      let invalid_status :=
        count (fun a => negb (Str.mem (Alert.investigation_status a) valid_status)) df in
      let checks :=
        [("invalid_risk_score", Count invalid_score);
         ("inconsistent_risk_level", Count inconsistent);
         ("invalid_status", Count invalid_status)]%list in
      let errors :=
        (report_count "Invalid risk score" invalid_score
         ++ report_count "Invalid investigation status" invalid_status)%list in
      let warnings := report_count "Inconsistent risk level" inconsistent in
      ret (mkResults "fact_fraud_alert" (Z.of_nat (List.length df)) checks warnings errors
                     (rate checks errors))
  end.

(** The dict [summary] of the quality report. *)
Record summary : Type := mkSummary {
  customers : Z;
  loans : Z;
  transactions : Z;
  fraud_alerts : Z;
  approved_loans : Z;
  rejected_loans : Z;
  active_loans : Z;
  npa_loans : Z;
  fraud_loans : Z
}.

(** The dict [generate_quality_report] returns. *)
Record report : Type := mkReport {
  generated_at : string;
  report_summary : summary;
  quality_checks : list (string * results);
  overall_quality_score : Q
}.

(** [float(np.mean(scores)) if scores else 0.0] *)
Definition mean (scores : list Q) : Q :=
  match scores with
  | []%list => 0%Q
  | _ => (fold_left Qplus scores 0 / inject_Z (Z.of_nat (List.length scores)))%Q
  end.

(** The report of the four frames; the JSON file it is written to, named
    after a second reading of the clock, is left out. *)
Definition generate_quality_report (customers_df : list Customer.t)
    (loans_df : list Loan.t) (transactions_df : list Txn.t)
    (fraud_alerts_df : list Alert.t) : Gen.t report :=
  now <- datetime_now ;;
  let s := {|
    customers := Z.of_nat (List.length customers_df);
    loans := Z.of_nat (List.length loans_df);
    transactions := Z.of_nat (List.length transactions_df);
    fraud_alerts := Z.of_nat (List.length fraud_alerts_df);
    approved_loans := count (fun l => negb (isnull (Loan.disbursement_date l))) loans_df;
    rejected_loans := count (fun l => String.eqb (Loan.loan_status l) "Rejected") loans_df;
    active_loans :=
      count (fun l => Str.mem (Loan.loan_status l) ["Active"; "Overdue"]%list) loans_df;
    npa_loans := count Loan.npa_flag loans_df;
    fraud_loans := count Loan.fraud_flag loans_df
  |} in
  r1 <- validate_customers customers_df ;;
  r2 <- validate_loans loans_df ;;
  r3 <- validate_transactions transactions_df ;;
  r4 <- validate_fraud_alerts fraud_alerts_df ;;
  let checks := [("customers", r1); ("loans", r2); ("transactions", r3);
                 ("fraud_alerts", r4)]%list in
  let scores := map (fun tr => pass_rate (snd tr)) checks in
  _ <- datetime_now ;;
  ret (mkReport (Time.isoformat now) s checks (mean scores)).

End DataValidator.

(* ================================================================== *)
(** * [synthetic_data_generator.py] *)

Module NBFCDataGenerator.
Section Definitions.
Context `{Runtime}.
Local Open Scope Z_scope.

Record config : Type := mkConfig {
  num_customers : Z;
  num_loans : Z;
  num_transactions : Z;
  target_fraud_rate : Q
}.

Definition default_config : config := mkConfig 50000 200000 1000000 0.03.

(** The four generators are built one after the other; each seeds the shared
    generators of [random] and [numpy.random]. *)
Definition __init__ (seed : Z) : Gen.t unit :=
  _ <- CustomerGenerator.__init__ seed ;;
  _ <- LoanGenerator.__init__ seed ;;
  _ <- TransactionGenerator.__init__ seed ;;
  FraudGenerator.__init__ seed.

(** The datasets of the dict [generate_all] returns; the quality report and
    the timing are left out. *)
Record datasets : Type := mkDatasets {
  customers : list Customer.t;
  loans : list Loan.t;
  transactions : list Txn.t;
  fraud_alerts : list Alert.t
}.

Definition generate_all (cfg : config) : Gen.t datasets :=
  customers <- CustomerGenerator.generate_customers (num_customers cfg) ;;
  loans <- LoanGenerator.generate_batch_loans customers None 10000 (num_loans cfg) ;;
  transactions <- TransactionGenerator.generate_batch_transactions
                    loans customers (num_transactions cfg) ;;
  '(fraud_alerts, loans) <- FraudGenerator.generate_all_fraud_scenarios loans customers ;;
  ret (mkDatasets customers loans transactions fraud_alerts).

(** [NBFCDataGenerator(seed).configure(...).generate_all()] *)
Definition run (seed : Z) (cfg : config) : Gen.t datasets :=
  _ <- __init__ seed ;; generate_all cfg.

End Definitions.
End NBFCDataGenerator.

(* ================================================================== *)
(** * The properties, as the specification words them *)

Module Spec.
Local Open Scope string_scope.
Local Open Scope Z_scope.

(** The band of [days_past_due] a [dpd_bucket] stands for. *)
Definition dpd_band (days : Z) (bucket : string) : Prop :=
  (days = 0 /\ bucket = "0")
  \/ (1 <= days <= 30 /\ bucket = "1-30")
  \/ (31 <= days <= 60 /\ bucket = "31-60")
  \/ (61 <= days <= 90 /\ bucket = "61-90")
  \/ (90 < days /\ bucket = "90+").

(** The null-propagation contract of a rejected application. *)
Definition rejected_contract (l : Loan.t) : Prop :=
  Loan.disbursement_date l = None
  /\ Loan.first_emi_date l = None
  /\ Loan.sanctioned_amount l = None
  /\ Loan.interest_rate l = None
  /\ Loan.tenure_months l = None
  /\ Loan.emi_amount l = None
  /\ Loan.processing_fee l = None
  /\ Loan.gst_on_fee l = None
  /\ Loan.net_disbursed_amount l = None
  /\ Loan.collateral_id l = None
  /\ Loan.collateral_value l = None
  /\ Loan.loan_to_value_ratio l = None
  /\ Loan.probability_of_default l = None
  /\ Loan.loss_given_default l = None
  /\ Loan.exposure_at_default l = None
  /\ Loan.expected_loss l = None
  /\ Loan.collection_tier l = None
  /\ Loan.current_balance l = 0%Q
  /\ Loan.overdue_amount l = 0%Q
  /\ Loan.days_past_due l = 0
  /\ Loan.loan_status l = "Rejected".

(** The probability of default of a disbursed loan. *)
Definition dpd_factor (days_past_due : Z) : Q :=
  if 0 <? days_past_due then Qmin 0.3 (0.002 * inject_Z days_past_due) else 0%Q.

Definition probability_of_default `{Runtime} (credit_score days_past_due : Z) : Q :=
  py_round_to 4
    (Qmin 0.99 (1 / (1 + np_exp (inject_Z (credit_score - 650) / 50))
                + dpd_factor days_past_due)).

Definition is_emi (t : Txn.t) : bool := String.eqb (Txn.transaction_type t) "EMI".

(** The sum of the four components of a transaction, when it has them. *)
Definition components_sum (t : Txn.t) : option Q :=
  match Txn.principal_component t, Txn.interest_component t,
        Txn.penalty_component t, Txn.gst_component t with
  | Some p, Some i, Some pen, Some g => Some (p + i + pen + g)%Q
  | _, _, _, _ => None
  end.

(** The components of an EMI transaction sum to its amount, up to the
    rounding of the four components to two decimals. *)
Definition components_sum_to_amount (t : Txn.t) : Prop :=
  is_emi t = true ->
  exists s, components_sum t = Some s /\ (Qabs (s - Txn.amount t) <= 0.02)%Q.

(** The number of EMIs due when the clock reads [now]: the whole periods of
    30 days since the disbursement, the months of the tenure at most. *)
Definition total_emis (loan : Loan.t) (now : Z) : Z :=
  match Loan.disbursement_date loan with
  | Some d =>
      Z.min (Time.delta_days now (Time.datetime_of_date d) / 30)
            (match Loan.tenure_months loan with Some m => m | None => 0 end)
  | None => 0
  end.

(** The penalty on an EMI of [amount], 2% per 30 days past due, before it is
    rounded. *)
Definition penalty_due (amount : Q) (days_past_due : Z) : Q :=
  (amount * 0.02 * (inject_Z days_past_due / 30))%Q.

(** What the EMI transaction [t] of month [month] holds, [n] EMIs being due:
    the instalment of the loan as its amount; principal and interest that
    sum to the amount up to 0.01; a penalty and its GST, which come on top of
    the amount, on the EMI of month [n] of a loan past due, and neither on
    any other. *)
Definition emi_charges (loan : Loan.t) (n month : Z) (t : Txn.t) : Prop :=
  Loan.emi_amount loan = Some (Txn.amount t)
  /\ (exists d,
        Loan.first_emi_date loan = Some d
        /\ Txn.transaction_date t
           = Time.add_days (Time.datetime_of_date d) (30 * (month - 1)))
  /\ exists p i pen g,
       Txn.principal_component t = Some p
       /\ Txn.interest_component t = Some i
       /\ Txn.penalty_component t = Some pen
       /\ Txn.gst_component t = Some g
       /\ (Qabs (p + i - Txn.amount t) <= 0.01)%Q
       /\ (Qabs (p + i + pen + g - (Txn.amount t + pen + g)) <= 0.01)%Q
       /\ (pen == if (0 <? Loan.days_past_due loan) && (month =? n)
                  then py_round_to 2 (penalty_due (Txn.amount t) (Loan.days_past_due loan))
                  else 0)%Q
       /\ (g == if (0 <? Loan.days_past_due loan) && (month =? n)
                then py_round_to 2
                       (penalty_due (Txn.amount t) (Loan.days_past_due loan) * 0.18)
                else 0)%Q.

(** The [datetime] values at 30-day intervals from [first], [m] of them. *)
Definition schedule (first : Z) (m : nat) : list Z :=
  map (fun k => Time.add_days first (30 * Z.of_nat k)) (List.seq 0 m).

(** The fixed bands of the risk score: Critical [80,100], High [60,79],
    Medium [40,59], Low [1,39]. *)
Definition risk_band (risk_score : Z) : option string :=
  if (80 <=? risk_score) && (risk_score <=? 100) then Some "Critical"
  else if (60 <=? risk_score) && (risk_score <=? 79) then Some "High"
  else if (40 <=? risk_score) && (risk_score <=? 59) then Some "Medium"
  else if (1 <=? risk_score) && (risk_score <=? 39) then Some "Low"
  else None.

Definition risk_level_in_band (a : Alert.t) : Prop :=
  risk_band (Alert.risk_score a) = Some (Alert.risk_level a).

(** The three columns the fraud step writes, put back to their initial
    values: two rows with the same image differ in these columns at most. *)
Definition without_fraud_columns (l : Loan.t) : Loan.t :=
  FraudGenerator.set_fraud_detection_date
    (FraudGenerator.set_fraud_type (FraudGenerator.set_fraud_flag l false) None) None.

(** What the fraud step leaves of a row [l] of the loan frame, given the
    alerts it produced. *)
Definition backfilled (df : list Alert.t) (l l' : Loan.t) : Prop :=
  without_fraud_columns l' = without_fraud_columns l
  /\ if Str.mem (Loan.loan_id l) (FraudGenerator.fraud_loan_ids df)
     then Loan.fraud_flag l' = true
          /\ exists a, In a df
                       /\ Alert.loan_id a = Some (Loan.loan_id l)
                       /\ Loan.fraud_type l' = Some (Alert.alert_type a)
                       /\ Loan.fraud_detection_date l' = Some (Alert.detection_date a)
     else l' = l.

(** A row of the loan frame without what it holds of [uuid.uuid4]: the
    [loan_id] of a row with no disbursement date, and the [collateral_id]. *)
Definition without_uuid_columns (r : Loan.t) : Loan.t :=
  {|
    Loan.loan_id := match Loan.disbursement_date r with Some _ => Loan.loan_id r | None => "" end;
    Loan.customer_id := Loan.customer_id r;
    Loan.product_id := Loan.product_id r;
    Loan.branch_id := Loan.branch_id r;
    Loan.application_date := Loan.application_date r;
    Loan.disbursement_date := Loan.disbursement_date r;
    Loan.first_emi_date := Loan.first_emi_date r;
    Loan.loan_amount := Loan.loan_amount r;
    Loan.sanctioned_amount := Loan.sanctioned_amount r;
    Loan.interest_rate := Loan.interest_rate r;
    Loan.tenure_months := Loan.tenure_months r;
    Loan.emi_amount := Loan.emi_amount r;
    Loan.processing_fee := Loan.processing_fee r;
    Loan.gst_on_fee := Loan.gst_on_fee r;
    Loan.net_disbursed_amount := Loan.net_disbursed_amount r;
    Loan.loan_purpose := Loan.loan_purpose r;
    Loan.collateral_id := option_map (fun _ => "") (Loan.collateral_id r);
    Loan.collateral_value := Loan.collateral_value r;
    Loan.loan_to_value_ratio := Loan.loan_to_value_ratio r;
    Loan.co_applicant_present := Loan.co_applicant_present r;
    Loan.co_applicant_income := Loan.co_applicant_income r;
    Loan.bureau_score_at_origination := Loan.bureau_score_at_origination r;
    Loan.internal_risk_rating := Loan.internal_risk_rating r;
    Loan.probability_of_default := Loan.probability_of_default r;
    Loan.loss_given_default := Loan.loss_given_default r;
    Loan.exposure_at_default := Loan.exposure_at_default r;
    Loan.expected_loss := Loan.expected_loss r;
    Loan.current_balance := Loan.current_balance r;
    Loan.overdue_amount := Loan.overdue_amount r;
    Loan.days_past_due := Loan.days_past_due r;
    Loan.dpd_bucket := Loan.dpd_bucket r;
    Loan.npa_flag := Loan.npa_flag r;
    Loan.npa_date := Loan.npa_date r;
    Loan.restructuring_flag := Loan.restructuring_flag r;
    Loan.written_off_flag := Loan.written_off_flag r;
    Loan.loan_status := Loan.loan_status r;
    Loan.collection_tier := Loan.collection_tier r;
    Loan.assigned_collection_agent := Loan.assigned_collection_agent r;
    Loan.fraud_flag := Loan.fraud_flag r;
    Loan.fraud_type := Loan.fraud_type r;
    Loan.fraud_detection_date := Loan.fraud_detection_date r
  |}.

(** A row of the transaction frame without its [transaction_id]. *)
Definition without_transaction_id (r : Txn.t) : Txn.t :=
  {|
    Txn.transaction_id := "";
    Txn.loan_id := Txn.loan_id r;
    Txn.customer_id := Txn.customer_id r;
    Txn.transaction_date := Txn.transaction_date r;
    Txn.transaction_type := Txn.transaction_type r;
    Txn.transaction_mode := Txn.transaction_mode r;
    Txn.amount := Txn.amount r;
    Txn.principal_component := Txn.principal_component r;
    Txn.interest_component := Txn.interest_component r;
    Txn.penalty_component := Txn.penalty_component r;
    Txn.gst_component := Txn.gst_component r;
    Txn.payment_reference := Txn.payment_reference r;
    Txn.bank_name := Txn.bank_name r;
    Txn.bank_account_last4 := Txn.bank_account_last4 r;
    Txn.transaction_status := Txn.transaction_status r;
    Txn.failure_reason := Txn.failure_reason r;
    Txn.reconciliation_status := Txn.reconciliation_status r;
    Txn.reconciled_date := Txn.reconciled_date r
  |}.

(** Two runs of the generator for one seed and one configuration return the
    same datasets. *)
Definition reproducible `{Runtime} : Prop :=
  forall seed cfg w1 w2 d1 w1' d2 w2',
    NBFCDataGenerator.run seed cfg w1 = Ok d1 w1' ->
    NBFCDataGenerator.run seed cfg w2 = Ok d2 w2' ->
    d1 = d2.

End Spec.

(* ================================================================== *)
(** * Concrete runs *)

(** A platform to run the generators on: rational stand-ins for the two
    transcendental functions, seeded streams that replay a script, and Faker
    providers that print their draw. *)
Module Scenario.
Local Open Scope string_scope.
Local Open Scope Z_scope.

(** [(1 + x/64)^64] *)
Definition exp_approx (x : Q) : Q := ((1 + x / 64) ^ 64)%Q.

(** Exact for an integer exponent, interpolated between two integers. *)
Definition pow_approx (b e : Q) : Q :=
  let k := Qfloor e in (b ^ k * (1 + (b - 1) * (e - inject_Z k)))%Q.

(** The stream that yields the values of [script], then [rest] for ever. *)
Definition replay (script : list N) (rest : N) : nat -> N :=
  fun n => nth n script rest.

Definition scripted (py np fk : nat -> N) : Runtime := {|
  np_exp := exp_approx;
  float_pow := pow_approx;
  random_seed := fun _ => py;
  np_random_seed := fun _ => np;
  faker_seed := fun _ => fk;
  faker_first_name := fun n => "First" ++ Str.str (Z.of_N n);
  faker_last_name := fun n => "Last" ++ Str.str (Z.of_N n);
  faker_street_address := fun n => Str.str (Z.of_N n) ++ " Main Street";
  faker_building_number := fun n => Str.str (Z.of_N n);
  faker_street_name := fun n => "Street " ++ Str.str (Z.of_N n);
  faker_email := fun domain n => "user" ++ Str.str (Z.of_N n) ++ "@" ++ domain;
  faker_date_between_3y := fun now n => Time.date_of now - Z.of_N (n mod 1096)
|}.

(** A draw that makes [random.random()] return 0.5, and one that makes it
    return a value above 0.99. *)
Definition half : N := 4503599627370496.
Definition high : N := 9007199254740000.

(** Noon of 2026-11-06. *)
Definition noon : Z :=
  Time.datetime_of_date (Time.days_from_civil 2026 11 6) + 43200000000.

Definition tape (script : list N) (rest : N) : Tape := mkTape (replay script rest) 0.

(** A world whose clock stands still at [now]. *)
Definition world (py np urandom : Tape) (now : Z) : World :=
  mkWorld py np (tape [] 0) urandom (tape [] (Z.to_N now)).

Definition result {A} (o : outcome A) (default : A) : A :=
  match o with Ok a _ => a | Raise _ => default end.

Definition after {A} (o : outcome A) (default : World) : World :=
  match o with Ok _ w => w | Raise _ => default end.

Definition plain : Runtime := scripted (replay [] half) (replay [] 0) (replay [] 0).

(** A salaried customer of 40 with an income of 600,000 and a score of 580,
    acquired on 2026-09-01. *)
Definition customer1 : Customer.t := {|
  Customer.customer_id := "CUST00000001";
  Customer.first_name := "Asha";
  Customer.last_name := "Rao";
  Customer.date_of_birth := Time.days_from_civil 1986 11 16;
  Customer.age := 40;
  Customer.gender := "Female";
  Customer.marital_status := "Married";
  Customer.education := "Bachelor's";
  Customer.employment_type := "Salaried";
  Customer.annual_income := 600000;
  Customer.income_tier := "Middle";
  Customer.credit_score := 580;
  Customer.credit_tier := "Sub-Prime";
  Customer.city := "Pune";
  Customer.state := "Maharashtra";
  Customer.pincode := "411001";
  Customer.address_line1 := "12 MG Road";
  Customer.address_line2 := None;
  Customer.phone := "9123456789";
  Customer.email := "asha.rao@gmail.com";
  Customer.customer_segment := "Mass";
  Customer.customer_value_tier := "Bronze";
  Customer.acquisition_date := Time.days_from_civil 2026 9 1;
  Customer.acquisition_channel := "Broker";
  Customer.is_active := true;
  Customer.effective_start_date := Time.days_from_civil 2026 9 1;
  Customer.effective_end_date := None;
  Customer.is_current := true
|}.

(** Two applications of [customer1]: the approval draw of the first is above
    0.9, every other draw is 0.5. *)
Definition loans_world : World :=
  world (tape [half; half; half; high] half) (tape [] 0) (tape [] 0) noon.

Definition loans_run : outcome (list Loan.t) :=
  Eval vm_compute in
    @LoanGenerator.generate_loans plain [customer1] None 2 loans_world.

(** An application of [customer1] filed 1690 days after 2022-01-01 and
    approved; the draw of the delinquency bucket is 0.85, which falls in the
    bucket of 31 to 60 days. *)
Definition delinquent_world : World :=
  world (tape [half; half; 1690; half; half; 7656119366529843; half] half)%N
        (tape [] 0) (tape [] 0) noon.

Definition delinquent_loans_run : outcome (list Loan.t) :=
  Eval vm_compute in
    @LoanGenerator.generate_loans plain [customer1] None 1 delinquent_world.

Definition delinquent_loan : Loan.t :=
  Eval vm_compute in
    hd (FraudGenerator.set_fraud_flag
          (Loan.mk "" "" "" "" 0 None None 0 None None None None None None None ""
                   None None None false None 0 "" None None None None 0 0 0 "" false
                   None false false "" None None false None None) false)
       (result delinquent_loans_run []).

(** The transactions of that loan, every draw being 0.5. *)
Definition delinquent_txns_world : World :=
  world (tape [] half) (tape [] 0) (tape [] 0) noon.

Definition delinquent_txns_run : outcome (list Txn.t) :=
  Eval vm_compute in
    @TransactionGenerator.generate_transactions_for_loan plain delinquent_loan customer1
      delinquent_txns_world.

(** The fraud scenarios on that loan: the detection draw of the early
    default scenario is 0, every other draw is 0.5. *)
Definition fraud_world : World :=
  world (tape [0%N] half) (tape [] 0) (tape [] 0) noon.

Definition fraud_run : outcome (list Alert.t * list Loan.t) :=
  Eval vm_compute in
    FraudGenerator.generate_all_fraud_scenarios [delinquent_loan] [customer1]
      fraud_world.

(** A customer of 40 with a score of 520, acquired on 2026-09-01. *)
Definition customer2 : Customer.t := {|
  Customer.customer_id := "CUST00000002";
  Customer.first_name := "Ravi";
  Customer.last_name := "Nair";
  Customer.date_of_birth := Time.days_from_civil 1986 11 16;
  Customer.age := 40;
  Customer.gender := "Male";
  Customer.marital_status := "Single";
  Customer.education := "Diploma";
  Customer.employment_type := "Contractual";
  Customer.annual_income := 300000;
  Customer.income_tier := "Lower-Middle";
  Customer.credit_score := 520;
  Customer.credit_tier := "Deep-Subprime";
  Customer.city := "Kochi";
  Customer.state := "Kerala";
  Customer.pincode := "682001";
  Customer.address_line1 := "4 Beach Road";
  Customer.address_line2 := None;
  Customer.phone := "9876543210";
  Customer.email := "ravi.nair@gmail.com";
  Customer.customer_segment := "Mass";
  Customer.customer_value_tier := "Bronze";
  Customer.acquisition_date := Time.days_from_civil 2026 9 1;
  Customer.acquisition_channel := "Online Application";
  Customer.is_active := true;
  Customer.effective_start_date := Time.days_from_civil 2026 9 1;
  Customer.effective_end_date := None;
  Customer.is_current := true
|}.

(** The synthetic identity scenario on [customer2]: the detection draw is 0,
    the draw of the offset of the detection date 5, the draw of the risk
    score 15. *)
Definition synthetic_world : World :=
  world (tape [0; 5; 15]%N half) (tape [] 0) (tape [] 0) noon.

Definition synthetic_run : outcome (list Alert.t) :=
  Eval vm_compute in
    FraudGenerator.generate_fraud_scenario_synthetic_id [customer2] synthetic_world.

(** Two loans of ten million on one collateral, of two customers: a copy of
    [delinquent_loan] for each. *)
Definition shared_loan (loan_id customer_id : string) : Loan.t := {|
  Loan.loan_id := loan_id;
  Loan.customer_id := customer_id;
  Loan.product_id := "HL002";
  Loan.branch_id := Loan.branch_id delinquent_loan;
  Loan.application_date := Loan.application_date delinquent_loan;
  Loan.disbursement_date := Loan.disbursement_date delinquent_loan;
  Loan.first_emi_date := Loan.first_emi_date delinquent_loan;
  Loan.loan_amount := 10000000;
  Loan.sanctioned_amount := Some 10000000%Q;
  Loan.interest_rate := Some 8.75%Q;
  Loan.tenure_months := Some 240;
  Loan.emi_amount := Some 88371.07%Q;
  Loan.processing_fee := Some 100000%Q;
  Loan.gst_on_fee := Some 18000%Q;
  Loan.net_disbursed_amount := Some 9882000%Q;
  Loan.loan_purpose := "Purchase of new house";
  Loan.collateral_id := Some "COL1A2B3C4D";
  Loan.collateral_value := Some 13500000%Q;
  Loan.loan_to_value_ratio := Some 74.07%Q;
  Loan.co_applicant_present := false;
  Loan.co_applicant_income := None;
  Loan.bureau_score_at_origination := 700;
  Loan.internal_risk_rating := "Near-Prime";
  Loan.probability_of_default := Some 0.2689%Q;
  Loan.loss_given_default := Some 0.6%Q;
  Loan.exposure_at_default := Some 9000000%Q;
  Loan.expected_loss := Some 1613400%Q;
  Loan.current_balance := 9876280.5;
  Loan.overdue_amount := 0;
  Loan.days_past_due := 0;
  Loan.dpd_bucket := "0";
  Loan.npa_flag := false;
  Loan.npa_date := None;
  Loan.restructuring_flag := false;
  Loan.written_off_flag := false;
  Loan.loan_status := "Active";
  Loan.collection_tier := Some 1;
  Loan.assigned_collection_agent := None;
  Loan.fraud_flag := false;
  Loan.fraud_type := None;
  Loan.fraud_detection_date := None
|}.

(** The shared collateral scenario on these two loans: the detection draw of
    the group is 0, the noise of the first risk score is 0 (draw 10) and that
    of the second is +10 (draw 20). *)
Definition collateral_world : World :=
  world (tape [0; 10; half; half; half; half; half; 20]%N half) (tape [] 0) (tape [] 0) noon.

Definition collateral_run : outcome (list Alert.t) :=
  Eval vm_compute in
    FraudGenerator.generate_fraud_scenario_collateral_fraud
      [shared_loan "LOAN0000000011" "CUST00000001";
       shared_loan "LOAN0000000012" "CUST00000002"]
      collateral_world.

(** Two runs of the whole generator for seed 42, one customer, one loan:
    the same platform, the same clock, and entropy that differs. *)
Definition small_config : NBFCDataGenerator.config :=
  NBFCDataGenerator.mkConfig 1 1 100 0.03.

Definition run_world (entropy : N) (now : Z) : World :=
  world (tape [] 0) (tape [] 0) (tape [] entropy) now.

Definition first_run : outcome NBFCDataGenerator.datasets :=
  Eval vm_compute in
    @NBFCDataGenerator.run plain 42 small_config (run_world 0 noon).

Definition second_run : outcome NBFCDataGenerator.datasets :=
  Eval vm_compute in
    @NBFCDataGenerator.run plain 42 small_config
      (run_world 226854911280625642308916404954512140970 noon).

(** A third run, a day later. *)
Definition third_run : outcome NBFCDataGenerator.datasets :=
  Eval vm_compute in
    @NBFCDataGenerator.run plain 42 small_config
      (run_world 0 (Time.add_days noon 1)).

Definition no_datasets : NBFCDataGenerator.datasets :=
  NBFCDataGenerator.mkDatasets [] [] [] [].

End Scenario.

Unset Implicit Arguments.

(* ================================================================== *)
(** * What the rows of the frames hold *)

(** The facts about a generated row that the properties below rest on. *)
Module Shape.
Import LoanGenerator TransactionGenerator.

Section WithRuntime.
Context `{Runtime}.
Local Open Scope string_scope.
Local Open Scope Z_scope.

(** What the dict of an approved application holds. *)
Record approved_shape (customer : Customer.t) (loan_amount : Q) (l : Loan.t) : Prop := {
  shape_days : 0 <= Loan.days_past_due l <= 180;
  shape_bucket : Loan.dpd_bucket l = get_dpd_bucket (Loan.days_past_due l);
  shape_npa : Loan.npa_flag l = (90 <? Loan.days_past_due l);
  shape_status : In (Loan.loan_status l) ["Active"; "Overdue"; "NPA"]%list;
  shape_disbursed : Loan.disbursement_date l <> None;
  shape_pd : Loan.probability_of_default l =
             Some (calculate_pd (Loan.bureau_score_at_origination l) (Loan.days_past_due l));
  shape_amount : Loan.loan_amount l = loan_amount;
  shape_customer : Loan.customer_id l = Customer.customer_id customer;
  shape_score : Loan.bureau_score_at_origination l = Customer.credit_score customer
}.

(** The amount applied for: a draw between the bounds, to the nearest
    thousand. *)
Definition amount_drawn (customer : Customer.t) (product : Product.t) (amount : Q) : Prop :=
  exists x : Q,
    (Qmin (Product.min_amount product)
          (Eligibility.max_amount (calculate_eligibility customer product)) <= x)%Q
    /\ (x <= Qmin (Product.max_amount product)
                  (Eligibility.max_amount (calculate_eligibility customer product)))%Q
    /\ amount = inject_Z (py_round (x / 1000) * 1000).

(** Where a row of the loan frame comes from: the customer and the product
    drawn for it, the amount applied for, and the branch of the approval
    draw that built it. *)
Definition loan_origin (customers_df : list Customer.t) (l : Loan.t) : Prop :=
  exists customer product,
    In customer customers_df /\ In product products
    /\ amount_drawn customer product (Loan.loan_amount l)
    /\ Loan.customer_id l = Customer.customer_id customer
    /\ Loan.bureau_score_at_origination l = Customer.credit_score customer
    /\ (approved_shape customer (Loan.loan_amount l) l \/ Spec.rejected_contract l).

(** What the dict of the EMI of month [month] holds, for a loan whose first
    EMI is due on day [d]. *)
Record emi_row (loan : Loan.t) (total_emis month d : Z) (t : Txn.t) : Prop := {
  row_type : Txn.transaction_type t = "EMI";
  row_date : Txn.transaction_date t
             = Time.add_days (Time.datetime_of_date d) (30 * (month - 1));
  row_components :
    exists emi_amount interest_rate,
      Loan.emi_amount loan = Some emi_amount
      /\ Loan.interest_rate loan = Some interest_rate
      /\ Txn.amount t = emi_amount
      /\ let comp :=
           calculate_emi_components emi_amount interest_rate
             (Loan.current_balance loan
              * float_pow 0.9 (inject_Z month / inject_Z total_emis))%Q
             (if month =? total_emis then Loan.days_past_due loan else 0) in
         Txn.principal_component t = Some (principal comp)
         /\ Txn.interest_component t = Some (interest comp)
         /\ Txn.penalty_component t
            = Some (if 0 <? Loan.days_past_due loan then penalty comp else 0%Q)
         /\ Txn.gst_component t
            = Some (if 0 <? Loan.days_past_due loan then gst comp else 0%Q)
}.

(** The EMI of month [month] is skipped when its date is past [end_date]. *)
Definition skipped (end_date d month : Z) : bool :=
  end_date <? Time.add_days (Time.datetime_of_date d) (30 * (month - 1)).

End WithRuntime.

(** A row [l] of the loan frame while the alerts are written back, [l0]
    being the row as it was and [done] the alerts written so far out of
    those of ids [ids]. *)
Definition written (ids : list string) (done : list Alert.t) (l0 l : Loan.t) : Prop :=
  Spec.without_fraud_columns l = Spec.without_fraud_columns l0
  /\ Loan.fraud_flag l = (if Str.mem (Loan.loan_id l0) ids then true else Loan.fraud_flag l0)
  /\ if Str.mem (Loan.loan_id l0) (FraudGenerator.fraud_loan_ids done)
     then exists a, In a done
                    /\ Alert.loan_id a = Some (Loan.loan_id l0)
                    /\ Loan.fraud_type l = Some (Alert.alert_type a)
                    /\ Loan.fraud_detection_date l = Some (Alert.detection_date a)
     else Loan.fraud_type l = Loan.fraud_type l0
          /\ Loan.fraud_detection_date l = Loan.fraud_detection_date l0.

(** Two worlds that differ in the entropy of [uuid.uuid4] at most. *)
Definition low_eq (w1 w2 : World) : Prop :=
  py_random w1 = py_random w2
  /\ np_random w1 = np_random w2
  /\ faker_random w1 = faker_random w2
  /\ wall_clock w1 = wall_clock w2.

(** Two generators that, run in two such worlds, return results related by
    [R] and leave two such worlds, whenever both return. *)
Definition rel {A B} (R : A -> B -> Prop) (m1 : Gen.t A) (m2 : Gen.t B) : Prop :=
  forall w1 w2 a1 w1' a2 w2',
    low_eq w1 w2 ->
    m1 w1 = Ok a1 w1' -> m2 w2 = Ok a2 w2' ->
    R a1 a2 /\ low_eq w1' w2'.

(** A generator that does not depend on the entropy of [uuid.uuid4]. *)
Definition low {A} (m : Gen.t A) : Prop := rel eq m m.

(** Two collaterals that differ in their id at most. *)
Definition collateral_sim (c1 c2 : option Collateral.t) : Prop :=
  match c1, c2 with
  | Some a, Some b =>
      Collateral.collateral_type a = Collateral.collateral_type b
      /\ Collateral.collateral_value a = Collateral.collateral_value b
      /\ Collateral.loan_to_value_ratio a = Collateral.loan_to_value_ratio b
  | None, None => True
  | _, _ => False
  end.

Definition loan_sim (l1 l2 : Loan.t) : Prop :=
  Spec.without_uuid_columns l1 = Spec.without_uuid_columns l2.

Definition txn_sim (t1 t2 : Txn.t) : Prop :=
  Spec.without_transaction_id t1 = Spec.without_transaction_id t2.

End Shape.

(* ================================================================== *)
(** * What the rows of the frames hold, continued *)

Module Rows.
Import CustomerGenerator LoanGenerator TransactionGenerator.
Local Open Scope string_scope.
Local Open Scope Z_scope.

(** The integer a decimal string stands for. *)
Definition parse (s : string) : option Z :=
  option_map Z.of_int (NilZero.int_of_string s).

(** [range(n)] *)
Definition range (n : Z) : list Z := map Z.of_nat (List.seq 0 (Z.to_nat n)).

(** A whole number of thousands between [lo] and [hi] thousands. *)
Definition thousands (lo hi : Z) (x : Q) : Prop :=
  exists k : Z, x = inject_Z (k * 1000) /\ lo <= k <= hi.

(** What the dict of the customer of iteration [i] holds. *)
Record customer_row (i : Z) (c : Customer.t) : Prop := {
  cust_id : Customer.customer_id c = "CUST" ++ Str.zfill 8 (Str.str (i + 1));
  cust_age : 22 <= Customer.age c <= 70;
  cust_score : 550 <= Customer.credit_score c <= 900;
  cust_income : thousands 180 5500 (Customer.annual_income c);
  cust_income_tier :
    Customer.income_tier c = get_income_tier (Customer.annual_income c);
  cust_credit_tier :
    Customer.credit_tier c = get_credit_tier (Customer.credit_score c);
  cust_value_tier :
    Customer.customer_value_tier c
    = get_customer_value_tier (Customer.annual_income c) (Customer.credit_score c);
  cust_city :
    exists cities, In (Customer.state c, cities) states /\ In (Customer.city c) cities;
  cust_employment : In (Customer.employment_type c) (map fst employment_types);
  cust_phone :
    String.length (Customer.phone c) = 10%nat
    /\ String.get 0 (Customer.phone c) = Some "9"%char;
  cust_effective :
    Customer.effective_start_date c = Customer.acquisition_date c
    /\ Customer.effective_end_date c = None
    /\ Customer.is_current c = true
}.

(** The rows of the loan frame with a disbursement date. *)
Definition approved (l : Loan.t) : bool :=
  negb (DataValidator.isnull (Loan.disbursement_date l)).

(** What [generate_dpd] returns: the bucket drawn and a number of days in
    the range of that bucket. *)
Definition dpd_drawn (days bucket : Z) : Prop :=
  (bucket = 0 /\ days = 0)
  \/ (bucket = 1 /\ 1 <= days <= 30)
  \/ (bucket = 2 /\ 31 <= days <= 60)
  \/ (bucket = 3 /\ 61 <= days <= 90)
  \/ (bucket = 4 /\ 91 <= days <= 180).

Section WithRuntime.
Context `{Runtime}.

(** What the dict of the approved application of iteration [i] holds, for
    the customer and the product drawn, an application filed at
    [application_date] and a clock that read [end_date]. *)
Record approved_row (i : Z) (customer : Customer.t) (product : Product.t)
    (application_date end_date : Z) (l : Loan.t) : Prop := {
  appr_id : Loan.loan_id l = "LOAN" ++ Str.zfill 10 (Str.str (i + 1));
  appr_dates :
    exists d,
      5 <= d <= 15
      /\ Loan.disbursement_date l = Some (Time.date_of application_date + d)
      /\ Loan.first_emi_date l = Some (Time.date_of application_date + d + 30)
      /\ Loan.npa_date l
         = (if 90 <? Loan.days_past_due l
            then Some (Time.add_days (Time.add_days application_date d)
                                     (Loan.days_past_due l))
            else None)
      /\ exists emi,
           Loan.emi_amount l = Some emi
           /\ (forall w,
                 calculate_emi (Loan.loan_amount l)
                   (Eligibility.suggested_rate (calculate_eligibility customer product))
                   (Eligibility.suggested_tenure (calculate_eligibility customer product)) w
                 = Ok emi w)
           /\ Loan.current_balance l
              = py_round_to 2
                  (Qmax 0 (Loan.loan_amount l
                           - emi * Qmin (inject_Z (Time.delta_days end_date
                                                     (Time.add_days application_date d)) / 30)
                                        (inject_Z (Eligibility.suggested_tenure
                                                     (calculate_eligibility customer product)))
                             * 0.7))
           /\ Loan.overdue_amount l
              = py_round_to 2
                  (if 0 <? Loan.days_past_due l
                   then emi * inject_Z (Loan.days_past_due l / 30) else 0);
  appr_terms :
    Loan.sanctioned_amount l = Some (Loan.loan_amount l)
    /\ Loan.interest_rate l
       = Some (Eligibility.suggested_rate (calculate_eligibility customer product))
    /\ Loan.tenure_months l
       = Some (Eligibility.suggested_tenure (calculate_eligibility customer product));
  appr_fees :
    Loan.processing_fee l = Some (py_round_to 2 (Loan.loan_amount l * 0.01))
    /\ Loan.gst_on_fee l = Some (py_round_to 2 (Loan.loan_amount l * 0.01 * 0.18))
    /\ Loan.net_disbursed_amount l
       = Some (Loan.loan_amount l - py_round_to 2 (Loan.loan_amount l * 0.01 * 1.18))%Q;
  appr_dpd :
    exists bucket,
      dpd_drawn (Loan.days_past_due l) bucket
      /\ loan_status_mapping bucket = Some (Loan.loan_status l);
  appr_agent :
    if 30 <? Loan.days_past_due l
    then exists x, 1 <= x <= 50
                   /\ Loan.assigned_collection_agent l
                      = Some ("AGENT" ++ Str.zfill 3 (Str.str x))
    else Loan.assigned_collection_agent l = None;
  appr_tier :
    exists pd_score,
      Loan.probability_of_default l = Some pd_score
      /\ Loan.collection_tier l
         = Some (if (90 <? Loan.days_past_due l) || Qltb 0.7 pd_score then 3
                 else if (30 <? Loan.days_past_due l) || Qltb 0.4 pd_score then 2
                 else 1)
      /\ exists lgd_score,
           Loan.loss_given_default l = Some lgd_score
           /\ (0.15 <= lgd_score /\ lgd_score <= 0.80)%Q
           /\ Loan.exposure_at_default l = Some (Loan.loan_amount l * 0.9)%Q
           /\ Loan.expected_loss l = Some (Loan.loan_amount l * pd_score * lgd_score)%Q;
  appr_flags :
    Loan.written_off_flag l = false
    /\ (Loan.restructuring_flag l = true -> 60 < Loan.days_past_due l)
    /\ Loan.fraud_flag l = false
    /\ Loan.fraud_type l = None
    /\ Loan.fraud_detection_date l = None;
  appr_co_applicant :
    if Loan.co_applicant_present l
    then exists x, 200000 <= x <= 1000000 /\ Loan.co_applicant_income l = Some x
    else Loan.co_applicant_income l = None;
  appr_collateral :
    match Loan.collateral_id l with
    | None => Loan.collateral_value l = None /\ Loan.loan_to_value_ratio l = None
    | Some id =>
        Product.collateral product = true
        /\ exists c w w',
             generate_collateral (Loan.loan_amount l) (Product.type product) w = Ok (Some c) w'
             /\ id = Collateral.collateral_id c
             /\ Loan.collateral_value l = Some (Collateral.collateral_value c)
             /\ Loan.loan_to_value_ratio l = Some (Collateral.loan_to_value_ratio c)
    end
}.

(** What the dict of a rejected application holds, besides its nulls. *)
Definition rejected_row (l : Loan.t) : Prop :=
  Spec.rejected_contract l
  /\ (exists u, Loan.loan_id l = "LOAN" ++ Str.upper (substring 0 10 u))
  /\ Loan.co_applicant_present l = false
  /\ Loan.dpd_bucket l = "0"
  /\ Loan.npa_flag l = false
  /\ Loan.fraud_flag l = false.

(** Where the row of iteration [i] of [generate_loans] comes from, the clock
    having read [end_date]. *)
Definition loan_row (customers_df : list Customer.t) (end_date : Z) (i : Z)
    (l : Loan.t) : Prop :=
  exists customer product k,
    In customer customers_df
    /\ Customer.is_active customer = true
    /\ In product products
    /\ Shape.amount_drawn customer product (Loan.loan_amount l)
    /\ 0 <= k <= Time.delta_days end_date Time.datetime_2022_01_01
    /\ Loan.application_date l = Time.days_from_civil 2022 1 1 + k
    /\ Loan.customer_id l = Customer.customer_id customer
    /\ Loan.product_id l = Product.product_id product
    /\ Loan.bureau_score_at_origination l = Customer.credit_score customer
    /\ Loan.internal_risk_rating l = Customer.credit_tier customer
    /\ (Shape.approved_shape customer (Loan.loan_amount l) l
         /\ approved_row i customer product
              (Time.add_days Time.datetime_2022_01_01 k) end_date l
        \/ rejected_row l).

(** What every row of the frame of a loan holds. *)
Record txn_row (loan : Loan.t) (t : Txn.t) : Prop := {
  txn_loan :
    Txn.loan_id t = Loan.loan_id loan /\ Txn.customer_id t = Loan.customer_id loan;
  txn_id :
    exists now u,
      Txn.transaction_id t
      = "TXN" ++ Time.strftime_yymmdd now ++ Str.upper (substring 0 8 u);
  txn_type : In (Txn.transaction_type t) ["Disbursement"; "EMI"; "Prepayment"]%list;
  txn_mode : In (Txn.transaction_mode t) (map fst transaction_modes);
  txn_bank : In (Txn.bank_name t) banks;
  txn_status :
    (Txn.transaction_status t = "Success"
     /\ Txn.failure_reason t = None
     /\ Txn.reconciliation_status t = "Matched"
     /\ Txn.reconciled_date t = Some (Time.add_days (Txn.transaction_date t) 1))
    \/ (In (Txn.transaction_status t) ["Failed"; "Pending"]%list
        /\ Txn.transaction_type t = "EMI"
        /\ (exists reason, Txn.failure_reason t = Some reason /\ In reason failure_reasons)
        /\ Txn.reconciliation_status t = "Unmatched"
        /\ Txn.reconciled_date t = None)
}.

(** The row of the disbursement of a loan disbursed on day [d]. *)
Definition disbursement_row (loan : Loan.t) (d : Z) (t : Txn.t) : Prop :=
  Txn.transaction_type t = "Disbursement"
  /\ Txn.transaction_date t = Time.datetime_of_date d
  /\ Txn.amount t = or_number (Loan.net_disbursed_amount loan) (Loan.loan_amount loan)
  /\ Txn.principal_component t = None
  /\ Txn.interest_component t = None
  /\ Txn.penalty_component t = None
  /\ Txn.gst_component t = None
  /\ Txn.transaction_status t = "Success".

(** The row of a prepayment made before the clock read [end_date]. *)
Definition prepayment_row (loan : Loan.t) (end_date : Z) (t : Txn.t) : Prop :=
  Txn.transaction_type t = "Prepayment"
  /\ Loan.loan_status loan = "Active"
  /\ (exists f, (0.2 <= f /\ f <= 0.5)%Q
                /\ Txn.amount t = py_round_to 2 (Loan.current_balance loan * f)
                /\ Txn.principal_component t
                   = Some (py_round_to 2 (Loan.current_balance loan * f)))
  /\ (exists k, 1 <= k <= 30 /\ Txn.transaction_date t = Time.add_days end_date (- k))
  /\ Txn.interest_component t = Some 0%Q
  /\ Txn.penalty_component t = Some 0%Q
  /\ Txn.gst_component t = Some 0%Q
  /\ Txn.transaction_status t = "Success".

End WithRuntime.

(** What the dict of an alert holds when a scenario returns it, for the
    frames the scenarios were run on. *)
Record alert_row (loans_df : list Loan.t) (customers_df : list Customer.t)
    (a : Alert.t) : Prop := {
  alert_id_made :
    exists u, Alert.alert_id a = "FRD" ++ Str.upper (substring 0 10 u);
  alert_subject :
    match Alert.loan_id a with
    | Some id =>
        In (Alert.alert_type a)
           ["Income Mismatch"; "Multiple Applications Same Collateral";
            "Early Payment Default"]%list
        /\ exists loan,
             In loan loans_df
             /\ id = Loan.loan_id loan
             /\ Alert.customer_id a = Loan.customer_id loan
    | None =>
        Alert.alert_type a = "Synthetic Identity"
        /\ Alert.financial_impact a = 0%Q
        /\ exists customer,
             In customer customers_df
             /\ Alert.customer_id a = Customer.customer_id customer
    end;
  alert_kind :
    assoc FraudGenerator.alert_categories (Alert.alert_type a)
    = Some (Alert.alert_category a)
    /\ assoc FraudGenerator.detection_methods (Alert.alert_type a)
       = Some (Alert.detection_method a)
    /\ exists rules,
         assoc FraudGenerator.rule_triggers (Alert.alert_type a) = Some rules
         /\ In (Alert.rule_triggered a) rules;
  alert_status : In (Alert.investigation_status a) DataValidator.valid_status;
  alert_open :
    Alert.investigation_notes a = None
    /\ Alert.resolution_date a = None
    /\ Alert.transaction_id a = None
}.

(** An alert [a] after the confirmed alerts are resolved. *)
Definition resolved (a a' : Alert.t) : Prop :=
  if FraudGenerator.is_confirmed a
  then exists c now k,
         In c ["Legal action initiated"; "Loan written off"; "Recovery in progress"]%list
         /\ 1 <= k <= 30
         /\ a' = FraudGenerator.set_resolution_date
                   (FraudGenerator.set_investigation_notes a
                      (Some ("Fraud confirmed after investigation. " ++ c)))
                   (Some (Time.add_days now (- k)))
  else a' = a.

End Rows.

(* ================================================================== *)
(** * Further runs *)

Module Cases.
Import Scenario.
Local Open Scope string_scope.
Local Open Scope Z_scope.

(** A world in which every draw of [random] is 0.5 and the clock stands at
    noon of 2026-11-06. *)
Definition steady_world : World :=
  world (tape [] half) (tape [] 0) (tape [] 0) noon.

(** Two customers. *)
Definition customers_run : outcome (list Customer.t) :=
  Eval vm_compute in @CustomerGenerator.generate_customers plain 2 steady_world.

Definition customers : list Customer.t :=
  Eval vm_compute in result customers_run [].

(** Two batches of one application each, the first of the first customer
    and the second of the second. *)
Definition batch_world : World :=
  world (tape [] half) (tape [0; 1]%N 0) (tape [] 0) noon.

Definition batch_run : outcome (list Loan.t) :=
  Eval vm_compute in
    @LoanGenerator.generate_batch_loans plain customers None 1 2 batch_world.

Definition batch_loans : list Loan.t :=
  Eval vm_compute in result batch_run [].

(** Two applications in one call, under the same draws. *)
Definition loans_run : outcome (list Loan.t) :=
  Eval vm_compute in
    @LoanGenerator.generate_loans plain customers None 2 batch_world.

Definition loans : list Loan.t :=
  Eval vm_compute in result loans_run [].

(** The transactions of the loans of the two batches, with a target of one
    row. *)
Definition transactions_run : outcome (list Txn.t) :=
  Eval vm_compute in
    @TransactionGenerator.generate_transactions plain batch_loans customers 1 steady_world.

Definition transactions : list Txn.t :=
  Eval vm_compute in result transactions_run [].

(** The fraud scenarios on these customers and loans: the detection draw of
    the first group of the shared collateral scenario is 0, every other draw
    is 0.5. *)
Definition alerts_run : outcome (list Alert.t * list Loan.t) :=
  Eval vm_compute in
    FraudGenerator.generate_all_fraud_scenarios batch_loans customers fraud_world.

(** The quality report of these frames and an empty frame of alerts. *)
Definition report_run : outcome DataValidator.report :=
  Eval vm_compute in
    DataValidator.generate_quality_report customers batch_loans transactions []
      steady_world.

Definition no_report : DataValidator.report :=
  DataValidator.mkReport "" (DataValidator.mkSummary 0 0 0 0 0 0 0 0 0) [] 0.

Definition report : DataValidator.report :=
  Eval vm_compute in result report_run no_report.

(** Two batches of one customer each. *)
Definition batch_customers_run : outcome (list Customer.t) :=
  Eval vm_compute in @CustomerGenerator.generate_batch_customers plain 1 2 steady_world.

Definition batch_customers : list Customer.t :=
  Eval vm_compute in result batch_customers_run [].

(** [Scenario.customer1], inactive. *)
Definition dormant_customer : Customer.t := {|
  Customer.customer_id := "CUST00000001";
  Customer.first_name := "Asha";
  Customer.last_name := "Rao";
  Customer.date_of_birth := Time.days_from_civil 1986 11 16;
  Customer.age := 40;
  Customer.gender := "Female";
  Customer.marital_status := "Married";
  Customer.education := "Bachelor's";
  Customer.employment_type := "Salaried";
  Customer.annual_income := 600000;
  Customer.income_tier := "Middle";
  Customer.credit_score := 580;
  Customer.credit_tier := "Sub-Prime";
  Customer.city := "Pune";
  Customer.state := "Maharashtra";
  Customer.pincode := "411001";
  Customer.address_line1 := "12 MG Road";
  Customer.address_line2 := None;
  Customer.phone := "9123456789";
  Customer.email := "asha.rao@gmail.com";
  Customer.customer_segment := "Mass";
  Customer.customer_value_tier := "Bronze";
  Customer.acquisition_date := Time.days_from_civil 2026 9 1;
  Customer.acquisition_channel := "Broker";
  Customer.is_active := false;
  Customer.effective_start_date := Time.days_from_civil 2026 9 1;
  Customer.effective_end_date := None;
  Customer.is_current := true
|}.

(** The two scored scenarios on [Scenario.delinquent_loan]: the detection
    draw of the early default scenario is 0. *)
Definition mismatch_run : outcome (list Alert.t) :=
  Eval vm_compute in
    FraudGenerator.generate_fraud_scenario_income_mismatch
      [delinquent_loan] [customer1] fraud_world.

Definition default_run : outcome (list Alert.t) :=
  Eval vm_compute in
    FraudGenerator.generate_fraud_scenario_early_default [delinquent_loan] fraud_world.

(** The transactions of [Scenario.delinquent_loan], with a target of one
    row. *)
Definition delinquent_frame_run : outcome (list Txn.t) :=
  Eval vm_compute in
    @TransactionGenerator.generate_transactions plain [delinquent_loan] [customer1] 1
      steady_world.

End Cases.

(* ================================================================== *)
(** * Rounding *)

Module NumFacts.
Local Open Scope Q_scope.

Lemma Qltb_lt x y : Qltb x y = true <-> x < y.
Proof.
  unfold Qltb. rewrite negb_true_iff, <- not_true_iff_false, Qle_bool_iff.
  split; [apply Qnot_le_lt|apply Qlt_not_le].
Qed.

Lemma Qltb_ge x y : Qltb x y = false <-> y <= x.
Proof.
  unfold Qltb. rewrite negb_false_iff, Qle_bool_iff. reflexivity.
Qed.

Lemma py_round_near x :
  x - (1 # 2) <= inject_Z (py_round x) /\ inject_Z (py_round x) <= x + (1 # 2).
Proof.
  unfold py_round.
  pose proof (Qfloor_le x) as Hlo. pose proof (Qlt_floor x) as Hhi.
  rewrite inject_Z_plus in Hhi. change (inject_Z 1) with 1 in Hhi.
  destruct (Qcompare_spec (x - inject_Z (Qfloor x)) (1 # 2)) as [E|E|E].
  - destruct (Z.even (Qfloor x)); [|rewrite inject_Z_plus; change (inject_Z 1) with 1];
      split; lra.
  - split; lra.
  - rewrite inject_Z_plus. change (inject_Z 1) with 1. split; lra.
Qed.

Lemma py_round_floor x : (Qfloor x <= py_round x <= Qfloor x + 1)%Z.
Proof.
  unfold py_round.
  destruct (Qcompare _ _); [destruct (Z.even _)| |]; lia.
Qed.

Lemma py_round_lower (z : Z) x : inject_Z z <= x -> (z <= py_round x)%Z.
Proof.
  intros Hz. apply Qfloor_resp_le in Hz. rewrite Qfloor_Z in Hz.
  pose proof (py_round_floor x). lia.
Qed.

Lemma py_round_upper (z : Z) x : x <= inject_Z z -> (py_round x <= z)%Z.
Proof.
  intros Hz. destruct (Qlt_le_dec x (inject_Z z)) as [Hlt|Hge].
  - assert (Hf : (Qfloor x < z)%Z).
    { rewrite Zlt_Qlt. eapply Qle_lt_trans; [apply Qfloor_le|exact Hlt]. }
    pose proof (py_round_floor x). lia.
  - assert (E : x == inject_Z z) by (apply Qle_antisym; assumption).
    unfold py_round. rewrite (Qfloor_comp _ _ E), Qfloor_Z.
    destruct (Qcompare_spec (x - inject_Z z) (1 # 2)) as [E'|E'|E']; try lia; lra.
Qed.

Lemma pow10_pos n : 0 < inject_Z (10 ^ Z.of_nat n).
Proof.
  change 0 with (inject_Z 0). rewrite <- Zlt_Qlt.
  apply Z.pow_pos_nonneg; lia.
Qed.

(** Rounding to [n] decimals keeps a value between two bounds that have at
    most [n] decimals. *)
Lemma py_round_to_between n (lo hi : Z) x :
  inject_Z lo / inject_Z (10 ^ Z.of_nat n) <= x ->
  x <= inject_Z hi / inject_Z (10 ^ Z.of_nat n) ->
  inject_Z lo / inject_Z (10 ^ Z.of_nat n) <= py_round_to n x
  /\ py_round_to n x <= inject_Z hi / inject_Z (10 ^ Z.of_nat n).
Proof.
  intros Hlo Hhi. unfold py_round_to.
  pose proof (pow10_pos n) as Hp.
  set (p := inject_Z (10 ^ Z.of_nat n)) in *.
  assert (H1 : inject_Z lo <= x * p).
  { setoid_replace (inject_Z lo) with (inject_Z lo / p * p) by (field; lra).
    apply Qmult_le_compat_r; lra. }
  assert (H2 : x * p <= inject_Z hi).
  { setoid_replace (inject_Z hi) with (inject_Z hi / p * p) by (field; lra).
    apply Qmult_le_compat_r; lra. }
  apply py_round_lower in H1. apply py_round_upper in H2.
  rewrite Zle_Qle in H1, H2.
  assert (Hi : 0 <= / p) by (apply Qinv_le_0_compat; lra).
  split; unfold Qdiv; apply Qmult_le_compat_r; assumption.
Qed.

(** Rounding to [n] decimals moves a value by at most half a unit of the last
    decimal. *)
Lemma py_round_to_near n x :
  Qabs (py_round_to n x - x) <= (1 # 2) / inject_Z (10 ^ Z.of_nat n).
Proof.
  unfold py_round_to.
  pose proof (pow10_pos n) as Hp.
  set (p := inject_Z (10 ^ Z.of_nat n)) in *.
  destruct (py_round_near (x * p)) as [Hlo Hhi].
  set (r := inject_Z (py_round (x * p))) in *.
  assert (E : r / p - x == (r - x * p) / p) by (field; lra).
  rewrite E. apply Qabs_Qle_condition. split.
  - apply Qle_shift_div_l; [exact Hp|].
    setoid_replace (- ((1 # 2) / p) * p) with (- (1 # 2)) by (field; lra). lra.
  - apply Qle_shift_div_r; [exact Hp|].
    setoid_replace ((1 # 2) / p * p) with (1 # 2) by (field; lra). lra.
Qed.

Lemma py_round_comp x y : x == y -> py_round x = py_round y.
Proof.
  intros E. unfold py_round. rewrite (Qfloor_comp _ _ E).
  assert (Ec : (x - inject_Z (Qfloor y) ?= 1 # 2) = (y - inject_Z (Qfloor y) ?= 1 # 2))
    by (apply Qcompare_comp; [rewrite E|]; reflexivity).
  rewrite Ec. reflexivity.
Qed.

Lemma py_round_to_comp n x y : x == y -> py_round_to n x == py_round_to n y.
Proof.
  intros E. unfold py_round_to.
  rewrite (py_round_comp (x * inject_Z (10 ^ Z.of_nat n)) (y * inject_Z (10 ^ Z.of_nat n)));
    [reflexivity|rewrite E; reflexivity].
Qed.

End NumFacts.
Import NumFacts.

(** Closes a comparison of two closed rationals. *)
Ltac qle_compute := apply Qle_bool_iff; vm_compute; reflexivity.

(* ================================================================== *)
(** * Reasoning about generators *)

Module GenFacts.

Lemma bind_ok {A B} (m : Gen.t A) (f : A -> Gen.t B) w b w' :
  bind m f w = Ok b w' -> exists a w1, m w = Ok a w1 /\ f a w1 = Ok b w'.
Proof.
  unfold bind. destruct (m w) as [a w1|e]; [|discriminate].
  intros Hf. exists a, w1. split; [reflexivity|exact Hf].
Qed.

Lemma ret_ok {A} (a b : A) w w' : ret a w = Ok b w' -> a = b /\ w = w'.
Proof. unfold ret. intros E. injection E as -> ->. split; reflexivity. Qed.

Lemma for_each_Forall {A B} (P : B -> Prop) (body : A -> Gen.t (list B)) :
  (forall x w ys w', body x w = Ok ys w' -> Forall P ys) ->
  forall xs w ys w', for_each body xs w = Ok ys w' -> Forall P ys.
Proof.
  intros Hbody. induction xs as [|x xs IH]; intros w ys w' E; cbn [for_each] in E.
  - apply ret_ok in E as [<- _]. constructor.
  - apply bind_ok in E as (ys1 & w1 & E1 & E).
    apply bind_ok in E as (ys2 & w2 & E2 & E).
    apply ret_ok in E as [<- _].
    apply Forall_app. split; [eapply Hbody|eapply IH]; eassumption.
Qed.

Lemma for_each_inv {A B} (body : A -> Gen.t (list B)) xs w ys w' :
  for_each body xs w = Ok ys w' ->
  exists yss,
    ys = List.concat yss
    /\ Forall2 (fun x y => exists w1 w2, body x w1 = Ok y w2) xs yss.
Proof.
  revert w ys w'. induction xs as [|x xs IH]; intros w ys w' E; cbn [for_each] in E.
  - apply ret_ok in E as [<- _]. exists []. split; [reflexivity|constructor].
  - apply bind_ok in E as (ys1 & w1 & E1 & E).
    apply bind_ok in E as (ys2 & w2 & E2 & E).
    apply ret_ok in E as [<- _].
    apply IH in E2 as (yss & -> & Hall).
    exists (ys1 :: yss). split; [reflexivity|].
    constructor; [exists w, w1; exact E1|exact Hall].
Qed.

Lemma randbelow_ok n w k w' : 0 < n -> randbelow n w = Ok k w' -> 0 <= k < n.
Proof.
  intros Hn E. unfold randbelow in E.
  apply bind_ok in E as (r & w1 & _ & E). apply ret_ok in E as [<- _].
  apply Z.mod_pos_bound. exact Hn.
Qed.

Lemma randint_ok a b w k w' : randint a b w = Ok k w' -> a <= k <= b.
Proof.
  unfold randint. destruct (b <? a) eqn:Hab; [discriminate|].
  apply Z.ltb_ge in Hab. intros E.
  apply bind_ok in E as (r & w1 & Er & E). apply ret_ok in E as [<- _].
  apply randbelow_ok in Er; lia.
Qed.

Lemma random_range w u w' : random w = Ok u w' -> (0 <= u /\ u < 1)%Q.
Proof.
  unfold random. intros E. apply bind_ok in E as (r & w1 & _ & E).
  apply ret_ok in E as [<- _].
  assert (Hm : (r mod 9007199254740992 < 9007199254740992)%N)
    by (apply N.mod_upper_bound; discriminate).
  unfold Qle, Qlt. cbn [Qnum Qden].
  generalize dependent (r mod 9007199254740992)%N. intros n Hn. lia.
Qed.

Lemma uniform_range a b w x w' :
  (a <= b)%Q -> uniform a b w = Ok x w' -> (a <= x /\ x <= b)%Q.
Proof.
  intros Hab E. unfold uniform in E. apply bind_ok in E as (u & w1 & Eu & E).
  apply ret_ok in E as [<- _]. apply random_range in Eu as [Hu0 Hu1].
  split; nra.
Qed.

Lemma choice_In {A} (l : list A) w x w' : choice l w = Ok x w' -> In x l.
Proof.
  unfold choice. destruct l as [|a l]; [discriminate|]. intros E.
  apply bind_ok in E as (i & w1 & Ei & E). apply ret_ok in E as [<- _].
  apply randbelow_ok in Ei; [|cbn [List.length]; lia].
  apply nth_In. lia.
Qed.

Lemma bisect_le cum x hi : (bisect cum x hi <= hi)%nat.
Proof.
  revert cum. induction hi as [|h IH]; intros [|c cum]; cbn; try lia.
  destruct (Qltb x c); [lia|]. specialize (IH cum). lia.
Qed.

Lemma choices_In {A} (population : list A) weights w x w' :
  choices population weights w = Ok x w' -> In x population.
Proof.
  unfold choices. destruct (negb _); [discriminate|].
  destruct population as [|p0 ps]; [discriminate|].
  destruct (Qle_bool _ _); [discriminate|]. intros E.
  apply bind_ok in E as (u & w1 & _ & E). apply ret_ok in E as [<- _].
  apply nth_In.
  pose proof (bisect_le (accumulate 0 weights) (u * last (accumulate 0 weights) 0)%Q
                        (List.length (p0 :: ps) - 1)).
  cbn [List.length] in *. lia.
Qed.

Lemma sample1_In {A} (rows : list A) w x w' : sample1 rows w = Ok x w' -> In x rows.
Proof.
  unfold sample1. destruct rows as [|r0 rows'] eqn:Er; [discriminate|].
  rewrite <- Er. intros E.
  assert (Ex : x = nth (N.to_nat (read (np_random w) mod N.of_nat (List.length rows))) rows r0)
    by congruence.
  rewrite Ex. apply nth_In.
  assert (read (np_random w) mod N.of_nat (List.length rows)
          < N.of_nat (List.length rows))%N
    by (apply N.mod_upper_bound; rewrite Er; cbn [List.length]; lia).
  lia.
Qed.

End GenFacts.
Import GenFacts.

(** Splits a successful run of a sequence of binds into its steps. *)
Ltac bind_inv H :=
  lazymatch type of H with
  | bind _ _ _ = Ok _ _ =>
      let a := fresh "a" in let w := fresh "w" in let E := fresh "E" in
      apply bind_ok in H; destruct H as (a & w & E & H); cbv beta in H; bind_inv H
  | ret _ _ = Ok _ _ =>
      let E := fresh "E" in
      apply ret_ok in H; destruct H as [H E]
  | context [match ?p with pair _ _ => _ end] =>
      is_var p; destruct p; bind_inv H
  | _ => idtac
  end.

(* ================================================================== *)
(** * The loan generator *)

Module LoanFacts.
Import LoanGenerator Shape.

Section WithRuntime.
Context `{Runtime}.
Local Open Scope string_scope.
Local Open Scope Z_scope.

Lemma generate_dpd_range w days bucket w' :
  generate_dpd w = Ok (days, bucket) w' -> 0 <= days <= 180.
Proof.
  unfold generate_dpd. intros E.
  apply bind_ok in E as (b & w1 & _ & E).
  apply bind_ok in E as (d & w2 & Ed & E).
  apply ret_ok in E as [E _]. injection E as <- <-.
  repeat match type of Ed with
         | (if ?c then _ else _) _ = _ => destruct c
         end;
    try (apply ret_ok in Ed as [<- _]; lia);
    apply randint_ok in Ed; lia.
Qed.

Lemma get_dpd_bucket_band days :
  0 <= days -> Spec.dpd_band days (get_dpd_bucket days).
Proof.
  intros Hd. unfold Spec.dpd_band, get_dpd_bucket.
  destruct (days =? 0) eqn:E0; [apply Z.eqb_eq in E0; auto|apply Z.eqb_neq in E0].
  destruct (days <=? 30) eqn:E1; [apply Z.leb_le in E1; right; left; split; [lia|reflexivity]|apply Z.leb_gt in E1].
  destruct (days <=? 60) eqn:E2; [apply Z.leb_le in E2; right; right; left; split; [lia|reflexivity]|apply Z.leb_gt in E2].
  destruct (days <=? 90) eqn:E3; [apply Z.leb_le in E3; right; right; right; left; split; [lia|reflexivity]|apply Z.leb_gt in E3].
  right; right; right; right. split; [lia|reflexivity].
Qed.

Lemma loan_status_of_bucket bucket :
  In match loan_status_mapping bucket with Some s => s | None => "Active" end
     ["Active"; "Overdue"; "NPA"]%list.
Proof.
  unfold loan_status_mapping.
  repeat match goal with |- context [if ?c then _ else _] => destruct c end;
    cbn; auto.
Qed.

Lemma approved_loan_shape i customer product eligibility loan_amount
    application_date end_date branch_ids w l w' :
  approved_loan i customer product eligibility loan_amount application_date
    end_date branch_ids w = Ok l w' ->
  approved_shape customer loan_amount l.
Proof.
  unfold approved_loan. intros E. bind_inv E. subst l.
  match goal with Hd : generate_dpd _ = Ok _ _ |- _ => apply generate_dpd_range in Hd end.
  constructor; cbn; try reflexivity; try assumption.
  - apply loan_status_of_bucket.
  - discriminate.
Qed.

Lemma rejected_loan_contract customer product loan_amount application_date
    branch_ids w l w' :
  rejected_loan customer product loan_amount application_date branch_ids w = Ok l w' ->
  Spec.rejected_contract l
  /\ Loan.loan_amount l = loan_amount
  /\ Loan.customer_id l = Customer.customer_id customer
  /\ Loan.bureau_score_at_origination l = Customer.credit_score customer.
Proof.
  unfold rejected_loan. intros E. bind_inv E. subst l.
  unfold Spec.rejected_contract. cbn. repeat split.
Qed.

Lemma products_amounts :
  Forall (fun p => (Product.min_amount p <= Product.max_amount p)%Q) products.
Proof. unfold products. repeat constructor; cbn; unfold Qle; cbn; lia. Qed.

Lemma draw_application_ok active w customer product eligibility amount w' :
  draw_application active w = Ok (customer, product, eligibility, amount) w' ->
  In customer active /\ In product products
  /\ eligibility = calculate_eligibility customer product
  /\ amount_drawn customer product amount.
Proof.
  unfold draw_application. intros E.
  apply bind_ok in E as (c & w1 & Ec & E).
  apply bind_ok in E as (p & w2 & Ep & E).
  apply sample1_In in Ec.
  assert (Hp : In p products).
  { repeat match type of Ep with
           | (if ?b then _ else _) _ = _ => destruct b
           end; apply choice_In in Ep;
      try exact Ep;
      match type of Ep with
      | In _ (or_list (filter ?f _) _) =>
          unfold or_list in Ep; destruct (filter f products) eqn:Ef;
            [exact Ep|rewrite <- Ef in Ep; apply filter_In in Ep; apply Ep]
      end. }
  cbn [calculate_eligibility Eligibility.eligible negb] in E.
  apply bind_ok in E as (x & w3 & Ex & E). apply ret_ok in E as [E _].
  injection E as <- <- <- <-.
  repeat split; try assumption.
  apply uniform_range in Ex.
  - exists x. intuition.
  - apply Q.min_le_compat_r.
    pose proof products_amounts as Hall. rewrite Forall_forall in Hall.
    apply Hall, Hp.
Qed.

Lemma generate_loans_step_origin customers_df branch_ids end_date date_range_days i
    w ls w' :
  generate_loans_step (filter Customer.is_active customers_df) branch_ids end_date
    date_range_days i w = Ok ls w' ->
  Forall (loan_origin customers_df) ls.
Proof.
  unfold generate_loans_step. intros E.
  apply bind_ok in E as ([[[customer product] eligibility] amount] & w1 & Ed & E).
  apply draw_application_ok in Ed as (Hc & Hp & -> & Ha).
  apply filter_In in Hc as [Hc _].
  cbn [calculate_eligibility Eligibility.eligible negb] in E.
  apply bind_ok in E as (k & w2 & _ & E).
  apply bind_ok in E as (u & w3 & _ & E).
  apply bind_ok in E as (l & w4 & El & E).
  apply ret_ok in E as [<- _].
  constructor; [|constructor].
  exists customer, product.
  destruct (Qltb u 0.9).
  - apply approved_loan_shape in El.
    pose proof (shape_amount _ _ _ El) as Hamt. subst amount.
    repeat split; try assumption; try apply El. left. exact El.
  - apply rejected_loan_contract in El as (Hr & Hamt & Hid & Hs). subst amount.
    repeat split; try assumption. right. exact Hr.
Qed.

Lemma generate_loans_origin customers_df branches_df n w loans w' :
  generate_loans customers_df branches_df n w = Ok loans w' ->
  Forall (loan_origin customers_df) loans.
Proof.
  unfold generate_loans. intros E.
  apply bind_ok in E as (end_date & w1 & _ & E).
  eapply for_each_Forall; [|exact E].
  intros i w2 ls w3. apply generate_loans_step_origin.
Qed.

Lemma uniform_total a b w : exists x w', uniform a b w = Ok x w'.
Proof. unfold uniform, bind, random, next_raw, ret. do 2 eexists. reflexivity. Qed.

Lemma uniform_within a b lo hi w x w' :
  (lo <= a)%Q -> (a <= b)%Q -> (b <= hi)%Q ->
  uniform a b w = Ok x w' -> (lo <= x /\ x <= hi)%Q.
Proof.
  intros Hlo Hab Hhi E. apply uniform_range in E; [|exact Hab]. split; lra.
Qed.

Lemma dpd_factor_range dpd :
  (0 <= (if 0 <? dpd then Qmin 0.3 (inject_Z dpd * 0.002) else 0))%Q.
Proof.
  destruct (0 <? dpd) eqn:Hd; [|lra].
  apply Z.ltb_lt in Hd. apply Q.min_glb; [lra|].
  assert (0 <= inject_Z dpd)%Q by (change 0%Q with (inject_Z 0); rewrite <- Zle_Qle; lia).
  nra.
Qed.

Lemma calculate_pd_range credit_score dpd :
  (forall x, 0 <= np_exp x)%Q ->
  (0 <= calculate_pd credit_score dpd /\ calculate_pd credit_score dpd <= 0.99)%Q.
Proof.
  intros Hexp. unfold calculate_pd.
  set (e := np_exp _). set (f := if 0 <? dpd then _ else _).
  assert (He : (0 <= e)%Q) by apply Hexp.
  assert (Hf : (0 <= f)%Q) by apply dpd_factor_range.
  assert (Hb : (0 <= 1 / (1 + e))%Q).
  { apply Qle_shift_div_l; lra. }
  destruct (py_round_to_between 4 0 9900 (Qmin 0.99 (1 / (1 + e) + f))) as [Hlo Hhi].
  - apply Q.min_glb; [qle_compute|]. 
    eapply Qle_trans; [|apply Qplus_le_compat; eassumption]. qle_compute.
  - eapply Qle_trans; [apply Q.le_min_l|qle_compute].
  - split.
    + eapply Qle_trans; [|exact Hlo]. qle_compute.
    + eapply Qle_trans; [exact Hhi|]. qle_compute.
Qed.

Lemma calculate_pd_formula credit_score dpd :
  (calculate_pd credit_score dpd == Spec.probability_of_default credit_score dpd)%Q.
Proof.
  unfold calculate_pd, Spec.probability_of_default, Spec.dpd_factor.
  apply py_round_to_comp.
  destruct (0 <? dpd); [|reflexivity].
  rewrite (Qmult_comm (inject_Z dpd)). reflexivity.
Qed.

Lemma loan_origin_cases customers_df l :
  loan_origin customers_df l ->
  (Loan.disbursement_date l <> None
   /\ In (Loan.loan_status l) ["Active"; "Overdue"; "NPA"]%list
   /\ 0 <= Loan.days_past_due l <= 180
   /\ Loan.dpd_bucket l = get_dpd_bucket (Loan.days_past_due l)
   /\ Loan.npa_flag l = (90 <? Loan.days_past_due l)
   /\ Loan.probability_of_default l =
      Some (calculate_pd (Loan.bureau_score_at_origination l) (Loan.days_past_due l)))
  \/ Spec.rejected_contract l.
Proof.
  intros (c & p & _ & _ & _ & _ & _ & [Ha|Hr]); [left|right; exact Hr].
  destruct Ha. repeat split; assumption || lia.
Qed.

(** C4.  Every approved loan of [generate_loans] carries the [dpd_bucket] of
    the band its [days_past_due] falls in ('0' for 0, '1-30', '31-60',
    '61-90' up to 90 days, '90+' above) and has [npa_flag] set exactly when
    [days_past_due] exceeds 90; with 95 days past due the bucket is '90+'
    and the flag is set. *)
Theorem dpd_bucket_of_generated_loans customers_df branches_df n w loans w' :
  generate_loans customers_df branches_df n w = Ok loans w' ->
  Forall (fun l =>
            Loan.disbursement_date l <> None ->
            Spec.dpd_band (Loan.days_past_due l) (Loan.dpd_bucket l)
            /\ Loan.npa_flag l = (90 <? Loan.days_past_due l)
            /\ (Loan.days_past_due l = 95 ->
                Loan.dpd_bucket l = "90+" /\ Loan.npa_flag l = true))
         loans.
Proof.
  intros E. apply generate_loans_origin in E.
  eapply Forall_impl; [|exact E]. intros l Ho Hd.
  apply loan_origin_cases in Ho as [(_ & _ & Hdays & Hb & Hn & _)|Hr].
  - rewrite Hb, Hn. split; [apply get_dpd_bucket_band; lia|].
    split; [reflexivity|]. intros ->. split; reflexivity.
  - destruct Hr as [Hnone _]. contradiction.
Qed.

(** C5.  Every rejected row of [generate_loans] (status 'Rejected', or no
    disbursement date) has all its disbursement-dependent fields null, a
    zero balance, overdue amount and days past due, and status
    'Rejected'. *)
Theorem rejected_loans_are_null customers_df branches_df n w loans w' :
  generate_loans customers_df branches_df n w = Ok loans w' ->
  Forall (fun l =>
            Loan.loan_status l = "Rejected" \/ Loan.disbursement_date l = None ->
            Spec.rejected_contract l)
         loans.
Proof.
  intros E. apply generate_loans_origin in E.
  eapply Forall_impl; [|exact E]. intros l Ho Hrej.
  apply loan_origin_cases in Ho as [(Hd & Hs & _)|Hr]; [exfalso|exact Hr].
  destruct Hrej as [Hrej|Hrej]; [|contradiction].
  rewrite Hrej in Hs. cbn in Hs. intuition discriminate.
Qed.

(** C6.  The probability of default of every disbursed loan is
    [min(0.99, 1/(1+exp((credit_score-650)/50)) + dpd_factor)] rounded to 4
    decimals, with [dpd_factor = min(0.3, 0.002 * days_past_due)] when
    [days_past_due > 0] and 0 otherwise; for every credit score and every
    number of days past due it lies in [0, 0.99]. *)
Theorem probability_of_default_of_generated_loans customers_df branches_df n w loans w' :
  (forall x, 0 <= np_exp x)%Q ->
  generate_loans customers_df branches_df n w = Ok loans w' ->
  Forall (fun l =>
            Loan.disbursement_date l <> None ->
            exists pd,
              Loan.probability_of_default l = Some pd
              /\ (pd == Spec.probability_of_default
                          (Loan.bureau_score_at_origination l) (Loan.days_past_due l))%Q
              /\ (0 <= pd /\ pd <= 0.99)%Q)
         loans
  /\ (forall credit_score days_past_due,
        calculate_pd credit_score days_past_due
        == Spec.probability_of_default credit_score days_past_due
        /\ 0 <= calculate_pd credit_score days_past_due
        /\ calculate_pd credit_score days_past_due <= 0.99)%Q.
Proof.
  intros Hexp E. split.
  - apply generate_loans_origin in E.
    eapply Forall_impl; [|exact E]. intros l Ho Hd.
    apply loan_origin_cases in Ho as [(_ & _ & _ & _ & _ & Hpd)|Hr].
    + eexists. split; [exact Hpd|]. split; [apply calculate_pd_formula|].
      apply calculate_pd_range, Hexp.
    + destruct Hr as [Hnone _]. contradiction.
  - intros cs d. split; [apply calculate_pd_formula|apply calculate_pd_range, Hexp].
Qed.

(** C10.  [calculate_lgd] returns for every product type, collateral value
    and loan amount, and what it returns lies in [0.15, 0.80]. *)
Theorem calculate_lgd_total_and_bounded product_type collateral_value loan_amount w :
  exists lgd w',
    calculate_lgd product_type collateral_value loan_amount w = Ok lgd w'
    /\ (0.15 <= lgd /\ lgd <= 0.80)%Q.
Proof.
  assert (Hu : forall a b w0,
             (0.15 <= a)%Q -> (a <= b)%Q -> (b <= 0.80)%Q ->
             exists x w1, uniform a b w0 = Ok x w1 /\ (0.15 <= x /\ x <= 0.80)%Q).
  { intros a b w0 Ha Hab Hb. destruct (uniform_total a b w0) as (x & w1 & E).
    exists x, w1. split; [exact E|]. eapply uniform_within; eassumption. }
  assert (Hround : forall m : Gen.t Q,
             (exists x w1, m w = Ok x w1 /\ (0.15 <= x /\ x <= 0.80)%Q) ->
             exists lgd w',
               bind m (fun lgd => ret (py_round_to 4 lgd)) w = Ok lgd w'
               /\ (0.15 <= lgd /\ lgd <= 0.80)%Q).
  { intros m (x & w1 & Ex & Hlo & Hhi).
    exists (py_round_to 4 x), w1. unfold bind. rewrite Ex.
    split; [reflexivity|].
    destruct (py_round_to_between 4 1500 8000 x) as [H1 H2].
    - eapply Qle_trans; [|exact Hlo]. qle_compute.
    - eapply Qle_trans; [exact Hhi|]. qle_compute.
    - split.
      + eapply Qle_trans; [|exact H1]. qle_compute.
      + eapply Qle_trans; [exact H2|]. qle_compute. }
  unfold calculate_lgd. cbv zeta. apply Hround.
  assert (Hty : exists x w1,
             (if Str.contains "Home" product_type then uniform 0.20 0.40
              else if Str.contains "Auto" product_type then uniform 0.30 0.50
              else uniform 0.60 0.80) w = Ok x w1 /\ (0.15 <= x /\ x <= 0.80)%Q).
  { destruct (Str.contains "Home" product_type);
      [|destruct (Str.contains "Auto" product_type)];
      apply Hu; qle_compute. }
  destruct collateral_value as [cv|]; [|exact Hty].
  destruct loan_amount as [la|]; [|exact Hty].
  destruct (truthy cv && truthy la) eqn:Ht; [|exact Hty].
  apply andb_true_iff in Ht as [Hcv _]. unfold truthy in Hcv.
  apply negb_true_iff in Hcv.
  unfold bind at 1. unfold fdiv. rewrite Hcv. unfold ret at 1.
  destruct (Qltb (la / cv) 0.5); [|destruct (Qltb (la / cv) 0.7)];
    apply Hu; qle_compute.
Qed.

(** The amount applied for by a customer with a score of at most 650. *)
Lemma amount_drawn_bound customer product amount :
  In product products ->
  amount_drawn customer product amount ->
  Customer.credit_score customer <= 650 ->
  (amount <= 3 * Customer.annual_income customer + 500)%Q.
Proof.
  intros Hp (x & _ & Hx & ->) Hs.
  assert (Hcap : (x <= Customer.annual_income customer * 3)%Q).
  { eapply Qle_trans; [exact Hx|]. eapply Qle_trans; [apply Q.le_min_r|].
    cbn [calculate_eligibility Eligibility.max_amount].
    eapply Qle_trans; [apply Q.le_min_r|].
    replace (750 <? Customer.credit_score customer) with false
      by (symmetry; apply Z.ltb_ge; lia).
    replace (650 <? Customer.credit_score customer) with false
      by (symmetry; apply Z.ltb_ge; lia).
    lra. }
  destruct (py_round_near (x / 1000)) as [_ Hr].
  rewrite inject_Z_mult. change (inject_Z 1000) with 1000%Q.
  assert (Ex : (x / 1000 * 1000 == x)%Q) by (field; lra).
  lra.
Qed.

(** The amount of a generated loan of a customer with a score of at most
    650. *)
Lemma loan_origin_bound customers_df l :
  loan_origin customers_df l ->
  exists c,
    In c customers_df
    /\ Customer.customer_id c = Loan.customer_id l
    /\ Customer.credit_score c = Loan.bureau_score_at_origination l
    /\ (Customer.credit_score c <= 650 ->
        (Loan.loan_amount l <= 3 * Customer.annual_income c + 500)%Q).
Proof.
  intros (c & p & Hc & Hp & Ha & Hid & Hs & _).
  exists c. repeat split; try (symmetry; assumption); try assumption.
  intros Hle. eapply amount_drawn_bound; eassumption.
Qed.

Lemma mem_In s l : Str.mem s l = true <-> In s l.
Proof.
  unfold Str.mem. rewrite existsb_exists. split.
  - intros (x & Hx & E). apply String.eqb_eq in E. subst x. exact Hx.
  - intros Hs. exists s. split; [exact Hs|apply String.eqb_refl].
Qed.

Lemma unique_by_id (cs : list Customer.t) c1 c2 :
  NoDup (map Customer.customer_id cs) ->
  In c1 cs -> In c2 cs ->
  Customer.customer_id c1 = Customer.customer_id c2 -> c1 = c2.
Proof.
  induction cs as [|c cs IH]; cbn [map]; intros Hnd H1 H2 E; [contradiction|].
  inversion Hnd as [|? ? Hnotin Hnd']; subst.
  destruct H1 as [<-|H1], H2 as [<-|H2].
  - reflexivity.
  - exfalso. apply Hnotin. rewrite E. apply in_map, H2.
  - exfalso. apply Hnotin. rewrite <- E. apply in_map, H1.
  - apply IH; assumption.
Qed.

Lemma merge_left_In loans_df customers_df (row : FraudGenerator.merged_row) :
  In row (FraudGenerator.merge_left loans_df customers_df) ->
  In (fst row) loans_df
  /\ match snd row with
     | Some (income, score) =>
         exists c, In c customers_df
                   /\ Customer.customer_id c = Loan.customer_id (fst row)
                   /\ income = Customer.annual_income c
                   /\ score = Customer.credit_score c
     | None => True
     end.
Proof.
  unfold FraudGenerator.merge_left. rewrite in_flat_map.
  intros (l & Hl & Hrow).
  destruct (filter _ customers_df) as [|c0 cs] eqn:Ef.
  - destruct Hrow as [<-|[]]. split; [exact Hl|exact I].
  - rewrite <- Ef in Hrow. apply in_map_iff in Hrow as (c & <- & Hc).
    apply filter_In in Hc as [Hc Hid]. apply String.eqb_eq in Hid.
    split; [exact Hl|]. exists c. repeat split; assumption.
Qed.

(** C9.  Every loan of [generate_loans] drawn for a customer with a credit
    score of at most 650 has [loan_amount <= 3 * annual_income + 500]; hence
    a candidate of the income mismatch scenario, whose customer has a score
    under 600, exceeds three times the income by the rounding margin of 500
    at most. *)
Theorem loan_amount_within_income_cap customers_df branches_df n w loans w' :
  generate_loans customers_df branches_df n w = Ok loans w' ->
  Forall (fun l =>
            exists c,
              In c customers_df
              /\ Customer.customer_id c = Loan.customer_id l
              /\ Customer.credit_score c = Loan.bureau_score_at_origination l
              /\ (Customer.credit_score c <= 650 ->
                  (Loan.loan_amount l <= 3 * Customer.annual_income c + 500)%Q))
         loans
  /\ (NoDup (map Customer.customer_id customers_df) ->
      Forall (fun row : FraudGenerator.merged_row =>
                exists income score,
                  snd row = Some (income, score)
                  /\ score < 600
                  /\ (3 * income < Loan.loan_amount (fst row))%Q
                  /\ (Loan.loan_amount (fst row) <= 3 * income + 500)%Q)
             (FraudGenerator.suspicious_loans loans customers_df)).
Proof.
  intros E. apply generate_loans_origin in E.
  assert (Hall : Forall (fun l =>
            exists c,
              In c customers_df
              /\ Customer.customer_id c = Loan.customer_id l
              /\ Customer.credit_score c = Loan.bureau_score_at_origination l
              /\ (Customer.credit_score c <= 650 ->
                  (Loan.loan_amount l <= 3 * Customer.annual_income c + 500)%Q))
         loans).
  { eapply Forall_impl; [|exact E]. intros l. apply loan_origin_bound. }
  split; [exact Hall|].
  intros Hnd. apply Forall_forall. intros [l oc] Hrow.
  unfold FraudGenerator.suspicious_loans in Hrow.
  apply filter_In in Hrow as [Hrow Hcond]. cbn [fst snd] in Hcond |- *.
  apply andb_true_iff in Hcond as [Hcond _].
  apply andb_true_iff in Hcond as [Hrisk Hgt].
  apply merge_left_In in Hrow as [Hl Hoc]. cbn [fst snd] in Hl, Hoc.
  destruct oc as [[income score]|]; [|discriminate].
  destruct Hoc as (c & Hc & Hid & -> & ->).
  apply mem_In in Hrisk. unfold FraudGenerator.high_risk_customers in Hrisk.
  apply in_map_iff in Hrisk as (c' & Hid' & Hc').
  apply filter_In in Hc' as [Hc' Hlow].
  apply andb_true_iff in Hlow as [Hscore _]. apply Z.ltb_lt in Hscore.
  assert (c' = c) by (apply (unique_by_id customers_df); congruence). subst c'.
  rewrite Forall_forall in Hall. destruct (Hall l Hl) as (c0 & Hc0 & Hid0 & _ & Hb).
  assert (c0 = c) by (apply (unique_by_id customers_df); congruence). subst c0.
  apply Qltb_lt in Hgt.
  exists (Customer.annual_income c), (Customer.credit_score c).
  split; [reflexivity|]. split; [exact Hscore|].
  split; [lra|apply Hb; lia].
Qed.

End WithRuntime.

Lemma exp_approx_nonneg x : (0 <= Scenario.exp_approx x)%Q.
Proof.
  unfold Scenario.exp_approx.
  setoid_replace ((1 + x / 64) ^ 64)%Q with (((1 + x / 64) ^ 32) ^ 2)%Q
    by (rewrite <- Qpower.Qpower_mult; reflexivity).
  apply Qpower.Qsqr_nonneg.
Qed.

(** The theorems at the run of [Scenario.loans_run]: a rejected and an
    approved application of a customer with a score of 580. *)
Lemma dpd_bucket_of_generated_loans_witness :
  Forall (fun l =>
            Loan.disbursement_date l <> None ->
            Spec.dpd_band (Loan.days_past_due l) (Loan.dpd_bucket l)
            /\ Loan.npa_flag l = (90 <? Loan.days_past_due l)
            /\ (Loan.days_past_due l = 95 ->
                Loan.dpd_bucket l = "90+"%string /\ Loan.npa_flag l = true))
         (Scenario.result Scenario.loans_run []).
Proof.
  apply (@dpd_bucket_of_generated_loans Scenario.plain [Scenario.customer1] None 2
           Scenario.loans_world _ (Scenario.after Scenario.loans_run Scenario.loans_world)).
  vm_compute. reflexivity.
Defined.

Lemma rejected_loans_are_null_witness :
  Forall (fun l =>
            Loan.loan_status l = "Rejected"%string \/ Loan.disbursement_date l = None ->
            Spec.rejected_contract l)
         (Scenario.result Scenario.loans_run []).
Proof.
  apply (@rejected_loans_are_null Scenario.plain [Scenario.customer1] None 2
           Scenario.loans_world _ (Scenario.after Scenario.loans_run Scenario.loans_world)).
  vm_compute. reflexivity.
Defined.

Lemma probability_of_default_of_generated_loans_witness :
  Forall (fun l =>
            Loan.disbursement_date l <> None ->
            exists pd,
              Loan.probability_of_default l = Some pd
              /\ (pd == @Spec.probability_of_default Scenario.plain
                          (Loan.bureau_score_at_origination l) (Loan.days_past_due l))%Q
              /\ (0 <= pd /\ pd <= 0.99)%Q)
         (Scenario.result Scenario.loans_run []).
Proof.
  apply (@probability_of_default_of_generated_loans Scenario.plain [Scenario.customer1]
           None 2 Scenario.loans_world _
           (Scenario.after Scenario.loans_run Scenario.loans_world)).
  - exact exp_approx_nonneg.
  - vm_compute. reflexivity.
Defined.

Lemma loan_amount_within_income_cap_witness :
  Customer.credit_score Scenario.customer1 <= 650
  /\ NoDup (map Customer.customer_id [Scenario.customer1])
  /\ Forall (fun l =>
               exists c,
                 In c [Scenario.customer1]
                 /\ Customer.customer_id c = Loan.customer_id l
                 /\ Customer.credit_score c = Loan.bureau_score_at_origination l
                 /\ (Customer.credit_score c <= 650 ->
                     (Loan.loan_amount l <= 3 * Customer.annual_income c + 500)%Q))
            (Scenario.result Scenario.loans_run []).
Proof.
  split; [cbn; lia|].
  split; [repeat constructor; intros []|].
  apply (@loan_amount_within_income_cap Scenario.plain [Scenario.customer1] None 2
           Scenario.loans_world _ (Scenario.after Scenario.loans_run Scenario.loans_world)).
  vm_compute. reflexivity.
Defined.

End LoanFacts.

(* ================================================================== *)
(** * The transaction generator *)

Module TxnFacts.
Import TransactionGenerator Shape.

Section WithRuntime.
Context `{Runtime}.
Local Open Scope string_scope.
Local Open Scope Z_scope.

Lemma number_ok {A} (o : option A) w x w' : number o w = Ok x w' -> o = Some x.
Proof.
  destruct o as [a|]; cbn; [|discriminate]. intros E.
  apply ret_ok in E as [-> _]. reflexivity.
Qed.

Lemma emi_step_inv loan end_date total_emis month w ts w' :
  emi_step loan end_date total_emis month w = Ok ts w' ->
  exists d,
    Loan.first_emi_date loan = Some d
    /\ if end_date <? Time.add_days (Time.datetime_of_date d) (30 * (month - 1))
       then ts = []%list
       else exists t, ts = [t]%list /\ emi_row loan total_emis month d t.
Proof.
  unfold emi_step. intros E.
  apply bind_ok in E as (first & w1 & Ef & E). apply number_ok in Ef.
  destruct (Loan.first_emi_date loan) as [d|]; [|discriminate].
  cbn [option_map] in Ef. injection Ef as <-.
  exists d. split; [reflexivity|].
  destruct (end_date <? _).
  - apply ret_ok in E as [<- _]. reflexivity.
  - bind_inv E. subst ts.
    repeat match goal with
           | Hn : number _ _ = Ok _ _ |- _ => apply number_ok in Hn
           end.
    eexists. split; [reflexivity|].
    constructor; cbn; try reflexivity.
    eexists _, _. repeat split; eassumption.
Qed.

Lemma skipped_mono end_date d m1 m2 :
  m1 <= m2 -> skipped end_date d m1 = true -> skipped end_date d m2 = true.
Proof.
  unfold skipped, Time.add_days, Time.us_per_day. intros Hm Hs.
  apply Z.ltb_lt in Hs. apply Z.ltb_lt. lia.
Qed.

Lemma all_skipped loan end_date total_emis d ks yss :
  Forall2 (fun (k : nat) ts =>
             if skipped end_date d (Z.of_nat k)
             then ts = []%list
             else exists t, ts = [t]%list /\ emi_row loan total_emis (Z.of_nat k) d t)
          ks yss ->
  (forall k, In k ks -> skipped end_date d (Z.of_nat k) = true) ->
  List.concat yss = []%list.
Proof.
  induction 1 as [|k ts ks yss Hk Hrest IH]; intros Hall; [reflexivity|].
  cbn [List.concat]. rewrite (Hall k) in Hk by (left; reflexivity). subst ts.
  cbn [app]. apply IH. intros k' Hin. apply Hall. right. exact Hin.
Qed.

(** The rows of the months [a .. a+n-1], given what each month appends: the
    rows of a first run of months, one each. *)
Lemma emis_prefix loan end_date total_emis d n a yss :
  Forall2 (fun (k : nat) ts =>
             if skipped end_date d (Z.of_nat k)
             then ts = []%list
             else exists t, ts = [t]%list /\ emi_row loan total_emis (Z.of_nat k) d t)
          (List.seq a n) yss ->
  exists m, (m <= n)%nat
            /\ Forall2 (fun (k : nat) t => emi_row loan total_emis (Z.of_nat k) d t)
                       (List.seq a m) (List.concat yss).
Proof.
  revert a yss. induction n as [|n IH]; intros a yss Hall; cbn [List.seq] in Hall.
  - inversion Hall; subst. exists 0%nat. split; [lia|constructor].
  - inversion Hall as [|k ts ks yss' Hk Hrest]; subst.
    destruct (skipped end_date d (Z.of_nat a)) eqn:Hs.
    + subst ts. exists 0%nat. split; [lia|]. cbn [List.seq List.concat app].
      rewrite (all_skipped _ _ _ _ _ _ Hrest); [constructor|].
      intros k Hin. apply in_seq in Hin.
      eapply skipped_mono; [|exact Hs]. lia.
    + destruct Hk as (t & -> & Hrow).
      destruct (IH (S a) yss' Hrest) as (m & Hm & Hrows).
      exists (S m). split; [lia|]. cbn [List.seq List.concat app].
      constructor; assumption.
Qed.

Lemma Forall2_map_left {A B C} (f : A -> B) (R : B -> C -> Prop) xs ys :
  Forall2 R (map f xs) ys -> Forall2 (fun x y => R (f x) y) xs ys.
Proof.
  revert ys. induction xs as [|x xs IH]; intros ys Hall; cbn [map] in Hall;
    inversion Hall; subst; constructor; auto.
Qed.

(** The rows of the EMI loop: one for each month of a first run of months. *)
Lemma emis_rows loan end_date total_emis w emis w' :
  for_each (emi_step loan end_date total_emis) (range1 total_emis) w = Ok emis w' ->
  match Loan.first_emi_date loan with
  | Some d =>
      exists m, Z.of_nat m <= Z.max 0 total_emis
                /\ Forall2 (fun (k : nat) t => emi_row loan total_emis (Z.of_nat k) d t)
                           (List.seq 1 m) emis
  | None => emis = []%list
  end.
Proof.
  intros E. apply for_each_inv in E as (yss & -> & Hall).
  unfold range1 in Hall. apply Forall2_map_left in Hall.
  destruct (Loan.first_emi_date loan) as [d|] eqn:Hfirst.
  - assert (Hall' : Forall2 (fun (k : nat) ts =>
               if skipped end_date d (Z.of_nat k)
               then ts = []%list
               else exists t, ts = [t]%list /\ emi_row loan total_emis (Z.of_nat k) d t)
              (List.seq 1 (Z.to_nat total_emis)) yss).
    { eapply Forall2_impl; [|exact Hall]. cbv beta.
      intros k ts (w1 & w2 & Ek). apply emi_step_inv in Ek as (d' & Hd' & Hk).
      rewrite Hfirst in Hd'. injection Hd' as <-. exact Hk. }
    apply emis_prefix in Hall' as (m & Hm & Hrows).
    exists m. split; [lia|exact Hrows].
  - destruct Hall as [|k ts ks yss' (w1 & w2 & Ek) _]; [reflexivity|].
    apply emi_step_inv in Ek as (d' & Hd' & _). rewrite Hfirst in Hd'. discriminate.
Qed.

(** The frame [generate_transactions_for_loan] returns: nothing for a loan
    that was not disbursed, else the disbursement, the rows of the EMI loop
    and the rows of the prepayment. *)
Lemma generate_transactions_for_loan_inv loan customer w txns w' :
  generate_transactions_for_loan loan customer w = Ok txns w' ->
  txns = []%list
  \/ exists disbursement_txn emis pre end_date total_emis w1 w2,
       txns = (disbursement_txn :: emis ++ pre)%list
       /\ Txn.transaction_type disbursement_txn = "Disbursement"
       /\ Forall (fun t => Txn.transaction_type t = "Prepayment") pre
       /\ for_each (emi_step loan end_date total_emis) (range1 total_emis) w1 = Ok emis w2.
Proof.
  unfold generate_transactions_for_loan. intros E.
  destruct (Loan.disbursement_date loan) as [d|];
    [|apply ret_ok in E as [<- _]; left; reflexivity].
  destruct (String.eqb _ _); [apply ret_ok in E as [<- _]; left; reflexivity|].
  right.
  apply bind_ok in E as (end_date & w1 & _ & E).
  apply bind_ok in E as (disb & w2 & Ed & E).
  apply bind_ok in E as (emis & w3 & Ee & E).
  apply bind_ok in E as (pre & w4 & Ep & E).
  apply ret_ok in E as [<- _].
  exists disb, emis, pre, end_date. eexists _, w2, w3.
  split; [reflexivity|]. split; [|split; [|exact Ee]].
  - unfold disbursement_transaction in Ed. bind_inv Ed. subst disb. reflexivity.
  - unfold prepayment in Ep. apply bind_ok in Ep as (u & w5 & _ & Ep).
    destruct (_ && _).
    + bind_inv Ep. subst pre. repeat constructor.
    + apply ret_ok in Ep as [<- _]. constructor.
Qed.

Lemma filter_is_emi_rows loan total_emis d ks emis :
  Forall2 (fun (k : nat) t => emi_row loan total_emis (Z.of_nat k) d t) ks emis ->
  filter Spec.is_emi emis = emis.
Proof.
  induction 1 as [|k t ks emis Hrow _ IH]; [reflexivity|].
  cbn [filter]. unfold Spec.is_emi at 1. rewrite (row_type _ _ _ _ _ Hrow).
  cbn [String.eqb]. rewrite IH. reflexivity.
Qed.

Lemma filter_is_emi_none (P : Txn.t -> Prop) ts :
  (forall t, P t -> Spec.is_emi t = false) -> Forall P ts -> filter Spec.is_emi ts = []%list.
Proof.
  intros HP. induction 1 as [|t ts Ht _ IH]; [reflexivity|].
  cbn [filter]. rewrite (HP t Ht). exact IH.
Qed.

(** The EMI rows of the frame [generate_transactions_for_loan] returns. *)
Lemma emi_rows_of_loan loan customer w txns w' :
  generate_transactions_for_loan loan customer w = Ok txns w' ->
  match Loan.first_emi_date loan with
  | Some d =>
      exists total_emis m,
        Z.of_nat m <= Z.max 0 total_emis
        /\ Forall2 (fun (k : nat) t => emi_row loan total_emis (Z.of_nat k) d t)
                   (List.seq 1 m) (filter Spec.is_emi txns)
  | None => filter Spec.is_emi txns = []%list
  end.
Proof.
  intros E.
  apply generate_transactions_for_loan_inv in E
    as [->|(disb & emis & pre & end_date & total_emis & w1 & w2 & -> & Hd & Hp & Ee)].
  - destruct (Loan.first_emi_date loan); [|reflexivity].
    exists 0, 0%nat. split; [lia|constructor].
  - assert (Hfilter : filter Spec.is_emi (disb :: emis ++ pre) = filter Spec.is_emi emis).
    { cbn [filter]. unfold Spec.is_emi at 1. rewrite Hd. cbn [String.eqb].
      rewrite filter_app.
      rewrite (filter_is_emi_none (fun t => Txn.transaction_type t = "Prepayment") pre);
        [apply app_nil_r| |exact Hp].
      intros t Ht. unfold Spec.is_emi. rewrite Ht. reflexivity. }
    rewrite Hfilter. apply emis_rows in Ee.
    destruct (Loan.first_emi_date loan) as [d|].
    + destruct Ee as (m & Hm & Hrows). exists total_emis, m.
      rewrite (filter_is_emi_rows _ _ _ _ _ Hrows). split; assumption.
    + subst emis. reflexivity.
Qed.

Lemma schedule_of_rows loan total_emis d m emis :
  Forall2 (fun (k : nat) t => emi_row loan total_emis (Z.of_nat k) d t) (List.seq 1 m) emis ->
  map Txn.transaction_date emis = Spec.schedule (Time.datetime_of_date d) m.
Proof.
  unfold Spec.schedule. rewrite <- seq_shift.
  intros Hall. apply Forall2_map_left in Hall.
  induction Hall as [|k t ks emis Hrow _ IH]; [reflexivity|].
  cbn [map]. rewrite IH, (row_date _ _ _ _ _ Hrow).
  do 2 f_equal. lia.
Qed.

Lemma schedule_sorted first m : StronglySorted Z.lt (Spec.schedule first m).
Proof.
  unfold Spec.schedule. generalize 0%nat as a.
  induction m as [|m IH]; intros a; cbn [List.seq map]; constructor.
  - apply IH.
  - apply Forall_forall. intros x Hx. apply in_map_iff in Hx as (k & <- & Hk).
    apply in_seq in Hk. unfold Time.add_days, Time.us_per_day. lia.
Qed.

(** C8.  The EMI transactions of a loan appear in the frame
    [generate_transactions_for_loan] returns at 30-day intervals from the
    loan's [first_emi_date], hence in strictly increasing order of
    [transaction_date]. *)
Theorem emi_dates_follow_schedule loan customer w txns w' :
  generate_transactions_for_loan loan customer w = Ok txns w' ->
  match Loan.first_emi_date loan with
  | Some d =>
      exists m,
        map Txn.transaction_date (filter Spec.is_emi txns)
        = Spec.schedule (Time.datetime_of_date d) m
  | None => filter Spec.is_emi txns = []%list
  end
  /\ StronglySorted Z.lt (map Txn.transaction_date (filter Spec.is_emi txns)).
Proof.
  intros E. apply emi_rows_of_loan in E.
  destruct (Loan.first_emi_date loan) as [d|].
  - destruct E as (total_emis & m & _ & Hrows).
    apply schedule_of_rows in Hrows. rewrite Hrows.
    split; [exists m; reflexivity|apply schedule_sorted].
  - rewrite E. split; [reflexivity|constructor].
Qed.

Lemma components_principal_interest amount interest_rate outstanding days :
  let comp := calculate_emi_components amount interest_rate outstanding days in
  (Qabs (principal comp + interest comp - amount) <= 0.01)%Q.
Proof.
  unfold calculate_emi_components. cbn [principal interest].
  set (r := (interest_rate / 12 / 100)%Q).
  destruct (Qltb 0 r).
  - pose proof (py_round_to_near 2 (amount - outstanding * r)) as H1.
    pose proof (py_round_to_near 2 (outstanding * r)) as H2.
    apply Qabs_Qle_condition in H1 as [H1a H1b].
    apply Qabs_Qle_condition in H2 as [H2a H2b].
    change ((1 # 2) / inject_Z (10 ^ Z.of_nat 2))%Q with (1 # 200)%Q in *.
    apply Qabs_Qle_condition. split; lra.
  - pose proof (py_round_to_near 2 amount) as H1.
    pose proof (py_round_to_near 2 0) as H2.
    apply Qabs_Qle_condition in H1 as [H1a H1b].
    apply Qabs_Qle_condition in H2 as [H2a H2b].
    change ((1 # 2) / inject_Z (10 ^ Z.of_nat 2))%Q with (1 # 200)%Q in *.
    apply Qabs_Qle_condition. split; lra.
Qed.

Lemma Forall2_seq_position {B} (R : nat -> B -> Prop) m a l :
  Forall2 R (List.seq a m) l ->
  forall t, In t l ->
    exists k, (a <= k < a + m)%nat /\ R k t
              /\ (k = (a + m - 1)%nat -> exists before, l = (before ++ [t])%list).
Proof.
  revert a l. induction m as [|m IH]; intros a l Hall t Hin; cbn [List.seq] in Hall;
    inversion Hall as [|k t0 ks l' Hk Hrest]; subst; [contradiction|].
  destruct Hin as [<-|Hin].
  - exists a. split; [lia|]. split; [exact Hk|]. intros Hlast.
    assert (m = 0%nat) by lia. subst m. inversion Hrest; subst.
    exists []%list. reflexivity.
  - destruct (IH (S a) l' Hrest t Hin) as (k & Hk' & HR & Hlast).
    exists k. split; [lia|]. split; [exact HR|]. intros Hk''.
    destruct Hlast as (before & ->); [lia|].
    exists (t0 :: before)%list. reflexivity.
Qed.

(** The rows of the months [a .. a+n-1], and the month that ends them: the
    first whose date is past [end_date], when there is one. *)
Lemma emis_prefix_exact loan end_date total_emis d n a yss :
  Forall2 (fun (k : nat) ts =>
             if skipped end_date d (Z.of_nat k)
             then ts = []%list
             else exists t, ts = [t]%list /\ emi_row loan total_emis (Z.of_nat k) d t)
          (List.seq a n) yss ->
  exists m, (m <= n)%nat
            /\ Forall2 (fun (k : nat) t => emi_row loan total_emis (Z.of_nat k) d t)
                       (List.seq a m) (List.concat yss)
            /\ ((m < n)%nat -> skipped end_date d (Z.of_nat (a + m)) = true).
Proof.
  revert a yss. induction n as [|n IH]; intros a yss Hall; cbn [List.seq] in Hall.
  - inversion Hall; subst. exists 0%nat. split; [lia|]. split; [constructor|lia].
  - inversion Hall as [|k ts ks yss' Hk Hrest]; subst.
    destruct (skipped end_date d (Z.of_nat a)) eqn:Hs.
    + subst ts. exists 0%nat. split; [lia|]. cbn [List.seq List.concat app].
      rewrite (all_skipped _ _ _ _ _ _ Hrest).
      * split; [constructor|]. intros _. rewrite Nat.add_0_r. exact Hs.
      * intros k Hin. apply in_seq in Hin.
        eapply skipped_mono; [|exact Hs]. lia.
    + destruct Hk as (t & -> & Hrow).
      destruct (IH (S a) yss' Hrest) as (m & Hm & Hrows & Hskip).
      exists (S m). split; [lia|]. cbn [List.seq List.concat app].
      split; [constructor; assumption|].
      intros Hlt. replace (a + S m)%nat with (S a + m)%nat by lia.
      apply Hskip. lia.
Qed.

(** The rows of the EMI loop: those of the months 1 to [m], month [m + 1]
    being past [end_date] when [m] falls short of [total_emis]. *)
Lemma emis_rows_exact loan end_date total_emis w emis w' :
  for_each (emi_step loan end_date total_emis) (range1 total_emis) w = Ok emis w' ->
  exists m : nat,
    Z.of_nat m <= Z.max 0 total_emis
    /\ (Z.of_nat m < total_emis ->
        exists d,
          Loan.first_emi_date loan = Some d
          /\ end_date < Time.add_days (Time.datetime_of_date d) (30 * Z.of_nat m))
    /\ match Loan.first_emi_date loan with
       | Some d =>
           Forall2 (fun (k : nat) t => emi_row loan total_emis (Z.of_nat k) d t)
                   (List.seq 1 m) emis
       | None => m = 0%nat /\ emis = []%list
       end.
Proof.
  intros E. apply for_each_inv in E as (yss & -> & Hall).
  unfold range1 in Hall. apply Forall2_map_left in Hall.
  destruct (Loan.first_emi_date loan) as [d|] eqn:Hfirst.
  - assert (Hall' : Forall2 (fun (k : nat) ts =>
               if skipped end_date d (Z.of_nat k)
               then ts = []%list
               else exists t, ts = [t]%list /\ emi_row loan total_emis (Z.of_nat k) d t)
              (List.seq 1 (Z.to_nat total_emis)) yss).
    { eapply Forall2_impl; [|exact Hall]. cbv beta.
      intros k ts (w1 & w2 & Ek). apply emi_step_inv in Ek as (d' & Hd' & Hk).
      rewrite Hfirst in Hd'. injection Hd' as <-. exact Hk. }
    apply emis_prefix_exact in Hall' as (m & Hm & Hrows & Hskip).
    exists m. split; [lia|]. split; [|exact Hrows].
    intros Hlt. exists d. split; [reflexivity|].
    assert (Hs : skipped end_date d (Z.of_nat (1 + m)) = true) by (apply Hskip; lia).
    unfold skipped in Hs. apply Z.ltb_lt in Hs.
    replace (30 * (Z.of_nat (1 + m) - 1)) with (30 * Z.of_nat m) in Hs by lia.
    exact Hs.
  - destruct (Z.to_nat total_emis) as [|n] eqn:En; cbn [List.seq] in Hall.
    + inversion Hall; subst. exists 0%nat. split; [lia|].
      split; [intros Hlt; lia|split; reflexivity].
    + inversion Hall as [|k ts ks yss' (w1 & w2 & Ek) _]; subst.
      apply emi_step_inv in Ek as (d' & Hd' & _). rewrite Hfirst in Hd'. discriminate.
Qed.

(** The EMI loop of a loan that was disbursed and not rejected, and the EMI
    rows of the frame. *)
Lemma generate_transactions_for_loan_emis loan customer w txns w' d :
  generate_transactions_for_loan loan customer w = Ok txns w' ->
  Loan.disbursement_date loan = Some d ->
  Loan.loan_status loan <> "Rejected" ->
  exists emis w1 w2,
    filter Spec.is_emi txns = filter Spec.is_emi emis
    /\ for_each (emi_step loan (Z.of_N (read (wall_clock w)))
                   (Spec.total_emis loan (Z.of_N (read (wall_clock w)))))
                (range1 (Spec.total_emis loan (Z.of_N (read (wall_clock w))))) w1
       = Ok emis w2.
Proof.
  unfold generate_transactions_for_loan, Spec.total_emis. intros E Hd Hr. rewrite Hd in *.
  destruct (String.eqb_spec (Loan.loan_status loan) "Rejected") as [Hr'|_];
    [contradiction|].
  apply bind_ok in E as (end_date & w1 & Enow & E).
  unfold datetime_now in Enow. injection Enow as <- <-.
  apply bind_ok in E as (disb & w2 & Ed & E).
  apply bind_ok in E as (emis & w3 & Ee & E).
  apply bind_ok in E as (pre & w4 & Ep & E).
  apply ret_ok in E as [<- _].
  exists emis, w2, w3. split; [|exact Ee].
  assert (Hdisb : Txn.transaction_type disb = "Disbursement").
  { unfold disbursement_transaction in Ed. bind_inv Ed. subst disb. reflexivity. }
  assert (Hpre : Forall (fun t => Txn.transaction_type t = "Prepayment") pre).
  { unfold prepayment in Ep. apply bind_ok in Ep as (u & w5 & _ & Ep).
    destruct (_ && _).
    - bind_inv Ep. subst pre. repeat constructor.
    - apply ret_ok in Ep as [<- _]. constructor. }
  cbn [filter]. unfold Spec.is_emi at 1. rewrite Hdisb. cbn [String.eqb].
  rewrite filter_app.
  rewrite (filter_is_emi_none (fun t => Txn.transaction_type t = "Prepayment") pre);
    [apply app_nil_r| |exact Hpre].
  intros t Ht. unfold Spec.is_emi. rewrite Ht. reflexivity.
Qed.

(** What the row of month [month] holds, [n] EMIs being due. *)
Lemma emi_row_charges loan n month d t :
  Loan.first_emi_date loan = Some d ->
  emi_row loan n month d t -> Spec.emi_charges loan n month t.
Proof.
  intros Hfirst Hrow.
  destruct (row_components _ _ _ _ _ Hrow)
    as (emi_amount & rate & Hemi & _ & Hamount & Hp & Hi & Hpen & Hg).
  unfold Spec.emi_charges. rewrite Hamount.
  split; [exact Hemi|].
  split; [exists d; split; [exact Hfirst|exact (row_date _ _ _ _ _ Hrow)]|].
  set (comp := calculate_emi_components emi_amount rate _ _) in *.
  exists (principal comp), (interest comp),
         (if 0 <? Loan.days_past_due loan then penalty comp else 0%Q),
         (if 0 <? Loan.days_past_due loan then gst comp else 0%Q).
  pose proof (components_principal_interest emi_amount rate
                (Loan.current_balance loan
                 * float_pow 0.9 (inject_Z month / inject_Z n))%Q
                (if month =? n then Loan.days_past_due loan else 0)) as Hsum.
  cbv zeta in Hsum. fold comp in Hsum.
  repeat (split; [assumption|]).
  split.
  { match goal with
    | |- (Qabs ?x <= _)%Q =>
        setoid_replace x with (principal comp + interest comp - emi_amount)%Q by ring
    end. exact Hsum. }
  unfold Spec.penalty_due.
  destruct (0 <? Loan.days_past_due loan) eqn:Hdpd; [|split; reflexivity].
  destruct (month =? n) eqn:Hk; cbn [andb].
  - subst comp. unfold calculate_emi_components. cbn [penalty gst].
    rewrite Hdpd. split; reflexivity.
  - subst comp. unfold calculate_emi_components. cbn [penalty gst Z.ltb Z.compare].
    split; reflexivity.
Qed.

(** C3, as the code has it.  The EMI transactions of a loan are those of the
    months 1 to [m], where [m] is at most the number of EMIs due, and falls
    short of it only when the date of month [m + 1] is past the clock
    reading.  On each of them principal and interest sum to the amount, up
    to the rounding of the two (0.01); penalty and GST come on top of the
    amount: on the EMI of the last month due of a loan with
    [days_past_due > 0] the penalty is 2% of the amount per 30 days past due
    and the GST 18% of it, each rounded to two decimals, and on every other
    EMI they are zero.  When the first EMI is due 30 days after the
    disbursement, as [generate_loans] sets it, no month is skipped, so that
    the EMI of the last month due is in the frame. *)
Theorem emi_components_of_loan loan customer w txns w' :
  generate_transactions_for_loan loan customer w = Ok txns w' ->
  let now := Z.of_N (read (wall_clock w)) in
  let total_emis := Spec.total_emis loan now in
  exists m : nat,
    Forall2 (fun (k : nat) t => Spec.emi_charges loan total_emis (Z.of_nat k) t)
            (List.seq 1 m) (filter Spec.is_emi txns)
    /\ Z.of_nat m <= Z.max 0 total_emis
    /\ (Loan.loan_status loan <> "Rejected" ->
        Z.of_nat m < total_emis ->
        exists d,
          Loan.first_emi_date loan = Some d
          /\ now < Time.add_days (Time.datetime_of_date d) (30 * Z.of_nat m))
    /\ (Loan.loan_status loan <> "Rejected" ->
        forall d,
          Loan.disbursement_date loan = Some d ->
          Loan.first_emi_date loan = Some (d + 30) ->
          Z.of_nat m = Z.max 0 total_emis).
Proof.
  intros E now total_emis.
  destruct (Loan.disbursement_date loan) as [d|] eqn:Hd.
  2:{ assert (Hn : total_emis = 0) by (subst total_emis; unfold Spec.total_emis; rewrite Hd; reflexivity).
      unfold generate_transactions_for_loan in E. rewrite Hd in E.
      apply ret_ok in E as [<- _]. exists 0%nat. cbn [filter List.seq].
      split; [constructor|]. split; [lia|]. split; [intros _ Hlt; lia|].
      intros _ d' Hd'. discriminate Hd'. }
  destruct (String.eqb_spec (Loan.loan_status loan) "Rejected") as [Hr|Hr].
  { unfold generate_transactions_for_loan in E. rewrite Hd in E.
    destruct (String.eqb_spec (Loan.loan_status loan) "Rejected") as [_|Hr'];
      [|contradiction].
    apply ret_ok in E as [<- _]. exists 0%nat. cbn [filter List.seq].
    split; [constructor|]. split; [lia|]. split; intros Hn; contradiction. }
  destruct (generate_transactions_for_loan_emis _ _ _ _ _ _ E Hd Hr)
    as (emis & w1 & w2 & Hfilter & Ee).
  fold now in Ee. fold total_emis in Ee.
  apply emis_rows_exact in Ee as (m & Hm & Hskip & Hrows).
  exists m. rewrite Hfilter.
  split.
  { destruct (Loan.first_emi_date loan) as [d1|] eqn:Hfirst1.
    - rewrite (filter_is_emi_rows _ _ _ _ _ Hrows).
      eapply Forall2_impl; [|exact Hrows]. intros k t. apply emi_row_charges.
      exact Hfirst1.
    - destruct Hrows as [-> ->]. constructor. }
  split; [exact Hm|]. split; [intros _; exact Hskip|].
  intros _ d' Hd' Hfirst. injection Hd' as <-.
  destruct (Z_lt_le_dec (Z.of_nat m) total_emis) as [Hlt|Hge]; [exfalso|lia].
  destruct (Hskip Hlt) as (d1 & Hd1 & Hpast).
  rewrite Hfirst in Hd1. injection Hd1 as <-.
  assert (Hdue : total_emis
                 <= Time.delta_days now (Time.datetime_of_date d) / 30).
  { subst total_emis. unfold Spec.total_emis. rewrite Hd. apply Z.le_min_l. }
  unfold Time.add_days, Time.datetime_of_date, Time.delta_days, Time.us_per_day in *.
  pose proof (Z.mul_div_le (now - d * 86400000000) 86400000000 ltac:(lia)) as H1.
  pose proof (Z.mul_div_le ((now - d * 86400000000) / 86400000000) 30 ltac:(lia)) as H2.
  lia.
Qed.

End WithRuntime.

(** The transactions of the overdue loan of [Scenario.delinquent_loan]: the
    disbursement and two EMIs, the last one with a penalty. *)
Lemma emi_dates_follow_schedule_witness :
  match Loan.first_emi_date Scenario.delinquent_loan with
  | Some d =>
      exists m,
        map Txn.transaction_date
            (filter Spec.is_emi (Scenario.result Scenario.delinquent_txns_run []))
        = Spec.schedule (Time.datetime_of_date d) m
  | None => filter Spec.is_emi (Scenario.result Scenario.delinquent_txns_run []) = []%list
  end
  /\ StronglySorted Z.lt
       (map Txn.transaction_date
            (filter Spec.is_emi (Scenario.result Scenario.delinquent_txns_run []))).
Proof.
  apply (@emi_dates_follow_schedule Scenario.plain Scenario.delinquent_loan
           Scenario.customer1 Scenario.delinquent_txns_world _
           (Scenario.after Scenario.delinquent_txns_run Scenario.delinquent_txns_world)).
  vm_compute. reflexivity.
Defined.

Lemma emi_components_of_loan_witness :
  let now := Z.of_N (read (wall_clock Scenario.delinquent_txns_world)) in
  let total_emis := Spec.total_emis Scenario.delinquent_loan now in
  exists m : nat,
    Forall2 (fun (k : nat) t =>
               Spec.emi_charges Scenario.delinquent_loan total_emis (Z.of_nat k) t)
            (List.seq 1 m)
            (filter Spec.is_emi (Scenario.result Scenario.delinquent_txns_run []))
    /\ Z.of_nat m <= Z.max 0 total_emis
    /\ (Loan.loan_status Scenario.delinquent_loan <> "Rejected"%string ->
        Z.of_nat m < total_emis ->
        exists d,
          Loan.first_emi_date Scenario.delinquent_loan = Some d
          /\ now < Time.add_days (Time.datetime_of_date d) (30 * Z.of_nat m))
    /\ (Loan.loan_status Scenario.delinquent_loan <> "Rejected"%string ->
        forall d,
          Loan.disbursement_date Scenario.delinquent_loan = Some d ->
          Loan.first_emi_date Scenario.delinquent_loan = Some (d + 30) ->
          Z.of_nat m = Z.max 0 total_emis).
Proof.
  apply (@emi_components_of_loan Scenario.plain Scenario.delinquent_loan
           Scenario.customer1 Scenario.delinquent_txns_world _
           (Scenario.after Scenario.delinquent_txns_run Scenario.delinquent_txns_world)).
  vm_compute. reflexivity.
Defined.

(** C3, as it is worded, fails on the loan of [Scenario.delinquent_loan],
    which [generate_loans] returns with 47 days past due: the last of its
    EMI transactions has an amount of 21859.35 and components that sum to
    22667.57. *)
Lemma emi_components_exceed_amount :
  @LoanGenerator.generate_loans Scenario.plain [Scenario.customer1] None 1
     Scenario.delinquent_world
  = Ok [Scenario.delinquent_loan]
       (Scenario.after Scenario.delinquent_loans_run Scenario.delinquent_world)
  /\ Loan.days_past_due Scenario.delinquent_loan = 47
  /\ @generate_transactions_for_loan Scenario.plain Scenario.delinquent_loan
       Scenario.customer1 Scenario.delinquent_txns_world
     = Ok (Scenario.result Scenario.delinquent_txns_run [])
          (Scenario.after Scenario.delinquent_txns_run Scenario.delinquent_txns_world)
  /\ map (fun t => (Qred (Txn.amount t), option_map Qred (Spec.components_sum t)))
         (filter Spec.is_emi (Scenario.result Scenario.delinquent_txns_run []))
     = [(Qred 21859.35, Some (Qred 21859.35)); (Qred 21859.35, Some (Qred 22667.57))]
  /\ ~ Forall Spec.components_sum_to_amount (Scenario.result Scenario.delinquent_txns_run []).
Proof.
  repeat split; try (vm_compute; reflexivity).
  intros Hall. unfold Scenario.delinquent_txns_run, Scenario.result in Hall.
  apply Forall_inv_tail, Forall_inv_tail, Forall_inv in Hall.
  destruct (Hall eq_refl) as (s & Hs & Habs).
  cbv in Hs. injection Hs as <-.
  apply Qle_bool_iff in Habs. vm_compute in Habs. discriminate.
Qed.

End TxnFacts.

(* ================================================================== *)
(** * The fraud generator *)

Module FraudFacts.
Import FraudGenerator.
Local Open Scope string_scope.
Local Open Scope Z_scope.

(** ** The risk level of an alert *)

Lemma calculate_risk_score_in_band fraud_type loan_amount credit_score days_past_due
    w risk_score risk_level w' :
  calculate_risk_score fraud_type loan_amount credit_score days_past_due w
  = Ok (risk_score, risk_level) w' ->
  1 <= risk_score <= 100 /\ Spec.risk_band risk_score = Some risk_level.
Proof.
  unfold calculate_risk_score. intros E.
  apply bind_ok in E as (noise & w1 & _ & E). apply ret_ok in E as [E _].
  injection E as <- <-.
  set (s := Z.min 100 (Z.max 1 _)).
  assert (Hs : 1 <= s <= 100) by (subst s; lia).
  split; [exact Hs|]. unfold Spec.risk_band.
  destruct (80 <=? s) eqn:H80.
  { replace (s <=? 100) with true by (symmetry; apply Z.leb_le; lia). reflexivity. }
  apply Z.leb_gt in H80. cbn [andb].
  destruct (60 <=? s) eqn:H60.
  { replace (s <=? 79) with true by (symmetry; apply Z.leb_le; lia). reflexivity. }
  apply Z.leb_gt in H60. cbn [andb].
  destruct (40 <=? s) eqn:H40.
  { replace (s <=? 59) with true by (symmetry; apply Z.leb_le; lia). reflexivity. }
  apply Z.leb_gt in H40. cbn [andb].
  replace (1 <=? s) with true by (symmetry; apply Z.leb_le; lia).
  replace (s <=? 39) with true by (symmetry; apply Z.leb_le; lia). reflexivity.
Qed.

(** The two scenarios that store what [calculate_risk_score] returns keep
    the level in the band of the score. *)
Lemma income_mismatch_alerts_in_band loans_df customers_df w alerts w' :
  generate_fraud_scenario_income_mismatch loans_df customers_df w = Ok alerts w' ->
  Forall Spec.risk_level_in_band alerts.
Proof.
  unfold generate_fraud_scenario_income_mismatch.
  apply for_each_Forall. intros row w1 ys w2 E.
  unfold income_mismatch_alert in E.
  apply bind_ok in E as (u & w3 & _ & E).
  destruct (Qltb u 0.15); [|apply ret_ok in E as [<- _]; constructor].
  destruct (filter _ customers_df) as [|customer cs]; [discriminate|].
  bind_inv E. subst ys.
  match goal with
  | Hr : calculate_risk_score _ _ _ _ _ = Ok _ _ |- _ =>
      apply calculate_risk_score_in_band in Hr as [_ Hband]
  end.
  repeat constructor. exact Hband.
Qed.

Lemma early_default_alerts_in_band loans_df w alerts w' :
  generate_fraud_scenario_early_default loans_df w = Ok alerts w' ->
  Forall Spec.risk_level_in_band alerts.
Proof.
  unfold generate_fraud_scenario_early_default. intros E.
  apply bind_ok in E as (now & w0 & _ & E). revert E.
  apply for_each_Forall. intros loan w1 ys w2 E.
  unfold early_default_alert in E.
  apply bind_ok in E as (u & w3 & _ & E).
  destruct (Qltb u 0.25); [|apply ret_ok in E as [<- _]; constructor].
  bind_inv E. subst ys.
  match goal with
  | Hr : calculate_risk_score _ _ _ _ _ = Ok _ _ |- _ =>
      apply calculate_risk_score_in_band in Hr as [_ Hband]
  end.
  repeat constructor. exact Hband.
Qed.

(** C1, on the code.  A synthetic identity alert is stored with the level
    'High' whatever its score, and a shared collateral alert with the score
    of [calculate_risk_score] plus 10 and the level 'High' when that score
    exceeds 70: the alerts of [Scenario.synthetic_run] and
    [Scenario.collateral_run] carry scores of 90, 100 and 110 with the level
    'High', outside the band of 'High' and, for 110, outside the range of
    the score; the checks of [DataValidator] count each of them. *)
Theorem risk_level_outside_band :
  generate_fraud_scenario_synthetic_id [Scenario.customer2] Scenario.synthetic_world
  = Ok (Scenario.result Scenario.synthetic_run [])
       (Scenario.after Scenario.synthetic_run Scenario.synthetic_world)
  /\ map (fun a => (Alert.risk_score a, Alert.risk_level a))
         (Scenario.result Scenario.synthetic_run [])
     = [(90, "High")]%list
  /\ Spec.risk_band 90 = Some "Critical"
  /\ DataValidator.inconsistent_risk_level (Scenario.result Scenario.synthetic_run []) = 1
  /\ generate_fraud_scenario_collateral_fraud
       [Scenario.shared_loan "LOAN0000000011" "CUST00000001";
        Scenario.shared_loan "LOAN0000000012" "CUST00000002"]%list
       Scenario.collateral_world
     = Ok (Scenario.result Scenario.collateral_run [])
          (Scenario.after Scenario.collateral_run Scenario.collateral_world)
  /\ map (fun a => (Alert.risk_score a, Alert.risk_level a))
         (Scenario.result Scenario.collateral_run [])
     = [(100, "High"); (110, "High")]%list
  /\ Spec.risk_band 100 = Some "Critical"
  /\ Spec.risk_band 110 = None
  /\ DataValidator.inconsistent_risk_level (Scenario.result Scenario.collateral_run []) = 2
  /\ DataValidator.invalid_risk_score (Scenario.result Scenario.collateral_run []) = 1
  /\ ~ Forall Spec.risk_level_in_band (Scenario.result Scenario.synthetic_run [])
  /\ ~ Forall Spec.risk_level_in_band (Scenario.result Scenario.collateral_run []).
Proof.
  repeat split; try (vm_compute; reflexivity).
  - intros Hall. inversion Hall as [|a l Ha _]; subst. vm_compute in Ha. discriminate.
  - intros Hall. inversion Hall as [|a l Ha _]; subst. vm_compute in Ha. discriminate.
Qed.

(** ** The writes on the loan frame *)

Lemma without_fraud_columns_loan_id l l0 :
  Spec.without_fraud_columns l = Spec.without_fraud_columns l0 ->
  Loan.loan_id l = Loan.loan_id l0.
Proof. intros E. apply (f_equal Loan.loan_id) in E. exact E. Qed.

Lemma same_row l l0 :
  Spec.without_fraud_columns l = Spec.without_fraud_columns l0 ->
  Loan.fraud_flag l = Loan.fraud_flag l0 ->
  Loan.fraud_type l = Loan.fraud_type l0 ->
  Loan.fraud_detection_date l = Loan.fraud_detection_date l0 ->
  l = l0.
Proof.
  destruct l, l0. unfold Spec.without_fraud_columns. cbn.
  intros E -> -> ->. injection E. intros. subst. reflexivity.
Qed.

Lemma mem_app s l1 l2 : Str.mem s (l1 ++ l2) = Str.mem s l1 || Str.mem s l2.
Proof. unfold Str.mem. apply existsb_app. Qed.

Lemma fraud_loan_ids_app df1 df2 :
  fraud_loan_ids (df1 ++ df2) = (fraud_loan_ids df1 ++ fraud_loan_ids df2)%list.
Proof. unfold fraud_loan_ids. apply flat_map_app. Qed.

Lemma write_alert_written ids done a ls0 ls :
  Forall2 (Shape.written ids done) ls0 ls ->
  Forall2 (Shape.written ids (done ++ [a])) ls0 (write_alert ls a).
Proof.
  intros Hall. unfold write_alert.
  destruct (Alert.loan_id a) as [id|] eqn:Hid.
  - induction Hall as [|l0 l ls0 ls (Hw & Hf & Hd) _ IH]; cbn [map]; constructor;
      [|exact IH].
    pose proof (without_fraud_columns_loan_id _ _ Hw) as Hl.
    unfold Shape.written. rewrite fraud_loan_ids_app, mem_app.
    cbn [fraud_loan_ids flat_map app]. rewrite Hid. cbn [app Str.mem existsb].
    rewrite orb_false_r, Hl.
    destruct (String.eqb (Loan.loan_id l0) id) eqn:Heq.
    + apply String.eqb_eq in Heq. subst id. rewrite orb_true_r.
      split; [destruct l; exact Hw|]. split; [destruct l; exact Hf|].
      exists a. split; [apply in_or_app; right; left; reflexivity|].
      split; [exact Hid|]. destruct l. split; reflexivity.
    + rewrite orb_false_r. split; [exact Hw|]. split; [exact Hf|].
      destruct (Str.mem (Loan.loan_id l0) (fraud_loan_ids done)); [|exact Hd].
      destruct Hd as (a' & Ha' & Hrest). exists a'.
      split; [apply in_or_app; left; exact Ha'|exact Hrest].
  - eapply Forall2_impl; [|exact Hall]. intros l0 l (Hw & Hf & Hd).
    unfold Shape.written. rewrite fraud_loan_ids_app, mem_app.
    cbn [fraud_loan_ids flat_map app]. rewrite Hid. cbn [app Str.mem existsb].
    rewrite orb_false_r. split; [exact Hw|]. split; [exact Hf|].
    destruct (Str.mem (Loan.loan_id l0) (fraud_loan_ids done)); [|exact Hd].
    destruct Hd as (a' & Ha' & Hrest). exists a'.
    split; [apply in_or_app; left; exact Ha'|exact Hrest].
Qed.

Lemma fold_write_alert_written ids todo done ls0 ls :
  Forall2 (Shape.written ids done) ls0 ls ->
  Forall2 (Shape.written ids (done ++ todo)) ls0 (fold_left write_alert todo ls).
Proof.
  revert done ls. induction todo as [|a todo IH]; intros done ls Hall; cbn [fold_left].
  - rewrite app_nil_r. exact Hall.
  - replace (done ++ a :: todo)%list with ((done ++ [a]) ++ todo)%list
      by (rewrite <- app_assoc; reflexivity).
    apply IH, write_alert_written, Hall.
Qed.

Lemma Forall2_same {A} (R : A -> A -> Prop) l :
  (forall x, R x x) -> Forall2 R l l.
Proof. intros HR. induction l; constructor; auto. Qed.

(** The loan frame after the writes of [generate_all_fraud_scenarios]. *)
Lemma backfill_backfilled df loans_df :
  Forall2 (Spec.backfilled df) loans_df (backfill df loans_df).
Proof.
  unfold backfill. destruct df as [|a0 df'] eqn:Edf.
  - apply Forall2_same. intros l. split; reflexivity.
  - rewrite <- Edf. clear Edf a0 df'.
    assert (Hstart : Forall2 (Shape.written (fraud_loan_ids df) [])
                       loans_df
                       (map (fun l => if Str.mem (Loan.loan_id l) (fraud_loan_ids df)
                                      then set_fraud_flag l true else l) loans_df)).
    { induction loans_df as [|l ls IH]; cbn [map]; constructor; [|exact IH].
      unfold Shape.written. cbn [fraud_loan_ids flat_map Str.mem existsb].
      destruct (Str.mem (Loan.loan_id l) (fraud_loan_ids df));
        [destruct l|]; repeat split. }
    apply (fold_write_alert_written _ df) in Hstart. cbn [app] in Hstart.
    eapply Forall2_impl; [|exact Hstart]. intros l0 l (Hw & Hf & Hd).
    split; [exact Hw|].
    destruct (Str.mem (Loan.loan_id l0) (fraud_loan_ids df)).
    + split; assumption.
    + destruct Hd as [Ht Hdate]. apply same_row; assumption.
Qed.

Lemma generate_all_fraud_scenarios_loans loans_df customers_df w df loans' w' :
  generate_all_fraud_scenarios loans_df customers_df w = Ok (df, loans') w' ->
  loans' = backfill df loans_df.
Proof.
  unfold generate_all_fraud_scenarios. intros E. bind_inv E.
  injection E as <- <-. reflexivity.
Qed.

(** C7.  [generate_all_fraud_scenarios] leaves every loan whose [loan_id] no
    produced alert refers to as it was; on every loan an alert refers to it
    sets [fraud_flag] to true and [fraud_type] and [fraud_detection_date] to
    those of an alert referring to it, and changes no other field.  The rows
    of the loan frame keep their number and their order. *)
Theorem fraud_backfill_frame loans_df customers_df w df loans' w' :
  generate_all_fraud_scenarios loans_df customers_df w = Ok (df, loans') w' ->
  Forall2 (Spec.backfilled df) loans_df loans'.
Proof.
  intros E. apply generate_all_fraud_scenarios_loans in E as ->.
  apply backfill_backfilled.
Qed.

(** The early default alert of [Scenario.fraud_run] and the loan it is
    written to. *)
Lemma fraud_backfill_frame_witness :
  Forall2 (Spec.backfilled (fst (Scenario.result Scenario.fraud_run ([], []))))
          [Scenario.delinquent_loan]
          (snd (Scenario.result Scenario.fraud_run ([], []))).
Proof.
  apply (fraud_backfill_frame [Scenario.delinquent_loan] [Scenario.customer1]
           Scenario.fraud_world _ _
           (Scenario.after Scenario.fraud_run Scenario.fraud_world)).
  vm_compute. reflexivity.
Defined.

End FraudFacts.

(* ================================================================== *)
(** * Reproducibility *)

Module Reproducibility.
Import Shape.
Local Open Scope string_scope.
Local Open Scope Z_scope.

(** ** Generators in two worlds *)

Lemma rel_ret {A B} (R : A -> B -> Prop) a b : R a b -> rel R (ret a) (ret b).
Proof.
  intros HR w1 w2 a1 w1' a2 w2' Hw E1 E2.
  apply ret_ok in E1 as [<- <-]. apply ret_ok in E2 as [<- <-]. split; assumption.
Qed.

Lemma rel_raise {A B} (R : A -> B -> Prop) e1 e2 : rel R (raise e1) (raise e2).
Proof. intros w1 w2 a1 w1' a2 w2' _ E1. discriminate E1. Qed.

Lemma rel_bind {A B C D} (R : A -> B -> Prop) (S : C -> D -> Prop) m1 m2 f1 f2 :
  rel R m1 m2 ->
  (forall a b, R a b -> rel S (f1 a) (f2 b)) ->
  rel S (bind m1 f1) (bind m2 f2).
Proof.
  intros Hm Hf w1 w2 c1 w1' c2 w2' Hw E1 E2.
  apply bind_ok in E1 as (a & v1 & Ea & E1).
  apply bind_ok in E2 as (b & v2 & Eb & E2).
  destruct (Hm _ _ _ _ _ _ Hw Ea Eb) as [HR Hv].
  exact (Hf _ _ HR _ _ _ _ _ _ Hv E1 E2).
Qed.

Lemma rel_impl {A B} (R S : A -> B -> Prop) m1 m2 :
  (forall a b, R a b -> S a b) -> rel R m1 m2 -> rel S m1 m2.
Proof.
  intros HRS Hm w1 w2 a1 w1' a2 w2' Hw E1 E2.
  destruct (Hm _ _ _ _ _ _ Hw E1 E2) as [HR Hv]. split; auto.
Qed.

Lemma low_ret {A} (a : A) : low (ret a).
Proof. apply rel_ret. reflexivity. Qed.

Lemma low_raise {A} e : low (@raise A e).
Proof. apply rel_raise. Qed.

Lemma low_bind {A B} (m : Gen.t A) (f : A -> Gen.t B) :
  low m -> (forall a, low (f a)) -> low (bind m f).
Proof.
  intros Hm Hf. eapply rel_bind; [exact Hm|]. intros a b <-. apply Hf.
Qed.

Lemma low_next_raw : low next_raw.
Proof.
  intros w1 w2 a1 w1' a2 w2' (Hpy & Hnp & Hfk & Hck) E1 E2.
  unfold next_raw in E1, E2. injection E1 as <- <-. injection E2 as <- <-.
  unfold step_py. cbn. rewrite Hpy. repeat split; assumption.
Qed.

Lemma low_datetime_now : low datetime_now.
Proof.
  intros w1 w2 a1 w1' a2 w2' (Hpy & Hnp & Hfk & Hck) E1 E2.
  unfold datetime_now in E1, E2. injection E1 as <- <-. injection E2 as <- <-.
  unfold step_clock. cbn. rewrite Hck. repeat split; assumption.
Qed.

Lemma low_faker_draw : low faker_draw.
Proof.
  intros w1 w2 a1 w1' a2 w2' (Hpy & Hnp & Hfk & Hck) E1 E2.
  unfold faker_draw in E1, E2. injection E1 as <- <-. injection E2 as <- <-.
  unfold step_faker. cbn. rewrite Hfk. repeat split; assumption.
Qed.

Lemma low_sample1 {A} (rows : list A) : low (sample1 rows).
Proof.
  intros w1 w2 a1 w1' a2 w2' (Hpy & Hnp & Hfk & Hck) E1 E2.
  unfold sample1 in E1, E2. destruct rows as [|r0 rows]; [discriminate|].
  injection E1 as <- <-. injection E2 as <- <-.
  unfold step_np. cbn -[nth N.modulo N.of_nat]. rewrite Hnp. repeat split; assumption.
Qed.

(** The ids are the only thing [uuid4_hex] gives. *)
Lemma rel_uuid4_hex : rel (fun _ _ => True) uuid4_hex uuid4_hex.
Proof.
  intros w1 w2 a1 w1' a2 w2' (Hpy & Hnp & Hfk & Hck) E1 E2.
  unfold uuid4_hex in E1, E2. injection E1 as _ <-. injection E2 as _ <-.
  split; [exact I|]. unfold step_urandom. repeat split; assumption.
Qed.

Lemma rel_for_each {A B C D} (Rin : A -> B -> Prop) (R : C -> D -> Prop) body1 body2 xs ys :
  (forall x y, Rin x y -> rel (Forall2 R) (body1 x) (body2 y)) ->
  Forall2 Rin xs ys ->
  rel (Forall2 R) (for_each body1 xs) (for_each body2 ys).
Proof.
  intros Hbody Hall. induction Hall as [|x y xs ys Hxy _ IH]; cbn [for_each].
  - apply rel_ret. constructor.
  - eapply rel_bind; [apply Hbody, Hxy|]. intros c d Hcd.
    eapply rel_bind; [exact IH|]. intros cs ds Hcds.
    apply rel_ret. apply Forall2_app; assumption.
Qed.

Lemma Forall2_eq {A} (l1 l2 : list A) : Forall2 eq l1 l2 -> l1 = l2.
Proof. induction 1; congruence. Qed.

Lemma low_for_each {A B} (body : A -> Gen.t (list B)) xs :
  (forall x, low (body x)) -> low (for_each body xs).
Proof.
  intros Hbody. unfold low.
  eapply rel_impl; [apply Forall2_eq|].
  apply rel_for_each with (Rin := eq).
  - intros x y <-. eapply rel_impl; [|apply Hbody].
    intros a b <-. apply FraudFacts.Forall2_same. reflexivity.
  - apply FraudFacts.Forall2_same. reflexivity.
Qed.

(** Closes [low m] for a generator built from the draws of [random],
    [numpy.random], Faker and the clock. *)
Ltac solve_low :=
  repeat first
    [ apply low_ret
    | apply low_raise
    | apply low_next_raw
    | apply low_datetime_now
    | apply low_faker_draw
    | apply low_sample1
    | apply low_bind; [|intros ?]
    | progress unfold random, randbelow, randint, uniform, choice, choices,
        number, fdiv, getitem
    | match goal with
      | |- low (if ?c then _ else _) => destruct c
      | |- low (match ?x with _ => _ end) => destruct x
      end ].

Lemma low_random : low random.
Proof. solve_low. Qed.

Lemma low_randint a b : low (randint a b).
Proof. solve_low. Qed.

Lemma low_uniform a b : low (uniform a b).
Proof. solve_low. Qed.

Lemma low_choice {A} (l : list A) : low (choice l).
Proof. solve_low. Qed.

Lemma low_choices {A} (population : list A) weights : low (choices population weights).
Proof. solve_low. Qed.

Section WithRuntime.
Context `{Runtime}.

Lemma low_digits n : low (CustomerGenerator.digits n).
Proof. induction n as [|n IH]; cbn [CustomerGenerator.digits]; solve_low. exact IH. Qed.

Lemma low_generate_customers n : low (CustomerGenerator.generate_customers n).
Proof.
  unfold CustomerGenerator.generate_customers. apply low_for_each. intros i.
  unfold CustomerGenerator.generate_customers_step,
    CustomerGenerator.generate_income, CustomerGenerator.generate_credit_score,
    CustomerGenerator.generate_pincode, CustomerGenerator.generate_phone.
  solve_low; apply low_digits.
Qed.

(** ** The loan frame *)

Lemma low_calculate_emi amount rate tenure : low (LoanGenerator.calculate_emi amount rate tenure).
Proof. unfold LoanGenerator.calculate_emi, LoanGenerator.pow_int. solve_low. Qed.

Lemma low_generate_dpd : low LoanGenerator.generate_dpd.
Proof. unfold LoanGenerator.generate_dpd. solve_low. Qed.

Lemma low_calculate_lgd product_type collateral_value loan_amount :
  low (LoanGenerator.calculate_lgd product_type collateral_value loan_amount).
Proof. unfold LoanGenerator.calculate_lgd. cbv zeta. solve_low. Qed.

Lemma low_draw_application active : low (LoanGenerator.draw_application active).
Proof. unfold LoanGenerator.draw_application. solve_low. Qed.

(** One step of a sequence of binds that does not depend on the entropy. *)
Ltac low_step tac x :=
  eapply (rel_bind eq);
  [match goal with |- rel eq ?m ?m => change (low m) end; solve [tac]
  |intros x ? <-].

Lemma rel_generate_collateral loan_amount product_type :
  rel collateral_sim (LoanGenerator.generate_collateral loan_amount product_type)
                     (LoanGenerator.generate_collateral loan_amount product_type).
Proof.
  unfold LoanGenerator.generate_collateral.
  low_step solve_low kinds.
  destruct kinds as [[collateral_types collateral_multiplier]|];
    [|apply rel_ret; exact I].
  low_step solve_low q.
  eapply rel_bind; [apply rel_uuid4_hex|]. intros u1 u2 _.
  low_step solve_low kind.
  apply rel_ret. cbn. repeat split.
Qed.

Lemma collateral_sim_columns c1 c2 :
  collateral_sim c1 c2 ->
  option_map (fun _ : string => "") (option_map Collateral.collateral_id c1)
  = option_map (fun _ : string => "") (option_map Collateral.collateral_id c2)
  /\ option_map Collateral.collateral_value c1 = option_map Collateral.collateral_value c2
  /\ option_map Collateral.loan_to_value_ratio c1
     = option_map Collateral.loan_to_value_ratio c2.
Proof.
  destruct c1 as [a|], c2 as [b|]; cbn; try contradiction; [|repeat split].
  intros (_ & -> & ->). repeat split.
Qed.

Lemma rel_approved_loan i customer product eligibility loan_amount application_date
    end_date branch_ids :
  rel loan_sim
    (LoanGenerator.approved_loan i customer product eligibility loan_amount
       application_date end_date branch_ids)
    (LoanGenerator.approved_loan i customer product eligibility loan_amount
       application_date end_date branch_ids).
Proof.
  unfold LoanGenerator.approved_loan.
  low_step solve_low d.
  low_step ltac:(apply low_generate_dpd) dpd. destruct dpd as [days_past_due dpd_bucket].
  low_step ltac:(apply low_calculate_emi) emi_amount.
  eapply (rel_bind collateral_sim).
  { destruct (Product.collateral product); [|apply rel_ret; exact I].
    low_step solve_low u.
    destruct (Qltb u 0.8); [apply rel_generate_collateral|apply rel_ret; exact I]. }
  intros c1 c2 Hsim. apply collateral_sim_columns in Hsim as (Hid & Hvalue & Hltv).
  cbv beta zeta. rewrite Hvalue.
  low_step ltac:(apply low_calculate_lgd) lgd_score.
  low_step solve_low u.
  low_step solve_low branch.
  low_step solve_low purpose.
  low_step solve_low co_income.
  low_step solve_low restructuring.
  low_step solve_low written_off.
  low_step solve_low agent.
  apply rel_ret. unfold loan_sim, Spec.without_uuid_columns. cbn.
  rewrite Hid, Hltv. reflexivity.
Qed.

Lemma rel_rejected_loan customer product loan_amount application_date branch_ids :
  rel loan_sim
    (LoanGenerator.rejected_loan customer product loan_amount application_date branch_ids)
    (LoanGenerator.rejected_loan customer product loan_amount application_date branch_ids).
Proof.
  unfold LoanGenerator.rejected_loan.
  eapply rel_bind; [apply rel_uuid4_hex|]. intros u1 u2 _.
  low_step solve_low branch.
  low_step solve_low purpose.
  apply rel_ret. reflexivity.
Qed.

Lemma rel_generate_loans customers_df branches_df n :
  rel (Forall2 loan_sim)
    (LoanGenerator.generate_loans customers_df branches_df n)
    (LoanGenerator.generate_loans customers_df branches_df n).
Proof.
  unfold LoanGenerator.generate_loans.
  low_step solve_low end_date.
  apply rel_for_each with (Rin := eq); [|apply FraudFacts.Forall2_same; reflexivity].
  intros i ? <-. unfold LoanGenerator.generate_loans_step.
  low_step ltac:(apply low_draw_application) application.
  destruct application as [[[customer product] eligibility] loan_amount].
  destruct (negb _); [apply rel_ret; constructor|].
  low_step solve_low k.
  low_step solve_low u.
  eapply (rel_bind loan_sim).
  { destruct (Qltb u 0.9); [apply rel_approved_loan|apply rel_rejected_loan]. }
  intros l1 l2 Hl. apply rel_ret. constructor; [exact Hl|constructor].
Qed.

Lemma rel_generate_batch_loans customers_df branches_df batch_size total :
  rel (Forall2 loan_sim)
    (LoanGenerator.generate_batch_loans customers_df branches_df batch_size total)
    (LoanGenerator.generate_batch_loans customers_df branches_df batch_size total).
Proof.
  unfold LoanGenerator.generate_batch_loans.
  destruct (batch_size =? 0); [apply rel_raise|]. cbv zeta.
  destruct (_ <=? 0); [apply rel_raise|].
  apply rel_for_each with (Rin := eq); [|apply FraudFacts.Forall2_same; reflexivity].
  intros i ? <-. apply rel_generate_loans.
Qed.

(** ** The transaction frame *)

Lemma rel_generate_transaction_id :
  rel (fun _ _ => True) TransactionGenerator.generate_transaction_id
                        TransactionGenerator.generate_transaction_id.
Proof.
  unfold TransactionGenerator.generate_transaction_id.
  low_step solve_low now.
  eapply rel_bind; [apply rel_uuid4_hex|]. intros u1 u2 _.
  apply rel_ret. exact I.
Qed.

Lemma rel_disbursement_transaction loan disbursement_date :
  rel txn_sim (TransactionGenerator.disbursement_transaction loan disbursement_date)
              (TransactionGenerator.disbursement_transaction loan disbursement_date).
Proof.
  unfold TransactionGenerator.disbursement_transaction.
  eapply rel_bind; [apply rel_generate_transaction_id|]. intros id1 id2 _.
  low_step solve_low mode.
  low_step solve_low ref.
  low_step solve_low bank.
  low_step solve_low last4.
  apply rel_ret. reflexivity.
Qed.

Lemma rel_emi_step loan end_date total_emis month :
  rel (Forall2 txn_sim) (TransactionGenerator.emi_step loan end_date total_emis month)
                        (TransactionGenerator.emi_step loan end_date total_emis month).
Proof.
  unfold TransactionGenerator.emi_step.
  low_step solve_low first_emi_date.
  destruct (end_date <? _); [apply rel_ret; constructor|].
  low_step solve_low u.
  low_step solve_low interest_rate.
  low_step solve_low emi_amount.
  eapply rel_bind; [apply rel_generate_transaction_id|]. intros id1 id2 _.
  low_step solve_low mode.
  low_step solve_low ref.
  low_step solve_low bank.
  low_step solve_low last4.
  low_step solve_low status.
  low_step solve_low reason.
  apply rel_ret. repeat constructor.
Qed.

Lemma rel_prepayment loan end_date :
  rel (Forall2 txn_sim) (TransactionGenerator.prepayment loan end_date)
                        (TransactionGenerator.prepayment loan end_date).
Proof.
  unfold TransactionGenerator.prepayment.
  low_step solve_low u.
  destruct (_ && _); [|apply rel_ret; constructor].
  low_step solve_low f.
  low_step solve_low k.
  eapply rel_bind; [apply rel_generate_transaction_id|]. intros id1 id2 _.
  low_step solve_low mode.
  low_step solve_low ref.
  low_step solve_low bank.
  low_step solve_low last4.
  apply rel_ret. repeat constructor.
Qed.

Lemma rel_generate_transactions_for_loan loan customer :
  rel (Forall2 txn_sim)
    (TransactionGenerator.generate_transactions_for_loan loan customer)
    (TransactionGenerator.generate_transactions_for_loan loan customer).
Proof.
  unfold TransactionGenerator.generate_transactions_for_loan.
  destruct (Loan.disbursement_date loan) as [d|]; [|apply rel_ret; constructor].
  destruct (String.eqb _ _); [apply rel_ret; constructor|].
  low_step solve_low end_date.
  eapply rel_bind; [apply rel_disbursement_transaction|]. intros t1 t2 Ht.
  eapply (rel_bind (Forall2 txn_sim)).
  { apply rel_for_each with (Rin := eq); [|apply FraudFacts.Forall2_same; reflexivity].
    intros month ? <-. apply rel_emi_step. }
  intros emis1 emis2 Hemis.
  eapply rel_bind; [apply rel_prepayment|]. intros pre1 pre2 Hpre.
  apply rel_ret. constructor; [exact Ht|]. apply Forall2_app; assumption.
Qed.

(** The transactions of a loan do not depend on the columns of the loan that
    hold what [uuid.uuid4] gave. *)
Lemma generate_transactions_for_loan_sim l1 l2 customer :
  loan_sim l1 l2 ->
  TransactionGenerator.generate_transactions_for_loan l1 customer
  = TransactionGenerator.generate_transactions_for_loan l2 customer.
Proof.
  unfold loan_sim, Spec.without_uuid_columns. destruct l1, l2. cbn.
  intros E. injection E. intros. subst.
  unfold TransactionGenerator.generate_transactions_for_loan. cbn.
  match goal with |- context [match ?d with Some _ => _ | None => _ end] => destruct d end;
    [|reflexivity].
  subst. reflexivity.
Qed.

Lemma rel_transactions_loop customers_df target ls1 ls2 :
  Forall2 loan_sim ls1 ls2 ->
  forall total,
    rel (Forall2 txn_sim)
      (TransactionGenerator.transactions_loop customers_df target ls1 total)
      (TransactionGenerator.transactions_loop customers_df target ls2 total).
Proof.
  induction 1 as [|l1 l2 ls1 ls2 Hl _ IH]; intros total;
    cbn [TransactionGenerator.transactions_loop].
  - apply rel_ret. constructor.
  - assert (Hc : Loan.customer_id l1 = Loan.customer_id l2)
      by (apply (f_equal Loan.customer_id) in Hl; exact Hl).
    rewrite Hc. destruct (TransactionGenerator.find_customer _ _) as [customer|];
      [|apply IH].
    rewrite (generate_transactions_for_loan_sim l1 l2 customer Hl).
    eapply rel_bind; [apply rel_generate_transactions_for_loan|].
    intros ts1 ts2 Hts. cbv beta zeta.
    rewrite (Forall2_length Hts).
    destruct (target <=? _); [apply rel_ret; exact Hts|].
    eapply rel_bind; [apply IH|]. intros more1 more2 Hmore.
    apply rel_ret. apply Forall2_app; assumption.
Qed.

Lemma Forall2_filter {A B} (R : A -> B -> Prop) p q xs ys :
  (forall x y, R x y -> p x = q y) ->
  Forall2 R xs ys -> Forall2 R (filter p xs) (filter q ys).
Proof.
  intros Hpq. induction 1 as [|x y xs ys Hxy _ IH]; cbn [filter]; [constructor|].
  rewrite (Hpq x y Hxy). destruct (q y); [constructor|]; assumption.
Qed.

Lemma rel_generate_transactions ls1 ls2 customers_df n :
  Forall2 loan_sim ls1 ls2 ->
  rel (Forall2 txn_sim)
    (TransactionGenerator.generate_transactions ls1 customers_df n)
    (TransactionGenerator.generate_transactions ls2 customers_df n).
Proof.
  intros Hls. unfold TransactionGenerator.generate_transactions.
  destruct (negb _); [apply rel_raise|].
  apply rel_transactions_loop. apply Forall2_filter; [|exact Hls].
  intros l1 l2 Hl.
  rewrite (f_equal Loan.loan_status Hl : Loan.loan_status l1 = Loan.loan_status l2).
  rewrite (f_equal Loan.disbursement_date Hl
           : Loan.disbursement_date l1 = Loan.disbursement_date l2).
  reflexivity.
Qed.

(** ** The whole run *)

Lemma init_low seed w1 w2 u1 v1 u2 v2 :
  wall_clock w1 = wall_clock w2 ->
  NBFCDataGenerator.__init__ seed w1 = Ok u1 v1 ->
  NBFCDataGenerator.__init__ seed w2 = Ok u2 v2 ->
  low_eq v1 v2.
Proof.
  intros Hck E1 E2. cbv in E1, E2. injection E1 as _ <-. injection E2 as _ <-.
  repeat split. exact Hck.
Qed.

Lemma erasures_commute l :
  Spec.without_uuid_columns (Spec.without_fraud_columns l)
  = Spec.without_fraud_columns (Spec.without_uuid_columns l).
Proof. destruct l. reflexivity. Qed.

Lemma Forall2_backfilled_sim df1 df2 ls1 ls1' ls2 ls2' :
  Forall2 (Spec.backfilled df1) ls1 ls1' ->
  Forall2 (Spec.backfilled df2) ls2 ls2' ->
  Forall2 loan_sim ls1 ls2 ->
  Forall2 (fun l1 l2 =>
             Spec.without_uuid_columns (Spec.without_fraud_columns l1)
             = Spec.without_uuid_columns (Spec.without_fraud_columns l2))
          ls1' ls2'.
Proof.
  intros H1. revert ls2 ls2'.
  induction H1 as [|l1 l1' ls1 ls1' [Hb1 _] _ IH]; intros ls2 ls2' H2 Hsim;
    inversion Hsim; subst; inversion H2 as [|l2 l2' ? ? [Hb2 _]]; subst;
    constructor; [|eapply IH; eassumption].
  rewrite Hb1, Hb2, !erasures_commute. f_equal. assumption.
Qed.

End WithRuntime.

(** C2, as the code has it.  Two runs of the generator for one seed and one
    configuration that read the same clock return the same customers, the
    same transactions but for their [transaction_id], and the same loans
    but for the [loan_id] of the rejected ones, the [collateral_id] and the
    three columns the fraud step writes: apart from the identifiers drawn
    from [uuid.uuid4], every value and every date of these datasets is a
    function of the seed, the configuration and the readings of the
    clock. *)
Theorem datasets_determined_up_to_uuid `{Runtime} seed cfg w1 w2 d1 w1' d2 w2' :
  wall_clock w1 = wall_clock w2 ->
  NBFCDataGenerator.run seed cfg w1 = Ok d1 w1' ->
  NBFCDataGenerator.run seed cfg w2 = Ok d2 w2' ->
  NBFCDataGenerator.customers d1 = NBFCDataGenerator.customers d2
  /\ Forall2 (fun l1 l2 =>
                Spec.without_uuid_columns (Spec.without_fraud_columns l1)
                = Spec.without_uuid_columns (Spec.without_fraud_columns l2))
             (NBFCDataGenerator.loans d1) (NBFCDataGenerator.loans d2)
  /\ Forall2 (fun t1 t2 =>
                Spec.without_transaction_id t1 = Spec.without_transaction_id t2)
             (NBFCDataGenerator.transactions d1) (NBFCDataGenerator.transactions d2).
Proof.
  intros Hck E1 E2. unfold NBFCDataGenerator.run in E1, E2.
  apply bind_ok in E1 as (u1 & v1 & Ei1 & E1).
  apply bind_ok in E2 as (u2 & v2 & Ei2 & E2).
  pose proof (init_low seed w1 w2 u1 v1 u2 v2 Hck Ei1 Ei2) as Hv.
  unfold NBFCDataGenerator.generate_all in E1, E2.
  apply bind_ok in E1 as (cs1 & x1 & Ec1 & E1).
  apply bind_ok in E2 as (cs2 & x2 & Ec2 & E2).
  destruct (low_generate_customers _ _ _ _ _ _ _ Hv Ec1 Ec2) as [<- Hx].
  apply bind_ok in E1 as (ls1 & y1 & El1 & E1).
  apply bind_ok in E2 as (ls2 & y2 & El2 & E2).
  destruct (rel_generate_batch_loans _ _ _ _ _ _ _ _ _ _ Hx El1 El2) as [Hls Hy].
  apply bind_ok in E1 as (ts1 & z1 & Et1 & E1).
  apply bind_ok in E2 as (ts2 & z2 & Et2 & E2).
  unfold TransactionGenerator.generate_batch_transactions in Et1, Et2.
  destruct (rel_generate_transactions _ _ _ _ Hls _ _ _ _ _ _ Hy Et1 Et2) as [Hts _].
  apply bind_ok in E1 as ([df1 ls1'] & s1 & Ef1 & E1).
  apply bind_ok in E2 as ([df2 ls2'] & s2 & Ef2 & E2).
  apply ret_ok in E1 as [<- _]. apply ret_ok in E2 as [<- _].
  cbn [NBFCDataGenerator.customers NBFCDataGenerator.loans NBFCDataGenerator.transactions].
  apply FraudFacts.generate_all_fraud_scenarios_loans in Ef1 as ->.
  apply FraudFacts.generate_all_fraud_scenarios_loans in Ef2 as ->.
  split; [reflexivity|]. split; [|exact Hts].
  eapply Forall2_backfilled_sim; [apply FraudFacts.backfill_backfilled
                                 |apply FraudFacts.backfill_backfilled|exact Hls].
Qed.

(** The theorem at the two runs of [Scenario.first_run] and
    [Scenario.second_run], which read the same clock. *)
Lemma datasets_determined_up_to_uuid_witness :
  NBFCDataGenerator.customers (Scenario.result Scenario.first_run Scenario.no_datasets)
  = NBFCDataGenerator.customers (Scenario.result Scenario.second_run Scenario.no_datasets)
  /\ Forall2 (fun l1 l2 =>
                Spec.without_uuid_columns (Spec.without_fraud_columns l1)
                = Spec.without_uuid_columns (Spec.without_fraud_columns l2))
             (NBFCDataGenerator.loans (Scenario.result Scenario.first_run Scenario.no_datasets))
             (NBFCDataGenerator.loans (Scenario.result Scenario.second_run Scenario.no_datasets))
  /\ Forall2 (fun t1 t2 =>
                Spec.without_transaction_id t1 = Spec.without_transaction_id t2)
             (NBFCDataGenerator.transactions
                (Scenario.result Scenario.first_run Scenario.no_datasets))
             (NBFCDataGenerator.transactions
                (Scenario.result Scenario.second_run Scenario.no_datasets)).
Proof.
  apply (@datasets_determined_up_to_uuid Scenario.plain 42 Scenario.small_config
           (Scenario.run_world 0 Scenario.noon)
           (Scenario.run_world 226854911280625642308916404954512140970 Scenario.noon)
           _ (Scenario.after Scenario.first_run (Scenario.run_world 0 Scenario.noon))
           _ (Scenario.after Scenario.second_run (Scenario.run_world 0 Scenario.noon))).
  - reflexivity.
  - vm_compute. reflexivity.
  - vm_compute. reflexivity.
Defined.

(** C2, as it is worded, fails: for seed 42 and one customer, one loan, the
    runs of [Scenario.first_run] and [Scenario.second_run] read the same
    clock and differ in the entropy [uuid.uuid4] reads, the runs of
    [Scenario.first_run] and [Scenario.third_run] differ in the clock by a
    day; the datasets of the three differ. *)
Lemma same_seed_different_datasets :
  @NBFCDataGenerator.run Scenario.plain 42 Scenario.small_config
     (Scenario.run_world 0 Scenario.noon)
  = Ok (Scenario.result Scenario.first_run Scenario.no_datasets)
       (Scenario.after Scenario.first_run (Scenario.run_world 0 Scenario.noon))
  /\ @NBFCDataGenerator.run Scenario.plain 42 Scenario.small_config
       (Scenario.run_world 226854911280625642308916404954512140970 Scenario.noon)
     = Ok (Scenario.result Scenario.second_run Scenario.no_datasets)
          (Scenario.after Scenario.second_run (Scenario.run_world 0 Scenario.noon))
  /\ @NBFCDataGenerator.run Scenario.plain 42 Scenario.small_config
       (Scenario.run_world 0 (Time.add_days Scenario.noon 1))
     = Ok (Scenario.result Scenario.third_run Scenario.no_datasets)
          (Scenario.after Scenario.third_run (Scenario.run_world 0 Scenario.noon))
  /\ map Txn.transaction_id
         (firstn 1 (NBFCDataGenerator.transactions
                      (Scenario.result Scenario.first_run Scenario.no_datasets)))
     = ["TXN26110600000000"]%list
  /\ map Txn.transaction_id
         (firstn 1 (NBFCDataGenerator.transactions
                      (Scenario.result Scenario.second_run Scenario.no_datasets)))
     = ["TXN261106AAAAAAAA"]%list
  /\ map Loan.application_date
         (NBFCDataGenerator.loans (Scenario.result Scenario.first_run Scenario.no_datasets))
     = [Time.days_from_civil 2024 11 4]%list
  /\ map Loan.application_date
         (NBFCDataGenerator.loans (Scenario.result Scenario.third_run Scenario.no_datasets))
     = [Time.days_from_civil 2025 10 28]%list
  /\ ~ @Spec.reproducible Scenario.plain.
Proof.
  assert (E1 : @NBFCDataGenerator.run Scenario.plain 42 Scenario.small_config
                 (Scenario.run_world 0 Scenario.noon)
               = Ok (Scenario.result Scenario.first_run Scenario.no_datasets)
                    (Scenario.after Scenario.first_run (Scenario.run_world 0 Scenario.noon)))
    by (vm_compute; reflexivity).
  assert (E2 : @NBFCDataGenerator.run Scenario.plain 42 Scenario.small_config
                 (Scenario.run_world 226854911280625642308916404954512140970 Scenario.noon)
               = Ok (Scenario.result Scenario.second_run Scenario.no_datasets)
                    (Scenario.after Scenario.second_run (Scenario.run_world 0 Scenario.noon)))
    by (vm_compute; reflexivity).
  split; [exact E1|]. split; [exact E2|].
  do 5 (split; [vm_compute; reflexivity|]).
  intros Hr. specialize (Hr _ _ _ _ _ _ _ _ E1 E2).
  apply (f_equal (fun d => map Txn.transaction_id
                             (firstn 1 (NBFCDataGenerator.transactions d)))) in Hr.
  vm_compute in Hr. discriminate.
Qed.

End Reproducibility.
(* ================================================================== *)
(** * Further properties of the generators *)

Module GenMore.

Lemma randint_returns a b w :
  a <= b -> exists k, randint a b w = Ok k (step_py w) /\ a <= k <= b.
Proof.
  intros Hab. unfold randint. destruct (b <? a) eqn:E; [apply Z.ltb_lt in E; lia|].
  unfold bind, randbelow, next_raw, ret. eexists. split; [reflexivity|].
  pose proof (Z.mod_pos_bound (Z.of_N (read (py_random w))) (b - a + 1)). lia.
Qed.

Lemma random_returns w :
  exists u, random w = Ok u (step_py w) /\ (0 <= u /\ u < 1)%Q.
Proof.
  destruct (random w) as [u w'|e] eqn:E; [|discriminate E].
  pose proof (random_range _ _ _ E) as Hu.
  unfold random, bind, next_raw, ret in E. injection E as E1 E2. subst w'.
  exists u. split; [reflexivity|exact Hu].
Qed.

Lemma uniform_returns a b w :
  (a <= b)%Q -> exists x, uniform a b w = Ok x (step_py w) /\ (a <= x /\ x <= b)%Q.
Proof.
  intros Hab. destruct (random_returns w) as (u & Eu & Hu).
  unfold uniform, bind. rewrite Eu. unfold ret. eexists. split; [reflexivity|].
  split; nra.
Qed.

(** A loop whose body appends one row at each iteration. *)
Lemma for_each_rows {A B} (P : A -> B -> Prop) (body : A -> Gen.t (list B)) :
  (forall x w ys w', body x w = Ok ys w' -> exists b, ys = [b] /\ P x b) ->
  forall xs w ys w', for_each body xs w = Ok ys w' -> Forall2 P xs ys.
Proof.
  intros Hbody. induction xs as [|x xs IH]; intros w ys w' E; cbn [for_each] in E.
  - apply ret_ok in E as [<- _]. constructor.
  - apply bind_ok in E as (ys1 & w1 & E1 & E).
    apply bind_ok in E as (ys2 & w2 & E2 & E).
    apply ret_ok in E as [<- _].
    apply Hbody in E1 as (b & -> & Hb). cbn [app].
    constructor; [exact Hb|eapply IH; exact E2].
Qed.

End GenMore.
Import GenMore.

(* ================================================================== *)
(** * Lists and rounding, continued *)

Module ListFacts.

Lemma Forall2_Forall_r {A B} (P : A -> B -> Prop) xs ys :
  Forall2 P xs ys -> Forall (fun y => exists x, In x xs /\ P x y) ys.
Proof.
  induction 1 as [|x y xs ys Hxy _ IH]; constructor.
  - exists x. split; [left; reflexivity|exact Hxy].
  - eapply Forall_impl; [|exact IH]. intros b (a & Ha & Hab).
    exists a. split; [right; exact Ha|exact Hab].
Qed.

Lemma Forall2_length_eq {A B} (P : A -> B -> Prop) xs ys :
  Forall2 P xs ys -> List.length ys = List.length xs.
Proof. induction 1; cbn; congruence. Qed.

Lemma Forall2_nth_error {A B} (P : A -> B -> Prop) xs ys :
  Forall2 P xs ys ->
  forall i y, nth_error ys i = Some y -> exists x, nth_error xs i = Some x /\ P x y.
Proof.
  induction 1 as [|x y xs ys Hxy _ IH]; intros [|i] b E; cbn in E; try discriminate.
  - injection E as <-. exists x. split; [reflexivity|exact Hxy].
  - apply IH, E.
Qed.

Lemma range_length n : List.length (Rows.range n) = Z.to_nat n.
Proof. unfold Rows.range. rewrite length_map, length_seq. reflexivity. Qed.

Lemma range_nth_error n i x : nth_error (Rows.range n) i = Some x -> x = Z.of_nat i.
Proof.
  unfold Rows.range. intros E. rewrite nth_error_map in E.
  destruct (nth_error (seq 0 (Z.to_nat n)) i) as [k|] eqn:Ek; [|discriminate E].
  injection E as <-. f_equal.
  pose proof (nth_error_Some (seq 0 (Z.to_nat n)) i) as Hlt.
  rewrite Ek, length_seq in Hlt.
  assert (Hi : (i < Z.to_nat n)%nat) by (apply Hlt; discriminate).
  rewrite (nth_error_nth' _ 0%nat) in Ek by (rewrite length_seq; exact Hi).
  rewrite seq_nth in Ek by exact Hi. injection Ek as <-. reflexivity.
Qed.

Lemma range_In n x : In x (Rows.range n) -> 0 <= x < n.
Proof.
  unfold Rows.range. rewrite in_map_iff. intros (k & <- & Hk).
  apply in_seq in Hk. lia.
Qed.

Lemma range_NoDup n : NoDup (Rows.range n).
Proof.
  unfold Rows.range. apply NoDup_map_NoDup_ForallPairs; [|apply seq_NoDup].
  intros a b _ _. apply Nat2Z.inj.
Qed.

Lemma Forall2_map_eq {A B C} (f : A -> C) (g : B -> C) xs ys :
  Forall2 (fun x y => g y = f x) xs ys -> map g ys = map f xs.
Proof. induction 1; cbn; congruence. Qed.

(** Rows that carry a key made from their position, when a test holds of
    them: no two of the rows that pass the test share a key. *)
Lemma keys_of_positions {A} (f : Z -> string) (key : A -> string) (p : A -> bool) xs ls :
  Forall2 (fun i l => p l = true -> key l = f i) xs ls ->
  forall s, In s (map key (filter p ls)) -> exists i, In i xs /\ s = f i.
Proof.
  induction 1 as [|i l xs ls Hil _ IH]; intros s Hs; cbn [filter map] in Hs.
  - destruct Hs.
  - destruct (p l) eqn:Ep.
    + destruct Hs as [<-|Hs].
      * exists i. split; [left; reflexivity|apply Hil; reflexivity].
      * destruct (IH s Hs) as (j & Hj & ->). exists j. split; [right; exact Hj|reflexivity].
    + destruct (IH s Hs) as (j & Hj & ->). exists j. split; [right; exact Hj|reflexivity].
Qed.

Lemma NoDup_keys_of_positions {A} (f : Z -> string) (key : A -> string) (p : A -> bool)
    xs ls :
  Forall2 (fun i l => p l = true -> key l = f i) xs ls ->
  NoDup xs ->
  (forall a b, In a xs -> In b xs -> f a = f b -> a = b) ->
  NoDup (map key (filter p ls)).
Proof.
  induction 1 as [|i l xs ls Hil Hrest IH]; intros Hnd Hinj; cbn [filter map].
  - constructor.
  - inversion Hnd as [|? ? Hni Hnd']; subst.
    assert (IH' : NoDup (map key (filter p ls))).
    { apply IH; [exact Hnd'|]. intros a b Ha Hb. apply Hinj; right; assumption. }
    destruct (p l) eqn:Ep; [|exact IH'].
    cbn [map]. constructor; [|exact IH'].
    intros Hin. apply (keys_of_positions f key p xs ls Hrest) in Hin as (j & Hj & Ej).
    rewrite (Hil eq_refl) in Ej.
    apply Hinj in Ej; [|left; reflexivity|right; exact Hj]. subst j. contradiction.
Qed.

Lemma count_zero {A} (mask : A -> bool) df :
  Forall (fun x => mask x = false) df -> DataValidator.count mask df = 0.
Proof.
  unfold DataValidator.count. induction 1 as [|x df Hx _ IH]; [reflexivity|].
  cbn [filter]. rewrite Hx. exact IH.
Qed.

Lemma filter_Forall {A} (p : A -> bool) (P : A -> Prop) l :
  Forall (fun x => p x = true -> P x) l -> Forall P (filter p l).
Proof.
  induction 1 as [|x l Hx _ IH]; cbn [filter]; [constructor|].
  destruct (p x) eqn:E; [constructor; [apply Hx; reflexivity|exact IH]|exact IH].
Qed.

End ListFacts.
Import ListFacts.

Module RoundFacts.
Local Open Scope Q_scope.

Lemma py_round_Z z : py_round (inject_Z z) = z.
Proof.
  pose proof (py_round_lower z (inject_Z z)) as H1.
  pose proof (py_round_upper z (inject_Z z)) as H2.
  assert (inject_Z z <= inject_Z z) by lra. specialize (H1 H). specialize (H2 H). lia.
Qed.

Lemma py_round_mono x y : x <= y -> (py_round x <= py_round y)%Z.
Proof.
  intros Hxy.
  destruct (Z_le_gt_dec (py_round x) (py_round y)) as [Hle|Hgt]; [exact Hle|exfalso].
  destruct (py_round_near x) as [_ Hx]. destruct (py_round_near y) as [Hy _].
  assert (H1 : (py_round y + 1 <= py_round x)%Z) by lia.
  rewrite Zle_Qle, inject_Z_plus in H1. change (inject_Z 1) with 1 in H1.
  assert (E : x == y) by lra.
  apply py_round_comp in E. lia.
Qed.

Lemma py_round_to_mono n x y : x <= y -> py_round_to n x <= py_round_to n y.
Proof.
  intros Hxy. unfold py_round_to.
  pose proof (pow10_pos n) as Hp.
  set (p := inject_Z (10 ^ Z.of_nat n)) in *.
  assert (Hm : (py_round (x * p) <= py_round (y * p))%Z).
  { apply py_round_mono. apply Qmult_le_compat_r; lra. }
  rewrite Zle_Qle in Hm.
  assert (Hi : 0 <= / p) by (apply Qinv_le_0_compat; lra).
  unfold Qdiv. apply Qmult_le_compat_r; assumption.
Qed.

(** Rounding to [n] decimals leaves a whole number as it is. *)
Lemma py_round_to_Z n z x : x == inject_Z z -> py_round_to n x == inject_Z z.
Proof.
  intros E. unfold py_round_to.
  pose proof (pow10_pos n) as Hp.
  assert (Ez : x * inject_Z (10 ^ Z.of_nat n) == inject_Z (z * 10 ^ Z.of_nat n))
    by (rewrite inject_Z_mult, E; reflexivity).
  rewrite (py_round_comp _ _ Ez), py_round_Z, inject_Z_mult.
  field. lra.
Qed.

(** Rounding to [n] decimals leaves a number of at most [n] decimals as it
    is. *)
Lemma py_round_to_exact n x z :
  x * inject_Z (10 ^ Z.of_nat n) == inject_Z z -> py_round_to n x == x.
Proof.
  intros E. unfold py_round_to. pose proof (pow10_pos n) as Hp.
  rewrite (py_round_comp _ _ E), py_round_Z, <- E. field. lra.
Qed.

End RoundFacts.
Import RoundFacts.
(* ================================================================== *)
(** * Decimal strings *)

Module StrFacts.
Local Open Scope string_scope.

Import Rows.

Lemma uint_of_zeros k s :
  NilEmpty.uint_of_string (Str.replicate k "0"%char ++ s)
  = option_map (Nat.iter k Decimal.D0) (NilEmpty.uint_of_string s).
Proof.
  induction k as [|k IH].
  - cbn. destruct (NilEmpty.uint_of_string s); reflexivity.
  - cbn [Str.replicate append NilEmpty.uint_of_string Nat.iter]. rewrite IH.
    destruct (NilEmpty.uint_of_string s); reflexivity.
Qed.

Lemma of_uint_zeros k d :
  Pos.of_uint (Nat.iter k Decimal.D0 d) = Pos.of_uint d.
Proof. induction k as [|k IH]; [reflexivity|exact IH]. Qed.

Lemma str_nonneg z :
  (0 <= z)%Z ->
  exists d c r,
    Z.to_int z = Decimal.Pos d
    /\ Str.str z = String c r
    /\ NilEmpty.uint_of_string (String c r) = Some d
    /\ Ascii.eqb c "-" = false /\ Ascii.eqb c "+" = false.
Proof.
  intros Hz. unfold Str.str.
  assert (Hd : exists d, Z.to_int z = Decimal.Pos d /\ d <> Decimal.Nil).
  { destruct z as [|p|p]; [| |lia]; cbn [Z.to_int].
    - eexists. split; [reflexivity|discriminate].
    - eexists. split; [reflexivity|]. apply DecimalPos.Unsigned.to_uint_nonnil. }
  destruct Hd as (d & -> & Hd). exists d.
  pose proof (NilZero.usu d Hd) as Hu.
  cbn [NilZero.string_of_int] in *.
  destruct (NilZero.string_of_uint d) as [|c r] eqn:E.
  - discriminate Hu.
  - exists c, r. cbn [NilZero.uint_of_string] in Hu.
    split; [reflexivity|]. split; [reflexivity|]. split; [exact Hu|].
    cbn [NilEmpty.uint_of_string] in Hu.
    destruct (NilEmpty.uint_of_string r); [|discriminate Hu].
    split; destruct (Ascii.eqb_spec c "-"), (Ascii.eqb_spec c "+"); subst;
      try reflexivity; discriminate Hu.
Qed.

(** Reading back a zero-padded number. *)
Lemma parse_zfill width z :
  (0 <= z)%Z -> parse (Str.zfill width (Str.str z)) = Some z.
Proof.
  intros Hz. destruct (str_nonneg z Hz) as (d & c & r & Hd & Hs & Hu & Hm & Hp).
  rewrite Hs. unfold Str.zfill. rewrite Hm, Hp. cbn [orb].
  set (k := (width - String.length (String c r))%nat).
  unfold parse.
  assert (E : NilZero.int_of_string (Str.replicate k "0"%char ++ String c r)
              = Some (Decimal.Pos (Nat.iter k Decimal.D0 d))).
  { pose proof (uint_of_zeros k (String c r)) as Hz0. rewrite Hu in Hz0.
    cbn [option_map] in Hz0.
    destruct k as [|k'].
    - cbn [Str.replicate append Nat.iter] in *. unfold NilZero.int_of_string.
      rewrite Hm. cbn [NilZero.uint_of_string]. rewrite Hu. reflexivity.
    - cbn [Str.replicate append] in *. unfold NilZero.int_of_string.
      change (Ascii.eqb "0" "-") with false. cbn [NilZero.uint_of_string].
      rewrite Hz0. reflexivity. }
  rewrite E. cbn [option_map Z.of_int]. unfold Z.of_uint.
  rewrite of_uint_zeros. f_equal.
  pose proof (DecimalZ.of_to z) as Hof. rewrite Hd in Hof. exact Hof.
Qed.

Lemma zfill_str_inj width a b :
  (0 <= a)%Z -> (0 <= b)%Z ->
  Str.zfill width (Str.str a) = Str.zfill width (Str.str b) -> a = b.
Proof.
  intros Ha Hb E. apply (f_equal parse) in E.
  rewrite !parse_zfill in E by assumption. congruence.
Qed.

End StrFacts.

(* ================================================================== *)
(** * The customer generator *)

Module CustomerProps.
Import CustomerGenerator Rows StrFacts.

Section WithRuntime.
Context `{Runtime}.
Local Open Scope string_scope.
Local Open Scope Z_scope.

Lemma assoc_In {V} (d : list (string * V)) k v : assoc d k = Some v -> In (k, v) d.
Proof.
  induction d as [|[k' v'] d IH]; cbn [assoc]; [discriminate|].
  destruct (String.eqb_spec k k') as [->|Hne].
  - intros E. injection E as ->. left. reflexivity.
  - intros E. right. apply IH, E.
Qed.

Lemma getitem_In {V} (d : list (string * V)) k w v w' :
  getitem d k w = Ok v w' -> In (k, v) d.
Proof.
  unfold getitem. destruct (assoc d k) eqn:E; [|discriminate].
  intros E'. apply ret_ok in E' as [<- _]. apply assoc_In, E.
Qed.

(** The base income of every branch of [generate_income] is drawn between
    200,000 and 5,000,000. *)
Lemma generate_income_returns age employment_type w :
  exists k w',
    generate_income age employment_type w = Ok (inject_Z (k * 1000)) w'
    /\ 180 <= k <= 5500.
Proof.
  unfold generate_income.
  set (base := if String.eqb employment_type "Salaried" then _ else _).
  assert (Hb : exists x, base w = Ok x (step_py w) /\ (200000 <= x /\ x <= 5000000)%Q).
  { subst base.
    repeat match goal with
           | |- context [if ?c then _ else _] => destruct c
           end;
      match goal with
      | |- exists x, uniform ?a ?b _ = _ /\ _ =>
          destruct (uniform_returns a b w) as (x & E & Hx); [qle_compute|];
            exists x; split; [exact E|];
            assert (200000 <= a)%Q by qle_compute;
            assert (b <= 5000000)%Q by qle_compute; lra
      end. }
  destruct Hb as (x & Ex & Hx).
  destruct (uniform_returns 0.9 1.1 (step_py w)) as (f & Ef & Hf); [qle_compute|].
  unfold bind. rewrite Ex, Ef. unfold ret.
  exists (py_round (x * f / 1000)), (step_py (step_py w)).
  split; [reflexivity|].
  split; [apply py_round_lower|apply py_round_upper];
    [apply Qle_shift_div_l|apply Qle_shift_div_r]; try reflexivity;
    change (inject_Z 180 * 1000)%Q with 180000%Q;
    change (inject_Z 5500 * 1000)%Q with 5500000%Q; nra.
Qed.

Lemma generate_income_ok age employment_type w income w' :
  generate_income age employment_type w = Ok income w' -> thousands 180 5500 income.
Proof.
  destruct (generate_income_returns age employment_type w) as (k & w1 & E & Hk).
  rewrite E. intros E'. injection E' as <- _. exists k. split; [reflexivity|exact Hk].
Qed.

Lemma generate_credit_score_returns age income employment_type w :
  exists score w',
    generate_credit_score age income employment_type w = Ok score w'
    /\ 550 <= score <= 900.
Proof.
  unfold generate_credit_score.
  destruct (randint_returns 600 750 w) as (b & Eb & Hb); [lia|].
  destruct (randint_returns (-50) 50 (step_py w)) as (n & En & Hn); [lia|].
  unfold bind. rewrite Eb. cbv zeta. rewrite En. unfold ret.
  do 2 eexists. split; [reflexivity|].
  repeat match goal with
         | |- context [if ?c then _ else _] => destruct c
         end; lia.
Qed.

Lemma generate_credit_score_ok age income employment_type w score w' :
  generate_credit_score age income employment_type w = Ok score w' ->
  550 <= score <= 900.
Proof.
  destruct (generate_credit_score_returns age income employment_type w)
    as (s & w1 & E & Hs).
  rewrite E. intros E'. injection E' as <- _. exact Hs.
Qed.

Lemma str_digit d : 0 <= d <= 9 -> String.length (Str.str d) = 1%nat.
Proof.
  intros Hd.
  assert (E : d = 0 \/ d = 1 \/ d = 2 \/ d = 3 \/ d = 4 \/ d = 5 \/ d = 6 \/ d = 7
              \/ d = 8 \/ d = 9) by lia.
  repeat destruct E as [->|E]; try subst d; reflexivity.
Qed.

Lemma length_append (s1 s2 : string) :
  String.length (s1 ++ s2) = (String.length s1 + String.length s2)%nat.
Proof. induction s1 as [|c s1 IH]; cbn; [reflexivity|rewrite IH; reflexivity]. Qed.

Lemma digits_length n w ds w' : digits n w = Ok ds w' -> String.length ds = n.
Proof.
  revert w ds w'. induction n as [|n IH]; intros w ds w' E; cbn [digits] in E.
  - apply ret_ok in E as [<- _]. reflexivity.
  - apply bind_ok in E as (d & w1 & Ed & E).
    apply bind_ok in E as (rest & w2 & Er & E).
    apply ret_ok in E as [<- _].
    apply randint_ok in Ed. apply IH in Er.
    rewrite length_append, str_digit, Er by exact Ed. reflexivity.
Qed.

Lemma generate_customers_step_row i w cs w' :
  generate_customers_step i w = Ok cs w' -> exists c, cs = [c] /\ customer_row i c.
Proof.
  unfold generate_customers_step. intros E.
  apply bind_ok in E as (age & w1 & Eage & E). apply randint_ok in Eage.
  apply bind_ok in E as (gender & w2 & _ & E).
  apply bind_ok in E as (marital & w3 & _ & E).
  apply bind_ok in E as (state & w4 & _ & E).
  apply bind_ok in E as (cities & w5 & Ecities & E). apply getitem_In in Ecities.
  apply bind_ok in E as (city & w6 & Ecity & E). apply choice_In in Ecity.
  apply bind_ok in E as (et & w7 & Eet & E). apply choices_In in Eet.
  apply bind_ok in E as (education & w8 & _ & E).
  apply bind_ok in E as (income & w9 & Einc & E). apply generate_income_ok in Einc.
  apply bind_ok in E as (score & w10 & Escore & E).
  apply generate_credit_score_ok in Escore.
  bind_inv E.
  match goal with
  | Hp : generate_phone _ = Ok _ _ |- _ =>
      unfold generate_phone in Hp; apply bind_ok in Hp as (ds & wp & Hds & Hp);
        apply ret_ok in Hp as [Hp _]; apply digits_length in Hds
  end.
  eexists. split; [symmetry; exact E|].
  constructor; cbn; try reflexivity; try assumption.
  - exists cities. split; assumption.
  - subst. cbn. rewrite Hds. split; reflexivity.
  - repeat split.
Qed.

Lemma generate_customers_rows n w cs w' :
  generate_customers n w = Ok cs w' -> Forall2 customer_row (range n) cs.
Proof.
  unfold generate_customers. apply for_each_rows. apply generate_customers_step_row.
Qed.

Lemma customer_id_inj a b :
  0 <= a -> 0 <= b ->
  "CUST" ++ Str.zfill 8 (Str.str (a + 1)) = "CUST" ++ Str.zfill 8 (Str.str (b + 1)) ->
  a = b.
Proof.
  intros Ha Hb E. cbn [append] in E. injection E as E.
  apply zfill_str_inj in E; lia.
Qed.

Lemma generate_customers_ids n w cs w' :
  generate_customers n w = Ok cs w' ->
  map Customer.customer_id cs
  = map (fun i => "CUST" ++ Str.zfill 8 (Str.str (i + 1))) (range n).
Proof.
  intros E. apply generate_customers_rows in E.
  apply Forall2_map_eq. eapply Forall2_impl; [|exact E].
  intros i c Hrow. apply Hrow.
Qed.

Lemma generate_customers_NoDup n w cs w' :
  generate_customers n w = Ok cs w' -> NoDup (map Customer.customer_id cs).
Proof.
  intros E. rewrite (generate_customers_ids _ _ _ _ E).
  apply NoDup_map_NoDup_ForallPairs; [|apply range_NoDup].
  intros a b Ha Hb. apply range_In in Ha, Hb. apply customer_id_inj; lia.
Qed.

(** X1.  [generate_credit_score] returns a score between 550 and 900, whatever
    the age, the income and the employment type: the base score is at least
    600, the adjustments add to it and the variation takes at most 50. *)
Theorem credit_score_between_550_and_900 age income employment_type w :
  exists score w',
    generate_credit_score age income employment_type w = Ok score w'
    /\ 550 <= score <= 900.
Proof. exact (generate_credit_score_returns age income employment_type w). Qed.

(** X2.  [generate_income] returns a whole number of thousands between 180,000
    and 5,500,000. *)
Theorem income_in_whole_thousands age employment_type w :
  exists k w',
    generate_income age employment_type w = Ok (inject_Z (k * 1000)) w'
    /\ 180 <= k <= 5500.
Proof. exact (generate_income_returns age employment_type w). Qed.

(** X3.  [generate_customers] returns as many rows as asked for; the row at
    position [i] has the id [CUST] followed by [i + 1] padded to eight
    digits, and no two rows share an id. *)
Theorem customer_ids_are_distinct n w cs w' :
  generate_customers n w = Ok cs w' ->
  List.length cs = Z.to_nat n
  /\ (forall i c,
        nth_error cs i = Some c ->
        Customer.customer_id c = "CUST" ++ Str.zfill 8 (Str.str (Z.of_nat i + 1)))
  /\ NoDup (map Customer.customer_id cs).
Proof.
  intros E. pose proof (generate_customers_rows _ _ _ _ E) as Hrows.
  split; [rewrite (Forall2_length_eq _ _ _ Hrows); apply range_length|].
  split; [|eapply generate_customers_NoDup; exact E].
  intros i c Hc.
  destruct (Forall2_nth_error _ _ _ Hrows i c Hc) as (x & Hx & Hrow).
  apply range_nth_error in Hx. subst x. apply Hrow.
Qed.

(** X4.  Every customer of [generate_customers] is between 22 and 70 years old,
    has a credit score between 550 and 900 with the credit tier of that
    score, which is never 'Deep-Subprime', an income of a whole number of
    thousands with the income tier of that income, a city of the state of
    the row and a phone number of ten characters that starts with 9. *)
Theorem customers_are_consistent n w cs w' :
  generate_customers n w = Ok cs w' ->
  Forall (fun c =>
            22 <= Customer.age c <= 70
            /\ 550 <= Customer.credit_score c <= 900
            /\ Customer.credit_tier c = get_credit_tier (Customer.credit_score c)
            /\ Customer.credit_tier c <> "Deep-Subprime"
            /\ thousands 180 5500 (Customer.annual_income c)
            /\ Customer.income_tier c = get_income_tier (Customer.annual_income c)
            /\ (exists cities,
                  In (Customer.state c, cities) states /\ In (Customer.city c) cities)
            /\ String.length (Customer.phone c) = 10%nat
            /\ String.get 0 (Customer.phone c) = Some "9"%char)
         cs.
Proof.
  intros E. apply generate_customers_rows, Forall2_Forall_r in E.
  eapply Forall_impl; [|exact E]. intros c (i & _ & Hrow).
  destruct Hrow. repeat (split; [assumption|]).
  split.
  - rewrite cust_credit_tier0. unfold get_credit_tier.
    repeat match goal with
           | |- context [if ?b then _ else _] => destruct b eqn:?
           end; try discriminate.
    lia.
  - repeat (split; [assumption|]). split; apply cust_phone0.
Qed.

End WithRuntime.

Local Open Scope string_scope.
Local Open Scope Z_scope.

(** The theorems at the two customers of [Cases.customers_run]. *)
Lemma customer_ids_are_distinct_witness :
  List.length Cases.customers = Z.to_nat 2
  /\ (forall i c,
        nth_error Cases.customers i = Some c ->
        Customer.customer_id c = "CUST" ++ Str.zfill 8 (Str.str (Z.of_nat i + 1)))
  /\ NoDup (map Customer.customer_id Cases.customers).
Proof.
  apply (@customer_ids_are_distinct Scenario.plain 2 Cases.steady_world _
           (Scenario.after Cases.customers_run Cases.steady_world)).
  vm_compute. reflexivity.
Defined.

Lemma customers_are_consistent_witness :
  Forall (fun c =>
            22 <= Customer.age c <= 70
            /\ 550 <= Customer.credit_score c <= 900
            /\ Customer.credit_tier c = get_credit_tier (Customer.credit_score c)
            /\ Customer.credit_tier c <> "Deep-Subprime"
            /\ thousands 180 5500 (Customer.annual_income c)
            /\ Customer.income_tier c = get_income_tier (Customer.annual_income c)
            /\ (exists cities,
                  In (Customer.state c, cities) states /\ In (Customer.city c) cities)
            /\ String.length (Customer.phone c) = 10%nat
            /\ String.get 0 (Customer.phone c) = Some "9"%char)
         Cases.customers.
Proof.
  apply (@customers_are_consistent Scenario.plain 2 Cases.steady_world _
           (Scenario.after Cases.customers_run Cases.steady_world)).
  vm_compute. reflexivity.
Defined.

End CustomerProps.

(* ================================================================== *)
(** * The loan generator, continued *)

Module LoanProps.
Import LoanGenerator Shape Rows StrFacts.

Section WithRuntime.
Context `{Runtime}.
Local Open Scope string_scope.
Local Open Scope Z_scope.

Lemma date_of_add_days t n : Time.date_of (Time.add_days t n) = Time.date_of t + n.
Proof.
  unfold Time.date_of, Time.add_days, Time.us_per_day.
  rewrite Z.div_add by lia. reflexivity.
Qed.

Lemma date_of_datetime_of_date d : Time.date_of (Time.datetime_of_date d) = d.
Proof.
  unfold Time.date_of, Time.datetime_of_date, Time.us_per_day.
  apply Z.div_mul. lia.
Qed.

Lemma generate_dpd_drawn w days bucket w' :
  generate_dpd w = Ok (days, bucket) w' -> dpd_drawn days bucket.
Proof.
  unfold generate_dpd. intros E.
  apply bind_ok in E as (b & w1 & Eb & E).
  apply bind_ok in E as (d & w2 & Ed & E).
  apply ret_ok in E as [E _]. injection E as <- <-.
  apply choices_In in Eb. cbn in Eb. unfold dpd_drawn.
  destruct Eb as [<-|[<-|[<-|[<-|[<-|[]]]]]]; cbn [Z.eqb Pos.eqb] in Ed;
    first [apply randint_ok in Ed|apply ret_ok in Ed as [<- _]]; lia.
Qed.

Lemma fdiv_pure x y w q w' : fdiv x y w = Ok q w' -> w' = w /\ forall v, fdiv x y v = Ok q v.
Proof.
  unfold fdiv. destruct (Qeq_bool y 0); [discriminate|].
  intros E. apply ret_ok in E as [<- <-]. split; reflexivity.
Qed.

Lemma calculate_emi_pure amount rate tenure w emi w' :
  calculate_emi amount rate tenure w = Ok emi w' ->
  w' = w /\ forall v, calculate_emi amount rate tenure v = Ok emi v.
Proof.
  unfold calculate_emi. destruct (Qeq_bool (rate / 12 / 100) 0).
  - apply fdiv_pure.
  - unfold pow_int. destruct (_ && _); [discriminate|].
    unfold bind at 1. cbn [ret].
    intros E. apply bind_ok in E as (q & w1 & Eq & E). apply ret_ok in E as [<- <-].
    apply fdiv_pure in Eq as [-> Hq]. split; [reflexivity|].
    intros v. unfold bind, ret. rewrite Hq. reflexivity.
Qed.

Lemma calculate_lgd_ok product_type collateral_value loan_amount w lgd w' :
  calculate_lgd product_type collateral_value loan_amount w = Ok lgd w' ->
  (0.15 <= lgd /\ lgd <= 0.80)%Q.
Proof.
  unfold calculate_lgd. intros E.
  apply bind_ok in E as (x & w1 & Ex & E). apply ret_ok in E as [<- _].
  assert (Hx : (0.15 <= x /\ x <= 0.80)%Q).
  { assert (Hu : forall a b w0 y w1,
               (0.15 <= a)%Q -> (a <= b)%Q -> (b <= 0.80)%Q ->
               uniform a b w0 = Ok y w1 -> (0.15 <= y /\ y <= 0.80)%Q).
    { intros a b w0 y w2 Ha Hab Hb Ey. apply uniform_range in Ey; [|exact Hab].
      split; lra. }
    repeat match type of Ex with
           | match ?o with Some _ => _ | None => _ end _ = _ => destruct o
           | (if ?c then _ else _) _ = _ => destruct c
           | bind _ _ _ = _ =>
               let q := fresh "q" in let w2 := fresh "w" in let Eq := fresh "Eq" in
               apply bind_ok in Ex as (q & w2 & Eq & Ex)
           end;
      (eapply Hu; [| | |exact Ex]; qle_compute). }
  destruct Hx as [Hlo Hhi].
  destruct (py_round_to_between 4 1500 8000 x) as [H1 H2].
  - eapply Qle_trans; [|exact Hlo]. qle_compute.
  - eapply Qle_trans; [exact Hhi|]. qle_compute.
  - split.
    + eapply Qle_trans; [|exact H1]. qle_compute.
    + eapply Qle_trans; [exact H2|]. qle_compute.
Qed.

Lemma approved_loan_row i customer product loan_amount application_date end_date
    branch_ids w l w' :
  approved_loan i customer product (calculate_eligibility customer product) loan_amount
    application_date end_date branch_ids w = Ok l w' ->
  Loan.loan_amount l = loan_amount
  /\ Loan.application_date l = Time.date_of application_date
  /\ Loan.product_id l = Product.product_id product
  /\ Loan.internal_risk_rating l = Customer.credit_tier customer
  /\ approved_row i customer product application_date end_date l.
Proof.
  unfold approved_loan. intros E.
  apply bind_ok in E as (d & w1 & Ed & E). apply randint_ok in Ed.
  apply bind_ok in E as ([days bucket] & w2 & Edpd & E).
  apply generate_dpd_drawn in Edpd.
  apply bind_ok in E as (emi & w3 & Eemi & E).
  apply calculate_emi_pure in Eemi as [-> Hemi].
  apply bind_ok in E as (collateral & w4 & Ecol & E).
  apply bind_ok in E as (lgd & w5 & Elgd & E). apply calculate_lgd_ok in Elgd.
  apply bind_ok in E as (u & w6 & _ & E).
  apply bind_ok in E as (branch & w7 & _ & E).
  apply bind_ok in E as (purpose & w8 & _ & E).
  apply bind_ok in E as (co_income & w9 & Eco & E).
  apply bind_ok in E as (restructuring & w10 & Eres & E).
  apply bind_ok in E as (written_off & w11 & Ewo & E).
  apply bind_ok in E as (agent & w12 & Eagent & E).
  apply ret_ok in E as [<- _]. cbn.
  do 4 (split; [reflexivity|]).
  constructor; cbn.
  - reflexivity.
  - exists d. rewrite !date_of_add_days.
    split; [exact Ed|]. split; [reflexivity|]. split; [f_equal; lia|].
    split; [reflexivity|].
    exists emi. repeat split. exact Hemi.
  - repeat split.
  - repeat split.
  - exists bucket. split; [exact Edpd|].
    unfold dpd_drawn in Edpd. unfold loan_status_mapping.
    destruct Edpd as [[-> _]|[[-> _]|[[-> _]|[[-> _]|[-> _]]]]]; reflexivity.
  - destruct (30 <? days).
    + apply bind_ok in Eagent as (x & wx & Ex & Eagent).
      apply ret_ok in Eagent as [<- _]. apply randint_ok in Ex.
      exists x. split; [exact Ex|reflexivity].
    + apply ret_ok in Eagent as [<- _]. reflexivity.
  - eexists. split; [reflexivity|]. split; [reflexivity|].
    exists lgd. repeat split; apply Elgd.
  - assert (Hd : days <= 180) by (unfold dpd_drawn in Edpd; lia).
    assert (E180 : (180 <? days) = false) by (apply Z.ltb_ge; lia).
    rewrite E180 in Ewo. apply ret_ok in Ewo as [<- _].
    split; [reflexivity|]. split; [|repeat split].
    intros Hr. destruct (60 <? days) eqn:E60; [apply Z.ltb_lt in E60; exact E60|].
    apply ret_ok in Eres as [<- _]. discriminate Hr.
  - destruct (Qltb u 0.2).
    + apply bind_ok in Eco as (x & wx & Ex & Eco). apply ret_ok in Eco as [<- _].
      apply randint_ok in Ex. exists x. split; [exact Ex|reflexivity].
    + apply ret_ok in Eco as [<- _]. reflexivity.
  - destruct collateral as [c|]; cbn; [|split; reflexivity].
    destruct (Product.collateral product) eqn:Ep;
      [|apply ret_ok in Ecol as [Ecol _]; discriminate Ecol].
    split; [reflexivity|].
    apply bind_ok in Ecol as (u0 & wu & _ & Ecol).
    destruct (Qltb u0 0.8); [|apply ret_ok in Ecol as [Ecol _]; discriminate Ecol].
    exists c, wu, w4. repeat split. exact Ecol.
Qed.

Lemma rejected_loan_row customer product loan_amount application_date branch_ids
    w l w' :
  rejected_loan customer product loan_amount application_date branch_ids w = Ok l w' ->
  Loan.loan_amount l = loan_amount
  /\ Loan.application_date l = Time.date_of application_date
  /\ Loan.product_id l = Product.product_id product
  /\ Loan.internal_risk_rating l = Customer.credit_tier customer
  /\ rejected_row l.
Proof.
  intros E. pose proof (LoanFacts.rejected_loan_contract _ _ _ _ _ _ _ _ E) as (Hc & _).
  unfold rejected_loan in E.
  apply bind_ok in E as (u & w1 & _ & E).
  apply bind_ok in E as (branch & w2 & _ & E).
  apply bind_ok in E as (purpose & w3 & _ & E).
  apply ret_ok in E as [<- _].
  do 4 (split; [reflexivity|]).
  split; [exact Hc|]. split; [exists u; reflexivity|]. repeat split.
Qed.

Lemma generate_loans_step_row customers_df branch_ids end_date i w ls w' :
  generate_loans_step (filter Customer.is_active customers_df) branch_ids end_date
    (Time.delta_days end_date Time.datetime_2022_01_01) i w = Ok ls w' ->
  exists l, ls = [l] /\ loan_row customers_df end_date i l.
Proof.
  unfold generate_loans_step. intros E.
  apply bind_ok in E as ([[[customer product] eligibility] amount] & w1 & Ed & E).
  apply LoanFacts.draw_application_ok in Ed as (Hc & Hp & -> & Ha).
  apply filter_In in Hc as [Hc Hactive].
  cbn [calculate_eligibility Eligibility.eligible negb] in E.
  apply bind_ok in E as (k & w2 & Ek & E). apply randint_ok in Ek.
  apply bind_ok in E as (u & w3 & _ & E).
  apply bind_ok in E as (l & w4 & El & E).
  apply ret_ok in E as [<- _].
  exists l. split; [reflexivity|].
  exists customer, product, k.
  assert (Hdate : Time.date_of (Time.add_days Time.datetime_2022_01_01 k)
                  = Time.days_from_civil 2022 1 1 + k).
  { rewrite date_of_add_days. unfold Time.datetime_2022_01_01.
    rewrite date_of_datetime_of_date. reflexivity. }
  destruct (Qltb u 0.9).
  - pose proof (LoanFacts.approved_loan_shape _ _ _ _ _ _ _ _ _ _ _ El) as Hs.
    apply approved_loan_row in El as (Hamt & Happ & Hprod & Hrating & Hrow).
    subst amount. rewrite Hdate in Happ.
    repeat (split; [first [assumption|apply Hs]|]).
    left. split; assumption.
  - pose proof (LoanFacts.rejected_loan_contract _ _ _ _ _ _ _ _ El)
      as (_ & _ & Hid & Hscore).
    apply rejected_loan_row in El as (Hamt & Happ & Hprod & Hrating & Hrow).
    subst amount. rewrite Hdate in Happ.
    repeat (split; [assumption|]).
    right. exact Hrow.
Qed.

Lemma generate_loans_rows customers_df branches_df n w loans w' :
  generate_loans customers_df branches_df n w = Ok loans w' ->
  Forall2 (loan_row customers_df (Z.of_N (read (wall_clock w)))) (Rows.range n) loans.
Proof.
  unfold generate_loans. intros E.
  apply bind_ok in E as (end_date & w1 & Enow & E).
  unfold datetime_now in Enow. injection Enow as <- <-.
  eapply for_each_rows; [|exact E].
  intros i w2 ls w3. apply generate_loans_step_row.
Qed.

End WithRuntime.
End LoanProps.

(* ================================================================== *)
(** * The instalment formula *)

Module EmiFacts.
Import LoanGenerator.
Local Open Scope Q_scope.

Lemma Qpower_succ a k : ~ a == 0 -> a ^ Z.of_nat (S k) == a * a ^ Z.of_nat k.
Proof.
  intros Ha. rewrite Nat2Z.inj_succ, <- Z.add_1_l.
  rewrite Qpower.Qpower_plus by exact Ha. reflexivity.
Qed.

(** [(1 + r)^k >= 1 + k r] and [(1 + r)^k (1 - k r) <= 1]. *)
Lemma growth_bounds r k :
  0 < r ->
  1 + inject_Z (Z.of_nat k) * r <= (1 + r) ^ Z.of_nat k
  /\ (1 + r) ^ Z.of_nat k * (1 - inject_Z (Z.of_nat k) * r) <= 1.
Proof.
  intros Hr. induction k as [|k [IH1 IH2]].
  - cbn [Z.of_nat]. change (inject_Z 0) with 0. change ((1 + r) ^ 0) with 1.
    split; lra.
  - assert (Hne : ~ 1 + r == 0) by lra.
    rewrite (Qpower_succ _ _ Hne).
    rewrite Nat2Z.inj_succ, <- Z.add_1_l, inject_Z_plus.
    change (inject_Z 1) with 1.
    set (g := (1 + r) ^ Z.of_nat k) in *. set (n := inject_Z (Z.of_nat k)) in *.
    assert (Hn : 0 <= n).
    { subst n. change 0 with (inject_Z 0). rewrite <- Zle_Qle. lia. }
    assert (Hg : 1 <= g) by nra.
    split; nra.
Qed.

Lemma instalment_bounds amount r n :
  0 <= amount -> 0 < r -> (1 <= n)%Z ->
  ~ (1 + r) ^ n - 1 == 0
  /\ amount / inject_Z n <= amount * r * (1 + r) ^ n / ((1 + r) ^ n - 1)
  /\ amount * r * (1 + r) ^ n / ((1 + r) ^ n - 1) <= amount / inject_Z n + amount * r.
Proof.
  intros Ha Hr Hn.
  destruct (growth_bounds r (Z.to_nat n) Hr) as [H1 H2].
  rewrite Z2Nat.id in H1, H2 by lia.
  set (g := (1 + r) ^ n) in *. set (N := inject_Z n) in *.
  assert (HN : 1 <= N).
  { subst N. change 1 with (inject_Z 1). rewrite <- Zle_Qle. exact Hn. }
  assert (Hg : 0 < g - 1) by nra.
  split; [lra|]. split.
  - apply Qle_shift_div_l; [exact Hg|].
    setoid_replace (amount / N * (g - 1)) with (amount * (g - 1) / N) by (field; lra).
    apply Qle_shift_div_r; [lra|].
    nra.
  - apply Qle_shift_div_r; [exact Hg|].
    setoid_replace ((amount / N + amount * r) * (g - 1))
      with (amount * ((g - 1) + N * r * (g - 1)) / N) by (field; lra).
    apply Qle_shift_div_l; [lra|].
    nra.
Qed.

End EmiFacts.

(* ================================================================== *)
(** * Properties of the loan generator *)

Module LoanTheorems.
Import LoanGenerator Shape Rows StrFacts LoanProps EmiFacts.

Section WithRuntime.
Context `{Runtime}.
Local Open Scope string_scope.
Local Open Scope Z_scope.

Lemma calculate_emi_returns amount rate tenure :
  (0 <= amount)%Q -> (0 < rate)%Q -> 1 <= tenure ->
  exists emi,
    (forall w, calculate_emi amount rate tenure w = Ok emi w)
    /\ (amount / inject_Z tenure - 0.005 <= emi
        /\ emi <= amount / inject_Z tenure + amount * rate / 1200 + 0.005)%Q.
Proof.
  intros Ha Hrate Hn. unfold calculate_emi.
  set (r := (rate / 12 / 100)%Q).
  assert (Hr : (0 < r)%Q).
  { subst r. apply Qlt_shift_div_l; [reflexivity|].
    apply Qlt_shift_div_l; [reflexivity|]. lra. }
  destruct (instalment_bounds amount r tenure Ha Hr Hn) as (Hg & Hlo & Hhi).
  assert (E0 : Qeq_bool r 0 = false).
  { destruct (Qeq_bool r 0) eqn:E; [|reflexivity].
    apply Qeq_bool_iff in E. lra. }
  assert (E1 : Qeq_bool (1 + r) 0 = false).
  { destruct (Qeq_bool (1 + r) 0) eqn:E; [|reflexivity].
    apply Qeq_bool_iff in E. lra. }
  assert (E2 : Qeq_bool ((1 + r) ^ tenure - 1) 0 = false).
  { destruct (Qeq_bool ((1 + r) ^ tenure - 1) 0) eqn:E; [|reflexivity].
    apply Qeq_bool_iff in E. contradiction. }
  rewrite E0. unfold pow_int, fdiv, bind, ret. rewrite E1. cbn [andb]. rewrite E2.
  eexists. split; [intros w; reflexivity|].
  set (x := (amount * r * (1 + r) ^ tenure / ((1 + r) ^ tenure - 1))%Q) in *.
  pose proof (py_round_to_near 2 x) as Hnear.
  apply Qabs_Qle_condition in Hnear as [Hn1 Hn2].
  change ((1 # 2) / inject_Z (10 ^ Z.of_nat 2))%Q with (1 # 200)%Q in Hn1, Hn2.
  assert (Er : (amount * r == amount * rate / 1200)%Q) by (subst r; field).
  split; lra.
Qed.

(** X5.  [calculate_emi] for a positive rate and a tenure of a month or more: the
    instalment is at least the principal divided by the number of months and
    at most that plus one month of interest on the whole principal, up to
    the rounding to two decimals. *)
Theorem calculate_emi_between amount rate tenure :
  (0 <= amount)%Q -> (0 < rate)%Q -> 1 <= tenure ->
  exists emi,
    (forall w, calculate_emi amount rate tenure w = Ok emi w)
    /\ (amount / inject_Z tenure - 0.005 <= emi
        /\ emi <= amount / inject_Z tenure + amount * rate / 1200 + 0.005)%Q.
Proof. exact (calculate_emi_returns amount rate tenure). Qed.

(** X6.  [calculate_emi] on a tenure of zero months raises [ZeroDivisionError],
    whatever the amount and the rate. *)
Theorem calculate_emi_zero_tenure amount rate w :
  calculate_emi amount rate 0 w = Raise ZeroDivisionError.
Proof.
  unfold calculate_emi. destruct (Qeq_bool (rate / 12 / 100) 0); [reflexivity|].
  unfold pow_int, bind, ret. rewrite andb_false_r.
  cbn [Qpower]. unfold fdiv. reflexivity.
Qed.

Lemma eligibility_in_catalogue customer product :
  In product products ->
  Eligibility.eligible (calculate_eligibility customer product) = true
  /\ (Product.min_rate product
       <= Eligibility.suggested_rate (calculate_eligibility customer product)
      /\ Eligibility.suggested_rate (calculate_eligibility customer product)
         <= Product.max_rate product)%Q
  /\ Product.min_tenure product
     <= Eligibility.suggested_tenure (calculate_eligibility customer product)
     <= Product.max_tenure product
  /\ (8 <= Eligibility.suggested_rate (calculate_eligibility customer product)
      /\ Eligibility.suggested_rate (calculate_eligibility customer product) <= 16)%Q
  /\ 48 <= Eligibility.suggested_tenure (calculate_eligibility customer product) <= 240.
Proof.
  intros Hp. unfold products in Hp. cbn [In] in Hp.
  repeat destruct Hp as [<-|Hp]; [..|contradiction];
    unfold calculate_eligibility;
    cbn [Eligibility.eligible Eligibility.suggested_rate Eligibility.suggested_tenure
         Product.min_rate Product.max_rate Product.min_tenure Product.max_tenure
         Product.type];
    destruct (750 <? Customer.credit_score customer);
    destruct (Customer.credit_score customer <? 600);
    (split; [reflexivity|]);
    (split; [split; qle_compute|]);
    (split; [vm_compute; split; discriminate|]);
    (split; [split; qle_compute|]);
    vm_compute; split; discriminate.
Qed.

(** X7.  [calculate_eligibility] on a product of the catalogue: every customer is
    eligible, the rate suggested lies within the rates of the product and
    the tenure suggested within its tenures. *)
Theorem eligibility_within_product_limits customer product :
  In product products ->
  Eligibility.eligible (calculate_eligibility customer product) = true
  /\ (Product.min_rate product
       <= Eligibility.suggested_rate (calculate_eligibility customer product)
      /\ Eligibility.suggested_rate (calculate_eligibility customer product)
         <= Product.max_rate product)%Q
  /\ Product.min_tenure product
     <= Eligibility.suggested_tenure (calculate_eligibility customer product)
     <= Product.max_tenure product.
Proof.
  intros Hp. destruct (eligibility_in_catalogue customer product Hp) as (H1 & H2 & H3 & _).
  repeat split; first [exact H1|apply H2|apply H3].
Qed.

Lemma loan_row_approved customers_df end_date i l :
  loan_row customers_df end_date i l ->
  Loan.disbursement_date l <> None ->
  exists customer product k,
    In customer customers_df /\ In product products
    /\ amount_drawn customer product (Loan.loan_amount l)
    /\ 0 <= k <= Time.delta_days end_date Time.datetime_2022_01_01
    /\ Loan.application_date l = Time.days_from_civil 2022 1 1 + k
    /\ Loan.customer_id l = Customer.customer_id customer
    /\ Loan.product_id l = Product.product_id product
    /\ approved_shape customer (Loan.loan_amount l) l
    /\ approved_row i customer product
         (Time.add_days Time.datetime_2022_01_01 k) end_date l.
Proof.
  intros (c & p & k & Hc & _ & Hp & Ha & Hk & Happ & Hid & Hprod & _ & _ & [[Hs Hrow]|Hr]) Hd.
  - exists c, p, k. repeat (split; [assumption|]). exact Hrow.
  - destruct Hr as [[Hnone _] _]. contradiction.
Qed.

(** X8.  The status of an approved loan of [generate_loans] follows its days
    past due: 'Active' up to 30 days, 'Overdue' from 31 to 90, 'NPA' above.
    A collection agent is assigned exactly above 30 days, an NPA date is set
    exactly above 90 days, the collection tier is 3 above 90 days and at
    least 2 above 30, and no loan is written off, the days past due never
    exceeding 180. *)
Theorem loan_status_follows_days_past_due customers_df branches_df n w loans w' :
  generate_loans customers_df branches_df n w = Ok loans w' ->
  Forall (fun l =>
            Loan.disbursement_date l <> None ->
            0 <= Loan.days_past_due l <= 180
            /\ Loan.loan_status l
               = (if Loan.days_past_due l <=? 30 then "Active"
                  else if Loan.days_past_due l <=? 90 then "Overdue" else "NPA")
            /\ (Loan.assigned_collection_agent l = None <-> Loan.days_past_due l <= 30)
            /\ (Loan.npa_date l = None <-> Loan.days_past_due l <= 90)
            /\ (exists tier,
                  Loan.collection_tier l = Some tier
                  /\ 1 <= tier <= 3
                  /\ (30 < Loan.days_past_due l -> 2 <= tier)
                  /\ (90 < Loan.days_past_due l -> tier = 3))
            /\ Loan.written_off_flag l = false
            /\ (Loan.restructuring_flag l = true -> 60 < Loan.days_past_due l))
         loans.
Proof.
  intros E. apply generate_loans_rows, Forall2_Forall_r in E.
  eapply Forall_impl; [|exact E]. intros l (i & _ & Hrow) Hd.
  apply loan_row_approved in Hrow as (c & p & k & _ & _ & _ & _ & _ & _ & _ & Hs & Hr);
    [|exact Hd].
  destruct Hr as [_ (d & _ & _ & _ & Hnpa & _) _ _ (bucket & Hdpd & Hstatus) Hagent
                    (pd & _ & Htier & _) (Hwo & Hres & _) _ _].
  split; [apply Hs|].
  split.
  { unfold dpd_drawn in Hdpd. unfold loan_status_mapping in Hstatus.
    destruct Hdpd as [[-> ->]|[[-> Hb]|[[-> Hb]|[[-> Hb]|[-> Hb]]]]];
      cbn [Z.eqb Pos.eqb] in Hstatus; injection Hstatus as <-;
      repeat match goal with
             | |- context [?a <=? ?b] => destruct (Z.leb_spec a b)
             end; try reflexivity; lia. }
  split.
  { destruct (Z.ltb_spec 30 (Loan.days_past_due l)) as [Hlt|Hge].
    - destruct Hagent as (x & _ & ->). split; [discriminate|lia].
    - rewrite Hagent. split; [intros _; exact Hge|reflexivity]. }
  split.
  { rewrite Hnpa. destruct (Z.ltb_spec 90 (Loan.days_past_due l)) as [Hlt|Hge].
    - split; [discriminate|lia].
    - split; [intros _; exact Hge|reflexivity]. }
  split; [|split; assumption].
  eexists. split; [exact Htier|].
  destruct (Z.ltb_spec 90 (Loan.days_past_due l)), (Z.ltb_spec 30 (Loan.days_past_due l));
    cbn [orb]; repeat match goal with
                      | |- context [if ?b then _ else _] => destruct b
                      end; lia.
Qed.

(** X9.  The dates of the loans of [generate_loans]: every application is filed
    between 2022-01-01 and the day the clock reads; an approved loan is
    disbursed 5 to 15 days after the application and its first EMI is due 30
    days after the disbursement. *)
Theorem loan_dates_follow_application customers_df branches_df n w loans w' :
  generate_loans customers_df branches_df n w = Ok loans w' ->
  Forall (fun l =>
            Time.days_from_civil 2022 1 1 <= Loan.application_date l
              <= Time.date_of (Z.of_N (read (wall_clock w)))
            /\ forall d,
                 Loan.disbursement_date l = Some d ->
                 Loan.application_date l + 5 <= d <= Loan.application_date l + 15
                 /\ Loan.first_emi_date l = Some (d + 30))
         loans.
Proof.
  intros E. apply generate_loans_rows, Forall2_Forall_r in E.
  eapply Forall_impl; [|exact E]. intros l (i & _ & Hrow).
  set (now := Z.of_N (read (wall_clock w))) in *.
  assert (Hdelta : Time.delta_days now Time.datetime_2022_01_01
                   = Time.date_of now - Time.days_from_civil 2022 1 1).
  { unfold Time.delta_days, Time.date_of, Time.datetime_2022_01_01,
      Time.datetime_of_date, Time.us_per_day.
    replace (now - Time.days_from_civil 2022 1 1 * 86400000000)
      with (now + (- Time.days_from_civil 2022 1 1) * 86400000000) by lia.
    rewrite Z.div_add by lia. lia. }
  split.
  - destruct Hrow as (c & p & k & _ & _ & _ & _ & Hk & Happ & _).
    rewrite Hdelta in Hk. lia.
  - intros d Hd.
    apply loan_row_approved in Hrow as (c & p & k & _ & _ & _ & _ & Happ & _ & _ & _ & Hr);
      [|rewrite Hd; discriminate].
    destruct Hr as [_ (d0 & Hd0 & Hdisb & Hemi & _) _ _ _ _ _ _ _ _].
    rewrite LoanProps.date_of_add_days in Hdisb, Hemi.
    unfold Time.datetime_2022_01_01 in Hdisb, Hemi.
    rewrite LoanProps.date_of_datetime_of_date in Hdisb, Hemi.
    assert (Ed : d = Time.days_from_civil 2022 1 1 + k + d0) by congruence.
    split; [lia|]. rewrite Hemi, Ed. reflexivity.
Qed.

Lemma amount_drawn_thousands customer product amount :
  amount_drawn customer product amount -> exists k, amount = inject_Z (k * 1000).
Proof. intros (x & _ & _ & ->). eexists. reflexivity. Qed.

(** X10.  The fees of an approved loan of [generate_loans]: the amount being a
    whole number of thousands, the processing fee is exactly 1% of it, the
    GST 18% of the fee, and the net amount disbursed is the amount less the
    two. *)
Theorem loan_fees_add_up customers_df branches_df n w loans w' :
  generate_loans customers_df branches_df n w = Ok loans w' ->
  Forall (fun l =>
            (exists k, Loan.loan_amount l = inject_Z (k * 1000))
            /\ (Loan.disbursement_date l <> None ->
                exists fee gst net,
                  Loan.processing_fee l = Some fee
                  /\ Loan.gst_on_fee l = Some gst
                  /\ Loan.net_disbursed_amount l = Some net
                  /\ Loan.sanctioned_amount l = Some (Loan.loan_amount l)
                  /\ (fee == Loan.loan_amount l / 100)%Q
                  /\ (gst == fee * 0.18)%Q
                  /\ (net + fee + gst == Loan.loan_amount l)%Q))
         loans.
Proof.
  intros E. apply generate_loans_rows, Forall2_Forall_r in E.
  eapply Forall_impl; [|exact E]. intros l (i & _ & Hrow).
  assert (Hk : exists k, Loan.loan_amount l = inject_Z (k * 1000)).
  { destruct Hrow as (c & p & k & _ & _ & _ & Ha & _).
    eapply amount_drawn_thousands, Ha. }
  split; [exact Hk|]. intros Hd. destruct Hk as (k & Hk).
  apply loan_row_approved in Hrow as (c & p & k0 & _ & _ & _ & _ & _ & _ & _ & _ & Hr);
    [|exact Hd].
  destruct Hr as [_ _ (Hs & _) (Hfee & Hgst & Hnet) _ _ _ _ _ _].
  do 3 eexists. split; [exact Hfee|]. split; [exact Hgst|]. split; [exact Hnet|].
  split; [exact Hs|].
  rewrite Hk.
  assert (Ek : (inject_Z (k * 1000) == inject_Z k * 1000)%Q)
    by (rewrite inject_Z_mult; reflexivity).
  assert (E1 : (py_round_to 2 (inject_Z (k * 1000) * 0.01) == inject_Z (k * 1000) * 0.01)%Q).
  { apply (py_round_to_exact 2 _ (k * 1000)). rewrite Ek.
    change (inject_Z (10 ^ Z.of_nat 2)) with 100%Q. ring. }
  assert (E2 : (py_round_to 2 (inject_Z (k * 1000) * 0.01 * 0.18)
                == inject_Z (k * 1000) * 0.01 * 0.18)%Q).
  { apply (py_round_to_exact 2 _ (k * 180)). rewrite Ek, inject_Z_mult.
    change (inject_Z (10 ^ Z.of_nat 2)) with 100%Q. change (inject_Z 180) with 180%Q.
    ring. }
  assert (E3 : (py_round_to 2 (inject_Z (k * 1000) * 0.01 * 1.18)
                == inject_Z (k * 1000) * 0.01 * 1.18)%Q).
  { apply (py_round_to_exact 2 _ (k * 1180)). rewrite Ek, inject_Z_mult.
    change (inject_Z (10 ^ Z.of_nat 2)) with 100%Q. change (inject_Z 1180) with 1180%Q.
    ring. }
  rewrite E1, E2, E3. repeat split; field.
Qed.

Lemma generate_collateral_some loan_amount product_type w c w' :
  generate_collateral loan_amount product_type w = Ok (Some c) w' ->
  (Str.contains "Home" product_type = true
   \/ Str.contains "Auto" product_type = true
   \/ Str.contains "Business" product_type = true)
  /\ (exists u, Collateral.collateral_id c = "COL" ++ Str.upper (substring 0 8 u))
  /\ (exists m, (1.1 <= m /\ m <= 1.6)%Q
                /\ Collateral.collateral_value c = py_round_neg 3 (loan_amount * m))
  /\ (62.5 <= Collateral.loan_to_value_ratio c
      /\ Collateral.loan_to_value_ratio c <= 90.91)%Q.
Proof.
  unfold generate_collateral. intros E.
  apply bind_ok in E as (kinds & w1 & Ek & E).
  assert (Hk : (Str.contains "Home" product_type = true
                \/ Str.contains "Auto" product_type = true
                \/ Str.contains "Business" product_type = true)
               /\ exists types m, kinds = Some (types, m) /\ (1.1 <= m /\ m <= 1.6)%Q).
  { destruct (Str.contains "Home" product_type);
      [|destruct (Str.contains "Auto" product_type);
        [|destruct (Str.contains "Business" product_type)]];
      try (apply bind_ok in Ek as (m & w2 & Em & Ek); apply ret_ok in Ek as [<- _];
           apply uniform_range in Em; [|qle_compute];
           split; [auto|]; do 2 eexists; split; [reflexivity|];
           destruct Em as [Hm1 Hm2]; split;
           [eapply Qle_trans; [|exact Hm1]; qle_compute
           |eapply Qle_trans; [exact Hm2|]; qle_compute]).
    apply ret_ok in Ek as [<- _]. apply ret_ok in E as [E _]. discriminate E. }
  destruct Hk as (Htype & types & m & -> & Hm).
  apply bind_ok in E as (q & w2 & Eq & E).
  apply bind_ok in E as (u & w3 & _ & E).
  apply bind_ok in E as (kind & w4 & _ & E).
  apply ret_ok in E as [E _]. injection E as <-. cbn.
  split; [exact Htype|]. split; [exists u; reflexivity|].
  split; [exists m; split; [exact Hm|reflexivity]|].
  unfold fdiv in Eq.
  destruct (Qeq_bool (loan_amount * m) 0) eqn:E0; [discriminate Eq|].
  apply ret_ok in Eq as [<- _].
  assert (Hne : ~ (loan_amount * m == 0)%Q).
  { intros Hz. apply Qeq_bool_iff in Hz. congruence. }
  assert (Ha : ~ (loan_amount == 0)%Q) by (intros Hz; apply Hne; rewrite Hz; ring).
  assert (Eq : (loan_amount / (loan_amount * m) * 100 == 100 / m)%Q).
  { field. split; [lra|exact Ha]. }
  rewrite (py_round_to_comp 2 _ _ Eq).
  assert (Elo : (inject_Z 6250 / inject_Z (10 ^ Z.of_nat 2) == 62.5)%Q)
    by (vm_compute; reflexivity).
  assert (Ehi : (inject_Z 9091 / inject_Z (10 ^ Z.of_nat 2) == 90.91)%Q)
    by (vm_compute; reflexivity).
  destruct (py_round_to_between 2 6250 9091 (100 / m)) as [H1 H2].
  - apply Qle_shift_div_l; [lra|]. rewrite Elo. lra.
  - apply Qle_shift_div_r; [lra|]. rewrite Ehi. lra.
  - split.
    + eapply Qle_trans; [|exact H1]. qle_compute.
    + eapply Qle_trans; [exact H2|]. qle_compute.
Qed.

(** X11.  The collateral of an approved loan of [generate_loans]: its three
    columns are null together; when they are not, the product of the loan
    takes collateral and is a home, auto or business loan, the id is [COL]
    followed by the first eight characters of a uuid in upper case, and the ratio of the
    loan to the value lies between 62.5 and 90.91. *)
Theorem loan_collateral_columns customers_df branches_df n w loans w' :
  generate_loans customers_df branches_df n w = Ok loans w' ->
  Forall (fun l =>
            Loan.disbursement_date l <> None ->
            match Loan.collateral_id l with
            | None => Loan.collateral_value l = None /\ Loan.loan_to_value_ratio l = None
            | Some id =>
                (exists u, id = "COL" ++ Str.upper (substring 0 8 u))
                /\ (exists product,
                      In product products
                      /\ Loan.product_id l = Product.product_id product
                      /\ Product.collateral product = true
                      /\ In (Product.type product)
                            ["Home Loan"; "Auto Loan"; "Business Loan"]%list)
                /\ (exists value, Loan.collateral_value l = Some value)
                /\ (exists ltv,
                      Loan.loan_to_value_ratio l = Some ltv
                      /\ (62.5 <= ltv /\ ltv <= 90.91)%Q)
            end)
         loans.
Proof.
  intros E. apply generate_loans_rows, Forall2_Forall_r in E.
  eapply Forall_impl; [|exact E]. intros l (i & _ & Hrow) Hd.
  apply loan_row_approved in Hrow as (c & p & k & _ & Hp & _ & _ & _ & _ & Hprod & _ & Hr);
    [|exact Hd].
  destruct Hr as [_ _ _ _ _ _ _ _ _ Hcol].
  destruct (Loan.collateral_id l) as [id|]; [|exact Hcol].
  destruct Hcol as (Hflag & col & w1 & w2 & Ecol & -> & Hvalue & Hltv).
  apply generate_collateral_some in Ecol as (Htype & Hid & _ & Hrange).
  split; [exact Hid|].
  split.
  { exists p. repeat (split; [assumption|]).
    clear - Hp Htype Hflag.
    unfold products in Hp. cbn [In] in Hp.
    repeat destruct Hp as [<-|Hp]; try contradiction;
      cbn in Hflag, Htype |- *; try discriminate Hflag; auto;
      destruct Htype as [Ht|[Ht|Ht]]; discriminate Ht. }
  split; [eexists; exact Hvalue|].
  eexists. split; [exact Hltv|exact Hrange].
Qed.

Lemma approved_true l : approved l = true -> Loan.disbursement_date l <> None.
Proof.
  unfold approved, DataValidator.isnull.
  destruct (Loan.disbursement_date l); [discriminate|discriminate].
Qed.

Lemma loan_id_inj a b :
  0 <= a -> 0 <= b ->
  "LOAN" ++ Str.zfill 10 (Str.str (a + 1)) = "LOAN" ++ Str.zfill 10 (Str.str (b + 1)) ->
  a = b.
Proof.
  intros Ha Hb E. cbn [append] in E. injection E as E.
  apply zfill_str_inj in E; lia.
Qed.

Lemma generate_loans_ids customers_df branches_df n w loans w' :
  generate_loans customers_df branches_df n w = Ok loans w' ->
  Forall2 (fun i l =>
             approved l = true ->
             Loan.loan_id l = "LOAN" ++ Str.zfill 10 (Str.str (i + 1)))
          (Rows.range n) loans.
Proof.
  intros E. apply generate_loans_rows in E.
  eapply Forall2_impl; [|exact E]. intros i l Hrow Ha.
  apply approved_true in Ha.
  apply loan_row_approved in Hrow as (c & p & k & _ & _ & _ & _ & _ & _ & _ & _ & Hr);
    [|exact Ha].
  apply Hr.
Qed.

Lemma loan_ids_follow_positions_aux customers_df branches_df n w loans w' :
  generate_loans customers_df branches_df n w = Ok loans w' ->
  List.length loans = Z.to_nat n
  /\ (forall i l,
        nth_error loans i = Some l ->
        Loan.disbursement_date l <> None ->
        Loan.loan_id l = "LOAN" ++ Str.zfill 10 (Str.str (Z.of_nat i + 1))).
Proof.
  intros E. pose proof (generate_loans_ids _ _ _ _ _ _ E) as Hids.
  split; [rewrite (Forall2_length_eq _ _ _ Hids); apply range_length|].
  intros i l Hl Hd.
  destruct (Forall2_nth_error _ _ _ Hids i l Hl) as (x & Hx & Hid).
  apply range_nth_error in Hx. subst x. apply Hid.
  unfold approved, DataValidator.isnull.
  destruct (Loan.disbursement_date l); [reflexivity|contradiction].
Qed.

(** X12.  [generate_loans] returns one row for each of the [n] applications; the
    approved row at position [i] has the id [LOAN] followed by [i + 1]
    padded to ten digits, so that no two approved rows of one call share an
    id. *)
Theorem loan_ids_follow_positions customers_df branches_df n w loans w' :
  generate_loans customers_df branches_df n w = Ok loans w' ->
  List.length loans = Z.to_nat n
  /\ (forall i l,
        nth_error loans i = Some l ->
        Loan.disbursement_date l <> None ->
        Loan.loan_id l = "LOAN" ++ Str.zfill 10 (Str.str (Z.of_nat i + 1)))
  /\ NoDup (map Loan.loan_id
              (filter (fun l => negb (DataValidator.isnull (Loan.disbursement_date l)))
                      loans)).
Proof.
  intros E. pose proof (generate_loans_ids _ _ _ _ _ _ E) as Hids.
  destruct (loan_ids_follow_positions_aux _ _ _ _ _ _ E) as (Hlen & Hpos).
  split; [exact Hlen|]. split; [exact Hpos|].
  apply (NoDup_keys_of_positions
           (fun i => "LOAN" ++ Str.zfill 10 (Str.str (i + 1))) Loan.loan_id approved
           (Rows.range n) loans Hids (range_NoDup n)).
  intros a b Ha Hb. apply range_In in Ha, Hb. apply loan_id_inj; lia.
Qed.

(** X13.  [generate_batch_loans] numbers the approved loans of every batch from 1:
    when there are two batches or more, the approved rows at the same
    position of the first two batches share their [loan_id]. *)
Theorem batches_repeat_loan_ids customers_df branches_df batch_size total w loans w'
    p l1 l2 :
  generate_batch_loans customers_df branches_df batch_size total w = Ok loans w' ->
  0 <= p < batch_size ->
  p + batch_size < total ->
  nth_error loans (Z.to_nat p) = Some l1 ->
  nth_error loans (Z.to_nat (p + batch_size)) = Some l2 ->
  Loan.disbursement_date l1 <> None ->
  Loan.disbursement_date l2 <> None ->
  Loan.loan_id l1 = Loan.loan_id l2.
Proof.
  intros E Hp Htotal H1 H2 Hd1 Hd2. unfold generate_batch_loans in E.
  destruct (batch_size =? 0) eqn:Eb; [discriminate E|].
  set (batches := total / batch_size + (if total mod batch_size =? 0 then 0 else 1)) in E.
  assert (Hbatches : 2 <= batches).
  { subst batches.
    pose proof (Z.div_mod total batch_size ltac:(lia)) as Hdm.
    pose proof (Z.mod_pos_bound total batch_size ltac:(lia)) as Hm.
    destruct (total mod batch_size =? 0) eqn:Em.
    - apply Z.eqb_eq in Em. nia.
    - apply Z.eqb_neq in Em. nia. }
  destruct (batches <=? 0) eqn:El; [apply Z.leb_le in El; lia|].
  apply for_each_inv in E as (yss & -> & Hall).
  unfold LoanGenerator.range in Hall.
  destruct (Z.to_nat batches) as [|[|m]] eqn:Em; try lia.
  cbn [seq map] in Hall.
  inversion Hall as [|? y0 ? yss0 (v1 & v2 & E0) Hall0]; subst.
  inversion Hall0 as [|? y1 ? yss1 (v3 & v4 & E1) Hall1]; subst.
  cbn [Z.of_nat] in E0, E1.
  replace (Z.min batch_size (total - 0 * batch_size)) with batch_size in E0 by lia.
  change (Z.pos (Pos.of_succ_nat 0)) with 1 in E1.
  pose proof (loan_ids_follow_positions_aux _ _ _ _ _ _ E0) as (Hlen0 & Hid0).
  pose proof (loan_ids_follow_positions_aux _ _ _ _ _ _ E1) as (Hlen1 & Hid1).
  cbn [List.concat] in H1, H2.
  rewrite nth_error_app1 in H1 by lia.
  rewrite nth_error_app2 in H2 by lia.
  replace (Z.to_nat (p + batch_size) - List.length y0)%nat with (Z.to_nat p) in H2 by lia.
  rewrite nth_error_app1 in H2 by lia.
  rewrite (Hid0 _ _ H1 Hd1), (Hid1 _ _ H2 Hd2). reflexivity.
Qed.

(** X14.  [generate_loans] on a customer frame that has rows but no active
    customer raises [ValueError] at the first application: there is no row
    to sample. *)
Theorem no_active_customer_no_loan customers_df branches_df n w :
  customers_df <> []%list ->
  Forall (fun c => Customer.is_active c = false) customers_df ->
  1 <= n ->
  generate_loans customers_df branches_df n w = Raise ValueError.
Proof.
  intros _ Hall Hn.
  assert (Ef : filter Customer.is_active customers_df = []%list).
  { clear - Hall. induction Hall as [|c cs Hc _ IH]; [reflexivity|].
    cbn [filter]. rewrite Hc. exact IH. }
  unfold generate_loans. rewrite Ef. unfold LoanGenerator.range.
  destruct (Z.to_nat n) as [|m] eqn:Em; [lia|].
  cbn [seq map for_each]. reflexivity.
Qed.

Lemma products_floor :
  Forall (fun p => (3000 <= Product.min_amount p /\ 3000 <= Product.max_amount p)%Q)
         products.
Proof. unfold products. repeat constructor; cbn; qle_compute. Qed.

Lemma amount_drawn_floor customer product amount :
  In product products ->
  (1000 <= Customer.annual_income customer)%Q ->
  amount_drawn customer product amount ->
  (3000 <= amount)%Q.
Proof.
  intros Hp Hinc (x & Hlo & _ & ->).
  pose proof products_floor as Hall. rewrite Forall_forall in Hall.
  destruct (Hall _ Hp) as [Hmin Hmax].
  assert (Hcap : (3000 <= Eligibility.max_amount (calculate_eligibility customer product))%Q).
  { unfold calculate_eligibility. cbn [Eligibility.max_amount].
    apply Q.min_glb; [exact Hmax|].
    repeat match goal with
           | |- context [if ?b then _ else _] => destruct b
           end; nra. }
  assert (Hx : (3000 <= x)%Q).
  { eapply Qle_trans; [|exact Hlo]. apply Q.min_glb; assumption. }
  assert (H3 : 3 <= py_round (x / 1000)).
  { apply py_round_lower. apply Qle_shift_div_l; [reflexivity|].
    change (inject_Z 3 * 1000)%Q with 3000%Q. exact Hx. }
  rewrite inject_Z_mult. change (inject_Z 1000) with 1000%Q.
  rewrite Zle_Qle in H3. change (inject_Z 3) with 3%Q in H3. nra.
Qed.

Lemma report_count_zero message : DataValidator.report_count message 0 = []%list.
Proof. reflexivity. Qed.

Lemma rate_no_error checks : (DataValidator.rate checks [] == 1)%Q.
Proof.
  unfold DataValidator.rate. cbn [List.length Z.of_nat].
  change (inject_Z 0) with 0%Q. unfold Qdiv. rewrite Qmult_0_l. ring.
Qed.

(** What the checks of [validate_loans] look at holds of every row of
    [generate_loans], the customers having an income of 1,000 or more. *)
Lemma loan_row_valid customers_df end_date i l :
  Forall (fun c => (1000 <= Customer.annual_income c)%Q) customers_df ->
  loan_row customers_df end_date i l ->
  Qle_bool (Loan.loan_amount l) 0 = false
  /\ (DataValidator.holds (fun r => Qltb r 5) (Loan.interest_rate l)
      || DataValidator.holds (fun r => Qltb 30 r) (Loan.interest_rate l) = false)
  /\ (DataValidator.holds (fun m => m <? 1) (Loan.tenure_months l)
      || DataValidator.holds (fun m => 360 <? m) (Loan.tenure_months l) = false)
  /\ (Loan.days_past_due l =? 0) && negb (String.eqb (Loan.dpd_bucket l) "0") = false
  /\ (90 <? Loan.days_past_due l) && negb (Loan.npa_flag l) = false.
Proof.
  intros Hinc Hrow.
  destruct Hrow as (c & p & k & Hc & _ & Hp & Ha & _ & _ & _ & _ & _ & _ & Hcase).
  rewrite Forall_forall in Hinc.
  pose proof (amount_drawn_floor _ _ _ Hp (Hinc _ Hc) Ha) as Hamt.
  split.
  { destruct (Qle_bool (Loan.loan_amount l) 0) eqn:E; [|reflexivity].
    apply Qle_bool_iff in E. lra. }
  destruct Hcase as [[Hs Hr]|Hr].
  - destruct Hr as [_ _ (_ & Hrate & Htenure) _ _ _ _ _ _ _].
    destruct (eligibility_in_catalogue c p Hp) as (_ & _ & _ & (Hr1 & Hr2) & Ht).
    rewrite Hrate, Htenure. cbn [DataValidator.holds].
    split.
    { apply orb_false_iff. split.
      - destruct (Qltb _ 5) eqn:E; [|reflexivity]. apply Qltb_lt in E. lra.
      - destruct (Qltb 30 _) eqn:E; [|reflexivity]. apply Qltb_lt in E. lra. }
    split; [apply orb_false_iff; split; apply Z.ltb_ge; lia|].
    destruct Hs as [_ Hb Hnpa _ _ _ _ _ _]. rewrite Hb, Hnpa.
    split.
    + destruct (Loan.days_past_due l =? 0) eqn:E0; [|reflexivity].
      apply Z.eqb_eq in E0. rewrite E0. reflexivity.
    + destruct (90 <? Loan.days_past_due l); reflexivity.
  - destruct Hr as (Hc0 & _ & _ & Hb & Hnpa & _).
    destruct Hc0 as (_ & _ & _ & Hrate & Htenure & _ & _ & _ & _ & _ & _ & _ & _ & _ & _
                     & _ & _ & _ & _ & Hdpd & _).
    rewrite Hrate, Htenure, Hb, Hnpa, Hdpd. repeat split.
Qed.

(** X15.  [validate_loans] on the loans of [generate_loans], for one application
    or more and customers with an income of 1,000 or more ([generate_income]
    returns no less than 180,000): it returns with no error and no warning,
    and a pass rate of 1. *)
Theorem generated_loans_pass_validation customers_df branches_df n w loans w' v :
  Forall (fun c => (1000 <= Customer.annual_income c)%Q) customers_df ->
  1 <= n ->
  generate_loans customers_df branches_df n w = Ok loans w' ->
  exists r,
    DataValidator.validate_loans loans v = Ok r v
    /\ DataValidator.errors r = []%list
    /\ DataValidator.warnings r = []%list
    /\ (DataValidator.pass_rate r == 1)%Q
    /\ DataValidator.total_records r = n.
Proof.
  intros Hinc Hn E. apply generate_loans_rows in E.
  pose proof (Forall2_length_eq _ _ _ E) as Hlen. rewrite range_length in Hlen.
  apply Forall2_Forall_r in E.
  assert (Hvalid : Forall (fun l =>
             Qle_bool (Loan.loan_amount l) 0 = false
             /\ (DataValidator.holds (fun r => Qltb r 5) (Loan.interest_rate l)
                 || DataValidator.holds (fun r => Qltb 30 r) (Loan.interest_rate l) = false)
             /\ (DataValidator.holds (fun m => m <? 1) (Loan.tenure_months l)
                 || DataValidator.holds (fun m => 360 <? m) (Loan.tenure_months l) = false)
             /\ (Loan.days_past_due l =? 0)
                && negb (String.eqb (Loan.dpd_bucket l) "0") = false
             /\ (90 <? Loan.days_past_due l) && negb (Loan.npa_flag l) = false) loans).
  { eapply Forall_impl; [|exact E]. intros l (i & _ & Hrow).
    eapply loan_row_valid; eassumption. }
  clear E.
  assert (Z1 : DataValidator.count (fun l => Qle_bool (Loan.loan_amount l) 0) loans = 0).
  { apply count_zero. eapply Forall_impl; [|exact Hvalid]. intros l Hl. apply Hl. }
  assert (Z2 : DataValidator.count
                 (fun l => DataValidator.holds (fun r => Qltb r 5) (Loan.interest_rate l)
                           || DataValidator.holds (fun r => Qltb 30 r) (Loan.interest_rate l))
                 (filter (fun l => negb (DataValidator.isnull (Loan.disbursement_date l)))
                         loans) = 0).
  { apply count_zero, filter_Forall. eapply Forall_impl; [|exact Hvalid].
    intros l Hl _. apply Hl. }
  assert (Z3 : DataValidator.count
                 (fun l => DataValidator.holds (fun m => m <? 1) (Loan.tenure_months l)
                           || DataValidator.holds (fun m => 360 <? m) (Loan.tenure_months l))
                 (filter (fun l => negb (DataValidator.isnull (Loan.disbursement_date l)))
                         loans) = 0).
  { apply count_zero, filter_Forall. eapply Forall_impl; [|exact Hvalid].
    intros l Hl _. apply Hl. }
  assert (Z4 : DataValidator.count
                 (fun l => (Loan.days_past_due l =? 0)
                           && negb (String.eqb (Loan.dpd_bucket l) "0")) loans = 0).
  { apply count_zero. eapply Forall_impl; [|exact Hvalid]. intros l Hl. apply Hl. }
  assert (Z5 : DataValidator.count
                 (fun l => (90 <? Loan.days_past_due l) && negb (Loan.npa_flag l)) loans = 0).
  { apply count_zero. eapply Forall_impl; [|exact Hvalid]. intros l Hl. apply Hl. }
  unfold DataValidator.validate_loans.
  destruct loans as [|l0 loans0] eqn:El; [cbn [List.length] in Hlen; lia|].
  rewrite <- El in *. clear El.
  cbv zeta. rewrite Z1, Z2, Z3, Z4, Z5. unfold ret.
  eexists. split; [reflexivity|].
  cbn [DataValidator.errors DataValidator.warnings DataValidator.pass_rate
       DataValidator.total_records].
  rewrite !report_count_zero.
  assert (Ee : forall b : bool, (if b then @nil string else []%list) = []%list)
    by (intros []; reflexivity).
  rewrite !Ee. cbn [app].
  split; [reflexivity|]. split; [reflexivity|]. split; [apply rate_no_error|].
  rewrite Hlen. apply Z2Nat.id. lia.
Qed.

(** X16.  [calculate_pd] does not decrease with the days past due. *)
Theorem calculate_pd_grows_with_days_past_due credit_score d1 d2 :
  d1 <= d2 -> (calculate_pd credit_score d1 <= calculate_pd credit_score d2)%Q.
Proof.
  intros Hd. unfold calculate_pd. apply py_round_to_mono.
  apply Q.min_le_compat_l. apply Qplus_le_r.
  destruct (Z.ltb_spec 0 d1) as [H1|H1].
  - destruct (Z.ltb_spec 0 d2) as [H2|H2]; [|lia].
    apply Q.min_le_compat_l. apply Qmult_le_compat_r; [|discriminate].
    rewrite <- Zle_Qle. exact Hd.
  - apply LoanFacts.dpd_factor_range.
Qed.

Lemma products_thousands :
  Forall (fun p => exists a b,
              Product.min_amount p = inject_Z (a * 1000)
              /\ Product.max_amount p = inject_Z (b * 1000))
         products.
Proof.
  unfold products.
  repeat constructor; cbn [Product.min_amount Product.max_amount].
  - exists 1000, 10000. split; reflexivity.
  - exists 2000, 20000. split; reflexivity.
  - exists 500, 5000. split; reflexivity.
  - exists 200, 3000. split; reflexivity.
  - exists 100, 2000. split; reflexivity.
  - exists 50, 1500. split; reflexivity.
  - exists 100, 2500. split; reflexivity.
  - exists 500, 50000. split; reflexivity.
  - exists 100, 20000. split; reflexivity.
  - exists 100, 5000. split; reflexivity.
  - exists 500, 20000. split; reflexivity.
Qed.

Lemma thousands_le (k : Z) x :
  (inject_Z (k * 1000) <= x)%Q -> (inject_Z (k * 1000) <= inject_Z (py_round (x / 1000) * 1000))%Q.
Proof.
  intros Hx. rewrite <- Zle_Qle. apply Z.mul_le_mono_nonneg_r; [lia|].
  apply py_round_lower. apply Qle_shift_div_l; [reflexivity|].
  rewrite inject_Z_mult in Hx. exact Hx.
Qed.

Lemma thousands_ge (k : Z) x :
  (x <= inject_Z (k * 1000))%Q -> (inject_Z (py_round (x / 1000) * 1000) <= inject_Z (k * 1000))%Q.
Proof.
  intros Hx. rewrite <- Zle_Qle. apply Z.mul_le_mono_nonneg_r; [lia|].
  apply py_round_upper. apply Qle_shift_div_r; [reflexivity|].
  rewrite inject_Z_mult in Hx. exact Hx.
Qed.

(** X17.  The amount of a loan of [generate_loans] against the limits of its
    product: it never exceeds the maximum amount of the product; it is at
    least the minimum amount when the customer is eligible for that much,
    and otherwise it is the amount the customer is eligible for, to the
    nearest thousand: no application is turned down for being below the
    minimum. *)
Theorem loan_amount_against_product_limits customers_df branches_df n w loans w' :
  generate_loans customers_df branches_df n w = Ok loans w' ->
  Forall (fun l =>
            exists customer product,
              In customer customers_df /\ In product products
              /\ Loan.customer_id l = Customer.customer_id customer
              /\ Loan.product_id l = Product.product_id product
              /\ (Loan.loan_amount l <= Product.max_amount product)%Q
              /\ ((Product.min_amount product
                    <= Eligibility.max_amount (calculate_eligibility customer product))%Q ->
                  (Product.min_amount product <= Loan.loan_amount l)%Q)
              /\ ((Eligibility.max_amount (calculate_eligibility customer product)
                    <= Product.min_amount product)%Q ->
                  Loan.loan_amount l
                  = inject_Z (py_round
                                (Eligibility.max_amount
                                   (calculate_eligibility customer product) / 1000)
                              * 1000)))
         loans.
Proof.
  intros E. apply generate_loans_rows, Forall2_Forall_r in E.
  eapply Forall_impl; [|exact E]. intros l (i & _ & Hrow).
  destruct Hrow as (c & p & k & Hc & _ & Hp & Ha & _ & _ & Hid & Hprod & _).
  exists c, p. repeat (split; [assumption|]).
  destruct Ha as (x & Hlo & Hhi & ->).
  pose proof products_thousands as Hth. rewrite Forall_forall in Hth.
  destruct (Hth _ Hp) as (a & b & Hmin & Hmax).
  pose proof LoanFacts.products_amounts as Hord. rewrite Forall_forall in Hord.
  specialize (Hord _ Hp).
  set (cap := Eligibility.max_amount (calculate_eligibility c p)) in *.
  split; [|split].
  - rewrite Hmax. apply thousands_ge. rewrite <- Hmax.
    eapply Qle_trans; [exact Hhi|apply Q.le_min_l].
  - intros Hcap. rewrite Hmin. apply thousands_le. rewrite <- Hmin.
    eapply Qle_trans; [|exact Hlo]. apply Q.min_glb; [apply Qle_refl|exact Hcap].
  - intros Hcap. f_equal. f_equal. apply py_round_comp.
    assert (E1 : (Qmin (Product.min_amount p) cap == cap)%Q)
      by (apply Q.min_r; exact Hcap).
    assert (E2 : (Qmin (Product.max_amount p) cap == cap)%Q)
      by (apply Q.min_r; eapply Qle_trans; [exact Hcap|exact Hord]).
    rewrite E1 in Hlo. rewrite E2 in Hhi.
    assert (Ex : (x == cap)%Q) by (apply Qle_antisym; assumption).
    rewrite Ex. reflexivity.
Qed.

End WithRuntime.

Local Open Scope string_scope.
Local Open Scope Z_scope.

Lemma calculate_emi_between_witness :
  exists emi,
    (forall w, @calculate_emi 600000 9 48 w = Ok emi w)
    /\ (600000 / inject_Z 48 - 0.005 <= emi
        /\ emi <= 600000 / inject_Z 48 + 600000 * 9 / 1200 + 0.005)%Q.
Proof.
  apply (calculate_emi_between 600000 9 48); [unfold Qle; cbn; lia|reflexivity|lia].
Defined.

(** [calculate_eligibility] of [Scenario.customer1] for the standard
    personal loan. *)
Lemma eligibility_within_product_limits_witness :
  let product :=
    Product.mk "PL001" "Personal Loan Standard" "Personal Loan" 11.0 16.0 50000 1500000
               6 60 false in
  Eligibility.eligible (calculate_eligibility Scenario.customer1 product) = true
  /\ (Product.min_rate product
       <= Eligibility.suggested_rate (calculate_eligibility Scenario.customer1 product)
      /\ Eligibility.suggested_rate (calculate_eligibility Scenario.customer1 product)
         <= Product.max_rate product)%Q
  /\ Product.min_tenure product
     <= Eligibility.suggested_tenure (calculate_eligibility Scenario.customer1 product)
     <= Product.max_tenure product.
Proof.
  intros product. apply (eligibility_within_product_limits Scenario.customer1 product).
  do 5 right. left. reflexivity.
Defined.

(** The theorems at the two loans of [Cases.loans_run], both approved and
    with collateral. *)
Lemma loan_status_follows_days_past_due_witness :
  Forall (fun l =>
            Loan.disbursement_date l <> None ->
            0 <= Loan.days_past_due l <= 180
            /\ Loan.loan_status l
               = (if Loan.days_past_due l <=? 30 then "Active"
                  else if Loan.days_past_due l <=? 90 then "Overdue" else "NPA")
            /\ (Loan.assigned_collection_agent l = None <-> Loan.days_past_due l <= 30)
            /\ (Loan.npa_date l = None <-> Loan.days_past_due l <= 90)
            /\ (exists tier,
                  Loan.collection_tier l = Some tier
                  /\ 1 <= tier <= 3
                  /\ (30 < Loan.days_past_due l -> 2 <= tier)
                  /\ (90 < Loan.days_past_due l -> tier = 3))
            /\ Loan.written_off_flag l = false
            /\ (Loan.restructuring_flag l = true -> 60 < Loan.days_past_due l))
         Cases.loans.
Proof.
  apply (@loan_status_follows_days_past_due Scenario.plain Cases.customers None 2
           Cases.batch_world _ (Scenario.after Cases.loans_run Cases.batch_world)).
  vm_compute. reflexivity.
Defined.

Lemma loan_dates_follow_application_witness :
  Forall (fun l =>
            Time.days_from_civil 2022 1 1 <= Loan.application_date l
              <= Time.date_of (Z.of_N (read (wall_clock Cases.batch_world)))
            /\ forall d,
                 Loan.disbursement_date l = Some d ->
                 Loan.application_date l + 5 <= d <= Loan.application_date l + 15
                 /\ Loan.first_emi_date l = Some (d + 30))
         Cases.loans.
Proof.
  apply (@loan_dates_follow_application Scenario.plain Cases.customers None 2
           Cases.batch_world _ (Scenario.after Cases.loans_run Cases.batch_world)).
  vm_compute. reflexivity.
Defined.

Lemma loan_fees_add_up_witness :
  Forall (fun l =>
            (exists k, Loan.loan_amount l = inject_Z (k * 1000))
            /\ (Loan.disbursement_date l <> None ->
                exists fee gst net,
                  Loan.processing_fee l = Some fee
                  /\ Loan.gst_on_fee l = Some gst
                  /\ Loan.net_disbursed_amount l = Some net
                  /\ Loan.sanctioned_amount l = Some (Loan.loan_amount l)
                  /\ (fee == Loan.loan_amount l / 100)%Q
                  /\ (gst == fee * 0.18)%Q
                  /\ (net + fee + gst == Loan.loan_amount l)%Q))
         Cases.loans.
Proof.
  apply (@loan_fees_add_up Scenario.plain Cases.customers None 2
           Cases.batch_world _ (Scenario.after Cases.loans_run Cases.batch_world)).
  vm_compute. reflexivity.
Defined.

Lemma loan_collateral_columns_witness :
  Forall (fun l =>
            Loan.disbursement_date l <> None ->
            match Loan.collateral_id l with
            | None => Loan.collateral_value l = None /\ Loan.loan_to_value_ratio l = None
            | Some id =>
                (exists u, id = "COL" ++ Str.upper (substring 0 8 u))
                /\ (exists product,
                      In product products
                      /\ Loan.product_id l = Product.product_id product
                      /\ Product.collateral product = true
                      /\ In (Product.type product)
                            ["Home Loan"; "Auto Loan"; "Business Loan"]%list)
                /\ (exists value, Loan.collateral_value l = Some value)
                /\ (exists ltv,
                      Loan.loan_to_value_ratio l = Some ltv
                      /\ (62.5 <= ltv /\ ltv <= 90.91)%Q)
            end)
         Cases.loans.
Proof.
  apply (@loan_collateral_columns Scenario.plain Cases.customers None 2
           Cases.batch_world _ (Scenario.after Cases.loans_run Cases.batch_world)).
  vm_compute. reflexivity.
Defined.

Lemma loan_ids_follow_positions_witness :
  List.length Cases.loans = Z.to_nat 2
  /\ (forall i l,
        nth_error Cases.loans i = Some l ->
        Loan.disbursement_date l <> None ->
        Loan.loan_id l = "LOAN" ++ Str.zfill 10 (Str.str (Z.of_nat i + 1)))
  /\ NoDup (map Loan.loan_id
              (filter (fun l => negb (DataValidator.isnull (Loan.disbursement_date l)))
                      Cases.loans)).
Proof.
  apply (@loan_ids_follow_positions Scenario.plain Cases.customers None 2
           Cases.batch_world _ (Scenario.after Cases.loans_run Cases.batch_world)).
  vm_compute. reflexivity.
Defined.

Lemma loan_amount_against_product_limits_witness :
  Forall (fun l =>
            exists customer product,
              In customer Cases.customers /\ In product products
              /\ Loan.customer_id l = Customer.customer_id customer
              /\ Loan.product_id l = Product.product_id product
              /\ (Loan.loan_amount l <= Product.max_amount product)%Q
              /\ ((Product.min_amount product
                    <= Eligibility.max_amount (calculate_eligibility customer product))%Q ->
                  (Product.min_amount product <= Loan.loan_amount l)%Q)
              /\ ((Eligibility.max_amount (calculate_eligibility customer product)
                    <= Product.min_amount product)%Q ->
                  Loan.loan_amount l
                  = inject_Z (py_round
                                (Eligibility.max_amount
                                   (calculate_eligibility customer product) / 1000)
                              * 1000)))
         Cases.loans.
Proof.
  apply (@loan_amount_against_product_limits Scenario.plain Cases.customers None 2
           Cases.batch_world _ (Scenario.after Cases.loans_run Cases.batch_world)).
  vm_compute. reflexivity.
Defined.

Lemma generated_loans_pass_validation_witness :
  exists r,
    DataValidator.validate_loans Cases.loans Cases.steady_world = Ok r Cases.steady_world
    /\ DataValidator.errors r = []%list
    /\ DataValidator.warnings r = []%list
    /\ (DataValidator.pass_rate r == 1)%Q
    /\ DataValidator.total_records r = 2.
Proof.
  apply (@generated_loans_pass_validation Scenario.plain Cases.customers None 2
           Cases.batch_world _ (Scenario.after Cases.loans_run Cases.batch_world)
           Cases.steady_world).
  - repeat constructor; qle_compute.
  - lia.
  - vm_compute. reflexivity.
Defined.

(** The two batches of [Cases.batch_run]: both rows are approved and carry
    the id [LOAN0000000001]. *)
Lemma batches_repeat_loan_ids_witness :
  Loan.loan_id (nth 0 Cases.batch_loans Scenario.delinquent_loan)
  = Loan.loan_id (nth 1 Cases.batch_loans Scenario.delinquent_loan).
Proof.
  apply (@batches_repeat_loan_ids Scenario.plain Cases.customers None 1 2
           Cases.batch_world Cases.batch_loans
           (Scenario.after Cases.batch_run Cases.batch_world) 0).
  - vm_compute. reflexivity.
  - lia.
  - lia.
  - vm_compute. reflexivity.
  - vm_compute. reflexivity.
  - vm_compute. discriminate.
  - vm_compute. discriminate.
Defined.

(** An application for a frame that holds [Cases.dormant_customer] only. *)
Lemma no_active_customer_no_loan_witness :
  @generate_loans Scenario.plain [Cases.dormant_customer] None 1 Cases.steady_world
  = Raise ValueError.
Proof.
  apply (@no_active_customer_no_loan Scenario.plain [Cases.dormant_customer] None 1
           Cases.steady_world).
  - discriminate.
  - repeat constructor.
  - lia.
Defined.

(** A score of 580, current and 45 days past due. *)
Lemma calculate_pd_grows_with_days_past_due_witness :
  (@calculate_pd Scenario.plain 580 0 <= @calculate_pd Scenario.plain 580 45)%Q.
Proof.
  apply (@calculate_pd_grows_with_days_past_due Scenario.plain 580 0 45). lia.
Defined.

End LoanTheorems.

(* ================================================================== *)
(** * Properties of the transaction generator *)

Module TxnTheorems.
Import TransactionGenerator Shape Rows.

Section WithRuntime.
Context `{Runtime}.
Local Open Scope string_scope.
Local Open Scope Z_scope.

Lemma generate_transaction_id_ok w id w' :
  generate_transaction_id w = Ok id w' ->
  exists now u, id = "TXN" ++ Time.strftime_yymmdd now ++ Str.upper (substring 0 8 u).
Proof.
  unfold generate_transaction_id. intros E.
  apply bind_ok in E as (now & w1 & _ & E).
  apply bind_ok in E as (u & w2 & _ & E).
  apply ret_ok in E as [<- _]. exists now, u. reflexivity.
Qed.

Lemma disbursement_transaction_row loan d w t w' :
  disbursement_transaction loan (Time.datetime_of_date d) w = Ok t w' ->
  txn_row loan t /\ disbursement_row loan d t.
Proof.
  unfold disbursement_transaction. intros E.
  apply bind_ok in E as (id & w1 & Eid & E). apply generate_transaction_id_ok in Eid.
  apply bind_ok in E as (mode & w2 & Emode & E). apply choices_In in Emode.
  apply bind_ok in E as (ref & w3 & _ & E).
  apply bind_ok in E as (bank & w4 & Ebank & E). apply choice_In in Ebank.
  apply bind_ok in E as (last4 & w5 & _ & E).
  apply ret_ok in E as [<- _].
  split.
  - constructor; cbn; auto 10.
  - unfold disbursement_row. cbn. repeat split.
Qed.

Lemma emi_step_rows loan end_date total_emis month w ts w' :
  emi_step loan end_date total_emis month w = Ok ts w' ->
  Forall (fun t => txn_row loan t /\ Txn.transaction_type t = "EMI") ts.
Proof.
  unfold emi_step. intros E.
  apply bind_ok in E as (first & w1 & _ & E).
  destruct (end_date <? _); [apply ret_ok in E as [<- _]; constructor|].
  apply bind_ok in E as (u & w2 & _ & E).
  apply bind_ok in E as (rate & w3 & _ & E).
  apply bind_ok in E as (emi & w4 & _ & E).
  apply bind_ok in E as (id & w5 & Eid & E). apply generate_transaction_id_ok in Eid.
  apply bind_ok in E as (mode & w6 & Emode & E). apply choices_In in Emode.
  apply bind_ok in E as (ref & w7 & _ & E).
  apply bind_ok in E as (bank & w8 & Ebank & E). apply choice_In in Ebank.
  apply bind_ok in E as (last4 & w9 & _ & E).
  apply bind_ok in E as (status & w10 & Estatus & E).
  apply bind_ok in E as (reason & w11 & Ereason & E).
  apply ret_ok in E as [<- _].
  constructor; [|constructor]. split; [|reflexivity].
  constructor; cbn; auto 10.
  destruct (Qltb u _); cbn [negb] in *.
  - apply ret_ok in Estatus as [<- _]. apply ret_ok in Ereason as [<- _].
    left. repeat split.
  - apply choice_In in Estatus.
    apply bind_ok in Ereason as (r & wr & Er & Ereason). apply choice_In in Er.
    apply ret_ok in Ereason as [<- _].
    right. repeat split; [exact Estatus|]. exists r. split; [reflexivity|exact Er].
Qed.

Lemma prepayment_rows loan end_date w ts w' :
  prepayment loan end_date w = Ok ts w' ->
  ts = []%list
  \/ exists t, ts = [t]%list /\ txn_row loan t /\ prepayment_row loan end_date t.
Proof.
  unfold prepayment. intros E.
  apply bind_ok in E as (u & w1 & _ & E).
  destruct (Qltb u 0.2); cbn [andb] in E; [|apply ret_ok in E as [<- _]; left; reflexivity].
  destruct (String.eqb_spec (Loan.loan_status loan) "Active") as [Hs|Hs];
    [|apply ret_ok in E as [<- _]; left; reflexivity].
  right.
  apply bind_ok in E as (f & w2 & Ef & E). apply uniform_range in Ef; [|qle_compute].
  apply bind_ok in E as (k & w3 & Ek & E). apply randint_ok in Ek.
  apply bind_ok in E as (id & w5 & Eid & E). apply generate_transaction_id_ok in Eid.
  apply bind_ok in E as (mode & w6 & Emode & E). apply choices_In in Emode.
  apply bind_ok in E as (ref & w7 & _ & E).
  apply bind_ok in E as (bank & w8 & Ebank & E). apply choice_In in Ebank.
  apply bind_ok in E as (last4 & w9 & _ & E).
  apply ret_ok in E as [<- _].
  eexists. split; [reflexivity|]. split.
  - constructor; cbn; auto 10.
    cbn in Emode. destruct Emode as [<-|[<-|[<-|[]]]]; auto 10.
  - unfold prepayment_row. cbn.
    split; [reflexivity|]. split; [exact Hs|].
    split; [exists f; repeat split; apply Ef|].
    split; [exists k; split; [exact Ek|reflexivity]|]. repeat split.
Qed.

Lemma for_each_Forall_all {A B} (P : B -> Prop) (body : A -> Gen.t (list B)) xs w ys w' :
  (forall x w ys w', body x w = Ok ys w' -> Forall P ys) ->
  for_each body xs w = Ok ys w' -> Forall P ys.
Proof. intros Hbody E. eapply for_each_Forall; eassumption. Qed.

Lemma transactions_of_loan loan customer w txns w' :
  generate_transactions_for_loan loan customer w = Ok txns w' ->
  match Loan.disbursement_date loan with
  | None => txns = []%list /\ w' = w
  | Some d =>
      if String.eqb (Loan.loan_status loan) "Rejected" then txns = []%list /\ w' = w
      else
        exists disbursement_txn emis pre,
          txns = (disbursement_txn :: emis ++ pre)%list
          /\ Forall (txn_row loan) txns
          /\ disbursement_row loan d disbursement_txn
          /\ Forall (fun t => Txn.transaction_type t = "EMI") emis
          /\ Z.of_nat (List.length emis)
             <= Z.max 0 (match Loan.tenure_months loan with Some m => m | None => 0 end)
          /\ (pre = []%list
              \/ exists t, pre = [t]%list
                           /\ prepayment_row loan (Z.of_N (read (wall_clock w))) t)
  end.
Proof.
  unfold generate_transactions_for_loan. intros E.
  destruct (Loan.disbursement_date loan) as [d|];
    [|apply ret_ok in E as [<- <-]; split; reflexivity].
  destruct (String.eqb _ _); [apply ret_ok in E as [<- <-]; split; reflexivity|].
  apply bind_ok in E as (end_date & w1 & Enow & E).
  unfold datetime_now in Enow. injection Enow as <- <-.
  apply bind_ok in E as (disb & w2 & Ed & E).
  apply disbursement_transaction_row in Ed as [Hrow Hd].
  apply bind_ok in E as (emis & w3 & Ee & E).
  pose proof (for_each_Forall_all _ _ _ _ _ _ (emi_step_rows loan _ _) Ee) as Hemis.
  apply TxnFacts.emis_rows in Ee.
  apply bind_ok in E as (pre & w4 & Ep & E).
  apply prepayment_rows in Ep.
  apply ret_ok in E as [<- _].
  exists disb, emis, pre. split; [reflexivity|].
  split.
  { constructor; [exact Hrow|]. apply Forall_app. split.
    - eapply Forall_impl; [|exact Hemis]. intros t Ht. apply Ht.
    - destruct Ep as [->|(t & -> & Ht & _)]; [constructor|].
      constructor; [exact Ht|constructor]. }
  split; [exact Hd|].
  split; [eapply Forall_impl; [|exact Hemis]; intros t Ht; apply Ht|].
  split.
  { destruct (Loan.first_emi_date loan) as [d1|].
    - destruct Ee as (m & Hm & Hrows).
      apply Forall2_length in Hrows. rewrite length_seq in Hrows. rewrite <- Hrows.
      destruct (Loan.tenure_months loan); lia.
    - subst emis. cbn [List.length]. lia. }
  destruct Ep as [->|(t & -> & _ & Hp)]; [left; reflexivity|right].
  exists t. split; [reflexivity|exact Hp].
Qed.

(** X18.  What [generate_transactions_for_loan] returns: nothing, the world left
    as it was, for a loan without disbursement date or with the status
    'Rejected'; else the disbursement, the EMI rows, at most as many as the
    months of the tenure, and at most one prepayment, made on an active
    loan within thirty days before the clock reading. *)
Theorem transactions_of_a_loan loan customer w txns w' :
  generate_transactions_for_loan loan customer w = Ok txns w' ->
  match Loan.disbursement_date loan with
  | None => txns = []%list /\ w' = w
  | Some d =>
      if String.eqb (Loan.loan_status loan) "Rejected" then txns = []%list /\ w' = w
      else
        exists disbursement_txn emis pre,
          txns = (disbursement_txn :: emis ++ pre)%list
          /\ disbursement_row loan d disbursement_txn
          /\ Forall (fun t => Txn.transaction_type t = "EMI") emis
          /\ Z.of_nat (List.length emis)
             <= Z.max 0 (match Loan.tenure_months loan with Some m => m | None => 0 end)
          /\ (pre = []%list
              \/ exists t, pre = [t]%list
                           /\ prepayment_row loan (Z.of_N (read (wall_clock w))) t)
  end.
Proof.
  intros E. apply transactions_of_loan in E.
  destruct (Loan.disbursement_date loan); [|exact E].
  destruct (String.eqb _ _); [exact E|].
  destruct E as (d0 & emis & pre & E1 & _ & E2 & E3 & E4 & E5).
  exists d0, emis, pre. repeat (split; [assumption|]). exact E5.
Qed.

Lemma transactions_rows loan customer w txns w' :
  generate_transactions_for_loan loan customer w = Ok txns w' ->
  Forall (txn_row loan) txns.
Proof.
  intros E. apply transactions_of_loan in E.
  destruct (Loan.disbursement_date loan); [|destruct E as [-> _]; constructor].
  destruct (String.eqb _ _); [destruct E as [-> _]; constructor|].
  destruct E as (d0 & emis & pre & _ & Hall & _). exact Hall.
Qed.

(** X19.  Every row [generate_transactions_for_loan] returns carries the ids of
    the loan and a type and a status that [validate_transactions] accepts;
    only EMI rows fail or stay pending; a row has a failure reason exactly
    when it did not succeed, and a reconciliation date, the day after the
    transaction, exactly when it did. *)
Theorem transaction_rows_are_well_formed loan customer w txns w' :
  generate_transactions_for_loan loan customer w = Ok txns w' ->
  Forall (fun t =>
            Txn.loan_id t = Loan.loan_id loan
            /\ Txn.customer_id t = Loan.customer_id loan
            /\ Str.mem (Txn.transaction_type t) DataValidator.valid_types = true
            /\ Str.mem (Txn.transaction_status t) DataValidator.valid_transaction_status
               = true
            /\ (Txn.transaction_status t <> "Success" -> Txn.transaction_type t = "EMI")
            /\ (Txn.failure_reason t = None <-> Txn.transaction_status t = "Success")
            /\ (Txn.reconciled_date t <> None <-> Txn.transaction_status t = "Success")
            /\ (Txn.reconciliation_status t
                = if String.eqb (Txn.transaction_status t) "Success"
                  then "Matched" else "Unmatched")
            /\ (forall day, Txn.reconciled_date t = Some day ->
                            day = Time.add_days (Txn.transaction_date t) 1))
         txns.
Proof.
  intros E. apply transactions_rows in E.
  eapply Forall_impl; [|exact E]. intros t [[Hl Hc] _ Htype _ _ Hstatus].
  split; [exact Hl|]. split; [exact Hc|].
  split.
  { cbn in Htype. destruct Htype as [<-|[<-|[<-|[]]]]; reflexivity. }
  destruct Hstatus as [(Hs & Hf & Hr & Hd)|(Hs & Ht & (r & Hf & _) & Hr & Hd)].
  - rewrite Hs, Hf, Hr, Hd. cbn [String.eqb Ascii.eqb Bool.eqb].
    split; [reflexivity|]. split; [intros Hne; contradiction|].
    split; [split; reflexivity|]. split; [split; [reflexivity|discriminate]|].
    split; [reflexivity|]. intros day Hday. congruence.
  - rewrite Hf, Hr, Hd.
    cbn in Hs. destruct Hs as [Hs|[Hs|[]]]; rewrite <- Hs;
      (split; [reflexivity|]); (split; [intros _; exact Ht|]);
      (split; [split; discriminate|]);
      (split; [split; [intros Hn; contradiction|discriminate]|]);
      (split; [reflexivity|]); intros day Hday; discriminate Hday.
Qed.

Lemma find_customer_In customers_df id c :
  find_customer customers_df id = Some c ->
  In c customers_df /\ Customer.customer_id c = id.
Proof.
  unfold find_customer. intros E. apply find_some in E as [Hin Heq].
  split; [exact Hin|]. apply String.eqb_eq, Heq.
Qed.

(** The result of the loop of [generate_transactions]: the rows of the loans
    before the last one processed, fewer than the target, then the rows of
    that loan. *)
Lemma transactions_loop_inv customers_df target loans total w txns w' :
  transactions_loop customers_df target loans total w = Ok txns w' ->
  exists before last,
    txns = (before ++ last)%list
    /\ (before = []%list \/ total + Z.of_nat (List.length before) < target)
    /\ (last = []%list
        \/ exists loan customer w1 w2,
             In loan loans
             /\ generate_transactions_for_loan loan customer w1 = Ok last w2)
    /\ Forall (fun t => exists loan customer,
                  In loan loans /\ In customer customers_df
                  /\ Customer.customer_id customer = Loan.customer_id loan
                  /\ txn_row loan t)
              txns.
Proof.
  revert total w txns w'. induction loans as [|loan rest IH]; intros total w txns w' E;
    cbn [transactions_loop] in E.
  - apply ret_ok in E as [<- _]. exists []%list, []%list.
    split; [reflexivity|]. split; [left; reflexivity|]. split; [left; reflexivity|constructor].
  - destruct (find_customer customers_df (Loan.customer_id loan)) as [c|] eqn:Ec.
    + apply find_customer_In in Ec as [Hc Hcid].
      apply bind_ok in E as (txs & w1 & Et & E).
      assert (Hrows : Forall (fun t => exists loan0 customer,
                                In loan0 (loan :: rest) /\ In customer customers_df
                                /\ Customer.customer_id customer = Loan.customer_id loan0
                                /\ txn_row loan0 t) txs).
      { pose proof (transactions_rows _ _ _ _ _ Et) as Hr.
        eapply Forall_impl; [|exact Hr]. intros t Ht.
        exists loan, c. split; [left; reflexivity|]. repeat (split; [assumption|]).
        exact Ht. }
      destruct (target <=? total + Z.of_nat (List.length txs)) eqn:Ecap.
      * apply ret_ok in E as [<- _]. exists []%list, txs.
        split; [reflexivity|]. split; [left; reflexivity|].
        split; [|exact Hrows].
        right. exists loan, c, w, w1. split; [left; reflexivity|exact Et].
      * apply Z.leb_gt in Ecap.
        apply bind_ok in E as (more & w2 & Em & E). apply ret_ok in E as [<- _].
        apply IH in Em as (before & last & -> & Hb & Hl & Hall).
        exists (txs ++ before)%list, last.
        split; [rewrite app_assoc; reflexivity|].
        split.
        { right. rewrite length_app. destruct Hb as [->|Hb]; [cbn [List.length]|]; lia. }
        split.
        { destruct Hl as [->|(l0 & c0 & v1 & v2 & Hin & Hg)]; [left; reflexivity|].
          right. exists l0, c0, v1, v2. split; [right; exact Hin|exact Hg]. }
        apply Forall_app. split; [exact Hrows|].
        eapply Forall_impl; [|exact Hall].
        intros t (l0 & c0 & Hin & Hrest). exists l0, c0. split; [right; exact Hin|exact Hrest].
    + apply IH in E as (before & last & -> & Hb & Hl & Hall).
      exists before, last. split; [reflexivity|]. split; [exact Hb|].
      split.
      { destruct Hl as [->|(l0 & c0 & v1 & v2 & Hin & Hg)]; [left; reflexivity|].
        right. exists l0, c0, v1, v2. split; [right; exact Hin|exact Hg]. }
      eapply Forall_impl; [|exact Hall].
      intros t (l0 & c0 & Hin & Hrest). exists l0, c0. split; [right; exact Hin|exact Hrest].
Qed.

Lemma generate_transactions_loop loans_df customers_df n w txns w' :
  generate_transactions loans_df customers_df n w = Ok txns w' ->
  transactions_loop customers_df n
    (filter (fun l => Str.mem (Loan.loan_status l) ["Active"; "Overdue"; "NPA"]%list
                      && match Loan.disbursement_date l with
                         | Some _ => true
                         | None => false
                         end) loans_df) 0 w = Ok txns w'.
Proof.
  unfold generate_transactions. destruct (negb _); [discriminate|]. intros E. exact E.
Qed.

(** X20.  Every row of [generate_transactions] belongs to a loan of the loan
    frame that was disbursed and is active, overdue or NPA, and whose
    customer is in the customer frame: it carries the ids of that loan. *)
Theorem transactions_belong_to_loans loans_df customers_df n w txns w' :
  generate_transactions loans_df customers_df n w = Ok txns w' ->
  Forall (fun t =>
            exists loan customer,
              In loan loans_df /\ In customer customers_df
              /\ Txn.loan_id t = Loan.loan_id loan
              /\ Txn.customer_id t = Loan.customer_id loan
              /\ Customer.customer_id customer = Loan.customer_id loan
              /\ In (Loan.loan_status loan) ["Active"; "Overdue"; "NPA"]%list
              /\ Loan.disbursement_date loan <> None)
         txns.
Proof.
  intros E. apply generate_transactions_loop, transactions_loop_inv in E
    as (_ & _ & _ & _ & _ & Hall).
  eapply Forall_impl; [|exact Hall].
  intros t (loan & c & Hin & Hc & Hid & Hrow).
  apply filter_In in Hin as [Hin Hf]. apply andb_true_iff in Hf as [Hs Hd].
  exists loan, c. split; [exact Hin|]. split; [exact Hc|].
  split; [apply Hrow|]. split; [apply Hrow|]. split; [exact Hid|].
  split; [apply LoanFacts.mem_In, Hs|].
  destruct (Loan.disbursement_date loan); [discriminate|discriminate Hd].
Qed.

(** X21.  The target of [generate_transactions] is checked after the rows of a
    loan are added: the frame returned exceeds it by the rows of one loan at
    most, which are its disbursement, an EMI for each month of its tenure
    and a prepayment. *)
Theorem transactions_overshoot_target loans_df customers_df n w txns w' tenure :
  0 <= tenure ->
  Forall (fun l => forall m, Loan.tenure_months l = Some m -> m <= tenure) loans_df ->
  generate_transactions loans_df customers_df n w = Ok txns w' ->
  Z.of_nat (List.length txns) <= Z.max (n - 1) 0 + tenure + 2.
Proof.
  intros Ht Hten E. apply generate_transactions_loop, transactions_loop_inv in E
    as (before & last & -> & Hb & Hl & _).
  assert (Hlast : Z.of_nat (List.length last) <= tenure + 2).
  { destruct Hl as [->|(loan & c & w1 & w2 & Hin & Hg)]; [cbn [List.length]; lia|].
    apply filter_In in Hin as [Hin _].
    rewrite Forall_forall in Hten. specialize (Hten _ Hin).
    apply transactions_of_loan in Hg.
    destruct (Loan.disbursement_date loan); [|destruct Hg as [-> _]; cbn [List.length]; lia].
    destruct (String.eqb _ _); [destruct Hg as [-> _]; cbn [List.length]; lia|].
    destruct Hg as (d0 & emis & pre & -> & _ & _ & _ & Hlen & Hpre).
    cbn [List.length]. rewrite length_app.
    assert (Hp : (List.length pre <= 1)%nat)
      by (destruct Hpre as [->|(t & -> & _)]; cbn [List.length]; lia).
    destruct (Loan.tenure_months loan) as [m|]; [specialize (Hten m eq_refl)|]; lia. }
  rewrite length_app. destruct Hb as [->|Hb]; [cbn [List.length]|]; lia.
Qed.

Lemma unique_NoDup ids : unique ids = true -> NoDup ids.
Proof.
  induction ids as [|x rest IH]; cbn [unique]; intros E; [constructor|].
  apply andb_prop in E as [Hx Hrest]. constructor; [|apply IH, Hrest].
  intros Hin. apply LoanFacts.mem_In in Hin. rewrite Hin in Hx. discriminate Hx.
Qed.

Lemma first_customer n w cs w' :
  1 <= n ->
  CustomerGenerator.generate_customers n w = Ok cs w' ->
  exists c rest, cs = (c :: rest)%list /\ Customer.customer_id c = "CUST00000001".
Proof.
  intros Hn E. apply CustomerProps.generate_customers_rows in E.
  unfold Rows.range in E. destruct (Z.to_nat n) as [|m] eqn:Em; [lia|].
  cbn [seq map] in E. inversion E as [|? c ? rest Hrow _]; subst.
  exists c, rest. split; [reflexivity|]. rewrite (cust_id _ _ Hrow). reflexivity.
Qed.

(** X28.  [generate_batch_customers] numbers the customers of every batch
    from 1: with two batches or more the frame it returns holds the id
    [CUST00000001] twice, and [generate_transactions] on such a frame and a
    loan frame with rows raises [ValueError], whatever the loans and the
    target, when it indexes the customers by their id. *)
Theorem batched_customers_share_ids batch_size total w customers_df w' :
  1 <= batch_size ->
  batch_size < total ->
  CustomerGenerator.generate_batch_customers batch_size total w = Ok customers_df w' ->
  ~ NoDup (map Customer.customer_id customers_df)
  /\ forall loans_df n v,
       loans_df <> []%list ->
       generate_transactions loans_df customers_df n v = Raise ValueError.
Proof.
  intros Hb Htotal E. unfold CustomerGenerator.generate_batch_customers in E.
  destruct (batch_size =? 0) eqn:Eb; [discriminate E|].
  set (batches := total / batch_size + (if total mod batch_size =? 0 then 0 else 1)) in E.
  assert (Hbatches : 2 <= batches).
  { subst batches.
    pose proof (Z.div_mod total batch_size ltac:(lia)) as Hdm.
    pose proof (Z.mod_pos_bound total batch_size ltac:(lia)) as Hm.
    destruct (total mod batch_size =? 0) eqn:Em.
    - apply Z.eqb_eq in Em. nia.
    - apply Z.eqb_neq in Em. nia. }
  destruct (batches <=? 0) eqn:El; [apply Z.leb_le in El; lia|].
  apply for_each_inv in E as (yss & -> & Hall).
  destruct (Z.to_nat batches) as [|[|m]] eqn:Em; try lia.
  cbn [seq map] in Hall.
  inversion Hall as [|? y0 ? yss0 (v1 & v2 & E0) Hall0]; subst.
  inversion Hall0 as [|? y1 ? yss1 (v3 & v4 & E1) Hall1]; subst.
  cbn [Z.of_nat] in E0, E1.
  change (Z.pos (Pos.of_succ_nat 0)) with 1 in E1.
  apply first_customer in E0 as (c0 & rest0 & -> & Hid0); [|lia].
  apply first_customer in E1 as (c1 & rest1 & -> & Hid1); [|lia].
  assert (Hdup : ~ NoDup (map Customer.customer_id
                            (List.concat ((c0 :: rest0) :: (c1 :: rest1) :: yss1)))).
  { cbn [List.concat app map]. rewrite map_app. cbn [app map].
    rewrite Hid0, Hid1. intros Hnd. inversion Hnd as [|? ? Hnotin _]; subst.
    apply Hnotin. apply in_or_app. right. left. reflexivity. }
  split; [exact Hdup|].
  intros loans_df n v _. unfold generate_transactions.
  destruct (unique _) eqn:Eu; [|reflexivity].
  exfalso. apply Hdup. apply unique_NoDup. exact Eu.
Qed.

End WithRuntime.

Local Open Scope string_scope.
Local Open Scope Z_scope.

(** The theorems at the transactions of [Scenario.delinquent_loan]: the
    disbursement and two EMIs. *)
Lemma transactions_of_a_loan_witness :
  match Loan.disbursement_date Scenario.delinquent_loan with
  | None =>
      Scenario.result Scenario.delinquent_txns_run [] = []%list
      /\ Scenario.after Scenario.delinquent_txns_run Scenario.delinquent_txns_world
         = Scenario.delinquent_txns_world
  | Some d =>
      if String.eqb (Loan.loan_status Scenario.delinquent_loan) "Rejected"
      then Scenario.result Scenario.delinquent_txns_run [] = []%list
           /\ Scenario.after Scenario.delinquent_txns_run Scenario.delinquent_txns_world
              = Scenario.delinquent_txns_world
      else
        exists disbursement_txn emis pre,
          Scenario.result Scenario.delinquent_txns_run []
          = (disbursement_txn :: emis ++ pre)%list
          /\ disbursement_row Scenario.delinquent_loan d disbursement_txn
          /\ Forall (fun t => Txn.transaction_type t = "EMI") emis
          /\ Z.of_nat (List.length emis)
             <= Z.max 0 (match Loan.tenure_months Scenario.delinquent_loan with
                         | Some m => m
                         | None => 0
                         end)
          /\ (pre = []%list
              \/ exists t,
                   pre = [t]%list
                   /\ prepayment_row Scenario.delinquent_loan
                        (Z.of_N (read (wall_clock Scenario.delinquent_txns_world))) t)
  end.
Proof.
  apply (@transactions_of_a_loan Scenario.plain Scenario.delinquent_loan
           Scenario.customer1 Scenario.delinquent_txns_world _
           (Scenario.after Scenario.delinquent_txns_run Scenario.delinquent_txns_world)).
  vm_compute. reflexivity.
Defined.

Lemma transaction_rows_are_well_formed_witness :
  Forall (fun t =>
            Txn.loan_id t = Loan.loan_id Scenario.delinquent_loan
            /\ Txn.customer_id t = Loan.customer_id Scenario.delinquent_loan
            /\ Str.mem (Txn.transaction_type t) DataValidator.valid_types = true
            /\ Str.mem (Txn.transaction_status t) DataValidator.valid_transaction_status
               = true
            /\ (Txn.transaction_status t <> "Success" -> Txn.transaction_type t = "EMI")
            /\ (Txn.failure_reason t = None <-> Txn.transaction_status t = "Success")
            /\ (Txn.reconciled_date t <> None <-> Txn.transaction_status t = "Success")
            /\ (Txn.reconciliation_status t
                = if String.eqb (Txn.transaction_status t) "Success"
                  then "Matched" else "Unmatched")
            /\ (forall day, Txn.reconciled_date t = Some day ->
                            day = Time.add_days (Txn.transaction_date t) 1))
         (Scenario.result Scenario.delinquent_txns_run []).
Proof.
  apply (@transaction_rows_are_well_formed Scenario.plain Scenario.delinquent_loan
           Scenario.customer1 Scenario.delinquent_txns_world _
           (Scenario.after Scenario.delinquent_txns_run Scenario.delinquent_txns_world)).
  vm_compute. reflexivity.
Defined.

(** The theorems at the frame of [Cases.transactions_run]: a target of one
    row, and the 25 rows of the first loan. *)
Lemma transactions_belong_to_loans_witness :
  Forall (fun t =>
            exists loan customer,
              In loan Cases.batch_loans /\ In customer Cases.customers
              /\ Txn.loan_id t = Loan.loan_id loan
              /\ Txn.customer_id t = Loan.customer_id loan
              /\ Customer.customer_id customer = Loan.customer_id loan
              /\ In (Loan.loan_status loan) ["Active"; "Overdue"; "NPA"]%list
              /\ Loan.disbursement_date loan <> None)
         Cases.transactions.
Proof.
  apply (@transactions_belong_to_loans Scenario.plain Cases.batch_loans Cases.customers 1
           Cases.steady_world _ (Scenario.after Cases.transactions_run Cases.steady_world)).
  vm_compute. reflexivity.
Defined.

Lemma transactions_overshoot_target_witness :
  Z.of_nat (List.length Cases.transactions) <= Z.max (1 - 1) 0 + 60 + 2.
Proof.
  apply (@transactions_overshoot_target Scenario.plain Cases.batch_loans Cases.customers 1
           Cases.steady_world _ (Scenario.after Cases.transactions_run Cases.steady_world)).
  - lia.
  - repeat constructor; intros m E; vm_compute in E; injection E as E; lia.
  - vm_compute. reflexivity.
Defined.

(** The two batches of [Cases.batch_customers_run], of one customer each. *)
Lemma batched_customers_share_ids_witness :
  ~ NoDup (map Customer.customer_id Cases.batch_customers)
  /\ forall loans_df n v,
       loans_df <> []%list ->
       @generate_transactions Scenario.plain loans_df Cases.batch_customers n v
       = Raise ValueError.
Proof.
  apply (@batched_customers_share_ids Scenario.plain 1 2 Cases.steady_world _
           (Scenario.after Cases.batch_customers_run Cases.steady_world)).
  - lia.
  - lia.
  - vm_compute. reflexivity.
Defined.

End TxnTheorems.

(* ================================================================== *)
(** * Properties of the fraud scenarios *)

Module FraudTheorems.
Import FraudGenerator Shape Rows.

Local Open Scope string_scope.
Local Open Scope Z_scope.

Lemma getitem_ok {V} (d : list (string * V)) k w v w' :
  getitem d k w = Ok v w' -> assoc d k = Some v.
Proof.
  unfold getitem. destruct (assoc d k); [|discriminate].
  intros E. apply ret_ok in E as [<- _]. reflexivity.
Qed.

Lemma generate_fraud_alert_id_ok w id w' :
  generate_fraud_alert_id w = Ok id w' ->
  exists u, id = "FRD" ++ Str.upper (substring 0 10 u).
Proof.
  unfold generate_fraud_alert_id. intros E.
  apply bind_ok in E as (u & w1 & _ & E). apply ret_ok in E as [<- _].
  exists u. reflexivity.
Qed.

Lemma income_mismatch_alert_rows loans_df customers_df loan w ys w' :
  In loan loans_df ->
  income_mismatch_alert customers_df loan w = Ok ys w' ->
  Forall (fun a => alert_row loans_df customers_df a
                   /\ Alert.alert_type a = "Income Mismatch") ys.
Proof.
  intros Hl E. unfold income_mismatch_alert in E.
  apply bind_ok in E as (u & w1 & _ & E).
  destruct (Qltb u 0.15); [|apply ret_ok in E as [<- _]; constructor].
  destruct (filter _ customers_df) as [|customer cs]; [discriminate|].
  apply bind_ok in E as ([score level] & w2 & _ & E).
  apply bind_ok in E as (id & w3 & Eid & E). apply generate_fraud_alert_id_ok in Eid.
  apply bind_ok in E as (now & w4 & _ & E).
  apply bind_ok in E as (k & w5 & _ & E).
  apply bind_ok in E as (category & w6 & Ecat & E). apply getitem_ok in Ecat.
  apply bind_ok in E as (method & w7 & Emeth & E). apply getitem_ok in Emeth.
  apply bind_ok in E as (rules & w8 & Erules & E). apply getitem_ok in Erules.
  apply bind_ok in E as (rule & w9 & Erule & E). apply choice_In in Erule.
  apply bind_ok in E as (analyst & w10 & _ & E).
  apply bind_ok in E as (status & w11 & Estatus & E). apply choices_In in Estatus.
  apply bind_ok in E as (impact & w12 & _ & E).
  apply ret_ok in E as [<- _].
  constructor; [|constructor]. split; [|reflexivity].
  constructor; cbn [Alert.alert_id Alert.loan_id Alert.customer_id Alert.alert_type
                    Alert.alert_category Alert.detection_method Alert.rule_triggered
                    Alert.investigation_status Alert.investigation_notes
                    Alert.resolution_date Alert.transaction_id Alert.financial_impact].
  - exact Eid.
  - split; [left; reflexivity|]. exists loan. repeat split. exact Hl.
  - split; [exact Ecat|]. split; [exact Emeth|]. exists rules. split; assumption.
  - exact Estatus.
  - repeat split.
Qed.

Lemma collateral_alert_rows loans_df customers_df collateral_id group_len
    unique_customers total_amount loan w ys w' :
  In loan loans_df ->
  collateral_alert collateral_id group_len unique_customers total_amount loan w = Ok ys w' ->
  Forall (fun a => alert_row loans_df customers_df a
                   /\ Alert.alert_type a = "Multiple Applications Same Collateral") ys.
Proof.
  intros Hl E. unfold collateral_alert in E.
  apply bind_ok in E as ([score level] & w2 & _ & E).
  apply bind_ok in E as (id & w3 & Eid & E). apply generate_fraud_alert_id_ok in Eid.
  apply bind_ok in E as (now & w4 & _ & E).
  apply bind_ok in E as (k & w5 & _ & E).
  apply bind_ok in E as (category & w6 & Ecat & E). apply getitem_ok in Ecat.
  apply bind_ok in E as (method & w7 & Emeth & E). apply getitem_ok in Emeth.
  apply bind_ok in E as (rules & w8 & Erules & E). apply getitem_ok in Erules.
  apply bind_ok in E as (rule & w9 & Erule & E). apply choice_In in Erule.
  apply bind_ok in E as (analyst & w10 & _ & E).
  apply bind_ok in E as (status & w11 & Estatus & E). apply choices_In in Estatus.
  apply bind_ok in E as (impact & w12 & _ & E).
  apply ret_ok in E as [<- _].
  constructor; [|constructor]. split; [|reflexivity].
  constructor; cbn [Alert.alert_id Alert.loan_id Alert.customer_id Alert.alert_type
                    Alert.alert_category Alert.detection_method Alert.rule_triggered
                    Alert.investigation_status Alert.investigation_notes
                    Alert.resolution_date Alert.transaction_id Alert.financial_impact].
  - exact Eid.
  - split; [right; left; reflexivity|]. exists loan. repeat split. exact Hl.
  - split; [exact Ecat|]. split; [exact Emeth|]. exists rules. split; assumption.
  - cbn in Estatus |- *. destruct Estatus as [<-|[<-|[<-|[]]]]; auto.
  - repeat split.
Qed.

Lemma early_default_alert_rows loans_df customers_df loan w ys w' :
  In loan loans_df ->
  early_default_alert loan w = Ok ys w' ->
  Forall (fun a => alert_row loans_df customers_df a
                   /\ Alert.alert_type a = "Early Payment Default") ys.
Proof.
  intros Hl E. unfold early_default_alert in E.
  apply bind_ok in E as (u & w1 & _ & E).
  destruct (Qltb u 0.25); [|apply ret_ok in E as [<- _]; constructor].
  apply bind_ok in E as ([score level] & w2 & _ & E).
  apply bind_ok in E as (id & w3 & Eid & E). apply generate_fraud_alert_id_ok in Eid.
  apply bind_ok in E as (now & w4 & _ & E).
  apply bind_ok in E as (k & w5 & _ & E).
  apply bind_ok in E as (category & w6 & Ecat & E). apply getitem_ok in Ecat.
  apply bind_ok in E as (method & w7 & Emeth & E). apply getitem_ok in Emeth.
  apply bind_ok in E as (rules & w8 & Erules & E). apply getitem_ok in Erules.
  apply bind_ok in E as (rule & w9 & Erule & E). apply choice_In in Erule.
  apply bind_ok in E as (analyst & w10 & _ & E).
  apply bind_ok in E as (status & w11 & Estatus & E). apply choices_In in Estatus.
  apply bind_ok in E as (impact & w12 & _ & E).
  apply ret_ok in E as [<- _].
  constructor; [|constructor]. split; [|reflexivity].
  constructor; cbn [Alert.alert_id Alert.loan_id Alert.customer_id Alert.alert_type
                    Alert.alert_category Alert.detection_method Alert.rule_triggered
                    Alert.investigation_status Alert.investigation_notes
                    Alert.resolution_date Alert.transaction_id Alert.financial_impact].
  - exact Eid.
  - split; [right; right; left; reflexivity|]. exists loan. repeat split. exact Hl.
  - split; [exact Ecat|]. split; [exact Emeth|]. exists rules. split; assumption.
  - cbn in Estatus |- *. destruct Estatus as [<-|[<-|[<-|[]]]]; auto.
  - repeat split.
Qed.

Lemma synthetic_id_alert_rows loans_df customers_df customer w ys w' :
  In customer customers_df ->
  synthetic_id_alert customer w = Ok ys w' ->
  Forall (fun a => alert_row loans_df customers_df a
                   /\ Alert.alert_type a = "Synthetic Identity") ys.
Proof.
  intros Hc E. unfold synthetic_id_alert in E.
  apply bind_ok in E as (u & w1 & _ & E).
  destruct (Qltb u 0.10); [|apply ret_ok in E as [<- _]; constructor].
  apply bind_ok in E as (id & w3 & Eid & E). apply generate_fraud_alert_id_ok in Eid.
  apply bind_ok in E as (now & w4 & _ & E).
  apply bind_ok in E as (k & w5 & _ & E).
  apply bind_ok in E as (category & w6 & Ecat & E). apply getitem_ok in Ecat.
  apply bind_ok in E as (score & w2 & _ & E).
  apply bind_ok in E as (method & w7 & Emeth & E). apply getitem_ok in Emeth.
  apply bind_ok in E as (rules & w8 & Erules & E). apply getitem_ok in Erules.
  apply bind_ok in E as (rule & w9 & Erule & E). apply choice_In in Erule.
  apply bind_ok in E as (analyst & w10 & _ & E).
  apply bind_ok in E as (status & w11 & Estatus & E). apply choices_In in Estatus.
  apply ret_ok in E as [<- _].
  constructor; [|constructor]. split; [|reflexivity].
  constructor; cbn [Alert.alert_id Alert.loan_id Alert.customer_id Alert.alert_type
                    Alert.alert_category Alert.detection_method Alert.rule_triggered
                    Alert.investigation_status Alert.investigation_notes
                    Alert.resolution_date Alert.transaction_id Alert.financial_impact].
  - exact Eid.
  - split; [reflexivity|]. split; [reflexivity|]. exists customer. split; [exact Hc|reflexivity].
  - split; [exact Ecat|]. split; [exact Emeth|]. exists rules. split; assumption.
  - cbn in Estatus |- *. destruct Estatus as [<-|[<-|[]]]; auto.
  - repeat split.
Qed.

Lemma for_each_Forall_In {A B} (P : B -> Prop) (body : A -> Gen.t (list B)) xs :
  (forall x w ys w', In x xs -> body x w = Ok ys w' -> Forall P ys) ->
  forall w ys w', for_each body xs w = Ok ys w' -> Forall P ys.
Proof.
  induction xs as [|x xs IH]; intros Hbody w ys w' E; cbn [for_each] in E.
  - apply ret_ok in E as [<- _]. constructor.
  - apply bind_ok in E as (ys1 & w1 & E1 & E).
    apply bind_ok in E as (ys2 & w2 & E2 & E).
    apply ret_ok in E as [<- _].
    apply Forall_app. split.
    + eapply Hbody; [left; reflexivity|exact E1].
    + eapply IH; [|exact E2]. intros y v zs v' Hy. apply Hbody. right. exact Hy.
Qed.

Lemma income_mismatch_rows loans_df customers_df w alerts w' :
  generate_fraud_scenario_income_mismatch loans_df customers_df w = Ok alerts w' ->
  Forall (fun a => alert_row loans_df customers_df a
                   /\ Alert.alert_type a = "Income Mismatch") alerts.
Proof.
  unfold generate_fraud_scenario_income_mismatch.
  apply for_each_Forall_In. intros row v ys v' Hrow E.
  eapply income_mismatch_alert_rows; [|exact E].
  unfold suspicious_loans in Hrow. apply filter_In in Hrow as [Hrow _].
  apply LoanFacts.merge_left_In in Hrow as [Hl _]. exact Hl.
Qed.

Lemma groupby_collateral_In loans_df k group l :
  In (k, group) (groupby_collateral loans_df) -> In l group -> In l loans_df.
Proof.
  unfold groupby_collateral. intros Hg Hl.
  apply in_map_iff in Hg as (k0 & Hk & _). injection Hk as _ <-.
  apply in_map_iff in Hl as ([k1 l1] & <- & Hl). cbn [snd].
  apply filter_In in Hl as [Hl _].
  apply in_flat_map in Hl as (l2 & Hl2 & Hkl).
  destruct (Loan.collateral_id l2); [|destruct Hkl].
  destruct Hkl as [Hkl|[]]. injection Hkl as _ <-. exact Hl2.
Qed.

Lemma collateral_fraud_rows loans_df customers_df w alerts w' :
  generate_fraud_scenario_collateral_fraud loans_df w = Ok alerts w' ->
  Forall (fun a => alert_row loans_df customers_df a
                   /\ Alert.alert_type a = "Multiple Applications Same Collateral") alerts.
Proof.
  unfold generate_fraud_scenario_collateral_fraud.
  apply for_each_Forall_In. intros [k group] v ys v' Hg E.
  unfold collateral_group in E.
  destruct (2 <=? _); [|apply ret_ok in E as [<- _]; constructor].
  apply bind_ok in E as (u & w1 & _ & E).
  destruct (Qltb u 0.3); [|apply ret_ok in E as [<- _]; constructor].
  destruct (2 <=? _); [|apply ret_ok in E as [<- _]; constructor].
  revert E. apply for_each_Forall_In. intros l v1 zs v2 Hl E.
  eapply collateral_alert_rows; [|exact E].
  eapply groupby_collateral_In; eassumption.
Qed.

Lemma early_default_rows loans_df customers_df w alerts w' :
  generate_fraud_scenario_early_default loans_df w = Ok alerts w' ->
  Forall (fun a => alert_row loans_df customers_df a
                   /\ Alert.alert_type a = "Early Payment Default") alerts.
Proof.
  unfold generate_fraud_scenario_early_default. intros E.
  apply bind_ok in E as (now & w0 & _ & E). revert E.
  apply for_each_Forall_In. intros l v ys v' Hl E.
  eapply early_default_alert_rows; [|exact E].
  apply filter_In in Hl as [Hl _]. exact Hl.
Qed.

Lemma synthetic_id_rows loans_df customers_df w alerts w' :
  generate_fraud_scenario_synthetic_id customers_df w = Ok alerts w' ->
  Forall (fun a => alert_row loans_df customers_df a
                   /\ Alert.alert_type a = "Synthetic Identity") alerts.
Proof.
  unfold generate_fraud_scenario_synthetic_id. intros E.
  apply bind_ok in E as (now & w0 & _ & E). revert E.
  apply for_each_Forall_In. intros c v ys v' Hc E.
  eapply synthetic_id_alert_rows; [|exact E].
  apply filter_In in Hc as [Hc _]. exact Hc.
Qed.

(** ** The resolution of the confirmed alerts *)

Lemma for_each_singletons {A B} (P : B -> Prop) (body : A -> Gen.t (list B)) xs w ys w' :
  (forall x w ys w', body x w = Ok ys w' -> exists b, ys = [b]%list /\ P b) ->
  for_each body xs w = Ok ys w' ->
  List.length ys = List.length xs /\ Forall P ys.
Proof.
  intros Hbody E.
  assert (H2 : Forall2 (fun _ b => P b) xs ys).
  { eapply for_each_rows; [|exact E]. intros x v zs v' Ez.
    apply Hbody in Ez as (b & -> & Hb). exists b. split; [reflexivity|exact Hb]. }
  split; [eapply Forall2_length_eq; exact H2|].
  clear - H2. induction H2; constructor; assumption.
Qed.

Lemma assign_confirmed_rows {V} (set : Alert.t -> V -> Alert.t) (P : V -> Prop)
    df values :
  (forall a v, is_confirmed (set a v) = is_confirmed a) ->
  List.length values = List.length (filter is_confirmed df) ->
  Forall P values ->
  Forall2 (fun a a' => if is_confirmed a then exists v, P v /\ a' = set a v else a' = a)
          df (assign_confirmed set df values)
  /\ filter is_confirmed (assign_confirmed set df values)
     = assign_confirmed set (filter is_confirmed df) values.
Proof.
  intros Hset. revert values.
  induction df as [|a df IH]; intros values Hlen HP; cbn [assign_confirmed filter].
  - split; constructor.
  - destruct (is_confirmed a) eqn:Ea.
    + cbn [filter List.length] in Hlen. rewrite Ea in Hlen.
      destruct values as [|v vs]; [discriminate Hlen|].
      inversion HP as [|? ? Hv HP']; subst.
      cbn [List.length] in Hlen.
      destruct (IH vs ltac:(lia) HP') as [IH1 IH2].
      split.
      * constructor; [rewrite Ea; exists v; split; [exact Hv|reflexivity]|exact IH1].
      * cbn [filter assign_confirmed]. rewrite Hset, ?Ea. cbn [assign_confirmed].
        rewrite ?Ea. f_equal. exact IH2.
    + cbn [filter] in Hlen. rewrite Ea in Hlen.
      destruct (IH values Hlen HP) as [IH1 IH2].
      split.
      * constructor; [rewrite Ea; reflexivity|exact IH1].
      * cbn [filter]. rewrite Ea. exact IH2.
Qed.

Lemma assign_confirmed_length {V} (set : Alert.t -> V -> Alert.t) df values :
  List.length (assign_confirmed set df values) = List.length df.
Proof.
  revert values. induction df as [|a df IH]; intros values; cbn [assign_confirmed];
    [reflexivity|].
  destruct (is_confirmed a); [destruct values|]; cbn [List.length]; rewrite IH; reflexivity.
Qed.

Lemma Forall2_compose {A} (R S T : A -> A -> Prop) xs ys zs :
  (forall x y z, R x y -> S y z -> T x z) ->
  Forall2 R xs ys -> Forall2 S ys zs -> Forall2 T xs zs.
Proof.
  intros HRS HR. revert zs. induction HR as [|x y xs ys Hxy _ IH]; intros zs HS;
    inversion HS; subst; constructor; eauto.
Qed.

Lemma resolve_confirmed_rows df w df' w' :
  resolve_confirmed df w = Ok df' w' -> Forall2 resolved df df'.
Proof.
  unfold resolve_confirmed.
  destruct df as [|a0 df0] eqn:Edf; [intros E; apply ret_ok in E as [<- _]; constructor|].
  rewrite <- Edf. clear Edf a0 df0. intros E.
  apply bind_ok in E as (notes & w1 & En & E).
  apply bind_ok in E as (dates & w2 & Ed & E).
  apply ret_ok in E as [<- _].
  apply (for_each_singletons
           (fun v => exists c,
                       In c ["Legal action initiated"; "Loan written off";
                             "Recovery in progress"]%list
                       /\ v = Some ("Fraud confirmed after investigation. " ++ c)))
    in En as [Hn1 Hn2].
  2:{ intros x v ys v' Ex. apply bind_ok in Ex as (c & v1 & Ec & Ex).
      apply ret_ok in Ex as [<- _]. apply choice_In in Ec.
      eexists. split; [reflexivity|]. exists c. split; [exact Ec|reflexivity]. }
  apply (for_each_singletons
           (fun v => exists now k, 1 <= k <= 30 /\ v = Some (Time.add_days now (- k))))
    in Ed as [Hd1 Hd2].
  2:{ intros x v ys v' Ex. apply bind_ok in Ex as (now & v1 & _ & Ex).
      apply bind_ok in Ex as (k & v2 & Ek & Ex). apply ret_ok in Ex as [<- _].
      apply randint_ok in Ek.
      eexists. split; [reflexivity|]. exists now, k. split; [exact Ek|reflexivity]. }
  destruct (assign_confirmed_rows set_investigation_notes _ df notes
              (fun a v => eq_refl) Hn1 Hn2) as [H1 Hf].
  assert (Hlen : List.length dates
                 = List.length (filter is_confirmed
                                  (assign_confirmed set_investigation_notes df notes))).
  { rewrite Hf, assign_confirmed_length. exact Hd1. }
  destruct (assign_confirmed_rows set_resolution_date _
              (assign_confirmed set_investigation_notes df notes) dates
              (fun a v => eq_refl) Hlen Hd2) as [H2 _].
  eapply Forall2_compose; [|exact H1|exact H2].
  intros a a1 a2 Ha1 Ha2. cbv beta in Ha1, Ha2. unfold resolved.
  destruct (is_confirmed a) eqn:Ea.
  - destruct Ha1 as (v & (c & Hc & ->) & ->).
    change (is_confirmed (set_investigation_notes a
              (Some ("Fraud confirmed after investigation. " ++ c))))
      with (is_confirmed a) in Ha2.
    rewrite Ea in Ha2. destruct Ha2 as (v2 & (now & k & Hk & ->) & ->).
    exists c, now, k. split; [exact Hc|split; [exact Hk|reflexivity]].
  - subst a1. rewrite Ea in Ha2. exact Ha2.
Qed.

Lemma Forall2_Forall_l {A B} (P : A -> Prop) (R : A -> B -> Prop) xs ys :
  Forall P xs -> Forall2 R xs ys -> Forall (fun y => exists x, P x /\ R x y) ys.
Proof.
  intros HP HR. induction HR as [|x y xs ys Hxy _ IH]; inversion HP; subst; constructor.
  - exists x. split; assumption.
  - apply IH. assumption.
Qed.

(** The alerts [generate_all_fraud_scenarios] returns: each is an alert of
    one of the four scenarios, resolved when it is confirmed. *)
Lemma generate_all_fraud_scenarios_rows loans_df customers_df w df loans' w' :
  generate_all_fraud_scenarios loans_df customers_df w = Ok (df, loans') w' ->
  Forall (fun a' => exists a, alert_row loans_df customers_df a /\ resolved a a') df.
Proof.
  unfold generate_all_fraud_scenarios. intros E.
  apply bind_ok in E as (a1 & w1 & E1 & E).
  apply bind_ok in E as (a2 & w2 & E2 & E).
  apply bind_ok in E as (a3 & w3 & E3 & E).
  apply bind_ok in E as (a4 & w4 & E4 & E).
  apply bind_ok in E as (df0 & w5 & Er & E).
  apply ret_ok in E as [E _]. injection E as <- _.
  apply resolve_confirmed_rows in Er.
  eapply Forall2_Forall_l; [|exact Er].
  apply (income_mismatch_rows loans_df customers_df) in E1.
  apply (collateral_fraud_rows loans_df customers_df) in E2.
  apply (early_default_rows loans_df customers_df) in E3.
  apply (synthetic_id_rows loans_df customers_df) in E4.
  repeat (apply Forall_app; split);
    match goal with
    | Hf : Forall _ ?l |- Forall _ ?l =>
        eapply Forall_impl; [|exact Hf]; intros a Ha; apply Ha
    end.
Qed.

Lemma resolved_columns a a' :
  resolved a a' ->
  Alert.alert_id a' = Alert.alert_id a
  /\ Alert.loan_id a' = Alert.loan_id a
  /\ Alert.customer_id a' = Alert.customer_id a
  /\ Alert.transaction_id a' = Alert.transaction_id a
  /\ Alert.alert_type a' = Alert.alert_type a
  /\ Alert.alert_category a' = Alert.alert_category a
  /\ Alert.detection_method a' = Alert.detection_method a
  /\ Alert.rule_triggered a' = Alert.rule_triggered a
  /\ Alert.investigation_status a' = Alert.investigation_status a
  /\ Alert.financial_impact a' = Alert.financial_impact a
  /\ Alert.risk_score a' = Alert.risk_score a
  /\ Alert.risk_level a' = Alert.risk_level a.
Proof.
  unfold resolved. destruct (is_confirmed a).
  - intros (c & now & k & _ & _ & ->). repeat split.
  - intros ->. repeat split.
Qed.

(** X22.  The alerts of [generate_all_fraud_scenarios] after the resolution step:
    the status of every alert is one [validate_fraud_alerts] accepts; the
    notes and the resolution date are set exactly on the confirmed alerts,
    the notes being one of three sentences and the date 1 to 30 days before
    a reading of the clock. *)
Theorem confirmed_alerts_are_resolved loans_df customers_df w df loans' w' :
  generate_all_fraud_scenarios loans_df customers_df w = Ok (df, loans') w' ->
  Forall (fun a =>
            Str.mem (Alert.investigation_status a) DataValidator.valid_status = true
            /\ (Alert.investigation_notes a <> None
                <-> Alert.investigation_status a = "Confirmed")
            /\ (Alert.resolution_date a <> None
                <-> Alert.investigation_status a = "Confirmed")
            /\ (forall notes,
                  Alert.investigation_notes a = Some notes ->
                  exists c,
                    In c ["Legal action initiated"; "Loan written off";
                          "Recovery in progress"]%list
                    /\ notes = "Fraud confirmed after investigation. " ++ c)
            /\ (forall date,
                  Alert.resolution_date a = Some date ->
                  exists now k, 1 <= k <= 30 /\ date = Time.add_days now (- k)))
         df.
Proof.
  intros E. apply generate_all_fraud_scenarios_rows in E.
  eapply Forall_impl; [|exact E]. intros a' (a & Hrow & Hres).
  destruct Hrow as [_ _ _ Hstatus (Hnotes & Hdate & _)].
  unfold resolved in Hres. unfold is_confirmed in Hres.
  destruct (String.eqb_spec (Alert.investigation_status a) "Confirmed") as [Hc|Hc].
  - destruct Hres as (c & now & k & Hin & Hk & ->). cbn.
    rewrite Hc. split; [reflexivity|].
    split; [split; [reflexivity|discriminate]|].
    split; [split; [reflexivity|discriminate]|].
    split.
    + intros notes En. injection En as <-. exists c. split; [exact Hin|reflexivity].
    + intros date Ed. injection Ed as <-. exists now, k. split; [exact Hk|reflexivity].
  - subst a'. rewrite Hnotes, Hdate.
    split; [apply LoanFacts.mem_In, Hstatus|].
    split; [split; [intros Hn; contradiction|intros Hs; contradiction]|].
    split; [split; [intros Hn; contradiction|intros Hs; contradiction]|].
    split; intros x Hx; discriminate Hx.
Qed.

(** X23.  Every alert of [generate_all_fraud_scenarios] refers to rows of the
    frames it was run on: an alert with a [loan_id] names a loan of the loan
    frame and carries its [customer_id]; an alert without one is a synthetic
    identity alert on a customer of the customer frame, with no financial
    impact.  The category, the detection method and the rule triggered are
    those of the type of the alert. *)
Theorem alerts_refer_to_loans_and_customers loans_df customers_df w df loans' w' :
  generate_all_fraud_scenarios loans_df customers_df w = Ok (df, loans') w' ->
  Forall (fun a =>
            match Alert.loan_id a with
            | Some id =>
                In (Alert.alert_type a)
                   ["Income Mismatch"; "Multiple Applications Same Collateral";
                    "Early Payment Default"]%list
                /\ exists loan,
                     In loan loans_df
                     /\ id = Loan.loan_id loan
                     /\ Alert.customer_id a = Loan.customer_id loan
            | None =>
                Alert.alert_type a = "Synthetic Identity"
                /\ Alert.financial_impact a = 0%Q
                /\ exists customer,
                     In customer customers_df
                     /\ Alert.customer_id a = Customer.customer_id customer
            end
            /\ assoc alert_categories (Alert.alert_type a) = Some (Alert.alert_category a)
            /\ assoc detection_methods (Alert.alert_type a)
               = Some (Alert.detection_method a)
            /\ (exists rules,
                  assoc rule_triggers (Alert.alert_type a) = Some rules
                  /\ In (Alert.rule_triggered a) rules)
            /\ Alert.transaction_id a = None)
         df.
Proof.
  intros E. apply generate_all_fraud_scenarios_rows in E.
  eapply Forall_impl; [|exact E]. intros a' (a & Hrow & Hres).
  apply resolved_columns in Hres
    as (_ & -> & -> & -> & -> & -> & -> & -> & _ & -> & _).
  destruct Hrow as [_ Hsubject (Hcat & Hmeth & Hrule) _ (_ & _ & Htxn)].
  split; [exact Hsubject|]. repeat (split; [assumption|]). exact Htxn.
Qed.

(** ** The scenarios on generated data *)

Lemma filter_none {A} (p : A -> bool) l :
  Forall (fun x => p x = false) l -> filter p l = []%list.
Proof.
  induction 1 as [|x l Hx _ IH]; [reflexivity|]. cbn [filter]. rewrite Hx. exact IH.
Qed.

Section WithRuntime.
Context `{Runtime}.

Lemma generate_batch_loans_origin customers_df branches_df batch_size total w loans w' :
  LoanGenerator.generate_batch_loans customers_df branches_df batch_size total w
  = Ok loans w' ->
  Forall (loan_origin customers_df) loans.
Proof.
  unfold LoanGenerator.generate_batch_loans.
  destruct (batch_size =? 0); [discriminate|]. cbv zeta.
  destruct (_ <=? 0); [discriminate|].
  apply for_each_Forall. intros i v ys v'. apply LoanFacts.generate_loans_origin.
Qed.

(** No loan is a candidate of the income mismatch scenario when the incomes
    are whole thousands and the customer ids distinct: the amount of a loan
    of a customer with a score under 600 is at most three times the income,
    to the nearest thousand. *)
Lemma suspicious_loans_none loans_df customers_df :
  NoDup (map Customer.customer_id customers_df) ->
  Forall (fun c => exists k, Customer.annual_income c = inject_Z (k * 1000)) customers_df ->
  Forall (loan_origin customers_df) loans_df ->
  suspicious_loans loans_df customers_df = []%list.
Proof.
  intros Hnd Hinc Hloans. unfold suspicious_loans. apply filter_none.
  apply Forall_forall. intros [l o] Hrow.
  apply LoanFacts.merge_left_In in Hrow as [Hl Ho]. cbn [fst snd] in *.
  destruct o as [[income score]|]; [|rewrite Bool.andb_false_r; reflexivity].
  destruct Ho as (c & Hc & Hid & -> & ->).
  destruct (Str.mem (Loan.customer_id l) (high_risk_customers customers_df)) eqn:Hm;
    [|reflexivity].
  apply LoanFacts.mem_In in Hm. unfold high_risk_customers in Hm.
  apply in_map_iff in Hm as (c2 & Hid2 & Hc2). apply filter_In in Hc2 as [Hc2 Hs].
  apply andb_prop in Hs as [Hs _]. apply Z.ltb_lt in Hs.
  assert (E2 : c2 = c)
    by (apply (LoanFacts.unique_by_id customers_df); try assumption; congruence).
  subst c2.
  rewrite Forall_forall in Hloans.
  destruct (Hloans _ Hl) as (c3 & p & Hc3 & Hp & Ha & Hid3 & _).
  assert (E3 : c3 = c)
    by (apply (LoanFacts.unique_by_id customers_df); try assumption; congruence).
  subst c3.
  rewrite Forall_forall in Hinc. destruct (Hinc _ Hc) as (k & Hk).
  destruct Ha as (x & _ & Hx & Hamount).
  assert (Hcap : (x <= Customer.annual_income c * 3)%Q).
  { eapply Qle_trans; [exact Hx|]. eapply Qle_trans; [apply Q.le_min_r|].
    cbn [LoanGenerator.calculate_eligibility Eligibility.max_amount].
    eapply Qle_trans; [apply Q.le_min_r|].
    replace (750 <? Customer.credit_score c) with false
      by (symmetry; apply Z.ltb_ge; lia).
    replace (650 <? Customer.credit_score c) with false
      by (symmetry; apply Z.ltb_ge; lia).
    lra. }
  assert (E3k : (Customer.annual_income c * 3 == inject_Z (3 * k * 1000))%Q).
  { rewrite Hk, !inject_Z_mult. change (inject_Z 3) with 3%Q. ring. }
  cbn [andb]. replace (Qltb (Customer.annual_income c * 3) (Loan.loan_amount l)) with false;
    [reflexivity|].
  symmetry. apply Qltb_ge. rewrite Hamount, E3k.
  apply LoanTheorems.thousands_ge. rewrite <- E3k. exact Hcap.
Qed.

(** X24.  On the customers of [generate_customers] and the loans
    [generate_batch_loans] makes for them, one or more of each, two of the
    four scenarios of
    [generate_all_fraud_scenarios] find nothing: no loan exceeds three times
    the income of a customer with a score under 600, and no customer has a
    score under 550.  Every alert returned is a shared collateral alert or an
    early default alert, so every alert refers to a loan. *)
Theorem generated_data_raise_two_alert_types n w customers_df w1
    branches_df batch_size total w2 loans_df w3 w4 df loans' w5 :
  1 <= n ->
  CustomerGenerator.generate_customers n w = Ok customers_df w1 ->
  1 <= batch_size ->
  1 <= total ->
  LoanGenerator.generate_batch_loans customers_df branches_df batch_size total w2
  = Ok loans_df w3 ->
  generate_all_fraud_scenarios loans_df customers_df w4 = Ok (df, loans') w5 ->
  generate_fraud_scenario_income_mismatch loans_df customers_df w4 = Ok []%list w4
  /\ (forall v, exists v',
        generate_fraud_scenario_synthetic_id customers_df v = Ok []%list v')
  /\ Forall (fun a =>
               In (Alert.alert_type a)
                  ["Multiple Applications Same Collateral"; "Early Payment Default"]%list
               /\ Alert.loan_id a <> None)
            df.
Proof.
  intros _ Ec _ _ El E.
  pose proof (CustomerProps.generate_customers_NoDup _ _ _ _ Ec) as Hnd.
  pose proof (CustomerProps.generate_customers_rows _ _ _ _ Ec) as Hrows.
  apply Forall2_Forall_r in Hrows.
  assert (Hinc : Forall (fun c => exists k, Customer.annual_income c = inject_Z (k * 1000))
                        customers_df).
  { eapply Forall_impl; [|exact Hrows]. intros c (i & _ & Hrow).
    destruct (cust_income _ _ Hrow) as (k & Hk & _). exists k. exact Hk. }
  assert (Hscore : Forall (fun c => 550 <= Customer.credit_score c) customers_df).
  { eapply Forall_impl; [|exact Hrows]. intros c (i & _ & Hrow).
    apply (cust_score _ _ Hrow). }
  pose proof (generate_batch_loans_origin _ _ _ _ _ _ _ El) as Horigin.
  pose proof (suspicious_loans_none _ _ Hnd Hinc Horigin) as Hnone.
  assert (Hsyn : forall now,
             filter (fun c => (Customer.credit_score c <? 550)
                              && (25 <? Customer.age c)
                              && (Time.date_of (Time.add_days now (- 180))
                                  <? Customer.acquisition_date c))
                    customers_df = []%list).
  { intros now. apply filter_none. eapply Forall_impl; [|exact Hscore].
    intros c Hc. cbv beta in Hc |- *. replace (Customer.credit_score c <? 550) with false
      by (symmetry; apply Z.ltb_ge; lia). reflexivity. }
  assert (H1 : generate_fraud_scenario_income_mismatch loans_df customers_df w4
               = Ok []%list w4).
  { unfold generate_fraud_scenario_income_mismatch. rewrite Hnone. reflexivity. }
  assert (H4 : forall v, generate_fraud_scenario_synthetic_id customers_df v
                         = Ok []%list (step_clock v)).
  { intros v. unfold generate_fraud_scenario_synthetic_id, bind, datetime_now.
    rewrite Hsyn. reflexivity. }
  split; [exact H1|]. split; [intros v; eexists; apply H4|].
  unfold generate_all_fraud_scenarios in E.
  apply bind_ok in E as (a1 & v1 & E1 & E). rewrite H1 in E1. injection E1 as <- <-.
  apply bind_ok in E as (a2 & v2 & E2 & E).
  apply bind_ok in E as (a3 & v3 & E3 & E).
  apply bind_ok in E as (a4 & v4 & E4 & E). rewrite H4 in E4. injection E4 as <- <-.
  apply bind_ok in E as (df0 & v5 & Er & E).
  apply ret_ok in E as [E _]. injection E as <- _.
  apply resolve_confirmed_rows in Er.
  apply (collateral_fraud_rows loans_df customers_df) in E2.
  apply (early_default_rows loans_df customers_df) in E3.
  assert (Hall : Forall (fun a =>
                           In (Alert.alert_type a)
                              ["Multiple Applications Same Collateral";
                               "Early Payment Default"]%list
                           /\ Alert.loan_id a <> None)
                        ([] ++ a2 ++ a3 ++ [])%list).
  { cbn [app]. rewrite app_nil_r. apply Forall_app. split.
    - eapply Forall_impl; [|exact E2]. intros a [Hrow Ht]. rewrite Ht.
      split; [left; reflexivity|].
      pose proof (alert_subject _ _ _ Hrow) as Hs.
      destruct (Alert.loan_id a); [discriminate|].
      destruct Hs as [Hs _]. rewrite Ht in Hs. discriminate Hs.
    - eapply Forall_impl; [|exact E3]. intros a [Hrow Ht]. rewrite Ht.
      split; [right; left; reflexivity|].
      pose proof (alert_subject _ _ _ Hrow) as Hs.
      destruct (Alert.loan_id a); [discriminate|].
      destruct Hs as [Hs _]. rewrite Ht in Hs. discriminate Hs. }
  pose proof (Forall2_Forall_l _ _ _ _ Hall Er) as Hres.
  eapply Forall_impl; [|exact Hres]. intros a' (a & [Ht Hl] & Hr).
  apply resolved_columns in Hr as (_ & -> & _ & _ & -> & _).
  split; assumption.
Qed.

End WithRuntime.

(** ** The alerts that carry the score of [calculate_risk_score] *)

Lemma in_band_valid a :
  Spec.risk_level_in_band a ->
  (Alert.risk_score a <? 1) || (100 <? Alert.risk_score a) = false
  /\ match assoc DataValidator.risk_mapping (Alert.risk_level a) with
     | Some (min_score, max_score) =>
         negb ((min_score <=? Alert.risk_score a) && (Alert.risk_score a <=? max_score))
     | None => false
     end = false.
Proof.
  unfold Spec.risk_level_in_band, Spec.risk_band. set (s := Alert.risk_score a).
  destruct ((80 <=? s) && (s <=? 100)) eqn:E1;
    [intros E; injection E as <-; cbn; rewrite E1; split; [|reflexivity];
     apply andb_prop in E1 as [Ha Hb]; apply Z.leb_le in Ha, Hb;
     apply Bool.orb_false_intro; [apply Z.ltb_ge|apply Z.ltb_ge]; lia|].
  destruct ((60 <=? s) && (s <=? 79)) eqn:E2;
    [intros E; injection E as <-; cbn; rewrite E2; split; [|reflexivity];
     apply andb_prop in E2 as [Ha Hb]; apply Z.leb_le in Ha, Hb;
     apply Bool.orb_false_intro; [apply Z.ltb_ge|apply Z.ltb_ge]; lia|].
  destruct ((40 <=? s) && (s <=? 59)) eqn:E3;
    [intros E; injection E as <-; cbn; rewrite E3; split; [|reflexivity];
     apply andb_prop in E3 as [Ha Hb]; apply Z.leb_le in Ha, Hb;
     apply Bool.orb_false_intro; [apply Z.ltb_ge|apply Z.ltb_ge]; lia|].
  destruct ((1 <=? s) && (s <=? 39)) eqn:E4;
    [intros E; injection E as <-; cbn; rewrite E4; split; [|reflexivity];
     apply andb_prop in E4 as [Ha Hb]; apply Z.leb_le in Ha, Hb;
     apply Bool.orb_false_intro; [apply Z.ltb_ge|apply Z.ltb_ge]; lia|].
  discriminate.
Qed.

(** X25.  [validate_fraud_alerts] on the alerts of the income mismatch and the
    early default scenario, when there is one or more: every score is within
    1 and 100, every level is the band of its score and every status is
    known, so it returns with no error and no warning, and a pass rate
    of 1. *)
Theorem scored_alerts_pass_validation loans_df customers_df w a1 w1 w2 a3 w3 v :
  generate_fraud_scenario_income_mismatch loans_df customers_df w = Ok a1 w1 ->
  generate_fraud_scenario_early_default loans_df w2 = Ok a3 w3 ->
  (a1 ++ a3)%list <> []%list ->
  exists r,
    DataValidator.validate_fraud_alerts (a1 ++ a3) v = Ok r v
    /\ DataValidator.checks r
       = [("invalid_risk_score", DataValidator.Count 0);
          ("inconsistent_risk_level", DataValidator.Count 0);
          ("invalid_status", DataValidator.Count 0)]%list
    /\ DataValidator.errors r = []%list
    /\ DataValidator.warnings r = []%list
    /\ (DataValidator.pass_rate r == 1)%Q.
Proof.
  intros E1 E3 Hne.
  assert (Hband : Forall Spec.risk_level_in_band (a1 ++ a3)).
  { apply Forall_app. split.
    - eapply FraudFacts.income_mismatch_alerts_in_band; exact E1.
    - eapply FraudFacts.early_default_alerts_in_band; exact E3. }
  assert (Hstatus : Forall (fun a => negb (Str.mem (Alert.investigation_status a)
                                                   DataValidator.valid_status) = false)
                           (a1 ++ a3)).
  { apply Forall_app. split.
    - apply (income_mismatch_rows loans_df customers_df) in E1.
      eapply Forall_impl; [|exact E1]. intros a [Hrow _].
      apply Bool.negb_false_iff, LoanFacts.mem_In, (alert_status _ _ _ Hrow).
    - apply (early_default_rows loans_df customers_df) in E3.
      eapply Forall_impl; [|exact E3]. intros a [Hrow _].
      apply Bool.negb_false_iff, LoanFacts.mem_In, (alert_status _ _ _ Hrow). }
  assert (Hs : DataValidator.invalid_risk_score (a1 ++ a3) = 0).
  { apply (count_zero (fun a => (Alert.risk_score a <? 1) || (100 <? Alert.risk_score a))).
    eapply Forall_impl; [|exact Hband]. intros a Ha. apply (in_band_valid a Ha). }
  assert (Hl : DataValidator.inconsistent_risk_level (a1 ++ a3) = 0).
  { apply (count_zero
             (fun a => match assoc DataValidator.risk_mapping (Alert.risk_level a) with
                       | Some (min_score, max_score) =>
                           negb ((min_score <=? Alert.risk_score a)
                                 && (Alert.risk_score a <=? max_score))
                       | None => false
                       end)).
    eapply Forall_impl; [|exact Hband]. intros a Ha. apply (in_band_valid a Ha). }
  pose proof (count_zero _ _ Hstatus) as Hc.
  unfold DataValidator.validate_fraud_alerts.
  destruct (a1 ++ a3)%list as [|a0 rest] eqn:Edf; [contradiction Hne; reflexivity|].
  rewrite Hs, Hl, Hc. cbn [DataValidator.report_count Z.ltb Z.compare app].
  eexists. split; [reflexivity|].
  cbn [DataValidator.checks DataValidator.errors DataValidator.warnings
       DataValidator.pass_rate].
  split; [reflexivity|]. split; [reflexivity|]. split; [reflexivity|].
  apply LoanTheorems.rate_no_error.
Qed.

(** The theorems at the run of [Cases.alerts_run]: two loans of two
    customers on one collateral, and the two confirmed alerts raised for
    them. *)
Lemma confirmed_alerts_are_resolved_witness :
  Forall (fun a =>
            Str.mem (Alert.investigation_status a) DataValidator.valid_status = true
            /\ (Alert.investigation_notes a <> None
                <-> Alert.investigation_status a = "Confirmed")
            /\ (Alert.resolution_date a <> None
                <-> Alert.investigation_status a = "Confirmed")
            /\ (forall notes,
                  Alert.investigation_notes a = Some notes ->
                  exists c,
                    In c ["Legal action initiated"; "Loan written off";
                          "Recovery in progress"]%list
                    /\ notes = "Fraud confirmed after investigation. " ++ c)
            /\ (forall date,
                  Alert.resolution_date a = Some date ->
                  exists now k, 1 <= k <= 30 /\ date = Time.add_days now (- k)))
         (fst (Scenario.result Cases.alerts_run ([], []))).
Proof.
  apply (confirmed_alerts_are_resolved Cases.batch_loans Cases.customers
           Scenario.fraud_world _ (snd (Scenario.result Cases.alerts_run ([], [])))
           (Scenario.after Cases.alerts_run Scenario.fraud_world)).
  vm_compute. reflexivity.
Defined.

Lemma alerts_refer_to_loans_and_customers_witness :
  Forall (fun a =>
            match Alert.loan_id a with
            | Some id =>
                In (Alert.alert_type a)
                   ["Income Mismatch"; "Multiple Applications Same Collateral";
                    "Early Payment Default"]%list
                /\ exists loan,
                     In loan Cases.batch_loans
                     /\ id = Loan.loan_id loan
                     /\ Alert.customer_id a = Loan.customer_id loan
            | None =>
                Alert.alert_type a = "Synthetic Identity"
                /\ Alert.financial_impact a = 0%Q
                /\ exists customer,
                     In customer Cases.customers
                     /\ Alert.customer_id a = Customer.customer_id customer
            end
            /\ assoc alert_categories (Alert.alert_type a) = Some (Alert.alert_category a)
            /\ assoc detection_methods (Alert.alert_type a)
               = Some (Alert.detection_method a)
            /\ (exists rules,
                  assoc rule_triggers (Alert.alert_type a) = Some rules
                  /\ In (Alert.rule_triggered a) rules)
            /\ Alert.transaction_id a = None)
         (fst (Scenario.result Cases.alerts_run ([], []))).
Proof.
  apply (alerts_refer_to_loans_and_customers Cases.batch_loans Cases.customers
           Scenario.fraud_world _ (snd (Scenario.result Cases.alerts_run ([], [])))
           (Scenario.after Cases.alerts_run Scenario.fraud_world)).
  vm_compute. reflexivity.
Defined.

Lemma generated_data_raise_two_alert_types_witness :
  generate_fraud_scenario_income_mismatch Cases.batch_loans Cases.customers
    Scenario.fraud_world
  = Ok []%list Scenario.fraud_world
  /\ (forall v, exists v',
        generate_fraud_scenario_synthetic_id Cases.customers v = Ok []%list v')
  /\ Forall (fun a =>
               In (Alert.alert_type a)
                  ["Multiple Applications Same Collateral"; "Early Payment Default"]%list
               /\ Alert.loan_id a <> None)
            (fst (Scenario.result Cases.alerts_run ([], []))).
Proof.
  apply (@generated_data_raise_two_alert_types Scenario.plain 2 Cases.steady_world
           Cases.customers (Scenario.after Cases.customers_run Cases.steady_world)
           None 1 2 Cases.batch_world Cases.batch_loans
           (Scenario.after Cases.batch_run Cases.batch_world)
           Scenario.fraud_world _ (snd (Scenario.result Cases.alerts_run ([], [])))
           (Scenario.after Cases.alerts_run Scenario.fraud_world)).
  - lia.
  - vm_compute. reflexivity.
  - lia.
  - lia.
  - vm_compute. reflexivity.
  - vm_compute. reflexivity.
Defined.

(** The early default alert raised for [Scenario.delinquent_loan], the income
    mismatch scenario finding nothing. *)
Lemma scored_alerts_pass_validation_witness :
  exists r,
    DataValidator.validate_fraud_alerts
      (Scenario.result Cases.mismatch_run [] ++ Scenario.result Cases.default_run [])
      Cases.steady_world
    = Ok r Cases.steady_world
    /\ DataValidator.checks r
       = [("invalid_risk_score", DataValidator.Count 0);
          ("inconsistent_risk_level", DataValidator.Count 0);
          ("invalid_status", DataValidator.Count 0)]%list
    /\ DataValidator.errors r = []%list
    /\ DataValidator.warnings r = []%list
    /\ (DataValidator.pass_rate r == 1)%Q.
Proof.
  apply (scored_alerts_pass_validation [Scenario.delinquent_loan] [Scenario.customer1]
           Scenario.fraud_world _
           (Scenario.after Cases.mismatch_run Scenario.fraud_world)
           Scenario.fraud_world _
           (Scenario.after Cases.default_run Scenario.fraud_world)
           Cases.steady_world).
  - vm_compute. reflexivity.
  - vm_compute. reflexivity.
  - vm_compute. discriminate.
Defined.

End FraudTheorems.

(* ================================================================== *)
(** * Properties of the validators *)

Module ValidatorTheorems.
Import DataValidator Rows.

Local Open Scope string_scope.
Local Open Scope Z_scope.

Lemma duplicated_NoDup seen ids :
  NoDup ids -> (forall x, In x ids -> ~ In x seen) -> duplicated seen ids = 0.
Proof.
  intros Hnd. revert seen. induction Hnd as [|id ids Hnotin _ IH]; intros seen Hseen;
    cbn [duplicated]; [reflexivity|].
  destruct (Str.mem id seen) eqn:Em.
  - apply LoanFacts.mem_In in Em. exfalso. apply (Hseen id); [left; reflexivity|exact Em].
  - rewrite IH; [reflexivity|].
    intros x Hx [<-|Hin]; [contradiction|]. apply (Hseen x); [right; exact Hx|exact Hin].
Qed.

Lemma rate_le_1 checks errors : (rate checks errors <= 1)%Q.
Proof.
  unfold rate.
  set (a := inject_Z (Z.of_nat (List.length errors))).
  set (b := inject_Z (Z.max (Z.of_nat (List.length checks)) 1)).
  assert (Ha : (0 <= a)%Q) by (subst a; change 0%Q with (inject_Z 0); rewrite <- Zle_Qle; lia).
  assert (Hb : (0 < b)%Q) by (subst b; change 0%Q with (inject_Z 0); rewrite <- Zlt_Qlt; lia).
  assert (Hq : (0 <= a / b)%Q) by (apply Qle_shift_div_l; [exact Hb|lra]).
  lra.
Qed.

Lemma validate_customers_rate df w r w' :
  validate_customers df w = Ok r w' -> (pass_rate r <= 1)%Q.
Proof.
  unfold validate_customers. destruct df; [discriminate|].
  intros E. apply ret_ok in E as [<- _]. apply rate_le_1.
Qed.

Lemma validate_loans_rate df w r w' :
  validate_loans df w = Ok r w' -> (pass_rate r <= 1)%Q.
Proof.
  unfold validate_loans. destruct df; [discriminate|].
  intros E. apply ret_ok in E as [<- _]. apply rate_le_1.
Qed.

Lemma validate_transactions_rate df w r w' :
  validate_transactions df w = Ok r w' -> (pass_rate r <= 1)%Q.
Proof.
  unfold validate_transactions. destruct df; [discriminate|].
  intros E. apply ret_ok in E as [<- _]. apply rate_le_1.
Qed.

(** [validate_customers] on a frame with rows whose ids are distinct and
    whose scores, ages and incomes are in range. *)
Lemma validate_customers_clean df v :
  df <> []%list ->
  NoDup (map Customer.customer_id df) ->
  Forall (fun c => 300 <= Customer.credit_score c <= 900
                   /\ 18 <= Customer.age c <= 100
                   /\ (0 <= Customer.annual_income c)%Q) df ->
  exists r,
    validate_customers df v = Ok r v
    /\ errors r = []%list
    /\ warnings r = []%list
    /\ (pass_rate r == 1)%Q
    /\ total_records r = Z.of_nat (List.length df).
Proof.
  intros Hne Hnd Hall.
  assert (Hd : duplicated [] (map Customer.customer_id df) = 0)
    by (apply duplicated_NoDup; [exact Hnd|intros x _ []]).
  assert (Hc : count (fun c => (Customer.credit_score c <? 300)
                               || (900 <? Customer.credit_score c)) df = 0).
  { apply count_zero. eapply Forall_impl; [|exact Hall]. intros c (Hs & _ & _).
    cbv beta. apply Bool.orb_false_intro; apply Z.ltb_ge; lia. }
  assert (Ha : count (fun c => (Customer.age c <? 18) || (100 <? Customer.age c)) df = 0).
  { apply count_zero. eapply Forall_impl; [|exact Hall]. intros c (_ & Hs & _).
    cbv beta. apply Bool.orb_false_intro; apply Z.ltb_ge; lia. }
  assert (Hi : count (fun c => Qltb (Customer.annual_income c) 0) df = 0).
  { apply count_zero. eapply Forall_impl; [|exact Hall]. intros c (_ & _ & Hs).
    cbv beta. apply Qltb_ge. exact Hs. }
  unfold validate_customers.
  destruct df as [|c0 rest] eqn:Edf; [contradiction Hne; reflexivity|].
  rewrite Hd, Hc, Ha, Hi.
  eexists. split; [reflexivity|].
  cbn [errors warnings pass_rate total_records].
  assert (He : (flat_map
                  (fun field =>
                     match assoc (customers_missing (c0 :: rest)) field with
                     | Some n => report_count ("Missing values in " ++ field) n
                     | None => []
                     end)
                  ["customer_id"; "first_name"; "last_name"; "date_of_birth"]
                ++ report_count "Duplicate customer IDs" 0
                ++ report_count "Invalid credit scores" 0
                ++ report_count "Invalid age" 0
                ++ report_count "Negative income" 0)%list = []%list)
    by reflexivity.
  rewrite He.
  split; [reflexivity|]. split; [reflexivity|].
  split; [apply LoanTheorems.rate_no_error|reflexivity].
Qed.

Section WithRuntime.
Context `{Runtime}.

(** X26.  [validate_customers] on the customers of [generate_customers], for one
    customer or more: it returns with no error and a pass rate of 1; the ids
    are distinct and every score, age and income is within the range the
    checks allow. *)
Theorem generated_customers_pass_validation n w customers_df w' v :
  1 <= n ->
  CustomerGenerator.generate_customers n w = Ok customers_df w' ->
  exists r,
    validate_customers customers_df v = Ok r v
    /\ errors r = []%list
    /\ warnings r = []%list
    /\ (pass_rate r == 1)%Q
    /\ total_records r = n.
Proof.
  intros Hn E.
  pose proof (CustomerProps.generate_customers_NoDup _ _ _ _ E) as Hnd.
  pose proof (CustomerProps.generate_customers_rows _ _ _ _ E) as Hrows.
  pose proof (Forall2_length_eq _ _ _ Hrows) as Hlen. rewrite range_length in Hlen.
  apply Forall2_Forall_r in Hrows.
  destruct (validate_customers_clean customers_df v) as (r & Er & He & Hw & Hp & Ht).
  - intros ->. cbn [List.length] in Hlen. lia.
  - exact Hnd.
  - eapply Forall_impl; [|exact Hrows]. intros c (i & _ & Hrow).
    pose proof (cust_score _ _ Hrow) as Hs. pose proof (cust_age _ _ Hrow) as Ha.
    destruct (cust_income _ _ Hrow) as (k & Hk & Hk2).
    split; [lia|]. split; [lia|].
    rewrite Hk. change 0%Q with (inject_Z 0). rewrite <- Zle_Qle. lia.
  - exists r. split; [exact Er|]. split; [exact He|]. split; [exact Hw|].
    split; [exact Hp|]. rewrite Ht, Hlen. lia.
Qed.

End WithRuntime.

(** X27.  [generate_quality_report] on an empty frame of alerts: the alerts table
    is reported with a pass rate of 0, without an error and with the warning
    'No fraud alerts generated', so the overall score, the mean of the four
    pass rates, is 0.75 at most whatever the three other frames hold. *)
Theorem quality_score_without_alerts customers_df loans_df transactions_df w r w' :
  generate_quality_report customers_df loans_df transactions_df [] w = Ok r w' ->
  (overall_quality_score r <= 3 / 4)%Q
  /\ exists alerts_result,
       assoc (quality_checks r) "fraud_alerts" = Some alerts_result
       /\ pass_rate alerts_result = 0%Q
       /\ errors alerts_result = []%list
       /\ warnings alerts_result = ["No fraud alerts generated"]%list.
Proof.
  unfold generate_quality_report. intros E.
  apply bind_ok in E as (now & w0 & _ & E).
  apply bind_ok in E as (r1 & w1 & E1 & E). apply validate_customers_rate in E1.
  apply bind_ok in E as (r2 & w2 & E2 & E). apply validate_loans_rate in E2.
  apply bind_ok in E as (r3 & w3 & E3 & E). apply validate_transactions_rate in E3.
  apply bind_ok in E as (r4 & w4 & E4 & E).
  cbn [validate_fraud_alerts] in E4. apply ret_ok in E4 as [<- _].
  apply bind_ok in E as (now2 & w5 & _ & E).
  apply ret_ok in E as [<- _].
  cbn [overall_quality_score quality_checks map snd pass_rate mean fold_left List.length].
  split.
  - apply Qle_shift_div_r; [reflexivity|].
    change (inject_Z (Z.of_nat 4)) with 4%Q.
    setoid_replace (3 / 4 * 4)%Q with 3%Q by reflexivity. lra.
  - eexists. split; [reflexivity|]. repeat split.
Qed.

(** The two customers of [Cases.customers_run]. *)
Lemma generated_customers_pass_validation_witness :
  exists r,
    validate_customers Cases.customers Cases.steady_world = Ok r Cases.steady_world
    /\ errors r = []%list
    /\ warnings r = []%list
    /\ (pass_rate r == 1)%Q
    /\ total_records r = 2.
Proof.
  apply (@generated_customers_pass_validation Scenario.plain 2 Cases.steady_world _
           (Scenario.after Cases.customers_run Cases.steady_world) Cases.steady_world).
  - lia.
  - vm_compute. reflexivity.
Defined.

(** The report of [Cases.report_run]: the three other tables pass every
    check and the score is 0.75. *)
Lemma quality_score_without_alerts_witness :
  (overall_quality_score Cases.report <= 3 / 4)%Q
  /\ exists alerts_result,
       assoc (quality_checks Cases.report) "fraud_alerts" = Some alerts_result
       /\ pass_rate alerts_result = 0%Q
       /\ errors alerts_result = []%list
       /\ warnings alerts_result = ["No fraud alerts generated"]%list.
Proof.
  apply (quality_score_without_alerts Cases.customers Cases.batch_loans Cases.transactions
           Cases.steady_world _ (Scenario.after Cases.report_run Cases.steady_world)).
  vm_compute. reflexivity.
Defined.

End ValidatorTheorems.
